(* ===== verification/_CoqProject ===== *)
-Q . S2P
Prelude.v
Regions.v
DmaCaps.v
Platform.v
Memory.v
Perf.v
Intc.v
Timer.v
Uart.v
DmaSpec.v
Dma.v
Soc.v
SocBus.v
SocClock.v
SocCount.v
Hal.v
Drivers.v
DrvDma.v
Isr.v
Lifecycle.v
Hooks.v
Session.v
App.v
Firmware.v
Bench.v
