(* ===== verification/Prelude.v ===== *)
(** Verification of the VLAB system-on-chip model and its firmware.

    The program is a behavioural model of a small SoC in C ([src/soc_c]) and
    the firmware that runs on it ([src/firmware]), linked into one host
    process: the firmware's register accesses go through a bridge to the one
    live model, and time is an integer tick that advances only when software
    says so.  This development translates both halves and the programs built
    from them, function by function, under the names of the C code.

    * The parts

    Shared tables.  Regions.v is [mem_regions.h] and the bus decoder [bus.c];
    DmaCaps.v is [dma_caps.h]; Platform.v is [soc_regs.h] and
    [platform_vlab.c].  The model and the drivers both read them.

    The SoC.  Memory.v, Perf.v, Intc.v, Timer.v, Uart.v and Dma.v are the files
    [soc_memory.c], [soc_perf.c], [soc_intc.c], [soc_timer.c], [soc_uart.c] and
    [soc_dma.c]: a record for the struct, a definition per function.  Soc.v is
    [soc.c] and [soc_cpu.c]: the record of components, the bus access functions
    with their stall accounting, the clock (UART, then timer, then DMA in each
    tick), polling, boot.  A component that reaches another through a pointer
    takes it as an argument and returns it; a pointer that may be null is an
    option or a [ptr].  The DMA engine's two function pointers and their
    context are the class [DmaBridge] with the laws [DmaBridgeLaws]; the engine
    is verified against the laws, and Soc.v gives the instance on SRAM and the
    UART streams.

    The firmware.  Hal.v is [host_bridge.c], [hal.c] and [host.c], and the
    record [machine] of all static storage; Drivers.v is [timer.c], [intc.c]
    and [uart.c]; DrvDma.v is [dma.c]; Isr.v is [isr.c], with what a handler
    does as a parameter and what the dispatcher needs of it as the class
    [Handlers].  A firmware function is a computation in the state monad [M]
    of this file.

    The programs.  App.v is [platform_init.c] and [main.c]; Bench.v is
    [boot_time.c] and [cpu_vs_dma.c].

    The other files hold theorems across parts.  DmaSpec.v: what a DMA request
    means, once, for the engine and the driver.  SocBus.v, SocClock.v and
    SocCount.v: the bus, time, and machines up to their counters.
    Lifecycle.v: the interrupt-driven transfer from [dma_submit] to
    [dma_recover].  Hooks.v: the bridge's test hooks, and through them the same
    transfer when it fails.  Session.v: any sequence of transfers as a client
    sees it, against an abstract machine.  Firmware.v: every firmware function
    on every reachable state.  This file: 32-bit arithmetic, record update, the
    monad, bits, byte lists and words, and the tactics [case_switch] and
    [rec_simpl].

    * What is shown

    Invariants.  Each component has a well-formedness record ([mem_wf],
    [perf_wf], [intc_wf], [timer_wf], [uart_wf], [dma_wf]) and the SoC has
    [soc_wf], which every bus access, tick, reset, boot and initialisation
    keeps (SocBus.v).  [fw_ok] adds the HAL, the vector table and the driver's
    state machine, and every sequence of firmware calls keeps it whose arguments
    have their C types, whose handlers keep it, and which gives the error hook a
    code the engine has (Firmware.v).

    Components.  Region predicates are set inclusion without wrap-around;
    memory accesses succeed exactly inside the window, are read back and leave
    the rest; the interrupt controller refines sets of lines with a priority;
    the timer and the UART have closed forms for any number of ticks; the two
    UART streams are bounded queues; performance registers read back.

    DMA.  Both the engine and the driver decide a request as [judge] of DmaSpec.v
    does; [dma_request_verdicts] says what each answers to any request on this
    platform, so the engine never refuses what the driver accepts.  The registers are the phases Idle, Busy,
    Done and Failed.  An accepted request is busy for exactly
    [transfer_ticks], moves the bytes at once and then shows DONE; seen from
    the bus, SRAM changes only inside the destination.  A RAM buffer sent
    through the UART streams comes back.  A latched stuck fault freezes it.

    The bus.  The accepted addresses are the documented map; a refused access
    costs one stall and changes nothing else; ROM never changes after boot.

    The firmware.  A byte sent is received after the latency or the driver
    reports why not; a one-shot timer fires when it was told to; one dispatch
    serves the waiting lines that the vector table has room for, and a line
    beyond the table is lost; a submitted transfer is completed by
    the handler, once, or reported failed with the engine's code, and recovery
    returns to the start.  So the interrupt-driven interface refines [Ideal] of
    Session.v: memory, two queues, a transfer in one step, and a report for each
    job.  The application exits with 0 exactly when the UART is fast enough, and
    the benchmark prints the documented timing for each of its thirty rows.

    * Bounds

    A [uint32_t] is a [Z] in [0, 2^32) with [u32] where C wraps, [int32_t]
    conversions are [i32].  Loops of the code with a constant bound run on that
    bound: 1000 polls in [uart_write_byte], the number of lines in
    [isr_dispatch], for which [ISR_MAX_LINES] turns of fuel suffice, 100000 ticks in [vlab_test_dma_complete]
    ([test_dma_complete_spec] says when they are enough) and in the benchmark
    (whose longest transfer takes 8191), the argument of [soc_run_until].
    Loops over a table or a buffer recurse on it.

    * Not modelled

    The text that [printf] formats: programs return the values printed.  C
    leaves open whether [main] reads MEM_ACC or STALLS first; the order is an
    argument of [main], and the theorems hold for both.  [malloc] in the DMA step is an oracle of the tick and the size, and
    the theorems on completed transfers assume that it succeeds; while it fails
    the engine stays busy, and after 2^31 such ticks the C countdown would
    overflow a signed integer, which the [Z] countdown does not.  Reading a
    null data pointer is [None] where the code tests it and cannot happen under
    [mem_wf] where it does not.  Interrupts are taken only where the program
    calls [isr_dispatch], as in the code.  [vlab_test_dma_error] takes any code;
    the theorems give it one of the four the engine has.  The test programs
    under [firmware/tests] and [soc_c/tests], the YAML data under [configs] and
    the build files have no definitions: they hold no logic of the system. *)

From Stdlib Require Export ZArith Bool Lia.
From stdpp Require Export base decidable option numbers sets list.

Export List.ListNotations.
#[export] Set Default Goal Selector "!".
Open Scope Z_scope.

#[global] Arguments Z.testbit : simpl never.
#[global] Arguments Z.land : simpl never.
#[global] Arguments Z.lor : simpl never.
#[global] Arguments Z.ldiff : simpl never.
#[global] Arguments Z.shiftl : simpl never.
#[global] Arguments Z.shiftr : simpl never.

(** * Machine integers

    A [uint32_t] or [uint64_t] is a [Z]; every C operation that can leave the
    32-bit range is wrapped with [u32] where the source wraps.  [i32] is the
    conversion to [int32_t] of the supported compilers (two's complement). *)

Definition two32 : Z := 0x100000000.

Definition u32 (x : Z) : Z := x mod two32.

Definition i32 (x : Z) : Z :=
  let y := x mod two32 in if y <? 0x80000000 then y else y - two32.

Definition is_u32 (x : Z) : Prop := 0 <= x < two32.

Definition is_byte (x : Z) : Prop := 0 <= x < 256.

(** [~m] on a [uint32_t]. *)
Definition not32 (m : Z) : Z := Z.lxor m 0xFFFFFFFF.

(** The C test [if (v & m)]. *)
Definition tst (v m : Z) : bool := negb (Z.land v m =? 0).

(** A pointer of which the code only uses whether it is [NULL]: the object
    it points to is the one instance the SoC owns, passed explicitly. *)
Inductive ptr : Set := NULL | LINKED.

Definition linked (p : ptr) : bool := match p with NULL => false | LINKED => true end.

#[export] Instance ptr_eq_dec : EqDecision ptr.
Proof. solve_decision. Defined.

(** The outcome of a C function that returns a status and writes [*out]
    exactly when the status is 0: [Ok v] is status 0 with [*out = v],
    [Err rc] is status [rc] with [*out] left alone. *)
Inductive result (A : Type) : Type :=
| Ok (v : A)
| Err (rc : Z).
Arguments Ok {A} v.
Arguments Err {A} rc.

#[export] Instance result_eq_dec {A} `{EqDecision A} : EqDecision (result A).
Proof. solve_decision. Defined.

Definition is_ok {A} (r : result A) : bool := match r with Ok _ => true | Err _ => false end.

(** * Record update

    [r <| f := v |>] is the C assignment [r->f = v].  A record type declares
    its eta expansion once ([Settable]); the setter of a field is computed
    from it by the hint on [FieldSetter]. *)

Class Settable (R : Type) := { eta_record : R -> R }.

Class FieldSetter {R T : Type} (proj : R -> T) := set_field : (T -> T) -> R -> R.

Ltac build_setter R proj :=
  let s := constr:(_ : Settable R) in
  let e := eval hnf in (@eta_record R s) in
  let p := eval pattern proj in e in
  match p with
  | ?body _ => exact (fun g => body (fun r => g (proj r)))
  end.

#[export] Hint Extern 1 (@FieldSetter ?R ?T ?proj) => build_setter R proj : typeclass_instances.

Declare Scope record_scope.
Delimit Scope record_scope with rec.
Notation "r <| f := v |>" := (set_field (proj := f) (fun _ => v) r)
  (at level 12, left associativity, f at next level, v at level 200,
   format "r <| f  :=  v |>") : record_scope.
Open Scope record_scope.

(** Reduce record updates and projections everywhere. *)
Ltac rec_simpl := unfold set_field in *; cbn in *.

(** * State monad

    Firmware code is a sequence of register accesses on the machine it runs
    on; it is written in the monad [M S]. *)

Definition M (S A : Type) : Type := S -> A * S.

Definition mret {S A} (a : A) : M S A := fun s => (a, s).

Definition mbind {S A B} (m : M S A) (k : A -> M S B) : M S B :=
  fun s => let (a, s') := m s in k a s'.

Definition mget {S} : M S S := fun s => (s, s).

Definition mmodify {S} (f : S -> S) : M S unit := fun s => (tt, f s).

Declare Scope c_scope.
Delimit Scope c_scope with c.
Notation "x <- m ;; k" := (mbind m (fun x => k))
  (at level 100, m at next level, right associativity) : c_scope.
Notation "m ;;; k" := (mbind m (fun _ => k))
  (at level 100, right associativity) : c_scope.

Lemma mbind_run {S A B} (m : M S A) (k : A -> M S B) (s : S) :
  mbind m k s = k (fst (m s)) (snd (m s)).
Proof. unfold mbind. by destruct (m s). Qed.

Lemma mbind_assoc {S A B C} (m : M S A) (k : A -> M S B) (h : B -> M S C) (s : S) :
  mbind (mbind m k) h s = mbind m (fun a => mbind (k a) h) s.
Proof. unfold mbind. by destruct (m s). Qed.

(** * Bits *)

(** Widths: [0 <= x < 2^w] is "no bit at or above [w]". *)
Definition fits (w x : Z) : Prop := 0 <= x < 2 ^ w.

Lemma fits_testbit w x :
  0 <= w -> 0 <= x -> (forall n, w <= n -> Z.testbit x n = false) -> fits w x.
Proof.
  intros Hw Hx Hbits. split; [done|].
  destruct (Z.eq_dec x 0) as [->|Hne]; [by apply Z.pow_pos_nonneg|].
  apply Z.log2_lt_pow2; [lia|].
  destruct (Z.lt_ge_cases (Z.log2 x) w) as [|Hge]; [done|].
  specialize (Hbits _ Hge). rewrite Z.bit_log2 in Hbits by lia. done.
Qed.

Lemma testbit_fits w x n : fits w x -> w <= n -> Z.testbit x n = false.
Proof.
  intros [H0 H1] Hn. destruct (Z.eq_dec x 0) as [->|]; [apply Z.bits_0|].
  apply Z.bits_above_log2; [done|].
  apply Z.lt_le_trans with w; [apply Z.log2_lt_pow2; lia|done].
Qed.

Lemma fits_lor w x y : 0 <= w -> fits w x -> fits w y -> fits w (Z.lor x y).
Proof.
  intros Hw Hx Hy. apply fits_testbit; [done|apply Z.lor_nonneg; split; apply Hx || apply Hy|].
  intros n Hn. by rewrite Z.lor_spec, (testbit_fits w x), (testbit_fits w y).
Qed.

Lemma fits_land_l w x y : 0 <= w -> fits w x -> fits w (Z.land x y).
Proof.
  intros Hw Hx. apply fits_testbit; [done|apply Z.land_nonneg; left; apply Hx|].
  intros n Hn. by rewrite Z.land_spec, (testbit_fits w x).
Qed.

Lemma fits_land_r w x y : 0 <= w -> fits w y -> fits w (Z.land x y).
Proof. intros. rewrite Z.land_comm. by apply fits_land_l. Qed.

Lemma fits_shiftl1 w n : 0 <= n < w -> fits w (Z.shiftl 1 n).
Proof.
  intros Hn. rewrite Z.shiftl_1_l. split; [apply Z.pow_nonneg; lia|].
  apply Z.pow_lt_mono_r; lia.
Qed.

Lemma fits_mono v w x : 0 <= v <= w -> fits v x -> fits w x.
Proof.
  intros Hvw [H0 H1]. split; [done|].
  apply Z.lt_le_trans with (2 ^ v); [done|apply Z.pow_le_mono_r; lia].
Qed.

Lemma is_u32_fits x : is_u32 x <-> fits 32 x.
Proof. done. Qed.

Lemma is_byte_fits x : is_byte x <-> fits 8 x.
Proof. done. Qed.

Lemma is_u32_u32 x : is_u32 (u32 x).
Proof. by apply Z.mod_pos_bound. Qed.

Lemma u32_id x : is_u32 x -> u32 x = x.
Proof. intros H. unfold u32. by apply Z.mod_small. Qed.

Lemma is_u32_lor x y : is_u32 x -> is_u32 y -> is_u32 (Z.lor x y).
Proof. intros. by apply (fits_lor 32). Qed.

Lemma is_u32_land x y : is_u32 x -> is_u32 (Z.land x y).
Proof. intros. by apply (fits_land_l 32). Qed.

(** [tst v (1 << n)] reads bit [n] of [v]. *)
Lemma tst_bit v n : 0 <= n -> tst v (Z.shiftl 1 n) = Z.testbit v n.
Proof.
  intros Hn. unfold tst. rewrite Z.shiftl_1_l.
  assert (Z.land v (2 ^ n) = if Z.testbit v n then 2 ^ n else 0) as ->.
  { apply Z.bits_inj'. intros m Hm. rewrite Z.land_spec, Z.pow2_bits_eqb by done.
    destruct (Z.eqb_spec n m) as [->|Hne].
    - destruct (Z.testbit v m); [by rewrite Z.pow2_bits_true|by rewrite Z.bits_0].
    - rewrite andb_false_r. destruct (Z.testbit v n); [by rewrite Z.pow2_bits_false|by rewrite Z.bits_0]. }
  destruct (Z.testbit v n); [|done].
  apply negb_true_iff, Z.eqb_neq. pose proof (Z.pow_pos_nonneg 2 n). lia.
Qed.

(** [v & ~m] clears the bits of [m] in [v]. *)
Lemma land_not32 v m : is_u32 v -> Z.land v (not32 m) = Z.ldiff v m.
Proof.
  intros Hv. apply Z.bits_inj'. intros n Hn. unfold not32.
  rewrite Z.land_spec, Z.lxor_spec, Z.ldiff_spec.
  destruct (Z.lt_ge_cases n 32) as [Hlt|Hge].
  - change 0xFFFFFFFF with (Z.ones 32). rewrite Z.ones_spec_low by lia.
    by destruct (Z.testbit m n).
  - by rewrite (testbit_fits 32 v) by done.
Qed.

Lemma testbit_shiftl1 n m : 0 <= n -> 0 <= m -> Z.testbit (Z.shiftl 1 n) m = (n =? m).
Proof. intros. rewrite Z.shiftl_1_l. by apply Z.pow2_bits_eqb. Qed.

(** Equality of two words from equality of their bits below the width. *)
Lemma fits_bits_eq w x y :
  0 <= w -> fits w x -> fits w y ->
  (forall n, 0 <= n < w -> Z.testbit x n = Z.testbit y n) -> x = y.
Proof.
  intros Hw Hx Hy Hbits. apply Z.bits_inj'. intros n Hn.
  destruct (Z.lt_ge_cases n w); [by apply Hbits|].
  by rewrite (testbit_fits w x), (testbit_fits w y).
Qed.

(** * Byte arrays

    A C byte array is the list of its bytes, index 0 first.  [byte_at d i] is
    [d[i]], [slice off len d] the bytes a [memcpy] out of [&d[off]] reads,
    [blit off bs d] the array after a [memcpy] of [bs] to [&d[off]], and
    [zeros n] the bytes [memset(_, 0, n)] writes.  All three are used in
    bounds only; the components prove that ([_in_bounds] lemmas). *)

Definition zlen {A} (l : list A) : Z := Z.of_nat (length l).

Definition byte_at (d : list Z) (i : Z) : Z := default 0 (d !! Z.to_nat i).

Definition slice (off len : Z) (d : list Z) : list Z :=
  take (Z.to_nat len) (drop (Z.to_nat off) d).

Definition blit (off : Z) (bs d : list Z) : list Z :=
  take (Z.to_nat off) d ++ bs ++ drop (Z.to_nat off + length bs) d.

Definition zeros (n : Z) : list Z := replicate (Z.to_nat n) 0.

Lemma zlen_cons {A} (x : A) l : zlen (x :: l) = 1 + zlen l.
Proof. unfold zlen. simpl. lia. Qed.

Lemma zlen_nonneg {A} (l : list A) : 0 <= zlen l.
Proof. unfold zlen. lia. Qed.

Lemma zlen_app {A} (l k : list A) : zlen (l ++ k) = zlen l + zlen k.
Proof. unfold zlen. rewrite length_app. lia. Qed.

Lemma zlen_zeros n : 0 <= n -> zlen (zeros n) = n.
Proof. intros. unfold zlen, zeros. rewrite length_replicate. lia. Qed.

Lemma zlen_slice off len d :
  0 <= off -> 0 <= len -> off + len <= zlen d -> zlen (slice off len d) = len.
Proof. unfold zlen, slice. intros. rewrite length_take, length_drop. lia. Qed.

Lemma zlen_blit off bs d :
  0 <= off -> off + zlen bs <= zlen d -> zlen (blit off bs d) = zlen d.
Proof.
  unfold zlen, blit. intros. rewrite !length_app, length_take, length_drop. lia.
Qed.

Lemma byte_at_blit off bs d i :
  0 <= off -> 0 <= i -> off + zlen bs <= zlen d ->
  byte_at (blit off bs d) i =
    if (off <=? i) && (i <? off + zlen bs) then byte_at bs (i - off) else byte_at d i.
Proof.
  unfold zlen, byte_at, blit. intros Ho Hi Hin.
  destruct (Z.leb_spec off i); destruct (Z.ltb_spec i (off + Z.of_nat (length bs))); simpl.
  - rewrite lookup_app_r; rewrite length_take; [|lia].
    rewrite lookup_app_l by lia. do 2 f_equal. lia.
  - rewrite lookup_app_r; rewrite length_take; [|lia].
    rewrite lookup_app_r by lia. rewrite lookup_drop. do 2 f_equal. lia.
  - rewrite lookup_app_l; [|rewrite length_take; lia].
    by rewrite lookup_take_lt by lia.
  - lia.
Qed.

Lemma byte_at_slice off len d i :
  0 <= off -> 0 <= i < len -> byte_at (slice off len d) i = byte_at d (off + i).
Proof.
  unfold byte_at, slice. intros Ho Hi.
  rewrite lookup_take_lt by lia. rewrite lookup_drop. do 2 f_equal. lia.
Qed.

Lemma byte_at_zeros n i : byte_at (zeros n) i = 0.
Proof.
  unfold byte_at, zeros. destruct (decide (Z.to_nat i < Z.to_nat n)%nat).
  - by rewrite lookup_replicate_2.
  - by rewrite lookup_ge_None_2 by (rewrite length_replicate; lia).
Qed.

(** Two byte arrays of one length are equal when their bytes are. *)
Lemma byte_list_eq (d e : list Z) :
  zlen d = zlen e -> (forall i, 0 <= i < zlen d -> byte_at d i = byte_at e i) -> d = e.
Proof.
  unfold zlen, byte_at. intros Hlen Hb. apply list_eq. intros i.
  destruct (decide (i < length d)%nat) as [Hi|Hi].
  - specialize (Hb (Z.of_nat i)). rewrite Nat2Z.id in Hb.
    destruct (lookup_lt_is_Some_2 d i) as [x Hx]; [done|].
    destruct (lookup_lt_is_Some_2 e i) as [y Hy]; [lia|].
    rewrite Hx, Hy in *. f_equal. apply Hb. lia.
  - rewrite !lookup_ge_None_2 by lia. done.
Qed.

Lemma zlen_slice0 n d : 0 <= n -> zlen (slice 0 n d) = Z.min n (zlen d).
Proof. unfold zlen, slice. intros. rewrite length_take, length_drop. lia. Qed.

Lemma byte_at_app l k i :
  0 <= i -> byte_at (l ++ k) i = if i <? zlen l then byte_at l i else byte_at k (i - zlen l).
Proof.
  unfold byte_at, zlen. intros Hi. destruct (Z.ltb_spec i (Z.of_nat (length l))).
  - by rewrite lookup_app_l by lia.
  - rewrite lookup_app_r by lia. do 2 f_equal. lia.
Qed.

Lemma slice_all n d : zlen d <= n -> slice 0 n d = d.
Proof. unfold zlen, slice. intros. rewrite drop_0. apply take_ge. lia. Qed.

Lemma slice_0_0 d : slice 0 0 d = [].
Proof. done. Qed.

Lemma blit_nil off d : blit off [] d = d.
Proof. unfold blit. simpl. rewrite Nat.add_0_r. apply take_drop. Qed.

Lemma slice_0_app n l k : n <= zlen l -> slice 0 n (l ++ k) = slice 0 n l.
Proof. unfold zlen, slice. intros. rewrite !drop_0. apply take_app_le. lia. Qed.

Lemma zlen_singleton (b : Z) : zlen [b] = 1.
Proof. done. Qed.

Lemma slice_blit off bs d :
  0 <= off -> off + zlen bs <= zlen d -> slice off (zlen bs) (blit off bs d) = bs.
Proof.
  intros Ho Hin. pose proof (zlen_nonneg bs).
  assert (zlen (slice off (zlen bs) (blit off bs d)) = zlen bs) as Hl.
  { apply zlen_slice; [done..|]. by rewrite zlen_blit. }
  apply byte_list_eq; [done|]. intros i Hi. rewrite Hl in Hi.
  rewrite byte_at_slice, byte_at_blit by lia.
  destruct (Z.leb_spec off (off + i)), (Z.ltb_spec (off + i) (off + zlen bs)); simpl; try lia.
  f_equal. lia.
Qed.

Lemma slice_blit_disjoint off bs d off' len :
  0 <= off -> off + zlen bs <= zlen d -> 0 <= off' -> 0 <= len -> off' + len <= zlen d ->
  off' + len <= off \/ off + zlen bs <= off' ->
  slice off' len (blit off bs d) = slice off' len d.
Proof.
  intros Ho Hin Ho' Hl Hin' Hdis.
  assert (zlen (blit off bs d) = zlen d) as Hz by by apply zlen_blit.
  apply byte_list_eq; [by rewrite !zlen_slice by lia|].
  intros i. rewrite zlen_slice by lia. intros Hi.
  rewrite !byte_at_slice, byte_at_blit by lia.
  by destruct (Z.leb_spec off (off' + i)), (Z.ltb_spec (off' + i) (off + zlen bs)); simpl; try lia.
Qed.

Lemma Forall_slice (P : Z -> Prop) off len d : Forall P d -> Forall P (slice off len d).
Proof. intros. unfold slice. by apply Forall_take, Forall_drop. Qed.

Lemma Forall_blit (P : Z -> Prop) off bs d :
  Forall P d -> Forall P bs -> Forall P (blit off bs d).
Proof.
  intros. unfold blit.
  repeat (apply Forall_app; split); auto using Forall_take, Forall_drop.
Qed.

Lemma Forall_byte_zeros n : Forall is_byte (zeros n).
Proof. apply Forall_replicate. unfold is_byte. lia. Qed.

Lemma byte_at_is_byte d i : Forall is_byte d -> is_byte (byte_at d i).
Proof.
  intros H. unfold byte_at. destruct (d !! Z.to_nat i) eqn:E; simpl.
  - by eapply Forall_lookup_1 in E.
  - unfold is_byte. lia.
Qed.

(** * Little-endian words

    [le_word] is the expression [soc_mem_read_word] computes from four bytes,
    [le_byte v k] is [(uint8_t)((v >> 8 * k) & 0xFF)]. *)

Definition le_word (b0 b1 b2 b3 : Z) : Z :=
  Z.lor (Z.lor (Z.lor b0 (Z.shiftl b1 8)) (Z.shiftl b2 16)) (Z.shiftl b3 24).

Definition le_byte (v k : Z) : Z := Z.land (Z.shiftr v (8 * k)) 0xFF.

Definition le_bytes (v : Z) : list Z := [le_byte v 0; le_byte v 1; le_byte v 2; le_byte v 3].

Lemma lor_shiftl_add w a b : 0 <= w -> fits w a -> Z.lor a (Z.shiftl b w) = a + b * 2 ^ w.
Proof.
  intros Hw Ha. rewrite <- Z.shiftl_mul_pow2 by done.
  assert (Z.land a (Z.shiftl b w) = 0) as Hd.
  { apply Z.bits_inj'. intros n Hn. rewrite Z.land_spec, Z.bits_0.
    destruct (Z.lt_ge_cases n w).
    - by rewrite Z.shiftl_spec_low, andb_false_r.
    - by rewrite (testbit_fits w a). }
  by rewrite Z.add_nocarry_lxor, Z.lxor_lor.
Qed.

Lemma le_word_arith b0 b1 b2 b3 :
  is_byte b0 -> is_byte b1 -> is_byte b2 ->
  le_word b0 b1 b2 b3 = b0 + b1 * 2 ^ 8 + b2 * 2 ^ 16 + b3 * 2 ^ 24.
Proof.
  unfold is_byte, le_word. intros H0 H1 H2.
  rewrite (lor_shiftl_add 8), (lor_shiftl_add 16), (lor_shiftl_add 24);
    try done; unfold fits; lia.
Qed.

Lemma le_byte_arith v k : 0 <= k -> le_byte v k = (v / 2 ^ (8 * k)) mod 256.
Proof.
  intros Hk. unfold le_byte. change 0xFF with (Z.ones 8).
  by rewrite Z.land_ones, Z.shiftr_div_pow2 by lia.
Qed.

Lemma is_byte_le_byte v k : is_byte (le_byte v k).
Proof. rewrite is_byte_fits. apply fits_land_r; [done|]. by unfold fits. Qed.

Lemma is_u32_le_word b0 b1 b2 b3 :
  is_byte b0 -> is_byte b1 -> is_byte b2 -> is_byte b3 -> is_u32 (le_word b0 b1 b2 b3).
Proof.
  intros. rewrite le_word_arith by done. unfold is_byte, is_u32, two32 in *. lia.
Qed.

(** Splitting a word and joining its bytes gives the word back. *)
Lemma le_word_bytes v :
  is_u32 v -> le_word (le_byte v 0) (le_byte v 1) (le_byte v 2) (le_byte v 3) = v.
Proof.
  intros Hv. rewrite le_word_arith by apply is_byte_le_byte.
  rewrite !le_byte_arith by lia. unfold is_u32, two32 in Hv.
  Z.to_euclidean_division_equations; lia.
Qed.

(** Joining four bytes and splitting gives the bytes back. *)
Lemma le_bytes_word b0 b1 b2 b3 :
  is_byte b0 -> is_byte b1 -> is_byte b2 -> is_byte b3 ->
  le_bytes (le_word b0 b1 b2 b3) = [b0; b1; b2; b3].
Proof.
  intros H0 H1 H2 H3. unfold le_bytes. rewrite !le_byte_arith, le_word_arith by done.
  unfold is_byte in *. repeat f_equal; Z.to_euclidean_division_equations; lia.
Qed.

Lemma Forall_le_bytes v : Forall is_byte (le_bytes v).
Proof. repeat constructor; apply is_byte_le_byte. Qed.

(** * Automation *)

(** [soc] holds the closure lemmas of the components' invariants. *)
Create HintDb soc.

(** [bits] rewrites the flag tests of the sources to [Z.testbit]. *)
Create Rewrite HintDb bits.

(** Case analysis on a chain of [if offset =? OFF] or [if flag] tests of the
    goal, outermost first. *)
Ltac case_switch :=
  repeat match goal with
  | |- context [if ?b then _ else _] =>
      lazymatch b with
      | (if _ then _ else _) => fail
      | Z.eqb ?x ?y => destruct (Z.eqb_spec x y)
      | _ => destruct b eqn:?
      end
  end.
