(* ===== verification/Regions.v ===== *)
(** Memory regions and bus decode: [firmware/include/mem_regions.h] and
    [soc_c/src/bus.c].

    A region table is the list of its first [n] entries, in order; a table
    pointer that may be [NULL] is an [option].  The theorems say that the
    range predicates are exactly membership of every byte of the range (with
    no wrap past the 32-bit space), that [find_region] returns the first
    containing entry, and that [soc_bus_route] gives the window of an address. *)

From Stdlib Require Strings.String.
From S2P Require Import Prelude.

(** [soc.h]: bus status codes. *)
Definition SOC_OK : Z := 0.
Definition SOC_ERR_BUS : Z := -100.

Inductive mem_type_t : Set :=
| MEM_TYPE_ROM
| MEM_TYPE_SRAM
| MEM_TYPE_DRAM
| MEM_TYPE_MMIO
| MEM_TYPE_PERIPHERAL.

#[export] Instance mem_type_eq_dec : EqDecision mem_type_t.
Proof. solve_decision. Defined.

Definition MEM_PERM_R : Z := Z.shiftl 1 2.
Definition MEM_PERM_W : Z := Z.shiftl 1 1.
Definition MEM_PERM_X : Z := Z.shiftl 1 0.

Record memory_region : Type := Mk_memory_region {
  mr_name : String.string;
  mr_base : Z;
  mr_size : Z;
  mr_type : mem_type_t;
  mr_perms : Z
}.

(** The region pointer of the source is an [option]; sums are [uint64_t]. *)
Definition memory_region_contains (r : option memory_region) (addr len : Z) : bool :=
  match r with
  | None => false
  | Some r =>
      if len =? 0 then false
      else
        let end_ := addr + len in
        if 0x100000000 <? end_ then false
        else (mr_base r <=? addr) && (end_ <=? mr_base r + mr_size r)
  end.

Definition memory_range_valid (r : option memory_region) (addr len : Z) : bool :=
  (0 <? len) && memory_region_contains r addr len.

Definition memory_range_overflows (addr len : Z) : bool := 0x100000000 <? addr + len.

Definition memory_range_overlaps (a_base a_len b_base b_len : Z) : bool :=
  if (a_len =? 0) || (b_len =? 0) then false
  else
    let a_end := a_base + a_len in
    let b_end := b_base + b_len in
    (a_base <? b_end) && (b_base <? a_end).

Fixpoint find_region_from (table : list memory_region) (addr len : Z) : option memory_region :=
  match table with
  | [] => None
  | r :: table' =>
      if memory_region_contains (Some r) addr len then Some r
      else find_region_from table' addr len
  end.

Definition find_region (table : option (list memory_region)) (addr len : Z)
  : option memory_region :=
  match table with
  | None => None
  | Some t => find_region_from t addr len
  end.

(** A [for (i = 0; i < n; i++)] scan of a table that stops at the first entry
    satisfying [p i entry]; the result is its index, or -1. *)
Fixpoint scan {A} (p : Z -> A -> bool) (i : Z) (table : list A) : Z :=
  match table with
  | [] => -1
  | r :: table' => if p i r then i else scan p (i + 1) table'
  end.

Definition soc_bus_route (regions : list memory_region) (addr : Z) : Z :=
  let first := scan (fun _ r => memory_region_contains (Some r) addr 4) 0 regions in
  if (first =? 0) || (first =? 1) then first
  else scan (fun i r => memory_region_contains (Some r) addr 1 && (2 <=? i)) 0 regions.

#[global] Arguments memory_region_contains : simpl never.

(** * Specification vocabulary *)

(** The byte addresses of a range. *)
Definition in_range (base len a : Z) : Prop := base <= a < base + len.

Definition owns (r : memory_region) (a : Z) : Prop := in_range (mr_base r) (mr_size r) a.

(** * Range predicates *)

Lemma contains_true r addr len :
  0 <= len ->
  memory_region_contains (Some r) addr len = true <->
  0 < len /\ addr + len <= two32 /\ mr_base r <= addr /\ addr + len <= mr_base r + mr_size r.
Proof.
  intros Hl. unfold memory_region_contains, two32.
  destruct (Z.eqb_spec len 0), (Z.ltb_spec 0x100000000 (addr + len));
    rewrite ?andb_true_iff, ?Z.leb_le; split; intros; try done; lia.
Qed.

Lemma contains_false r addr len :
  0 < len ->
  memory_region_contains (Some r) addr len = false <->
  two32 < addr + len \/ addr < mr_base r \/ mr_base r + mr_size r < addr + len.
Proof.
  intros Hl. rewrite <- not_true_iff_false, contains_true by lia. lia.
Qed.

(** C33. Region containment is set inclusion of the byte range in the region and in the 32-bit
    address space, whatever the 32-bit operands (no wrap-around). *)
Theorem memory_region_contains_spec r addr len :
  is_u32 addr -> is_u32 len ->
  memory_region_contains (Some r) addr len = true <->
  0 < len /\ forall a, in_range addr len a -> owns r a /\ a < two32.
Proof.
  unfold is_u32. intros Ha Hl. rewrite contains_true by lia. unfold owns, in_range.
  split.
  - intros (H0 & H1 & H2 & H3). split; [done|]. intros a. lia.
  - intros [H0 H]. pose proof (H addr). pose proof (H (addr + len - 1)). lia.
Qed.

Lemma memory_region_contains_spec_witness :
  let r := Mk_memory_region String.EmptyString 0xFFFFF000 0x1000 MEM_TYPE_SRAM 0 in
  memory_region_contains (Some r) 0xFFFFFFFC 4 = true /\
  memory_region_contains (Some r) 0xFFFFFFFC 8 <> true.
Proof.
  split.
  - apply memory_region_contains_spec; [done..|]. split; [done|]. intros a. unfold owns, in_range, two32. simpl. lia.
  - intros H. apply memory_region_contains_spec in H as [_ H]; [|done..].
    specialize (H 0x100000000). unfold in_range, two32 in H. lia.
Defined.

(** Two ranges overlap in the sense of the code exactly when they share a byte address. *)
Theorem memory_range_overlaps_spec a_base a_len b_base b_len :
  is_u32 a_len -> is_u32 b_len ->
  memory_range_overlaps a_base a_len b_base b_len = true <->
  exists x, in_range a_base a_len x /\ in_range b_base b_len x.
Proof.
  unfold is_u32, memory_range_overlaps, in_range. intros Ha Hb.
  destruct (Z.eqb_spec a_len 0), (Z.eqb_spec b_len 0); simpl;
    try (split; [done|intros (x & ? & ?); lia]).
  rewrite andb_true_iff, !Z.ltb_lt. split.
  - intros [H1 H2]. exists (Z.max a_base b_base). lia.
  - intros (x & ? & ?). lia.
Qed.

Lemma memory_range_overlaps_spec_witness : memory_range_overlaps 0xFFFFFFF0 0x20 0xFFFFFFFF 4 = true.
Proof. apply memory_range_overlaps_spec; [done..|]. exists 0xFFFFFFFF. unfold in_range. lia. Defined.

(** * Table lookup *)

Lemma find_region_from_some table addr len r :
  find_region_from table addr len = Some r <->
  exists pre post, table = pre ++ r :: post /\
    memory_region_contains (Some r) addr len = true /\
    Forall (fun q => memory_region_contains (Some q) addr len = false) pre.
Proof.
  induction table as [|q table IH]; simpl.
  { split; [done|]. intros (pre & post & Heq & _). by destruct pre. }
  destruct (memory_region_contains (Some q) addr len) eqn:E.
  - split.
    + intros [= ->]. exists [], table. split_and!; [done..|constructor].
    + intros (pre & post & Heq & Hc & Hpre). destruct pre as [|p pre]; [by simplify_eq/=|].
      simplify_eq/=. apply Forall_cons_1 in Hpre as [Hp _]. congruence.
  - rewrite IH. split.
    + intros (pre & post & -> & Hc & Hpre). exists (q :: pre), post. split_and!; [done..|by constructor].
    + intros (pre & post & Heq & Hc & Hpre). destruct pre as [|p pre]; simplify_eq/=; [congruence|].
      apply Forall_cons_1 in Hpre as [_ Hpre]. by exists pre, post.
Qed.

Lemma find_region_from_none table addr len :
  find_region_from table addr len = None <->
  Forall (fun q => memory_region_contains (Some q) addr len = false) table.
Proof.
  induction table as [|q table IH]; simpl; [by split; [constructor|]|].
  rewrite Forall_cons_iff, <- IH. destruct (memory_region_contains (Some q) addr len); naive_solver.
Qed.

Lemma scan_bounds {A} (p : Z -> A -> bool) i table :
  0 <= i -> scan p i table = -1 \/ i <= scan p i table < i + zlen table.
Proof.
  unfold zlen. revert i. induction table as [|r table IH]; simpl; intros i Hi; [by left|].
  destruct (p i r); [right; lia|]. destruct (IH (i + 1)); [lia|by left|right; lia].
Qed.

Lemma scan_hit {A} (p : Z -> A -> bool) i table k :
  0 <= i -> scan p i table = k -> k <> -1 ->
  exists r, table !! Z.to_nat (k - i) = Some r /\ p k r = true.
Proof.
  revert i. induction table as [|r table IH]; simpl; intros i Hi Hs Hk; [by subst|].
  destruct (p i r) eqn:E.
  - subst k. exists r. by rewrite Z.sub_diag.
  - destruct (scan_bounds p (i + 1) table) as [|Hb]; [lia|congruence|].
    destruct (IH (i + 1)) as (r' & Hr' & Hp); [lia|done..|].
    exists r'. split; [|done]. by replace (Z.to_nat (k - i)) with (S (Z.to_nat (k - (i + 1)))) by lia.
Qed.

Lemma scan_miss {A} (p : Z -> A -> bool) i table :
  0 <= i -> scan p i table = -1 ->
  forall j r, table !! j = Some r -> p (i + Z.of_nat j) r = false.
Proof.
  revert i. induction table as [|r table IH]; simpl; intros i Hi Hs j q Hq; [done|].
  destruct (p i r) eqn:E; [lia|]. destruct j as [|j]; simpl in Hq.
  - simplify_eq. by rewrite Z.add_0_r.
  - replace (i + Z.of_nat (S j)) with (i + 1 + Z.of_nat j) by lia.
    apply IH; [lia|done|done].
Qed.
