(* ===== verification/DmaCaps.v ===== *)
(** DMA capability model: [firmware/include/dma_caps.h].

    Shared by the engine (Dma.v) and by the driver (DrvDma.v).  Endpoint types
    are the C [int]s the helpers return and take; a [dma_caps] or table
    pointer that may be [NULL] is an [option]. *)

From Stdlib Require Strings.String.
From S2P Require Import Prelude Regions.

Definition DMA_ADDR_MEM : Z := 0.
Definition DMA_ADDR_PERIPHERAL : Z := 1.
Definition DMA_ADDR_DEVICE : Z := 2.

Definition DMA_HW_ERR_UNSUPPORTED : Z := 4.

Definition DMA_EP_SRC : Z := Z.shiftl 1 0.
Definition DMA_EP_DST : Z := Z.shiftl 1 1.

Record dma_periph_ep : Type := Mk_dma_periph_ep {
  ep_name : String.string;
  ep_fifo_addr : Z;
  ep_roles : Z
}.

Fixpoint dma_periph_find_from (table : list dma_periph_ep) (addr : Z) : option dma_periph_ep :=
  match table with
  | [] => None
  | e :: table' => if ep_fifo_addr e =? addr then Some e else dma_periph_find_from table' addr
  end.

Definition dma_periph_find (table : option (list dma_periph_ep)) (addr : Z)
  : option dma_periph_ep :=
  match table with
  | None => None
  | Some t => dma_periph_find_from t addr
  end.

Record dma_caps : Type := Mk_dma_caps {
  cap_alignment : Z;
  cap_max_transfer : Z;
  cap_ram_to_ram : bool;
  cap_mem_to_periph : bool;
  cap_periph_to_mem : bool;
  cap_interrupts : bool;
  cap_cancel : bool
}.

Definition dma_endpoint_type (table : option (list memory_region)) (addr len : Z) : Z :=
  match find_region table addr len with
  | None => -1
  | Some r =>
      match mr_type r with
      | MEM_TYPE_SRAM | MEM_TYPE_DRAM => DMA_ADDR_MEM
      | MEM_TYPE_MMIO | MEM_TYPE_PERIPHERAL => DMA_ADDR_PERIPHERAL
      | _ => DMA_ADDR_DEVICE
      end
  end.

Definition dma_address_valid (table : option (list memory_region)) (caps : option dma_caps)
    (addr len type : Z) : bool :=
  match caps with
  | None => false
  | Some caps =>
      if len =? 0 then false
      else if (1 <? cap_alignment caps) &&
              (negb (addr mod cap_alignment caps =? 0) || negb (len mod cap_alignment caps =? 0))
      then false
      else
        let actual := dma_endpoint_type table addr len in
        if actual <? 0 then false
        else if type =? DMA_ADDR_MEM then actual =? DMA_ADDR_MEM
        else if type =? DMA_ADDR_PERIPHERAL then
          (actual =? DMA_ADDR_PERIPHERAL) || (actual =? DMA_ADDR_DEVICE)
        else if type =? DMA_ADDR_DEVICE then actual =? DMA_ADDR_DEVICE
        else false
  end.

Definition dma_direction_supported (caps : option dma_caps) (src_type dst_type : Z) : bool :=
  match caps with
  | None => false
  | Some caps =>
      if (src_type =? DMA_ADDR_MEM) && (dst_type =? DMA_ADDR_MEM) then cap_ram_to_ram caps
      else if (src_type =? DMA_ADDR_MEM) &&
              ((dst_type =? DMA_ADDR_PERIPHERAL) || (dst_type =? DMA_ADDR_DEVICE))
      then cap_mem_to_periph caps
      else if ((src_type =? DMA_ADDR_PERIPHERAL) || (src_type =? DMA_ADDR_DEVICE)) &&
              (dst_type =? DMA_ADDR_MEM)
      then cap_periph_to_mem caps
      else false
  end.

(** * Facts *)

Lemma dma_periph_find_addr table addr e :
  dma_periph_find table addr = Some e -> ep_fifo_addr e = addr.
Proof.
  destruct table as [t|]; simpl; [|done].
  induction t as [|q t IH]; simpl; [done|].
  destruct (Z.eqb_spec (ep_fifo_addr q) addr); [by intros [= ->]|done].
Qed.

(** Peripheral-to-peripheral transfers are never supported, whatever the
    capabilities say. *)
Lemma direction_periph_periph caps src_type dst_type :
  src_type <> DMA_ADDR_MEM -> dst_type <> DMA_ADDR_MEM ->
  dma_direction_supported caps src_type dst_type = false.
Proof.
  intros Hs Hd. destruct caps as [caps|]; simpl; [|done].
  apply Z.eqb_neq in Hs, Hd. by rewrite Hs, Hd, !andb_false_r.
Qed.

Lemma endpoint_type_cases table addr len :
  dma_endpoint_type table addr len = -1 \/
  dma_endpoint_type table addr len = DMA_ADDR_MEM \/
  dma_endpoint_type table addr len = DMA_ADDR_PERIPHERAL \/
  dma_endpoint_type table addr len = DMA_ADDR_DEVICE.
Proof.
  unfold dma_endpoint_type. destruct (find_region table addr len) as [r|]; [|by left].
  destruct (mr_type r); auto.
Qed.
