(* ===== verification/Platform.v ===== *)
(** The VLAB platform tables: [firmware/include/soc_regs.h] and
    [firmware/platform/platform_vlab.c].

    One map, one set of capabilities, one FIFO table and one IRQ map, consumed
    by the SoC model and by the drivers.  The lemmas of this file give the
    address decode the map yields. *)

From Stdlib Require Strings.String.
From S2P Require Import Prelude Regions DmaCaps.
Import Strings.String.StringSyntax.
Local Open Scope string_scope.
Local Open Scope Z_scope.

Definition VLAB_ROM_BASE : Z := 0x00000000.
Definition VLAB_SRAM_BASE : Z := 0x10000000.
Definition VLAB_UART_BASE : Z := 0x20000000.
Definition VLAB_TIMER_BASE : Z := 0x20001000.
Definition VLAB_DMA_BASE : Z := 0x20002000.
Definition VLAB_INTC_BASE : Z := 0x20003000.
Definition VLAB_PERF_BASE : Z := 0x20004000.

Definition VLAB_IRQ_UART : Z := 0.
Definition VLAB_IRQ_TIMER : Z := 1.
Definition VLAB_IRQ_DMA : Z := 2.

Definition VLAB_DMA_CTRL : Z := 0x2000200C.
Definition VLAB_DMA_DST : Z := 0x20002004.
Definition VLAB_DMA_ERR_CODE : Z := 0x20002018.
Definition VLAB_DMA_IRQ_CLEAR : Z := 0x20002014.
Definition VLAB_DMA_LEN : Z := 0x20002008.
Definition VLAB_DMA_SRC : Z := 0x20002000.
Definition VLAB_DMA_STATUS : Z := 0x20002010.
Definition VLAB_INTC_ACK : Z := 0x20003008.
Definition VLAB_INTC_ACTIVE : Z := 0x20003010.
Definition VLAB_INTC_CLEAR : Z := 0x2000300C.
Definition VLAB_INTC_ENABLE : Z := 0x20003000.
Definition VLAB_INTC_PENDING : Z := 0x20003004.
Definition VLAB_PERF_CTRL : Z := 0x20004014.
Definition VLAB_PERF_CYCLES : Z := 0x20004000.
Definition VLAB_PERF_DMA_BYTES : Z := 0x20004008.
Definition VLAB_PERF_IRQ_COUNT : Z := 0x2000400C.
Definition VLAB_PERF_MEM_ACC : Z := 0x20004004.
Definition VLAB_PERF_STALLS : Z := 0x20004010.
Definition VLAB_TIMER_CTRL : Z := 0x20001000.
Definition VLAB_TIMER_IRQ_CLEAR : Z := 0x20001010.
Definition VLAB_TIMER_IRQ_STATUS : Z := 0x2000100C.
Definition VLAB_TIMER_LOAD : Z := 0x20001004.
Definition VLAB_TIMER_VALUE : Z := 0x20001008.
Definition VLAB_UART_BAUDDIV : Z := 0x20000010.
Definition VLAB_UART_CTRL : Z := 0x2000000C.
Definition VLAB_UART_RXDATA : Z := 0x20000004.
Definition VLAB_UART_STATUS : Z := 0x20000008.
Definition VLAB_UART_TXDATA : Z := 0x20000000.

Definition VLAB_UART_STATUS_TX_BUSY : Z := Z.shiftl 1 0.
Definition VLAB_UART_STATUS_TX_EMPTY : Z := Z.shiftl 1 1.
Definition VLAB_UART_STATUS_RX_VALID : Z := Z.shiftl 1 2.
Definition VLAB_UART_CTRL_ENABLE : Z := Z.shiftl 1 0.

Definition VLAB_DMA_CTRL_START : Z := Z.shiftl 1 0.
Definition VLAB_DMA_CTRL_IRQ_ENABLE : Z := Z.shiftl 1 1.
Definition VLAB_DMA_STATUS_BUSY : Z := Z.shiftl 1 0.
Definition VLAB_DMA_STATUS_DONE : Z := Z.shiftl 1 1.
Definition VLAB_DMA_STATUS_ERROR : Z := Z.shiftl 1 2.

Definition VLAB_PERF_CTRL_ENABLE : Z := Z.shiftl 1 0.
Definition VLAB_PERF_CTRL_RESET : Z := Z.shiftl 1 1.

Definition VLAB_IRQ_NONE : Z := 0xFFFFFFFF.

Definition s_vlab_map : list memory_region := [
  Mk_memory_region "rom" VLAB_ROM_BASE 16384 MEM_TYPE_ROM (Z.lor MEM_PERM_R MEM_PERM_X);
  Mk_memory_region "sram" VLAB_SRAM_BASE 65536 MEM_TYPE_SRAM (Z.lor MEM_PERM_R MEM_PERM_W);
  Mk_memory_region "uart" VLAB_UART_BASE 4096 MEM_TYPE_MMIO (Z.lor MEM_PERM_R MEM_PERM_W);
  Mk_memory_region "timer" VLAB_TIMER_BASE 4096 MEM_TYPE_MMIO (Z.lor MEM_PERM_R MEM_PERM_W);
  Mk_memory_region "dma" VLAB_DMA_BASE 4096 MEM_TYPE_MMIO (Z.lor MEM_PERM_R MEM_PERM_W);
  Mk_memory_region "intc" VLAB_INTC_BASE 4096 MEM_TYPE_MMIO (Z.lor MEM_PERM_R MEM_PERM_W);
  Mk_memory_region "perf" VLAB_PERF_BASE 4096 MEM_TYPE_MMIO (Z.lor MEM_PERM_R MEM_PERM_W)
].

Definition s_vlab_dma_caps : dma_caps := {|
  cap_alignment := 4;
  cap_max_transfer := 16384;
  cap_ram_to_ram := true;
  cap_mem_to_periph := true;
  cap_periph_to_mem := true;
  cap_interrupts := true;
  cap_cancel := false
|}.

Definition s_vlab_dma_periphs : list dma_periph_ep := [
  Mk_dma_periph_ep "uart-tx" VLAB_UART_TXDATA DMA_EP_DST;
  Mk_dma_periph_ep "uart-rx" VLAB_UART_RXDATA DMA_EP_SRC
].

Record irq_map : Type := Mk_irq_map { im_uart_line : Z; im_timer_line : Z; im_dma_line : Z }.

Definition s_vlab_irq_map : irq_map := {|
  im_uart_line := VLAB_IRQ_UART; im_timer_line := VLAB_IRQ_TIMER; im_dma_line := VLAB_IRQ_DMA
|}.

Definition vlab_memory_map : list memory_region := s_vlab_map.
Definition vlab_dma_caps : dma_caps := s_vlab_dma_caps.
Definition vlab_dma_periph_eps : list dma_periph_ep := s_vlab_dma_periphs.
Definition vlab_irq_map : irq_map := s_vlab_irq_map.

(** * Decode *)

(** The index [soc_read]/[soc_write] switch on, from the address alone. *)
Definition vlab_window (addr : Z) : Z :=
  if addr <? 0x00004000 then 0
  else if (0x10000000 <=? addr) && (addr <? 0x10010000) then 1
  else if (0x20000000 <=? addr) && (addr <? 0x20005000) then 2 + (addr - 0x20000000) / 0x1000
  else -1.

Lemma scan_cons {A} (p : Z -> A -> bool) i r table :
  scan p i (r :: table) = if p i r then i else scan p (i + 1) table.
Proof. done. Qed.

(** A region of the map answers a probe by comparing addresses. *)
Lemma contains_probe r addr len :
  0 < len -> addr + len <= two32 ->
  memory_region_contains (Some r) addr len =
    (mr_base r <=? addr) && (addr + len <=? mr_base r + mr_size r).
Proof.
  intros Hl Hw. unfold memory_region_contains, two32 in *.
  destruct (Z.eqb_spec len 0), (Z.ltb_spec 0x100000000 (addr + len)); lia || done.
Qed.

Ltac decode_step :=
  match goal with
  | |- context [Z.leb ?a ?b] => destruct (Z.leb_spec a b); cbn [andb orb Z.eqb Pos.eqb]; try lia
  | |- context [Z.ltb ?a ?b] => destruct (Z.ltb_spec a b); cbn [andb orb Z.eqb Pos.eqb]; try lia
  end.

Lemma soc_bus_route_vlab addr :
  is_u32 addr -> addr mod 4 = 0 -> soc_bus_route vlab_memory_map addr = vlab_window addr.
Proof.
  unfold is_u32, two32. intros Ha Hal.
  assert (addr + 4 <= 0x100000000) by (Z.to_euclidean_division_equations; lia).
  unfold soc_bus_route, vlab_memory_map, s_vlab_map.
  rewrite !scan_cons, !contains_probe by (unfold two32; lia).
  cbn [mr_base mr_size scan]. rewrite !andb_false_r.
  unfold vlab_window, VLAB_ROM_BASE, VLAB_SRAM_BASE, VLAB_UART_BASE, VLAB_TIMER_BASE,
    VLAB_DMA_BASE, VLAB_INTC_BASE, VLAB_PERF_BASE.
  change (0 + 1) with 1. change (1 + 1) with 2. change (2 + 1) with 3.
  change (3 + 1) with 4. change (4 + 1) with 5. change (5 + 1) with 6.
  cbn [Z.leb Z.compare Pos.compare Pos.compare_cont].
  repeat decode_step.
  all: Z.to_euclidean_division_equations; lia.
Qed.

(** The windows as address ranges. *)
Lemma vlab_window_cases addr :
  0 <= addr ->
  (vlab_window addr = 0 /\ addr < 0x4000) \/
  (vlab_window addr = 1 /\ 0x10000000 <= addr < 0x10010000) \/
  (vlab_window addr = 2 /\ 0x20000000 <= addr < 0x20001000) \/
  (vlab_window addr = 3 /\ 0x20001000 <= addr < 0x20002000) \/
  (vlab_window addr = 4 /\ 0x20002000 <= addr < 0x20003000) \/
  (vlab_window addr = 5 /\ 0x20003000 <= addr < 0x20004000) \/
  (vlab_window addr = 6 /\ 0x20004000 <= addr < 0x20005000) \/
  (vlab_window addr = -1 /\ 0x4000 <= addr /\ ~ 0x10000000 <= addr < 0x10010000 /\
   ~ 0x20000000 <= addr < 0x20005000).
Proof.
  intros Ha. unfold vlab_window. repeat decode_step.
  all: Z.to_euclidean_division_equations; lia.
Qed.
