(* ===== verification/Memory.v ===== *)
(** Byte-addressable backing store: [soc_c/src/soc_memory.c].

    A [soc_mem_t] is a window [base, base + size) over a backing buffer (which
    may be longer than the window: the SoC's static stores are); [m_data] is
    the buffer's bytes, [None] a [NULL] pointer.  The theorems: word and byte
    accesses succeed exactly inside the window, never index outside the
    buffer, read back what was written, and leave every other byte alone; a
    read-only memory refuses every run-time write; [soc_mem_load_words] is the
    only way in, and what it loaded is what [soc_mem_read_word] returns. *)

From Stdlib Require Strings.String.
From S2P Require Import Prelude Regions.

Record soc_mem_t : Type := Mk_soc_mem {
  m_base : Z;
  m_size : Z;
  m_readonly : bool;
  m_name : String.string;
  m_data : option (list Z)
}.

#[export] Instance settable_mem : Settable soc_mem_t :=
  {| eta_record := fun m => Mk_soc_mem (m_base m) (m_size m) (m_readonly m) (m_name m) (m_data m) |}.

(** Dereferencing [m->data]; reading through a [NULL] pointer is undefined in
    C, here an empty buffer. *)
Definition m_bytes (m : soc_mem_t) : list Z := default [] (m_data m).

Definition soc_mem_init (base size : Z) (readonly : bool) (name : String.string)
    (backing : option (list Z)) : soc_mem_t := {|
  m_base := base;
  m_size := size;
  m_readonly := readonly;
  m_name := name;
  m_data := match backing with
            | Some d => Some (blit 0 (zeros size) d)
            | None => None
            end
|}.

Definition soc_mem_contains (m : soc_mem_t) (addr len : Z) : bool :=
  let end_ := addr + len in
  if len =? 0 then false
  else if 0x100000000 <? end_ then false
  else (m_base m <=? addr) && (end_ <=? m_base m + m_size m).

Definition soc_mem_offset (m : soc_mem_t) (addr len : Z) : result Z :=
  let end_ := addr + len in
  if len =? 0 then Err SOC_ERR_BUS
  else if 0x100000000 <? end_ then Err SOC_ERR_BUS
  else if negb ((m_base m <=? addr) && (end_ <=? m_base m + m_size m)) then Err SOC_ERR_BUS
  else Ok (addr - m_base m).

Definition soc_mem_read_word (m : soc_mem_t) (addr : Z) : result Z :=
  if negb (addr mod 4 =? 0) then Err SOC_ERR_BUS
  else match soc_mem_offset m addr 4 with
  | Err _ => Err SOC_ERR_BUS
  | Ok off =>
      Ok (le_word (byte_at (m_bytes m) off) (byte_at (m_bytes m) (off + 1))
                  (byte_at (m_bytes m) (off + 2)) (byte_at (m_bytes m) (off + 3)))
  end.

(** The four byte stores [data[off] = ...; ... data[off + 3] = ...]. *)
Definition poke_word (m : soc_mem_t) (off value : Z) : soc_mem_t :=
  m <| m_data := Some (blit off (le_bytes value) (m_bytes m)) |>.

Definition soc_mem_write_word (m : soc_mem_t) (addr value : Z) : Z * soc_mem_t :=
  if negb (addr mod 4 =? 0) then (SOC_ERR_BUS, m)
  else if m_readonly m then (SOC_ERR_BUS, m)
  else match soc_mem_offset m addr 4 with
  | Err _ => (SOC_ERR_BUS, m)
  | Ok off => (SOC_OK, poke_word m off value)
  end.

Definition soc_mem_read_bytes (m : soc_mem_t) (addr len : Z) : result (list Z) :=
  match soc_mem_offset m addr len with
  | Err _ => Err SOC_ERR_BUS
  | Ok off => Ok (slice off len (m_bytes m))
  end.

(** [payload] holds the [len] bytes the caller passes. *)
Definition soc_mem_write_bytes (m : soc_mem_t) (addr : Z) (payload : list Z) : Z * soc_mem_t :=
  if m_readonly m then (SOC_ERR_BUS, m)
  else match soc_mem_offset m addr (zlen payload) with
  | Err _ => (SOC_ERR_BUS, m)
  | Ok off => (SOC_OK, m <| m_data := Some (blit off payload (m_bytes m)) |>)
  end.

Fixpoint load_words_from (m : soc_mem_t) (i : Z) (words : list Z) : Z * soc_mem_t :=
  match words with
  | [] => (SOC_OK, m)
  | w :: words' =>
      let off := u32 (i * 4) in
      if m_size m <? u32 (off + 4) then (SOC_ERR_BUS, m)
      else load_words_from (poke_word m off w) (i + 1) words'
  end.

Definition soc_mem_load_words (m : soc_mem_t) (words : list Z) : Z * soc_mem_t :=
  load_words_from m 0 words.

Definition soc_mem_zero (m : soc_mem_t) : soc_mem_t :=
  match m_data m with
  | Some d => m <| m_data := Some (blit 0 (zeros (m_size m)) d) |>
  | None => m
  end.

(** * Well-formedness *)

(** The window lies in the 32-bit space and inside the buffer. *)
Record mem_wf (m : soc_mem_t) : Prop := {
  wf_base : 0 <= m_base m;
  wf_size : 0 <= m_size m;
  wf_top : m_base m + m_size m <= two32;
  wf_data : m_data m <> None;
  wf_len : m_size m <= zlen (m_bytes m);
  wf_bytes : Forall is_byte (m_bytes m)
}.

(** The bytes of the window an address range denotes. *)
Definition mem_range (m : soc_mem_t) (addr len : Z) : list Z :=
  slice (addr - m_base m) len (m_bytes m).

(** Same window, same name, same protection: only the bytes may differ. *)
Definition same_shape (m m' : soc_mem_t) : Prop :=
  m_base m' = m_base m /\ m_size m' = m_size m /\ m_readonly m' = m_readonly m /\
  zlen (m_bytes m') = zlen (m_bytes m).

(** * Offsets *)

Lemma soc_mem_offset_ok m addr len off :
  0 <= len ->
  soc_mem_offset m addr len = Ok off <->
  off = addr - m_base m /\ soc_mem_contains m addr len = true.
Proof.
  intros Hl. unfold soc_mem_offset, soc_mem_contains.
  destruct (Z.eqb_spec len 0); [naive_solver|].
  destruct (Z.ltb_spec 0x100000000 (addr + len)); [naive_solver|].
  destruct (_ && _); simpl; naive_solver.
Qed.

Lemma soc_mem_offset_err m addr len rc :
  soc_mem_offset m addr len = Err rc ->
  rc = SOC_ERR_BUS /\ soc_mem_contains m addr len = false.
Proof.
  unfold soc_mem_offset, soc_mem_contains.
  destruct (Z.eqb_spec len 0); [naive_solver|].
  destruct (Z.ltb_spec 0x100000000 (addr + len)); [naive_solver|].
  destruct (_ && _); simpl; naive_solver.
Qed.

Lemma soc_mem_contains_spec m addr len :
  mem_wf m -> 0 <= len ->
  soc_mem_contains m addr len = true <->
  0 < len /\ m_base m <= addr /\ addr + len <= m_base m + m_size m.
Proof.
  intros [_ _ Htop _ _ _] Hl. unfold soc_mem_contains, two32 in *.
  destruct (Z.eqb_spec len 0); [split; [done|lia]|].
  destruct (Z.ltb_spec 0x100000000 (addr + len)); [split; [done|lia]|].
  rewrite andb_true_iff, !Z.leb_le. lia.
Qed.

(** An access the range check lets through stays inside the buffer. *)
Lemma contains_in_bounds m addr len :
  mem_wf m -> 0 <= len -> soc_mem_contains m addr len = true ->
  0 < len /\ 0 <= addr - m_base m /\ addr - m_base m + len <= m_size m /\
  addr - m_base m + len <= zlen (m_bytes m).
Proof.
  intros Hwf Hl Hc. apply soc_mem_contains_spec in Hc; [|done..].
  destruct Hwf as [_ _ _ _ Hlen _]. lia.
Qed.

(** * Window operations on well-formed memories *)

Lemma m_bytes_set m d : m_bytes (m <| m_data := Some d |>) = d.
Proof. done. Qed.

Lemma offset_same_shape m m' addr len :
  same_shape m m' -> soc_mem_offset m' addr len = soc_mem_offset m addr len.
Proof. intros (Hb & Hs & _ & _). unfold soc_mem_offset. by rewrite Hb, Hs. Qed.

Lemma contains_same_shape m m' addr len :
  same_shape m m' -> soc_mem_contains m' addr len = soc_mem_contains m addr len.
Proof. intros (Hb & Hs & _ & _). unfold soc_mem_contains. by rewrite Hb, Hs. Qed.

Lemma same_shape_refl m : same_shape m m.
Proof. done. Qed.

Lemma same_shape_trans m1 m2 m3 : same_shape m1 m2 -> same_shape m2 m3 -> same_shape m1 m3.
Proof. unfold same_shape. intros (?&?&?&?) (?&?&?&?). split_and!; congruence. Qed.

(** A store of [bs] at offset [off] of the buffer. *)
Definition store (m : soc_mem_t) (off : Z) (bs : list Z) : soc_mem_t :=
  m <| m_data := Some (blit off bs (m_bytes m)) |>.

Lemma store_same_shape m off bs :
  0 <= off -> off + zlen bs <= zlen (m_bytes m) -> same_shape m (store m off bs).
Proof.
  intros. unfold same_shape, store. split_and!; try done.
  by rewrite m_bytes_set, zlen_blit.
Qed.

Lemma store_wf m off bs :
  mem_wf m -> 0 <= off -> off + zlen bs <= zlen (m_bytes m) -> Forall is_byte bs ->
  mem_wf (store m off bs).
Proof.
  intros [Hb Hs Ht Hd Hl Hby] Ho Hin Hbs. unfold store.
  split; simpl; try done; rewrite ?m_bytes_set.
  - by rewrite zlen_blit.
  - by apply Forall_blit.
Qed.

Lemma soc_mem_write_bytes_cases m addr payload :
  (m_readonly m = false /\ soc_mem_contains m addr (zlen payload) = true /\
   soc_mem_write_bytes m addr payload = (SOC_OK, store m (addr - m_base m) payload)) \/
  ((m_readonly m = true \/ soc_mem_contains m addr (zlen payload) = false) /\
   soc_mem_write_bytes m addr payload = (SOC_ERR_BUS, m)).
Proof.
  unfold soc_mem_write_bytes. destruct (m_readonly m); [naive_solver|].
  destruct (soc_mem_offset m addr (zlen payload)) as [off|rc] eqn:E.
  - apply soc_mem_offset_ok in E as [-> Hc]; [|apply zlen_nonneg]. left. done.
  - apply soc_mem_offset_err in E as [_ Hc]. right. auto.
Qed.

Lemma soc_mem_write_word_cases m addr value :
  (addr mod 4 = 0 /\ m_readonly m = false /\ soc_mem_contains m addr 4 = true /\
   soc_mem_write_word m addr value = (SOC_OK, store m (addr - m_base m) (le_bytes value))) \/
  ((addr mod 4 <> 0 \/ m_readonly m = true \/ soc_mem_contains m addr 4 = false) /\
   soc_mem_write_word m addr value = (SOC_ERR_BUS, m)).
Proof.
  unfold soc_mem_write_word. destruct (Z.eqb_spec (addr mod 4) 0); simpl; [|auto].
  destruct (m_readonly m); [naive_solver|].
  destruct (soc_mem_offset m addr 4) as [off|rc] eqn:E.
  - apply soc_mem_offset_ok in E as [-> Hc]; [|done]. left. done.
  - apply soc_mem_offset_err in E as [_ Hc]. right. auto.
Qed.

Lemma soc_mem_read_bytes_cases m addr len :
  0 <= len ->
  soc_mem_read_bytes m addr len =
    if soc_mem_contains m addr len then Ok (mem_range m addr len) else Err SOC_ERR_BUS.
Proof.
  intros Hl. unfold soc_mem_read_bytes. destruct (soc_mem_offset m addr len) as [off|rc] eqn:E.
  - apply soc_mem_offset_ok in E as [-> ->]; done.
  - by apply soc_mem_offset_err in E as [_ ->].
Qed.

(** The word at an address, from the bytes of its range. *)
Definition word_at (m : soc_mem_t) (addr : Z) : Z :=
  let off := addr - m_base m in
  le_word (byte_at (m_bytes m) off) (byte_at (m_bytes m) (off + 1))
          (byte_at (m_bytes m) (off + 2)) (byte_at (m_bytes m) (off + 3)).

Lemma soc_mem_read_word_cases m addr :
  soc_mem_read_word m addr =
    if (addr mod 4 =? 0) && soc_mem_contains m addr 4
    then Ok (word_at m addr) else Err SOC_ERR_BUS.
Proof.
  unfold soc_mem_read_word. destruct (Z.eqb_spec (addr mod 4) 0); simpl; [|done].
  destruct (soc_mem_offset m addr 4) as [off|rc] eqn:E.
  - apply soc_mem_offset_ok in E as [-> ->]; done.
  - by apply soc_mem_offset_err in E as [_ ->].
Qed.

Lemma word_at_u32 m addr : mem_wf m -> is_u32 (word_at m addr).
Proof. intros [_ _ _ _ _ Hb]. apply is_u32_le_word; by apply byte_at_is_byte. Qed.

Lemma word_at_store_same m addr value :
  mem_wf m -> soc_mem_contains m addr 4 = true -> is_u32 value ->
  word_at (store m (addr - m_base m) (le_bytes value)) addr = value.
Proof.
  intros Hwf Hc Hv. destruct (contains_in_bounds m addr 4 Hwf ltac:(lia) Hc) as (_ & Ho & _ & Hi).
  unfold word_at, store. rewrite m_bytes_set. cbn [m_base].
  change (m_base (m <| m_data := _ |>)) with (m_base m).
  change (zlen (m_bytes m)) with (zlen (m_bytes m)) in Hi.
  rewrite !byte_at_blit by (change (zlen (le_bytes value)) with 4; lia).
  change (zlen (le_bytes value)) with 4.
  repeat match goal with
  | |- context [Z.leb ?a ?b] => destruct (Z.leb_spec a b); try lia
  | |- context [Z.ltb ?a ?b] => destruct (Z.ltb_spec a b); try lia
  end.
  simpl. rewrite !Z.sub_diag. replace (addr - m_base m + 1 - (addr - m_base m)) with 1 by lia.
  replace (addr - m_base m + 2 - (addr - m_base m)) with 2 by lia.
  replace (addr - m_base m + 3 - (addr - m_base m)) with 3 by lia.
  by apply le_word_bytes.
Qed.

Lemma word_at_store_other m off bs addr :
  0 <= off -> off + zlen bs <= zlen (m_bytes m) -> 0 <= addr - m_base m ->
  addr + 4 <= m_base m + off \/ m_base m + off + zlen bs <= addr ->
  word_at (store m off bs) addr = word_at m addr.
Proof.
  intros Ho Hin Ha Hdis. unfold word_at, store. rewrite m_bytes_set.
  change (m_base (m <| m_data := _ |>)) with (m_base m).
  rewrite !byte_at_blit by lia.
  repeat match goal with
  | |- context [(?a <=? ?b) && (?b <? ?c)] =>
      replace ((a <=? b) && (b <? c)) with false
        by (symmetry; rewrite andb_false_iff, Z.leb_gt, Z.ltb_ge; lia)
  end.
  done.
Qed.

Lemma mem_range_store_same m off bs :
  0 <= off -> off + zlen bs <= zlen (m_bytes m) ->
  mem_range (store m off bs) (m_base m + off) (zlen bs) = bs.
Proof.
  intros. unfold mem_range, store. rewrite m_bytes_set.
  change (m_base (m <| m_data := _ |>)) with (m_base m).
  replace (m_base m + off - m_base m) with off by lia. by apply slice_blit.
Qed.

Lemma mem_range_store_other m off bs addr len :
  0 <= off -> off + zlen bs <= zlen (m_bytes m) ->
  0 <= addr - m_base m -> 0 <= len -> addr - m_base m + len <= zlen (m_bytes m) ->
  addr + len <= m_base m + off \/ m_base m + off + zlen bs <= addr ->
  mem_range (store m off bs) addr len = mem_range m addr len.
Proof.
  intros. unfold mem_range, store. rewrite m_bytes_set.
  change (m_base (m <| m_data := _ |>)) with (m_base m).
  apply slice_blit_disjoint; lia.
Qed.

(** Equal ranges hold equal words. *)
Lemma word_at_range m m' a b len k :
  mem_range m a len = mem_range m' b len -> m_base m <= a -> m_base m' <= b ->
  0 <= k -> k + 4 <= len -> word_at m (a + k) = word_at m' (b + k).
Proof.
  intros E Ha Hb Hk Hl. unfold mem_range in E.
  assert (forall i, 0 <= i < 4 ->
    byte_at (m_bytes m) (a + k - m_base m + i) = byte_at (m_bytes m') (b + k - m_base m' + i)) as Hi.
  { intros i Hi. pose proof (f_equal (fun d => byte_at d (k + i)) E) as H. cbv beta in H.
    rewrite !byte_at_slice in H by lia.
    replace (a + k - m_base m + i) with (a - m_base m + (k + i)) by lia.
    by replace (b + k - m_base m' + i) with (b - m_base m' + (k + i)) by lia. }
  unfold word_at. rewrite <- !Hi by lia. pose proof (Hi 0 ltac:(lia)) as H0. rewrite !Z.add_0_r in H0.
  by rewrite H0.
Qed.

Lemma mem_range_bytes m addr len : mem_wf m -> Forall is_byte (mem_range m addr len).
Proof. intros [_ _ _ _ _ Hb]. by apply Forall_slice. Qed.

Lemma zlen_mem_range m addr len :
  mem_wf m -> 0 <= len -> soc_mem_contains m addr len = true -> zlen (mem_range m addr len) = len.
Proof.
  intros Hwf Hl Hc. destruct (contains_in_bounds m addr len Hwf Hl Hc) as (_ & ? & _ & ?).
  by apply zlen_slice.
Qed.

(** * Preservation *)

Lemma poke_word_store m off w : poke_word m off w = store m off (le_bytes w).
Proof. done. Qed.

Lemma soc_mem_write_word_wf m addr value rc m' :
  mem_wf m -> soc_mem_write_word m addr value = (rc, m') -> mem_wf m' /\ same_shape m m'.
Proof.
  intros Hwf Heq. destruct (soc_mem_write_word_cases m addr value)
    as [(_ & _ & Hc & E)|[_ E]]; rewrite E in Heq; simplify_eq; [|done].
  destruct (contains_in_bounds m addr 4 Hwf ltac:(lia) Hc) as (_ & ? & _ & ?).
  split; [apply store_wf|apply store_same_shape]; auto using Forall_le_bytes.
Qed.

Lemma soc_mem_write_bytes_wf m addr payload rc m' :
  mem_wf m -> Forall is_byte payload ->
  soc_mem_write_bytes m addr payload = (rc, m') -> mem_wf m' /\ same_shape m m'.
Proof.
  intros Hwf Hp Heq. destruct (soc_mem_write_bytes_cases m addr payload)
    as [(_ & Hc & E)|[_ E]]; rewrite E in Heq; simplify_eq; [|done].
  destruct (contains_in_bounds m addr (zlen payload) Hwf (zlen_nonneg _) Hc) as (_ & ? & _ & ?).
  split; [by apply store_wf|by apply store_same_shape].
Qed.

Lemma soc_mem_init_wf base size ro name d :
  0 <= base -> 0 <= size -> base + size <= two32 -> size <= zlen d -> Forall is_byte d ->
  mem_wf (soc_mem_init base size ro name (Some d)).
Proof.
  intros. assert (zlen (zeros size) = size) as Hz by by apply zlen_zeros.
  split; simpl; try done; unfold m_bytes; simpl.
  - rewrite zlen_blit; lia.
  - apply Forall_blit; auto using Forall_byte_zeros.
Qed.

Lemma soc_mem_init_len base size ro name d :
  0 <= size <= zlen d -> zlen (m_bytes (soc_mem_init base size ro name (Some d))) = zlen d.
Proof.
  intros Hs. change (m_bytes (soc_mem_init base size ro name (Some d))) with (blit 0 (zeros size) d).
  rewrite zlen_blit; rewrite ?zlen_zeros; lia.
Qed.

Lemma soc_mem_zero_store m : mem_wf m -> soc_mem_zero m = store m 0 (zeros (m_size m)).
Proof.
  intros [_ _ _ Hd _ _]. unfold soc_mem_zero, store, m_bytes. by destruct (m_data m).
Qed.

Lemma soc_mem_zero_wf m : mem_wf m -> mem_wf (soc_mem_zero m) /\ same_shape m (soc_mem_zero m).
Proof.
  intros Hwf. rewrite soc_mem_zero_store by done. pose proof Hwf as [_ Hs _ _ Hl _].
  assert (zlen (zeros (m_size m)) = m_size m) as Hz by by apply zlen_zeros.
  split; [apply store_wf|apply store_same_shape]; auto using Forall_byte_zeros; lia.
Qed.

Lemma soc_mem_zero_word m addr :
  mem_wf m -> soc_mem_contains m addr 4 = true -> word_at (soc_mem_zero m) addr = 0.
Proof.
  intros Hwf Hc. rewrite soc_mem_zero_store by done.
  destruct (contains_in_bounds m addr 4 Hwf ltac:(lia) Hc) as (_ & ? & ? & ?).
  pose proof Hwf as [_ Hs _ _ Hl _].
  assert (zlen (zeros (m_size m)) = m_size m) as Hz by by apply zlen_zeros.
  unfold word_at, store. rewrite m_bytes_set. change (m_base (m <| m_data := _ |>)) with (m_base m).
  rewrite !byte_at_blit by lia. rewrite Hz, !byte_at_zeros.
  repeat match goal with
  | |- context [(?a <=? ?b) && (?b <? ?c)] =>
      replace ((a <=? b) && (b <? c)) with true
        by (symmetry; rewrite andb_true_iff, Z.leb_le, Z.ltb_lt; lia)
  end.
  done.
Qed.

(** * Loading an image *)

(** The image as the words stored at successive offsets. *)
Fixpoint store_words (m : soc_mem_t) (off : Z) (words : list Z) : soc_mem_t :=
  match words with
  | [] => m
  | w :: words' => store_words (store m off (le_bytes w)) (off + 4) words'
  end.

Lemma load_words_from_fits m i words :
  0 <= i -> m_size m < two32 -> i * 4 + zlen words * 4 <= m_size m ->
  load_words_from m i words = (SOC_OK, store_words m (i * 4) words).
Proof.
  revert m i. induction words as [|w words IH]; intros m i Hi Hs Hfit; simpl; [done|].
  unfold zlen in *. simpl in Hfit.
  rewrite (u32_id (i * 4)) by (unfold is_u32; lia).
  rewrite (u32_id (i * 4 + 4)) by (unfold is_u32; lia).
  destruct (Z.ltb_spec (m_size m) (i * 4 + 4)); [lia|].
  rewrite poke_word_store, IH; [|lia|done|].
  - do 2 f_equal. lia.
  - change (m_size (store m (i * 4) (le_bytes w))) with (m_size m). lia.
Qed.

(** Any image, however long, leaves a well-formed memory of the same shape. *)
Lemma load_words_from_wf m i words :
  mem_wf m -> m_size m + 4 < two32 -> 0 <= i -> i * 4 <= m_size m ->
  mem_wf (snd (load_words_from m i words)) /\ same_shape m (snd (load_words_from m i words)).
Proof.
  revert m i. induction words as [|w words IH]; intros m i Hwf Hs Hi Hfit; simpl; [done|].
  rewrite (u32_id (i * 4)) by (unfold is_u32; lia).
  rewrite (u32_id (i * 4 + 4)) by (unfold is_u32; lia).
  destruct (Z.ltb_spec (m_size m) (i * 4 + 4)); [done|]. rewrite poke_word_store.
  pose proof (wf_len m Hwf).
  assert (zlen (le_bytes w) = 4) as Hw4 by done.
  assert (same_shape m (store m (i * 4) (le_bytes w))) as Hsh
    by (apply store_same_shape; lia).
  destruct (IH (store m (i * 4) (le_bytes w)) (i + 1)) as [Hwf' Hsh'].
  - apply store_wf; [done|lia|lia|apply Forall_le_bytes].
  - done.
  - lia.
  - change (m_size (store m (i * 4) (le_bytes w))) with (m_size m). lia.
  - split; [done|]. by apply same_shape_trans with (store m (i * 4) (le_bytes w)).
Qed.

Lemma store_words_facts m off words :
  mem_wf m -> 0 <= off -> off + zlen words * 4 <= m_size m ->
  mem_wf (store_words m off words) /\ same_shape m (store_words m off words) /\
  (forall addr, 0 <= addr - m_base m ->
     addr + 4 <= m_base m + off \/ m_base m + off + zlen words * 4 <= addr ->
     word_at (store_words m off words) addr = word_at m addr).
Proof.
  revert m off. induction words as [|w words IH]; intros m off Hwf Ho Hfit; simpl; [done|].
  pose proof Hwf as [_ _ _ _ Hl _].
  assert (zlen (w :: words) = zlen words + 1) as Hz by (unfold zlen; simpl; lia).
  pose proof (zlen_nonneg words).
  assert (off + zlen (le_bytes w) <= zlen (m_bytes m)) as Hin
    by (change (zlen (le_bytes w)) with 4; lia).
  destruct (IH (store m off (le_bytes w)) (off + 4)) as (Hwf' & Hsh & Hout);
    [apply store_wf; auto using Forall_le_bytes|lia|simpl; lia|].
  split; [done|]. split; [exact (same_shape_trans _ _ _ (store_same_shape _ _ _ Ho Hin) Hsh)|].
  intros addr Ha Hdis. rewrite Hout by (simpl; lia).
  apply word_at_store_other; [done..|change (zlen (le_bytes w)) with 4; lia].
Qed.

Lemma store_words_nth m off words k w :
  mem_wf m -> 0 <= off -> off + zlen words * 4 <= m_size m ->
  words !! k = Some w -> is_u32 w ->
  word_at (store_words m off words) (m_base m + off + 4 * Z.of_nat k) = w.
Proof.
  revert m off k. induction words as [|v words IH]; intros m off k Hwf Ho Hfit Hk Hw; [done|].
  pose proof Hwf as [_ _ Htop _ Hl _]. pose proof (zlen_nonneg words).
  assert (zlen (v :: words) = zlen words + 1) as Hz by (unfold zlen; simpl; lia).
  assert (off + zlen (le_bytes v) <= zlen (m_bytes m)) as Hin
    by (change (zlen (le_bytes v)) with 4; lia).
  assert (mem_wf (store m off (le_bytes v))) as Hwf1
    by (apply store_wf; auto using Forall_le_bytes).
  simpl store_words. destruct k as [|k]; simpl in Hk.
  - simplify_eq. replace (m_base m + off + 4 * Z.of_nat 0) with (m_base m + off) by lia.
    destruct (store_words_facts (store m off (le_bytes w)) (off + 4) words) as (_ & _ & Hout);
      [done|lia|simpl; lia|].
    rewrite Hout by (simpl; lia).
    pose proof (word_at_store_same m (m_base m + off) w Hwf) as Hsame.
    replace (m_base m + off - m_base m) with off in Hsame by lia. apply Hsame; [|done].
    apply soc_mem_contains_spec; [done|lia|lia].
  - replace (m_base m + off + 4 * Z.of_nat (S k))
      with (m_base (store m off (le_bytes v)) + (off + 4) + 4 * Z.of_nat k) by (simpl; lia).
    apply IH; [done|lia|simpl; lia|done|done].
Qed.

(** * Properties *)

(** C32. A word write succeeds exactly on an aligned address of a writable memory window and is
    then the only change; otherwise it is refused and changes nothing. *)
Theorem soc_mem_write_word_spec m addr value :
  mem_wf m -> is_u32 value ->
  let '(rc, m') := soc_mem_write_word m addr value in
  mem_wf m' /\ same_shape m m' /\
  if (addr mod 4 =? 0) && negb (m_readonly m) && soc_mem_contains m addr 4 then
    rc = SOC_OK /\ soc_mem_read_word m' addr = Ok value /\
    (forall addr', addr' <> addr -> soc_mem_read_word m' addr' = soc_mem_read_word m addr')
  else rc = SOC_ERR_BUS /\ m' = m.
Proof.
  intros Hwf Hv. destruct (soc_mem_write_word m addr value) as [rc m'] eqn:E.
  destruct (soc_mem_write_word_wf m addr value rc m' Hwf E) as [Hwf' Hsh].
  split; [done|]. split; [done|].
  destruct (soc_mem_write_word_cases m addr value) as [(Ha & Hr & Hc & E')|[Hno E']];
    rewrite E' in E; simplify_eq.
  - apply Z.eqb_eq in Ha as Hab. rewrite Hab, Hr, Hc. simpl.
    split; [done|]. rewrite !soc_mem_read_word_cases. rewrite (contains_same_shape _ _ _ _ Hsh).
    rewrite Hab, Hc. simpl. split; [by rewrite word_at_store_same|].
    intros addr' Hne. rewrite !soc_mem_read_word_cases, (contains_same_shape _ _ _ _ Hsh).
    destruct (Z.eqb_spec (addr' mod 4) 0) as [Ha'|]; simpl; [|done].
    destruct (soc_mem_contains m addr' 4) eqn:Hc'; [|done].
    destruct (contains_in_bounds m addr 4 Hwf ltac:(lia) Hc) as (_ & ? & _ & ?).
    destruct (contains_in_bounds m addr' 4 Hwf ltac:(lia) Hc') as (_ & ? & _ & ?).
    rewrite word_at_store_other; [done|done|done|done|].
    change (zlen (le_bytes value)) with 4. Z.to_euclidean_division_equations; lia.
  - destruct Hno as [Ha|[Hr|Hc]].
    + by apply Z.eqb_neq in Ha as ->.
    + rewrite Hr. by rewrite andb_false_r.
    + rewrite Hc. by rewrite andb_false_r.
Qed.

Lemma soc_mem_write_word_spec_witness :
  let m := soc_mem_init 0x1000 16 false String.EmptyString (Some (zeros 16)) in
  soc_mem_read_word (snd (soc_mem_write_word m 0x1004 0xDEADBEEF)) 0x1004 = Ok 0xDEADBEEF.
Proof.
  assert (mem_wf (soc_mem_init 0x1000 16 false String.EmptyString (Some (zeros 16)))) as Hm
    by (apply soc_mem_init_wf; [done..|apply Forall_byte_zeros]).
  by apply (soc_mem_write_word_spec _ 0x1004 0xDEADBEEF Hm).
Defined.

(** C31. A byte-range write either succeeds and is read back, leaving every disjoint range
    alone, or is refused with the bus error and changes nothing; shape and invariant are
    preserved. *)
Theorem soc_mem_write_bytes_spec m addr payload :
  mem_wf m -> Forall is_byte payload ->
  let '(rc, m') := soc_mem_write_bytes m addr payload in
  mem_wf m' /\ same_shape m m' /\
  if negb (m_readonly m) && soc_mem_contains m addr (zlen payload) then
    rc = SOC_OK /\ soc_mem_read_bytes m' addr (zlen payload) = Ok payload /\
    (forall addr' len, 0 <= len ->
       addr' + len <= addr \/ addr + zlen payload <= addr' ->
       soc_mem_read_bytes m' addr' len = soc_mem_read_bytes m addr' len)
  else rc = SOC_ERR_BUS /\ m' = m.
Proof.
  intros Hwf Hp. destruct (soc_mem_write_bytes m addr payload) as [rc m'] eqn:E.
  destruct (soc_mem_write_bytes_wf m addr payload rc m' Hwf Hp E) as [Hwf' Hsh].
  split; [done|]. split; [done|]. pose proof (zlen_nonneg payload) as Hz.
  destruct (soc_mem_write_bytes_cases m addr payload) as [(Hr & Hc & E')|[Hno E']];
    rewrite E' in E; simplify_eq.
  - rewrite Hr, Hc. simpl. split; [done|].
    destruct (contains_in_bounds m addr _ Hwf Hz Hc) as (_ & Ho & _ & Hin).
    rewrite soc_mem_read_bytes_cases, (contains_same_shape _ _ _ _ Hsh), Hc by done.
    split; [|intros addr' len Hl Hdis].
    + f_equal. replace addr with (m_base m + (addr - m_base m)) at 2 by lia.
      by apply mem_range_store_same.
    + rewrite !soc_mem_read_bytes_cases, (contains_same_shape _ _ _ _ Hsh) by done.
      destruct (soc_mem_contains m addr' len) eqn:Hc'; [|done].
      destruct (contains_in_bounds m addr' len Hwf Hl Hc') as (_ & ? & _ & ?).
      f_equal. apply mem_range_store_other; lia || done.
  - destruct Hno as [Hr|Hc]; [by rewrite Hr|]. rewrite Hc. by rewrite andb_false_r.
Qed.

Lemma soc_mem_write_bytes_spec_witness :
  let m := soc_mem_init 0x1000 16 false String.EmptyString (Some (zeros 16)) in
  soc_mem_read_bytes (snd (soc_mem_write_bytes m 0x1005 [1; 2; 255])) 0x1005 3 = Ok [1; 2; 255].
Proof.
  assert (mem_wf (soc_mem_init 0x1000 16 false String.EmptyString (Some (zeros 16)))) as Hm
    by (apply soc_mem_init_wf; [done..|apply Forall_byte_zeros]).
  apply (soc_mem_write_bytes_spec _ 0x1005 [1; 2; 255] Hm). by repeat constructor.
Defined.

Lemma soc_mem_load_words_spec m words :
  mem_wf m -> m_size m < two32 -> zlen words * 4 <= m_size m -> m_base m mod 4 = 0 ->
  Forall is_u32 words ->
  let '(rc, m') := soc_mem_load_words m words in
  rc = SOC_OK /\ mem_wf m' /\ same_shape m m' /\
  (forall k w, words !! k = Some w ->
     soc_mem_read_word m' (m_base m + 4 * Z.of_nat k) = Ok w) /\
  (forall addr, m_base m + zlen words * 4 <= addr ->
     soc_mem_read_word m' addr = soc_mem_read_word m addr).
Proof.
  intros Hwf Hs Hfit Hal Hw. unfold soc_mem_load_words.
  rewrite load_words_from_fits by lia. split; [done|].
  destruct (store_words_facts m (0 * 4) words) as (Hwf' & Hsh & Hout); [done|lia|lia|].
  split; [done|]. split; [done|]. split.
  - intros k w Hk. rewrite soc_mem_read_word_cases, (contains_same_shape _ _ _ _ Hsh).
    assert (k < length words)%nat by by eapply lookup_lt_Some. unfold zlen in *.
    replace ((m_base m + 4 * Z.of_nat k) mod 4 =? 0) with true
      by (symmetry; apply Z.eqb_eq; Z.to_euclidean_division_equations; lia).
    assert (soc_mem_contains m (m_base m + 4 * Z.of_nat k) 4 = true) as ->
      by (apply soc_mem_contains_spec; [done|lia|lia]).
    simpl. f_equal. replace (m_base m + 4 * Z.of_nat k)
      with (m_base m + 0 * 4 + 4 * Z.of_nat k) by lia.
    apply store_words_nth; [done|lia|unfold zlen; lia|done|]. by eapply Forall_lookup_1 in Hw.
  - intros addr Ha. rewrite !soc_mem_read_word_cases, (contains_same_shape _ _ _ _ Hsh).
    destruct (_ && soc_mem_contains m addr 4) eqn:E; [|done].
    apply andb_true_iff in E as [_ Hc].
    destruct (contains_in_bounds m addr 4 Hwf ltac:(lia) Hc) as (_ & ? & _ & ?).
    f_equal. apply Hout; lia.
Qed.
