(* ===== verification/Perf.v ===== *)
(** Performance counters: [soc_c/src/soc_perf.c].

    Five wrapping 32-bit counters that move only while [enabled].  The one
    [soc_perf_t] of the SoC is shared by the bus, the UART, the INTC and the
    DMA through pointers; the operations that reach it through a pointer take
    it as an argument and return it. *)

From S2P Require Import Prelude Regions.

Definition SOC_PERF_CYCLES_OFF : Z := 0x00.
Definition SOC_PERF_MEM_ACC_OFF : Z := 0x04.
Definition SOC_PERF_DMA_BYTES_OFF : Z := 0x08.
Definition SOC_PERF_IRQ_COUNT_OFF : Z := 0x0C.
Definition SOC_PERF_STALLS_OFF : Z := 0x10.
Definition SOC_PERF_CTRL_OFF : Z := 0x14.

Definition SOC_PERF_CTRL_ENABLE : Z := Z.shiftl 1 0.
Definition SOC_PERF_CTRL_RESET : Z := Z.shiftl 1 1.

Record soc_perf_t : Type := Mk_soc_perf {
  p_cycles : Z;
  p_mem_acc : Z;
  p_dma_bytes : Z;
  p_irq_count : Z;
  p_stalls : Z;
  p_enabled : bool;
  p_ctrl : Z
}.

#[export] Instance settable_perf : Settable soc_perf_t :=
  {| eta_record := fun p => Mk_soc_perf (p_cycles p) (p_mem_acc p) (p_dma_bytes p)
       (p_irq_count p) (p_stalls p) (p_enabled p) (p_ctrl p) |}.

(** [soc_perf_init] overwrites every field, so it needs no previous state. *)
Definition soc_perf_init : soc_perf_t := {|
  p_cycles := 0; p_mem_acc := 0; p_dma_bytes := 0; p_irq_count := 0; p_stalls := 0;
  p_enabled := false; p_ctrl := 0
|}.

Definition soc_perf_reset_counters (p : soc_perf_t) : soc_perf_t :=
  p <| p_cycles := 0 |> <| p_mem_acc := 0 |> <| p_dma_bytes := 0 |>
    <| p_irq_count := 0 |> <| p_stalls := 0 |>.

Definition soc_perf_tick (p : soc_perf_t) : soc_perf_t :=
  if p_enabled p then p <| p_cycles := u32 (p_cycles p + 1) |> else p.

Definition soc_perf_count_mem (p : soc_perf_t) : soc_perf_t :=
  if p_enabled p then p <| p_mem_acc := u32 (p_mem_acc p + 1) |> else p.

Definition soc_perf_count_stall (p : soc_perf_t) (n : Z) : soc_perf_t :=
  if p_enabled p then p <| p_stalls := u32 (p_stalls p + n) |> else p.

Definition soc_perf_count_dma (p : soc_perf_t) (nbytes : Z) : soc_perf_t :=
  if p_enabled p then p <| p_dma_bytes := u32 (p_dma_bytes p + nbytes) |> else p.

Definition soc_perf_count_irq (p : soc_perf_t) : soc_perf_t :=
  if p_enabled p then p <| p_irq_count := u32 (p_irq_count p + 1) |> else p.

Definition soc_perf_read (p : soc_perf_t) (offset : Z) : result Z :=
  if offset =? SOC_PERF_CYCLES_OFF then Ok (p_cycles p)
  else if offset =? SOC_PERF_MEM_ACC_OFF then Ok (p_mem_acc p)
  else if offset =? SOC_PERF_DMA_BYTES_OFF then Ok (p_dma_bytes p)
  else if offset =? SOC_PERF_IRQ_COUNT_OFF then Ok (p_irq_count p)
  else if offset =? SOC_PERF_STALLS_OFF then Ok (p_stalls p)
  else if offset =? SOC_PERF_CTRL_OFF then Ok (p_ctrl p)
  else Err SOC_ERR_BUS.

Definition soc_perf_write (p : soc_perf_t) (offset value : Z) : Z * soc_perf_t :=
  if offset =? SOC_PERF_CYCLES_OFF then (SOC_OK, p <| p_cycles := value |>)
  else if offset =? SOC_PERF_MEM_ACC_OFF then (SOC_OK, p <| p_mem_acc := value |>)
  else if offset =? SOC_PERF_DMA_BYTES_OFF then (SOC_OK, p <| p_dma_bytes := value |>)
  else if offset =? SOC_PERF_IRQ_COUNT_OFF then (SOC_OK, p <| p_irq_count := value |>)
  else if offset =? SOC_PERF_STALLS_OFF then (SOC_OK, p <| p_stalls := value |>)
  else if offset =? SOC_PERF_CTRL_OFF then
    let p := p <| p_ctrl := value |> in
    let p := p <| p_enabled := tst value SOC_PERF_CTRL_ENABLE |> in
    (SOC_OK, if tst value SOC_PERF_CTRL_RESET then soc_perf_reset_counters p else p)
  else (SOC_ERR_BUS, p).

Lemma tst_perf_enable v : tst v SOC_PERF_CTRL_ENABLE = Z.testbit v 0.
Proof. by apply tst_bit. Qed.

Lemma tst_perf_reset v : tst v SOC_PERF_CTRL_RESET = Z.testbit v 1.
Proof. by apply tst_bit. Qed.

#[export] Hint Rewrite tst_perf_enable tst_perf_reset : bits.

(** * Well-formedness *)

(** Counters are 32-bit, and counting is on exactly when CTRL.ENABLE is. *)
Record perf_wf (p : soc_perf_t) : Prop := {
  pwf_cycles : is_u32 (p_cycles p);
  pwf_mem_acc : is_u32 (p_mem_acc p);
  pwf_dma_bytes : is_u32 (p_dma_bytes p);
  pwf_irq_count : is_u32 (p_irq_count p);
  pwf_stalls : is_u32 (p_stalls p);
  pwf_ctrl : is_u32 (p_ctrl p);
  pwf_enabled : p_enabled p = Z.testbit (p_ctrl p) 0
}.

Lemma is_u32_0 : is_u32 0.
Proof. unfold is_u32, two32. lia. Qed.

#[export] Hint Resolve is_u32_u32 is_u32_0 : soc.

Lemma soc_perf_init_wf : perf_wf soc_perf_init.
Proof. split; simpl; auto with soc. Qed.

Lemma soc_perf_reset_counters_wf p : perf_wf p -> perf_wf (soc_perf_reset_counters p).
Proof. intros []. split; simpl; auto with soc. Qed.

Ltac perf_count :=
  intros Hwf; destruct (p_enabled _); [destruct Hwf; split; simpl; auto with soc|done].

Lemma soc_perf_tick_wf p : perf_wf p -> perf_wf (soc_perf_tick p).
Proof. unfold soc_perf_tick. perf_count. Qed.

Lemma soc_perf_count_mem_wf p : perf_wf p -> perf_wf (soc_perf_count_mem p).
Proof. unfold soc_perf_count_mem. perf_count. Qed.

Lemma soc_perf_count_stall_wf p n : perf_wf p -> perf_wf (soc_perf_count_stall p n).
Proof. unfold soc_perf_count_stall. perf_count. Qed.

Lemma soc_perf_count_dma_wf p n : perf_wf p -> perf_wf (soc_perf_count_dma p n).
Proof. unfold soc_perf_count_dma. perf_count. Qed.

Lemma soc_perf_count_irq_wf p : perf_wf p -> perf_wf (soc_perf_count_irq p).
Proof. unfold soc_perf_count_irq. perf_count. Qed.

#[export] Hint Resolve soc_perf_init_wf soc_perf_reset_counters_wf soc_perf_tick_wf
  soc_perf_count_mem_wf soc_perf_count_stall_wf soc_perf_count_dma_wf
  soc_perf_count_irq_wf : soc.

Lemma soc_perf_write_wf p offset value rc p' :
  perf_wf p -> is_u32 value -> soc_perf_write p offset value = (rc, p') -> perf_wf p'.
Proof.
  unfold soc_perf_write. intros Hwf Hv. pose proof Hwf as [].
  case_switch; intros [= <- <-]; try done; split; simpl; auto with soc; by autorewrite with bits.
Qed.

(** What a counter register reads after an event of the model: one more
    (modulo 2^32) while counting is enabled, unchanged while it is not. *)
Definition perf_bump (p : soc_perf_t) (counter n : Z) : Z :=
  if p_enabled p then u32 (counter + n) else counter.

Lemma perf_counts p n :
  soc_perf_tick p = p <| p_cycles := perf_bump p (p_cycles p) 1 |> /\
  soc_perf_count_mem p = p <| p_mem_acc := perf_bump p (p_mem_acc p) 1 |> /\
  soc_perf_count_stall p n = p <| p_stalls := perf_bump p (p_stalls p) n |> /\
  soc_perf_count_dma p n = p <| p_dma_bytes := perf_bump p (p_dma_bytes p) n |> /\
  soc_perf_count_irq p = p <| p_irq_count := perf_bump p (p_irq_count p) 1 |>.
Proof.
  unfold soc_perf_tick, soc_perf_count_mem, soc_perf_count_stall, soc_perf_count_dma,
    soc_perf_count_irq, perf_bump.
  destruct p as [? ? ? ? ? [] ?]; by split_and!.
Qed.

(** * Properties *)

(** Every register except CTRL reads back what was written; writing CTRL
    with RESET zeroes the five counters, sets [enabled] from bit 0, and keeps
    the value written, RESET bit included. *)
Theorem soc_perf_write_spec p offset value :
  perf_wf p -> is_u32 value ->
  let '(rc, p') := soc_perf_write p offset value in
  perf_wf p' /\
  (rc = SOC_OK <-> offset ∈ [0x00; 0x04; 0x08; 0x0C; 0x10; 0x14]) /\
  (rc = SOC_OK \/ rc = SOC_ERR_BUS /\ p' = p) /\
  (rc = SOC_OK -> soc_perf_read p' offset = Ok value) /\
  (offset = SOC_PERF_CTRL_OFF ->
     p_enabled p' = Z.testbit value 0 /\
     (Z.testbit value 1 = true ->
        p_cycles p' = 0 /\ p_mem_acc p' = 0 /\ p_dma_bytes p' = 0 /\
        p_irq_count p' = 0 /\ p_stalls p' = 0)).
Proof.
  intros Hwf Hv. destruct (soc_perf_write p offset value) as [rc p'] eqn:E.
  split; [by eapply soc_perf_write_wf|]. revert E. unfold soc_perf_write.
  case_switch; intros [= <- <-]; subst; unfold soc_perf_read; simpl;
    autorewrite with bits in *; split_and!; try done; try set_solver; auto;
    intros; (split; [done|]); intros; try congruence; split_and!; done.
Qed.

Lemma soc_perf_write_spec_witness :
  p_enabled (snd (soc_perf_write soc_perf_init SOC_PERF_CTRL_OFF 3)) = true /\
  soc_perf_read (snd (soc_perf_write soc_perf_init SOC_PERF_CTRL_OFF 3)) SOC_PERF_CTRL_OFF = Ok 3.
Proof.
  destruct (soc_perf_write_spec soc_perf_init SOC_PERF_CTRL_OFF 3 soc_perf_init_wf)
    as (_ & _ & _ & Hread & Hctrl); [done|].
  split; [by apply Hctrl|by apply Hread].
Defined.
