(* ===== verification/Intc.v ===== *)
(** Interrupt controller: [soc_c/src/soc_intc.c].

    Three lines, fixed priority TIMER > DMA > UART, pending bits that
    coalesce, read-to-acknowledge.  [Spec] is the controller as sets of lines;
    the refinement theorem says that the register file implements it, and the
    storm theorem what acknowledging any sequence of raises returns. *)

From S2P Require Import Prelude Regions Perf.

Definition SOC_INTC_ENABLE_OFF : Z := 0x00.
Definition SOC_INTC_PENDING_OFF : Z := 0x04.
Definition SOC_INTC_ACK_OFF : Z := 0x08.
Definition SOC_INTC_CLEAR_OFF : Z := 0x0C.
Definition SOC_INTC_ACTIVE_OFF : Z := 0x10.

Definition SOC_IRQ_UART : Z := 0.
Definition SOC_IRQ_TIMER : Z := 1.
Definition SOC_IRQ_DMA : Z := 2.
Definition SOC_IRQ_NONE : Z := 0xFFFFFFFF.
Definition SOC_N_LINES : Z := 3.

Record soc_intc_t : Type := Mk_soc_intc {
  ic_enable : Z;
  ic_pending : Z;
  ic_active : Z;
  ic_perf : ptr
}.

#[export] Instance settable_intc : Settable soc_intc_t :=
  {| eta_record := fun ic => Mk_soc_intc (ic_enable ic) (ic_pending ic) (ic_active ic) (ic_perf ic) |}.

Definition kPriority : list Z := [SOC_IRQ_TIMER; SOC_IRQ_DMA; SOC_IRQ_UART].

Definition soc_intc_init (perf : ptr) : soc_intc_t := {|
  ic_enable := 0; ic_pending := 0; ic_active := 0; ic_perf := perf
|}.

Definition soc_intc_reset (ic : soc_intc_t) : soc_intc_t :=
  ic <| ic_enable := 0 |> <| ic_pending := 0 |> <| ic_active := 0 |>.

Definition soc_intc_raise (ic : soc_intc_t) (line : Z) : soc_intc_t :=
  if (0 <=? line) && (line <? SOC_N_LINES)
  then ic <| ic_pending := Z.lor (ic_pending ic) (Z.shiftl 1 line) |>
  else ic.

(** The [for] loop of [soc_intc_highest] over [kPriority]. *)
Fixpoint first_gated (gated : Z) (lines : list Z) : Z :=
  match lines with
  | [] => -1
  | l :: lines' => if tst gated (Z.shiftl 1 l) then l else first_gated gated lines'
  end.

Definition soc_intc_highest (ic : soc_intc_t) : Z :=
  let gated := Z.land (Z.land (ic_pending ic) (ic_enable ic)) 0x7 in
  first_gated gated kPriority.

Definition soc_intc_read (ic : soc_intc_t) (perf : soc_perf_t) (offset : Z)
  : result Z * soc_intc_t * soc_perf_t :=
  if offset =? SOC_INTC_ENABLE_OFF then (Ok (ic_enable ic), ic, perf)
  else if offset =? SOC_INTC_PENDING_OFF then (Ok (ic_pending ic), ic, perf)
  else if offset =? SOC_INTC_ACTIVE_OFF then (Ok (ic_active ic), ic, perf)
  else if offset =? SOC_INTC_ACK_OFF then
    let line := soc_intc_highest ic in
    if line <? 0 then (Ok SOC_IRQ_NONE, ic, perf)
    else
      let ic := ic <| ic_pending := Z.land (ic_pending ic) (not32 (Z.shiftl 1 line)) |> in
      let ic := ic <| ic_active := Z.lor (ic_active ic) (Z.shiftl 1 line) |> in
      let perf := if linked (ic_perf ic) then soc_perf_count_irq perf else perf in
      (Ok line, ic, perf)
  else (Err SOC_ERR_BUS, ic, perf).

Definition soc_intc_write (ic : soc_intc_t) (offset value : Z) : Z * soc_intc_t :=
  if offset =? SOC_INTC_ENABLE_OFF then (SOC_OK, ic <| ic_enable := Z.land value 0x7 |>)
  else if offset =? SOC_INTC_CLEAR_OFF then
    (SOC_OK,
     if value <? SOC_N_LINES
     then ic <| ic_active := Z.land (ic_active ic) (not32 (Z.shiftl 1 value)) |>
     else ic)
  else (SOC_ERR_BUS, ic).

#[global] Arguments soc_intc_raise : simpl never.

(** * Well-formedness *)

(** Only the three lines have bits. *)
Record intc_wf (ic : soc_intc_t) : Prop := {
  iwf_enable : fits 3 (ic_enable ic);
  iwf_pending : fits 3 (ic_pending ic);
  iwf_active : fits 3 (ic_active ic)
}.

Lemma fits_0 w : 0 <= w -> fits w 0.
Proof. intros. split; [done|]. by apply Z.pow_pos_nonneg. Qed.

Lemma fits3_u32 x : fits 3 x -> is_u32 x.
Proof. intros H. by apply (fits_mono 3 32). Qed.

Lemma fits_clear w v m : 0 <= w -> fits w v -> fits w (Z.land v (not32 m)).
Proof. apply fits_land_l. Qed.

Lemma is_line_cases line : 0 <= line < SOC_N_LINES -> line = 0 \/ line = 1 \/ line = 2.
Proof. unfold SOC_N_LINES. lia. Qed.

Lemma soc_intc_raise_wf ic line : intc_wf ic -> intc_wf (soc_intc_raise ic line).
Proof.
  intros Hwf. unfold soc_intc_raise.
  destruct (Z.leb_spec 0 line), (Z.ltb_spec line SOC_N_LINES); simpl; try done.
  destruct Hwf. split; simpl; try done. apply fits_lor; [done..|].
  apply fits_shiftl1. unfold SOC_N_LINES in *. lia.
Qed.

Lemma first_gated_cases gated lines :
  first_gated gated lines = -1 \/ first_gated gated lines ∈ lines.
Proof.
  induction lines as [|l lines IH]; simpl; [by left|].
  destruct (tst gated (Z.shiftl 1 l)); set_solver.
Qed.

Lemma soc_intc_highest_line ic :
  soc_intc_highest ic = -1 \/ 0 <= soc_intc_highest ic < SOC_N_LINES.
Proof.
  unfold soc_intc_highest. destruct (first_gated_cases
    (Z.land (Z.land (ic_pending ic) (ic_enable ic)) 0x7) kPriority) as [?|H]; [by left|right].
  unfold kPriority in *. repeat (apply elem_of_cons in H as [->|H]; [done|]).
  by apply not_elem_of_nil in H.
Qed.

Lemma soc_intc_read_wf ic perf offset r ic' perf' :
  intc_wf ic -> perf_wf perf -> soc_intc_read ic perf offset = (r, ic', perf') ->
  intc_wf ic' /\ perf_wf perf'.
Proof.
  intros Hi Hp. unfold soc_intc_read. pose proof Hi as [].
  destruct (soc_intc_highest_line ic) as [->|Hl]; [case_switch; intros [= <- <- <-]; done|].
  case_switch; intros [= <- <- <-]; (split; [|by auto with soc]); try done; split; simpl;
    try done; try by apply fits_clear.
  all: apply fits_lor; try done; apply fits_shiftl1; unfold SOC_N_LINES in *; lia.
Qed.

Lemma soc_intc_write_wf ic offset value rc ic' :
  intc_wf ic -> soc_intc_write ic offset value = (rc, ic') -> intc_wf ic'.
Proof.
  intros Hi. unfold soc_intc_write. pose proof Hi as [].
  case_switch; intros [= <- <-]; try done; split; simpl; try done; try by apply fits_clear.
  by apply fits_land_r.
Qed.

#[export] Hint Resolve soc_intc_raise_wf : soc.

(** The link to the performance counters never changes. *)
Lemma soc_intc_raise_perf ic line : ic_perf (soc_intc_raise ic line) = ic_perf ic.
Proof. unfold soc_intc_raise. by case_match. Qed.

Lemma soc_intc_read_perf ic perf offset r ic' perf' :
  soc_intc_read ic perf offset = (r, ic', perf') -> ic_perf ic' = ic_perf ic.
Proof. unfold soc_intc_read. case_switch; by intros [= <- <- <-]. Qed.

Lemma soc_intc_write_perf ic offset value rc ic' :
  soc_intc_write ic offset value = (rc, ic') -> ic_perf ic' = ic_perf ic.
Proof. unfold soc_intc_write. case_switch; by intros [= <- <-]. Qed.

(** * The controller as sets of lines *)

Module Spec.

Inductive line : Set := UART | TIMER | DMA.

#[global] Instance line_eq_dec : EqDecision line.
Proof. solve_decision. Defined.

Definition number (l : line) : Z :=
  match l with UART => SOC_IRQ_UART | TIMER => SOC_IRQ_TIMER | DMA => SOC_IRQ_DMA end.

Definition by_priority : list line := [TIMER; DMA; UART].

(** A set of lines is its members in priority order. *)
Record state : Type := Mk_state {
  enabled : list line;
  pending : list line;
  active : list line
}.

Definition insert (l : line) (s : list line) : list line :=
  filter (fun k => k = l \/ k ∈ s) by_priority.

Definition remove (l : line) (s : list line) : list line := filter (fun k => k <> l) s.

(** What an acknowledge chooses from: pending and enabled, best first. *)
Definition ready (st : state) : list line := filter (fun k => k ∈ enabled st) (pending st).

Definition raise (l : line) (st : state) : state :=
  Mk_state (enabled st) (insert l (pending st)) (active st).

Definition ack (st : state) : option line * state :=
  match ready st with
  | [] => (None, st)
  | l :: _ => (Some l, Mk_state (enabled st) (remove l (pending st)) (insert l (active st)))
  end.

Definition clear (l : line) (st : state) : state :=
  Mk_state (enabled st) (pending st) (remove l (active st)).

Definition enable (s : list line) (st : state) : state :=
  Mk_state s (pending st) (active st).

End Spec.

Definition lines_of (w : Z) : list Spec.line :=
  filter (fun l => Z.testbit w (Spec.number l) = true) Spec.by_priority.

Definition abs (ic : soc_intc_t) : Spec.state :=
  Spec.Mk_state (lines_of (ic_enable ic)) (lines_of (ic_pending ic)) (lines_of (ic_active ic)).

(** The value ACK returns for the chosen line. *)
Definition ack_value (l : option Spec.line) : Z :=
  match l with Some l => Spec.number l | None => SOC_IRQ_NONE end.

Lemma number_range l : 0 <= Spec.number l < SOC_N_LINES.
Proof. by destruct l. Qed.

Lemma number_of_line line : 0 <= line < SOC_N_LINES -> exists l, line = Spec.number l.
Proof.
  intros H. destruct (is_line_cases line H) as [E|[E|E]]; rewrite E;
    [by exists Spec.UART|by exists Spec.TIMER|by exists Spec.DMA].
Qed.

Lemma elem_of_lines_of w l : l ∈ lines_of w <-> Z.testbit w (Spec.number l) = true.
Proof.
  unfold lines_of. rewrite list_elem_of_filter. split; [by intros []|].
  intros H. split; [done|]. destruct l; unfold Spec.by_priority; set_solver.
Qed.

(** [filter] over the priority list only depends on membership. *)
Lemma lines_filter_ext (P Q : Spec.line -> Prop)
    `{forall l, Decision (P l)} `{forall l, Decision (Q l)} (s : list Spec.line) :
  (forall l, l ∈ s -> P l <-> Q l) -> filter P s = filter Q s.
Proof.
  induction s as [|l s IH]; intros Hext; [done|].
  rewrite !filter_cons. rewrite IH by set_solver.
  assert (P l <-> Q l) as Hl by (apply Hext; set_solver).
  by destruct (decide (P l)), (decide (Q l)); try tauto.
Qed.

Lemma lines_of_ext w v :
  (forall l, Z.testbit w (Spec.number l) = Z.testbit v (Spec.number l)) -> lines_of w = lines_of v.
Proof. intros H. apply lines_filter_ext. intros l _. by rewrite H. Qed.

Lemma lines_of_lor w l :
  lines_of (Z.lor w (Z.shiftl 1 (Spec.number l))) = Spec.insert l (lines_of w).
Proof.
  apply lines_filter_ext. intros k _. pose proof (number_range l). pose proof (number_range k).
  rewrite Z.lor_spec, testbit_shiftl1, elem_of_lines_of, orb_true_iff, Z.eqb_eq by lia.
  assert (Spec.number l = Spec.number k <-> k = l) as -> by (by destruct l, k).
  tauto.
Qed.

Lemma filter_filter_lines (P Q : Spec.line -> Prop)
    `{forall l, Decision (P l)} `{forall l, Decision (Q l)} (s : list Spec.line) :
  filter P (filter Q s) = filter (fun l => P l /\ Q l) s.
Proof. apply list_filter_filter. Qed.

Lemma lines_of_clear w l :
  fits 3 w ->
  lines_of (Z.land w (not32 (Z.shiftl 1 (Spec.number l)))) = Spec.remove l (lines_of w).
Proof.
  intros Hw. unfold Spec.remove, lines_of. rewrite filter_filter_lines.
  apply lines_filter_ext. intros k _. pose proof (number_range l). pose proof (number_range k).
  rewrite land_not32 by by apply fits3_u32.
  rewrite Z.ldiff_spec, testbit_shiftl1, andb_true_iff, negb_true_iff, Z.eqb_neq by lia.
  assert (Spec.number l <> Spec.number k <-> k <> l) as -> by (by destruct l, k).
  tauto.
Qed.

Lemma ready_abs ic :
  Spec.ready (abs ic) = lines_of (Z.land (ic_pending ic) (ic_enable ic)).
Proof.
  unfold Spec.ready, abs. cbn [Spec.pending Spec.enabled].
  transitivity (filter (fun k => k ∈ lines_of (ic_enable ic))
    (filter (fun l => Z.testbit (ic_pending ic) (Spec.number l) = true) Spec.by_priority)); [done|].
  rewrite filter_filter_lines. apply lines_filter_ext. intros k _.
  rewrite elem_of_lines_of, Z.land_spec, andb_true_iff. tauto.
Qed.

(** The loop of [soc_intc_highest] finds the head of the ready lines. *)
Lemma soc_intc_highest_ready ic :
  soc_intc_highest ic =
    match Spec.ready (abs ic) with [] => -1 | l :: _ => Spec.number l end.
Proof.
  rewrite ready_abs. unfold soc_intc_highest, kPriority, lines_of, Spec.by_priority.
  set (w := Z.land (ic_pending ic) (ic_enable ic)).
  cbn [first_gated]. rewrite !tst_bit by done. rewrite !Z.land_spec.
  change (Z.testbit 0x7 SOC_IRQ_TIMER) with true. change (Z.testbit 0x7 SOC_IRQ_DMA) with true.
  change (Z.testbit 0x7 SOC_IRQ_UART) with true. rewrite !andb_true_r, !filter_cons, filter_nil.
  cbn [Spec.number].
  by destruct (Z.testbit w SOC_IRQ_TIMER), (Z.testbit w SOC_IRQ_DMA), (Z.testbit w SOC_IRQ_UART).
Qed.

(** * Refinement *)

Lemma raise_refines ic line :
  abs (soc_intc_raise ic line) =
    if (0 <=? line) && (line <? SOC_N_LINES)
    then Spec.Mk_state (Spec.enabled (abs ic))
           (lines_of (Z.lor (ic_pending ic) (Z.shiftl 1 line))) (Spec.active (abs ic))
    else abs ic.
Proof. unfold soc_intc_raise. by destruct (_ && _). Qed.

Lemma raise_line_refines ic l : abs (soc_intc_raise ic (Spec.number l)) = Spec.raise l (abs ic).
Proof.
  rewrite raise_refines, lines_of_lor. by destruct l.
Qed.

Lemma ack_refines ic perf :
  intc_wf ic ->
  let '(r, ic', perf') := soc_intc_read ic perf SOC_INTC_ACK_OFF in
  r = Ok (ack_value (fst (Spec.ack (abs ic)))) /\
  abs ic' = snd (Spec.ack (abs ic)) /\
  ic_perf ic' = ic_perf ic /\ ic_enable ic' = ic_enable ic /\
  perf' = match fst (Spec.ack (abs ic)) with
          | Some _ => if linked (ic_perf ic) then soc_perf_count_irq perf else perf
          | None => perf
          end.
Proof.
  intros [_ Hp _]. unfold soc_intc_read. simpl (SOC_INTC_ACK_OFF =? _).
  rewrite soc_intc_highest_ready. unfold Spec.ack.
  destruct (Spec.ready (abs ic)) as [|l q]; [done|].
  pose proof (number_range l). destruct (Z.ltb_spec (Spec.number l) 0); [lia|].
  split; [done|]. split; [|done]. unfold abs. cbn [fst snd].
  change (ic_enable (_ <| ic_active := _ |>)) with (ic_enable ic).
  change (ic_active (_ <| ic_active := ?x |>)) with x.
  change (ic_pending (_ <| ic_active := _ |>))
    with (Z.land (ic_pending ic) (not32 (Z.shiftl 1 (Spec.number l)))).
  by rewrite lines_of_clear, lines_of_lor.
Qed.

Lemma clear_refines ic value rc ic' :
  intc_wf ic -> is_u32 value -> soc_intc_write ic SOC_INTC_CLEAR_OFF value = (rc, ic') ->
  rc = SOC_OK /\
  abs ic' = match value with
            | 0 => Spec.clear Spec.UART (abs ic)
            | 1 => Spec.clear Spec.TIMER (abs ic)
            | 2 => Spec.clear Spec.DMA (abs ic)
            | _ => abs ic
            end.
Proof.
  intros [_ _ Ha] Hv. unfold soc_intc_write. simpl (SOC_INTC_CLEAR_OFF =? _).
  intros [= <- <-]. split; [done|]. unfold is_u32 in Hv.
  destruct (Z.ltb_spec value SOC_N_LINES) as [Hlt|Hge].
  - destruct (number_of_line value ltac:(lia)) as [l ->].
    transitivity (Spec.clear l (abs ic)); [|by destruct l].
    unfold abs, Spec.clear. simpl. by rewrite lines_of_clear.
  - unfold SOC_N_LINES in Hge. destruct value as [|p|p]; [lia| |lia].
    destruct p as [p|p|]; try lia; [done|]. destruct p; try lia; done.
Qed.

(** * Draining *)

(** [n] reads of ACK in a row, and the values they return. *)
Fixpoint acks (n : nat) (ic : soc_intc_t) (perf : soc_perf_t)
  : list (result Z) * soc_intc_t * soc_perf_t :=
  match n with
  | O => ([], ic, perf)
  | S n =>
      let '(r, ic, perf) := soc_intc_read ic perf SOC_INTC_ACK_OFF in
      let '(rs, ic, perf) := acks n ic perf in
      (r :: rs, ic, perf)
  end.

Lemma NoDup_lines_of w : NoDup (lines_of w).
Proof.
  apply NoDup_filter. unfold Spec.by_priority.
  repeat constructor; set_solver.
Qed.

Lemma remove_notin l (s : list Spec.line) : l ∉ s -> Spec.remove l s = s.
Proof.
  intros Hl. unfold Spec.remove. induction s as [|k s IH]; [done|].
  rewrite filter_cons, decide_True by set_solver. f_equal. apply IH. set_solver.
Qed.

(** Acknowledging the best ready line leaves the others ready, in order. *)
Lemma ready_after_ack st l q :
  Spec.ready st = l :: q -> NoDup (Spec.pending st) ->
  Spec.ready (snd (Spec.ack st)) = q.
Proof.
  intros Hr Hnd. unfold Spec.ack. rewrite Hr. unfold Spec.ready in *. simpl.
  transitivity (Spec.remove l (filter (fun k => k ∈ Spec.enabled st) (Spec.pending st))).
  { unfold Spec.remove. rewrite !list_filter_filter. apply lines_filter_ext. naive_solver. }
  rewrite Hr. assert (NoDup (l :: q)) as Hnd' by (rewrite <- Hr; by apply NoDup_filter).
  apply NoDup_cons in Hnd' as [Hl _].
  unfold Spec.remove. rewrite filter_cons, decide_False by tauto. by apply remove_notin.
Qed.

Lemma take_pad {A} n (s : list A) x :
  take n (s ++ replicate n x) = take n (s ++ x :: replicate n x).
Proof.
  change (x :: replicate n x) with (replicate (S n) x).
  rewrite replicate_S_end, app_assoc, (take_app_le (s ++ replicate n x) [x]); [done|].
  rewrite length_app, length_replicate. lia.
Qed.

Lemma acks_ready n ic perf :
  intc_wf ic -> perf_wf perf ->
  let '(rs, ic', perf') := acks n ic perf in
  let q := Spec.ready (abs ic) in
  rs = take n ((Ok ∘ Spec.number <$> q) ++ replicate n (Ok SOC_IRQ_NONE)) /\
  intc_wf ic' /\ ic_enable ic' = ic_enable ic /\
  Spec.ready (abs ic') = drop n q /\
  perf' = (if linked (ic_perf ic) then Nat.iter (n `min` length q) soc_perf_count_irq perf else perf).
Proof.
  revert ic perf. induction n as [|n IH]; intros ic perf Hi Hp; simpl.
  { split_and!; try done. by destruct (linked _). }
  destruct (soc_intc_read ic perf SOC_INTC_ACK_OFF) as [[r ic1] perf1] eqn:E.
  destruct (soc_intc_read_wf _ _ _ _ _ _ Hi Hp E) as [Hi1 Hp1].
  pose proof (ack_refines ic perf Hi) as Hack. rewrite E in Hack.
  destruct Hack as (-> & Habs & Hlk & Hen & ->).
  specialize (IH ic1 _ Hi1 Hp1). destruct (acks n ic1 _) as [[rs ic2] perf2].
  destruct IH as (-> & Hi2 & Hen2 & Hr2 & ->).
  rewrite Habs in *. unfold Spec.ack in *. destruct (Spec.ready (abs ic)) as [|l q] eqn:Hq.
  - simpl in *. rewrite Hq in *. simpl. rewrite !drop_nil, Nat.min_0_r in *.
    split_and!; try congruence. by rewrite Hlk.
  - pose proof (ready_after_ack (abs ic) l q Hq ltac:(apply NoDup_lines_of)) as Hq1.
    unfold Spec.ack in Hq1. rewrite Hq in Hq1. simpl in *. rewrite Hq1 in *.
    split_and!; try congruence.
    + f_equal. by apply take_pad.
    + rewrite Hlk. destruct (linked (ic_perf ic)); [|done].
      by rewrite <- Nat.iter_succ_r.
Qed.

(** * Properties *)

(** C8. The interrupt controller implements the abstract priority arbiter: raise, acknowledge,
    enable and clear are simulated step by step, and an acknowledge is counted exactly
    when a line is delivered. *)
Theorem soc_intc_refines_spec ic perf :
  intc_wf ic -> perf_wf perf ->
  (forall l, abs (soc_intc_raise ic (Spec.number l)) = Spec.raise l (abs ic)) /\
  (forall line, line < 0 \/ SOC_N_LINES <= line -> soc_intc_raise ic line = ic) /\
  (forall r ic' perf', soc_intc_read ic perf SOC_INTC_ACK_OFF = (r, ic', perf') ->
     r = Ok (ack_value (fst (Spec.ack (abs ic)))) /\ abs ic' = snd (Spec.ack (abs ic)) /\
     intc_wf ic' /\
     perf' = (if decide (fst (Spec.ack (abs ic)) = None) then perf
              else if linked (ic_perf ic) then soc_perf_count_irq perf else perf)) /\
  (forall offset r ic' perf', offset <> SOC_INTC_ACK_OFF ->
     soc_intc_read ic perf offset = (r, ic', perf') -> ic' = ic /\ perf' = perf) /\
  (forall value rc ic', is_u32 value ->
     soc_intc_write ic SOC_INTC_ENABLE_OFF value = (rc, ic') ->
     rc = SOC_OK /\ abs ic' = Spec.enable (lines_of value) (abs ic)) /\
  (forall value rc ic', is_u32 value ->
     soc_intc_write ic SOC_INTC_CLEAR_OFF value = (rc, ic') ->
     rc = SOC_OK /\
     abs ic' = match value with
               | 0 => Spec.clear Spec.UART (abs ic)
               | 1 => Spec.clear Spec.TIMER (abs ic)
               | 2 => Spec.clear Spec.DMA (abs ic)
               | _ => abs ic
               end).
Proof.
  intros Hi Hp. split_and!.
  - intros l. apply raise_line_refines.
  - intros line Hl. unfold soc_intc_raise.
    by destruct (Z.leb_spec 0 line), (Z.ltb_spec line SOC_N_LINES); simpl; try lia.
  - intros r ic' perf' E. pose proof (ack_refines ic perf Hi) as H. rewrite E in H.
    destruct H as (Hr & Ha & _ & _ & Hpf). split_and!; [done|done|by eapply soc_intc_read_wf|].
    by destruct (fst (Spec.ack (abs ic))); case_decide.
  - intros offset r ic' perf' Hne. unfold soc_intc_read. case_switch; intros; by simplify_eq.
  - intros value rc ic' Hv. unfold soc_intc_write. simpl (_ =? _). intros [= <- <-].
    split; [done|]. unfold abs, Spec.enable. simpl. f_equal. apply lines_of_ext.
    intros l. rewrite Z.land_spec. by destruct l; rewrite andb_true_r.
  - intros value rc ic' Hv E. by eapply clear_refines.
Qed.

Lemma soc_intc_refines_spec_witness :
  abs (soc_intc_raise (soc_intc_init LINKED) 2) = Spec.raise Spec.DMA (abs (soc_intc_init LINKED)).
Proof.
  assert (intc_wf (soc_intc_init LINKED)) as Hwf by (constructor; unfold fits; simpl; lia).
  exact (proj1 (soc_intc_refines_spec _ _ Hwf soc_perf_init_wf) Spec.DMA).
Defined.

Lemma raises_pending ic ls k :
  intc_wf ic ->
  intc_wf (foldl soc_intc_raise ic ls) /\
  ic_enable (foldl soc_intc_raise ic ls) = ic_enable ic /\
  Z.testbit (ic_pending (foldl soc_intc_raise ic ls)) (Spec.number k) =
    Z.testbit (ic_pending ic) (Spec.number k) || bool_decide (Spec.number k ∈ ls).
Proof.
  revert ic. induction ls as [|line ls IH]; intros ic Hi; cbn [foldl].
  { rewrite (bool_decide_eq_false_2 (Spec.number k ∈ [])) by set_solver. by rewrite orb_false_r. }
  destruct (IH (soc_intc_raise ic line)) as (Hwf & Hen & Hb); [by apply soc_intc_raise_wf|].
  split; [done|]. rewrite Hen, Hb. pose proof (number_range k). unfold soc_intc_raise.
  destruct (Z.leb_spec 0 line), (Z.ltb_spec line SOC_N_LINES); simpl; split; try done.
  2-4: cbn [andb]; f_equal; apply bool_decide_ext; rewrite elem_of_cons; split; [auto|intros [?|?]; [lia|done]].
  rewrite Z.lor_spec, testbit_shiftl1, <- orb_assoc by lia. f_equal.
  destruct (Z.eqb_spec line (Spec.number k)) as [->|]; simpl; [|apply bool_decide_ext; set_solver].
  symmetry. apply bool_decide_eq_true_2. set_solver.
Qed.

(** C26. An interrupt storm: any sequence of raises, repeated and out-of-range
    lines included, is acknowledged once per raised line, best line first. *)
Theorem soc_intc_storm ic perf ls :
  intc_wf ic -> perf_wf perf -> ic_enable ic = 0x7 -> ic_pending ic = 0 ->
  fst (fst (acks 4 (foldl soc_intc_raise ic ls) perf)) =
    take 4 ((Ok ∘ Spec.number <$> filter (fun l => Spec.number l ∈ ls) Spec.by_priority)
            ++ replicate 4 (Ok SOC_IRQ_NONE)).
Proof.
  intros Hi Hp Hen Hpend.
  destruct (raises_pending ic ls Spec.UART Hi) as (Hwf & He & _).
  pose proof (acks_ready 4 (foldl soc_intc_raise ic ls) perf Hwf Hp) as H.
  destruct (acks 4 _ perf) as [[rs ic'] perf']. destruct H as (-> & _). cbn [fst].
  do 3 f_equal. rewrite ready_abs. apply lines_filter_ext. intros k _.
  destruct (raises_pending ic ls k Hi) as (_ & _ & Hk).
  rewrite Z.land_spec, Hk, He, Hen, Hpend, Z.bits_0. simpl.
  replace (Z.testbit 7 (Spec.number k)) with true by (by destruct k).
  by rewrite andb_true_r, bool_decide_eq_true.
Qed.

Lemma soc_intc_storm_witness :
  fst (fst (acks 4 (foldl soc_intc_raise (Mk_soc_intc 0x7 0 0 LINKED) [2; 1; 9; 2; -1]) soc_perf_init)) =
    [Ok 1; Ok 2; Ok SOC_IRQ_NONE; Ok SOC_IRQ_NONE].
Proof.
  rewrite (soc_intc_storm (Mk_soc_intc 0x7 0 0 LINKED) soc_perf_init [2; 1; 9; 2; -1]);
    [vm_compute; done|constructor; unfold fits; simpl; lia|apply soc_perf_init_wf|done..].
Defined.
