(* ===== verification/Timer.v ===== *)
(** Countdown timer: [soc_c/src/soc_timer.c].

    One-shot or periodic, raising INTC line 1 through its [intc] pointer.  The
    theorems give closed forms for any number of ticks: when a one-shot timer
    fires and what it leaves, the value and the firings of a periodic timer,
    and that a disabled timer or one with LOAD = 0 never moves. *)

From S2P Require Import Prelude Regions Perf Intc.

Definition SOC_TIMER_CTRL_OFF : Z := 0x00.
Definition SOC_TIMER_LOAD_OFF : Z := 0x04.
Definition SOC_TIMER_VALUE_OFF : Z := 0x08.
Definition SOC_TIMER_IRQ_STATUS_OFF : Z := 0x0C.
Definition SOC_TIMER_IRQ_CLEAR_OFF : Z := 0x10.

Definition SOC_TIMER_CTRL_ENABLE : Z := Z.shiftl 1 0.
Definition SOC_TIMER_CTRL_PERIODIC : Z := Z.shiftl 1 1.
Definition SOC_TIMER_CTRL_IRQ_ENABLE : Z := Z.shiftl 1 2.
Definition SOC_TIMER_IRQ_FIRED : Z := Z.shiftl 1 0.

Definition SOC_TIMER_IRQ_LINE : Z := 1.

Record soc_timer_t : Type := Mk_soc_timer {
  tm_intc : ptr;
  tm_ctrl : Z;
  tm_load : Z;
  tm_value : Z;
  tm_irq_status : Z
}.

#[export] Instance settable_timer : Settable soc_timer_t :=
  {| eta_record := fun t =>
       Mk_soc_timer (tm_intc t) (tm_ctrl t) (tm_load t) (tm_value t) (tm_irq_status t) |}.

Definition soc_timer_init (intc : ptr) : soc_timer_t := {|
  tm_intc := intc; tm_ctrl := 0; tm_load := 0; tm_value := 0; tm_irq_status := 0
|}.

Definition soc_timer_reset (t : soc_timer_t) : soc_timer_t :=
  t <| tm_ctrl := 0 |> <| tm_load := 0 |> <| tm_value := 0 |> <| tm_irq_status := 0 |>.

Definition soc_timer_read (t : soc_timer_t) (offset : Z) : result Z :=
  if offset =? SOC_TIMER_CTRL_OFF then Ok (tm_ctrl t)
  else if offset =? SOC_TIMER_LOAD_OFF then Ok (tm_load t)
  else if offset =? SOC_TIMER_VALUE_OFF then Ok (tm_value t)
  else if offset =? SOC_TIMER_IRQ_STATUS_OFF then Ok (tm_irq_status t)
  else Err SOC_ERR_BUS.

(** [if (value & FIRED) t->irq_status &= ~FIRED;] *)
Definition timer_w1c (t : soc_timer_t) (value : Z) : soc_timer_t :=
  if tst value SOC_TIMER_IRQ_FIRED
  then t <| tm_irq_status := Z.land (tm_irq_status t) (not32 SOC_TIMER_IRQ_FIRED) |>
  else t.

Definition soc_timer_write (t : soc_timer_t) (offset value : Z) : Z * soc_timer_t :=
  if offset =? SOC_TIMER_CTRL_OFF then
    let was_enabled := tst (tm_ctrl t) SOC_TIMER_CTRL_ENABLE in
    let t := t <| tm_ctrl := value |> in
    let now_enabled := tst (tm_ctrl t) SOC_TIMER_CTRL_ENABLE in
    (SOC_OK,
     if now_enabled && negb was_enabled && (tm_value t =? 0)
     then t <| tm_value := tm_load t |>
     else t)
  else if offset =? SOC_TIMER_LOAD_OFF then (SOC_OK, t <| tm_load := value |>)
  else if offset =? SOC_TIMER_IRQ_STATUS_OFF then (SOC_OK, timer_w1c t value)
  else if offset =? SOC_TIMER_IRQ_CLEAR_OFF then (SOC_OK, timer_w1c t value)
  else (SOC_ERR_BUS, t).

Definition soc_timer_step (t : soc_timer_t) (ic : soc_intc_t) : soc_timer_t * soc_intc_t :=
  if negb (tst (tm_ctrl t) SOC_TIMER_CTRL_ENABLE) then (t, ic)
  else if tm_load t =? 0 then (t, ic)
  else
    let t := if 0 <? tm_value t then t <| tm_value := u32 (tm_value t - 1) |> else t in
    if tm_value t =? 0 then
      let t := t <| tm_irq_status := Z.lor (tm_irq_status t) SOC_TIMER_IRQ_FIRED |> in
      let ic := if tst (tm_ctrl t) SOC_TIMER_CTRL_IRQ_ENABLE && linked (tm_intc t)
                then soc_intc_raise ic SOC_TIMER_IRQ_LINE else ic in
      let t := if tst (tm_ctrl t) SOC_TIMER_CTRL_PERIODIC
               then t <| tm_value := tm_load t |>
               else t <| tm_ctrl := Z.land (tm_ctrl t) (not32 SOC_TIMER_CTRL_ENABLE) |> in
      (t, ic)
    else (t, ic).

(** [n] ticks of the timer alone. *)
Definition timer_steps (n : nat) (t : soc_timer_t) (ic : soc_intc_t) : soc_timer_t * soc_intc_t :=
  Nat.iter n (fun s => soc_timer_step (fst s) (snd s)) (t, ic).

(** * Well-formedness *)

Record timer_wf (t : soc_timer_t) : Prop := {
  twf_ctrl : is_u32 (tm_ctrl t);
  twf_load : is_u32 (tm_load t);
  twf_value : is_u32 (tm_value t);
  twf_irq_status : is_u32 (tm_irq_status t)
}.

Lemma tst_timer_enable v : tst v SOC_TIMER_CTRL_ENABLE = Z.testbit v 0.
Proof. by apply tst_bit. Qed.
Lemma tst_timer_periodic v : tst v SOC_TIMER_CTRL_PERIODIC = Z.testbit v 1.
Proof. by apply tst_bit. Qed.
Lemma tst_timer_irq_enable v : tst v SOC_TIMER_CTRL_IRQ_ENABLE = Z.testbit v 2.
Proof. by apply tst_bit. Qed.
Lemma tst_timer_fired v : tst v SOC_TIMER_IRQ_FIRED = Z.testbit v 0.
Proof. by apply tst_bit. Qed.

#[export] Hint Rewrite tst_timer_enable tst_timer_periodic tst_timer_irq_enable
  tst_timer_fired : bits.

Lemma is_u32_shiftl1 n : 0 <= n < 32 -> is_u32 (Z.shiftl 1 n).
Proof. intros. by apply (fits_shiftl1 32). Qed.

Lemma soc_timer_step_wf t ic :
  timer_wf t -> intc_wf ic ->
  timer_wf (fst (soc_timer_step t ic)) /\ intc_wf (snd (soc_timer_step t ic)).
Proof.
  intros Ht Hi. pose proof Ht as []. unfold soc_timer_step.
  assert (is_u32 (Z.lor (tm_irq_status t) SOC_TIMER_IRQ_FIRED)) as Hf
    by (apply is_u32_lor; [done|by apply is_u32_shiftl1]).
  case_switch; (split; simpl; [split; simpl|]); auto using is_u32_land with soc.
Qed.

Lemma soc_timer_write_wf t offset value rc t' :
  timer_wf t -> is_u32 value -> soc_timer_write t offset value = (rc, t') -> timer_wf t'.
Proof.
  intros Ht Hv. pose proof Ht as []. unfold soc_timer_write, timer_w1c.
  case_switch; intros [= <- <-]; try split; simpl; auto using is_u32_land with soc.
Qed.

Lemma soc_timer_write_link t offset value rc t' :
  soc_timer_write t offset value = (rc, t') -> tm_intc t' = tm_intc t.
Proof. unfold soc_timer_write, timer_w1c. case_switch; by intros [= <- <-]. Qed.

Lemma soc_timer_step_link t ic :
  tm_intc (fst (soc_timer_step t ic)) = tm_intc t /\
  ic_perf (snd (soc_timer_step t ic)) = ic_perf ic.
Proof. unfold soc_timer_step. case_switch; simpl; rewrite ?soc_intc_raise_perf; done. Qed.

(** * Ticks *)

Lemma timer_steps_S n t ic :
  timer_steps (S n) t ic =
    timer_steps n (fst (soc_timer_step t ic)) (snd (soc_timer_step t ic)).
Proof.
  unfold timer_steps. rewrite Nat.iter_succ_r. simpl. by destruct (soc_timer_step t ic).
Qed.

(** A tick that does not reach 0 only decrements VALUE. *)
Lemma soc_timer_step_count t ic :
  timer_wf t -> Z.testbit (tm_ctrl t) 0 = true -> tm_load t <> 0 -> 1 < tm_value t ->
  soc_timer_step t ic = (t <| tm_value := tm_value t - 1 |>, ic).
Proof.
  intros [_ _ Hv _] He Hl Hgt. unfold soc_timer_step. rewrite tst_timer_enable, He.
  unfold is_u32 in Hv. cbn [negb].
  destruct (Z.eqb_spec (tm_load t) 0); [done|].
  destruct (Z.ltb_spec 0 (tm_value t)); [|lia]. rewrite u32_id by (unfold is_u32; lia).
  cbn [tm_value set_field].
  change (tm_value (t <| tm_value := ?x |>)) with x.
  by destruct (Z.eqb_spec (tm_value t - 1) 0); [lia|].
Qed.

(** What a firing tick leaves. *)
Definition timer_fired_state (t : soc_timer_t) : soc_timer_t :=
  let t := t <| tm_irq_status := Z.lor (tm_irq_status t) SOC_TIMER_IRQ_FIRED |> in
  if Z.testbit (tm_ctrl t) 1 then t <| tm_value := tm_load t |>
  else t <| tm_value := 0 |> <| tm_ctrl := Z.ldiff (tm_ctrl t) 1 |>.

Definition timer_fired_intc (t : soc_timer_t) (ic : soc_intc_t) : soc_intc_t :=
  if Z.testbit (tm_ctrl t) 2 && linked (tm_intc t) then soc_intc_raise ic SOC_TIMER_IRQ_LINE else ic.

Lemma soc_timer_step_fire t ic :
  timer_wf t -> Z.testbit (tm_ctrl t) 0 = true -> tm_load t <> 0 -> tm_value t <= 1 ->
  soc_timer_step t ic = (timer_fired_state t, timer_fired_intc t ic).
Proof.
  intros [Hc _ Hv _] He Hl Hle. unfold soc_timer_step, timer_fired_state, timer_fired_intc.
  rewrite tst_timer_enable, He. cbn [negb]. unfold is_u32 in Hv.
  destruct (Z.eqb_spec (tm_load t) 0); [done|].
  assert (tm_value t = 0 \/ tm_value t = 1) as [E|E] by lia; rewrite E; cbn [Z.ltb Z.compare];
    [change (tm_value t =? 0) with (tm_value t =? 0); rewrite E; cbn [Z.eqb]|].
  all: destruct t as [lk c l v s]; rec_simpl; subst v;
    autorewrite with bits; rewrite land_not32 by done;
    by destruct (Z.testbit c 1).
Qed.

Lemma soc_timer_step_idle t ic :
  Z.testbit (tm_ctrl t) 0 = false \/ tm_load t = 0 -> soc_timer_step t ic = (t, ic).
Proof.
  intros H. unfold soc_timer_step. rewrite tst_timer_enable.
  destruct (Z.testbit (tm_ctrl t) 0); [|done]. destruct H as [|H]; [done|].
  by rewrite H.
Qed.

Lemma soc_intc_raise_idem ic line :
  soc_intc_raise (soc_intc_raise ic line) line = soc_intc_raise ic line.
Proof.
  unfold soc_intc_raise. destruct ((0 <=? line) && (line <? SOC_N_LINES)); [|done].
  destruct ic as [e p a lk]. rec_simpl. f_equal. by rewrite <- Z.lor_assoc, Z.lor_diag.
Qed.

(** The state after [n] ticks of a running periodic timer. *)
Definition periodic_value (load value n : Z) : Z :=
  if n <? value then value - n else load - (n - value) mod load.

Definition periodic_after (n : Z) (t : soc_timer_t) : soc_timer_t :=
  t <| tm_value := periodic_value (tm_load t) (tm_value t) n |>
    <| tm_irq_status := if n <? tm_value t then tm_irq_status t
                        else Z.lor (tm_irq_status t) SOC_TIMER_IRQ_FIRED |>.

Lemma timer_decr_wf t : timer_wf t -> 1 < tm_value t -> timer_wf (t <| tm_value := tm_value t - 1 |>).
Proof. intros []. split; simpl; try done. unfold is_u32 in *. lia. Qed.

Lemma timer_fired_wf t : timer_wf t -> timer_wf (timer_fired_state t).
Proof.
  intros Ht. pose proof Ht as []. unfold timer_fired_state.
  assert (is_u32 (Z.lor (tm_irq_status t) SOC_TIMER_IRQ_FIRED))
    by (apply is_u32_lor; [done|by apply is_u32_shiftl1]).
  case_switch; split; simpl; auto with soc.
  change 1 with (Z.shiftl 1 0). rewrite <- land_not32 by done. by apply is_u32_land.
Qed.

Lemma timer_oneshot_steps n t ic :
  timer_wf t -> Z.testbit (tm_ctrl t) 0 = true -> Z.testbit (tm_ctrl t) 1 = false ->
  tm_load t <> 0 -> 0 < tm_value t ->
  timer_steps n t ic =
    if Z.of_nat n <? tm_value t
    then (t <| tm_value := tm_value t - Z.of_nat n |>, ic)
    else (timer_fired_state t, timer_fired_intc t ic).
Proof.
  revert t ic. induction n as [|n IH]; intros t ic Ht He Hp Hl Hv.
  { destruct (Z.ltb_spec (Z.of_nat 0) (tm_value t)); [|lia].
    destruct t as [lk c l v s]. rec_simpl. by rewrite Z.sub_0_r. }
  rewrite timer_steps_S. destruct (Z.lt_ge_cases 1 (tm_value t)) as [Hgt|Hle].
  - rewrite soc_timer_step_count by done. cbn [fst snd].
    rewrite IH; [|by apply timer_decr_wf|done|done|done|simpl; lia].
    destruct t as [lk c l v s]; rec_simpl.
    destruct (Z.ltb_spec (Z.of_nat n) (v - 1)), (Z.ltb_spec (Z.of_nat (S n)) v); try lia; [|done].
    do 2 f_equal. lia.
  - rewrite soc_timer_step_fire by done. cbn [fst snd].
    destruct (Z.ltb_spec (Z.of_nat (S n)) (tm_value t)); [lia|].
    assert (Z.testbit (tm_ctrl (timer_fired_state t)) 0 = false) as Hoff.
    { unfold timer_fired_state. cbn. rewrite Hp. cbn. by rewrite Z.ldiff_spec, andb_false_r. }
    clear -Hoff. induction n as [|n IH]; [done|].
    by rewrite timer_steps_S, soc_timer_step_idle by auto.
Qed.

Lemma timer_periodic_steps n t ic :
  timer_wf t -> Z.testbit (tm_ctrl t) 0 = true -> Z.testbit (tm_ctrl t) 1 = true ->
  tm_load t <> 0 -> 0 < tm_value t ->
  timer_steps n t ic =
    (periodic_after (Z.of_nat n) t,
     if Z.of_nat n <? tm_value t then ic else timer_fired_intc t ic).
Proof.
  revert t ic. induction n as [|n IH]; intros t ic Ht He Hp Hl Hv.
  { unfold periodic_after, periodic_value. destruct (Z.ltb_spec (Z.of_nat 0) (tm_value t)); [|lia].
    destruct t as [lk c l v s]. rec_simpl. by rewrite Z.sub_0_r. }
  rewrite timer_steps_S. pose proof Ht as [_ Hlu _ _]. unfold is_u32 in Hlu.
  destruct (Z.lt_ge_cases 1 (tm_value t)) as [Hgt|Hle].
  - rewrite soc_timer_step_count by done. cbn [fst snd].
    rewrite IH; [|by apply timer_decr_wf|done|done|done|simpl; lia].
    destruct t as [lk c l v s]; unfold periodic_after, periodic_value, timer_fired_intc; rec_simpl.
    destruct (Z.ltb_spec (Z.of_nat n) (v - 1)), (Z.ltb_spec (Z.of_nat (S n)) v); try lia.
    + do 2 f_equal. lia.
    + do 4 f_equal. lia.
  - rewrite soc_timer_step_fire by done. cbn [fst snd].
    rewrite IH; [|by apply timer_fired_wf|..];
      unfold timer_fired_state; destruct t as [lk c l v s]; rec_simpl; rewrite ?Hp; cbn; try done; [|lia].
    assert (v = 1) as -> by lia. unfold periodic_after, periodic_value, timer_fired_intc; rec_simpl.
    destruct (Z.ltb_spec (Z.of_nat (S n)) 1); [lia|]. f_equal.
    + destruct (Z.ltb_spec (Z.of_nat n) l).
      * f_equal. rewrite Z.mod_small by lia. lia.
      * f_equal; [|by rewrite <- Z.lor_assoc, Z.lor_diag].
        replace (Z.of_nat (S n) - 1) with (Z.of_nat n - l + 1 * l) by lia.
        by rewrite Z.mod_add by lia.
    + destruct (Z.ltb_spec (Z.of_nat n) l); [done|].
      destruct (Z.testbit c 2 && linked lk); [|done]. apply soc_intc_raise_idem.
Qed.

(** * Properties *)

(** Programming the timer: LOAD, then CTRL. *)
Definition timer_program (t : soc_timer_t) (load ctrl : Z) : soc_timer_t :=
  snd (soc_timer_write (snd (soc_timer_write t SOC_TIMER_LOAD_OFF load))
         SOC_TIMER_CTRL_OFF ctrl).

Lemma timer_program_disabled t load ctrl :
  Z.testbit (tm_ctrl t) 0 = false -> Z.testbit ctrl 0 = true ->
  timer_program t load ctrl =
    t <| tm_load := load |> <| tm_ctrl := ctrl |>
      <| tm_value := if tm_value t =? 0 then load else tm_value t |>.
Proof.
  intros Hd He. unfold timer_program, soc_timer_write. simpl (_ =? _).
  destruct t as [lk c l v s]. rec_simpl. autorewrite with bits. rewrite Hd, He. cbn.
  by destruct (v =? 0).
Qed.

Lemma timer_program_wf t load ctrl :
  timer_wf t -> is_u32 load -> is_u32 ctrl -> timer_wf (timer_program t load ctrl).
Proof.
  intros Ht Hl Hc. unfold timer_program.
  destruct (soc_timer_write t SOC_TIMER_LOAD_OFF load) as [rc1 t1] eqn:E1.
  pose proof (soc_timer_write_wf _ _ _ _ _ Ht Hl E1) as Ht1. cbn [snd].
  destruct (soc_timer_write t1 SOC_TIMER_CTRL_OFF ctrl) as [rc2 t2] eqn:E2.
  exact (soc_timer_write_wf _ _ _ _ _ Ht1 Hc E2).
Qed.

(** C27. A one-shot timer counts down exactly LOAD ticks, fires once at zero, raises the
    interrupt only if enabled, and disables itself. *)
Theorem soc_timer_oneshot t ic load ctrl n :
  timer_wf t -> is_u32 load -> is_u32 ctrl -> load <> 0 ->
  Z.testbit (tm_ctrl t) 0 = false -> tm_value t = 0 ->
  Z.testbit ctrl 0 = true -> Z.testbit ctrl 1 = false ->
  let '(t', ic') := timer_steps n (timer_program t load ctrl) ic in
  if Z.of_nat n <? load then
    tm_value t' = load - Z.of_nat n /\ tm_ctrl t' = ctrl /\
    tm_irq_status t' = tm_irq_status t /\ ic' = ic
  else
    tm_value t' = 0 /\ tm_ctrl t' = Z.ldiff ctrl 1 /\
    tm_irq_status t' = Z.lor (tm_irq_status t) SOC_TIMER_IRQ_FIRED /\
    ic' = (if Z.testbit ctrl 2 && linked (tm_intc t)
           then soc_intc_raise ic SOC_TIMER_IRQ_LINE else ic).
Proof.
  intros Ht Hl Hc Hne Hd Hv He Hp. pose proof (timer_program_wf t load ctrl Ht Hl Hc) as Hwf.
  rewrite timer_program_disabled in Hwf |- * by done. rewrite Hv in Hwf |- *. unfold is_u32 in Hl.
  rewrite timer_oneshot_steps; [|exact Hwf|exact He|exact Hp|exact Hne|simpl; lia].
  change (tm_value (_ <| tm_value := ?x |>)) with x. rewrite Z.eqb_refl.
  destruct (Z.ltb_spec (Z.of_nat n) load); [done|].
  unfold timer_fired_state, timer_fired_intc. destruct t; rec_simpl. by rewrite Hp.
Qed.

Lemma soc_timer_oneshot_witness :
  tm_value (fst (timer_steps 9 (timer_program (soc_timer_init LINKED) 10 5) (soc_intc_init LINKED))) = 1 /\
  tm_value (fst (timer_steps 12 (timer_program (soc_timer_init LINKED) 10 5) (soc_intc_init LINKED))) = 0.
Proof.
  split.
  - pose proof (soc_timer_oneshot (soc_timer_init LINKED) (soc_intc_init LINKED) 10 5 9
      ltac:(done) ltac:(done) ltac:(done) ltac:(done) ltac:(done) ltac:(done) ltac:(done) ltac:(done)) as H.
    destruct (timer_steps 9 _ _). apply H.
  - pose proof (soc_timer_oneshot (soc_timer_init LINKED) (soc_intc_init LINKED) 10 5 12
      ltac:(done) ltac:(done) ltac:(done) ltac:(done) ltac:(done) ltac:(done) ltac:(done) ltac:(done)) as H.
    destruct (timer_steps 12 _ _). apply H.
Defined.

(** C28. A periodic timer reloads for ever: VALUE is LOAD minus the tick count modulo LOAD, and
    the fired flag and the interrupt appear from the first expiry on. *)
Theorem soc_timer_periodic t ic load ctrl n :
  timer_wf t -> is_u32 load -> is_u32 ctrl -> load <> 0 ->
  Z.testbit (tm_ctrl t) 0 = false -> tm_value t = 0 ->
  Z.testbit ctrl 0 = true -> Z.testbit ctrl 1 = true ->
  let '(t', ic') := timer_steps n (timer_program t load ctrl) ic in
  tm_value t' = load - Z.of_nat n mod load /\ tm_ctrl t' = ctrl /\ tm_load t' = load /\
  if Z.of_nat n <? load then tm_irq_status t' = tm_irq_status t /\ ic' = ic
  else
    tm_irq_status t' = Z.lor (tm_irq_status t) SOC_TIMER_IRQ_FIRED /\
    ic' = (if Z.testbit ctrl 2 && linked (tm_intc t)
           then soc_intc_raise ic SOC_TIMER_IRQ_LINE else ic).
Proof.
  intros Ht Hl Hc Hne Hd Hv He Hp. pose proof (timer_program_wf t load ctrl Ht Hl Hc) as Hwf.
  rewrite timer_program_disabled in Hwf |- * by done. rewrite Hv in Hwf |- *. unfold is_u32 in Hl.
  rewrite timer_periodic_steps; [|exact Hwf|exact He|exact Hp|exact Hne|simpl; lia].
  unfold periodic_after, periodic_value, timer_fired_intc. destruct t; rec_simpl.
  destruct (Z.ltb_spec (Z.of_nat n) load).
  - by rewrite Z.mod_small by lia.
  - split_and!; try done. replace (Z.of_nat n) with (Z.of_nat n - load + 1 * load) at 2 by lia.
    by rewrite Z.mod_add by lia.
Qed.

Lemma soc_timer_periodic_witness :
  tm_value (fst (timer_steps 24 (timer_program (soc_timer_init LINKED) 10 7) (soc_intc_init LINKED))) = 6.
Proof.
  pose proof (soc_timer_periodic (soc_timer_init LINKED) (soc_intc_init LINKED) 10 7 24
      ltac:(done) ltac:(done) ltac:(done) ltac:(done) ltac:(done) ltac:(done) ltac:(done) ltac:(done)) as H.
  destruct (timer_steps 24 _ _). apply H.
Defined.

(** A timer that is disabled, or has LOAD = 0, does not move. *)
Lemma timer_steps_idle n t ic :
  Z.testbit (tm_ctrl t) 0 = false \/ tm_load t = 0 -> timer_steps n t ic = (t, ic).
Proof.
  intros H. induction n as [|n IH]; [done|]. by rewrite timer_steps_S, soc_timer_step_idle.
Qed.

(** C39. Stopping and restarting keeps the residual count: the first expiry after
    the restart comes after the old VALUE, not after the new LOAD. *)
Theorem soc_timer_restart_residual t ic load ctrl n :
  timer_wf t -> is_u32 load -> is_u32 ctrl -> load <> 0 ->
  Z.testbit (tm_ctrl t) 0 = true -> 0 < tm_value t ->
  Z.testbit ctrl 0 = true -> Z.testbit ctrl 1 = false ->
  let stopped := snd (soc_timer_write t SOC_TIMER_CTRL_OFF 0) in
  let '(t', _) := timer_steps n (timer_program stopped load ctrl) ic in
  Z.testbit (tm_ctrl t') 0 = (Z.of_nat n <? tm_value t).
Proof.
  intros Ht Hl Hc Hne He Hv Hce Hcp stopped.
  destruct (soc_timer_write t SOC_TIMER_CTRL_OFF 0) as [rc t1] eqn:E1.
  pose proof (soc_timer_write_wf _ _ _ _ _ Ht is_u32_0 E1) as Ht1.
  assert (t1 = t <| tm_ctrl := 0 |>) as ->.
  { unfold soc_timer_write in E1. simpl in E1. by simplify_eq. }
  subst stopped. cbn [snd]. pose proof (timer_program_wf _ load ctrl Ht1 Hl Hc) as Hwf.
  rewrite timer_program_disabled in Hwf |- * by done.
  change (tm_value (t <| tm_ctrl := 0 |>)) with (tm_value t) in Hwf |- *.
  destruct (Z.eqb_spec (tm_value t) 0); [lia|].
  rewrite timer_oneshot_steps by done. change (tm_value (_ <| tm_value := ?x |>)) with x.
  destruct (Z.ltb_spec (Z.of_nat n) (tm_value t)); [done|].
  unfold timer_fired_state. destruct t; rec_simpl. rewrite Hcp. cbn.
  by rewrite Z.ldiff_spec, andb_false_r.
Qed.

Lemma soc_timer_restart_residual_witness :
  let t := Mk_soc_timer LINKED 1 10 3 0 in
  let stopped := snd (soc_timer_write t SOC_TIMER_CTRL_OFF 0) in
  Z.testbit (tm_ctrl (fst (timer_steps 3 (timer_program stopped 100 1) (soc_intc_init LINKED)))) 0 = false.
Proof.
  pose proof (soc_timer_restart_residual (Mk_soc_timer LINKED 1 10 3 0) (soc_intc_init LINKED) 100 1 3
      ltac:(done) ltac:(done) ltac:(done) ltac:(done) ltac:(done) ltac:(done) ltac:(done) ltac:(done)) as H.
  cbv zeta in H |- *. destruct (timer_steps 3 _ _). apply H.
Defined.
