(* ===== verification/Uart.v ===== *)
(** UART: [soc_c/src/soc_uart.c].

    Single-byte loopback with a busy latency and an RX interrupt on line 0,
    plus two byte streams the DMA engine sees.  The streams are fixed arrays
    with a length; the theorems say that they implement bounded queues
    (append saturates, a short drain is zero-padded), that the loopback takes
    exactly the configured latency, and that the stuck-busy fault freezes it. *)

From S2P Require Import Prelude Regions Perf Intc.

Definition SOC_UART_TXDATA_OFF : Z := 0x00.
Definition SOC_UART_RXDATA_OFF : Z := 0x04.
Definition SOC_UART_STATUS_OFF : Z := 0x08.
Definition SOC_UART_CTRL_OFF : Z := 0x0C.
Definition SOC_UART_BAUDDIV_OFF : Z := 0x10.

Definition SOC_UART_STATUS_TX_BUSY : Z := Z.shiftl 1 0.
Definition SOC_UART_STATUS_TX_EMPTY : Z := Z.shiftl 1 1.
Definition SOC_UART_STATUS_RX_VALID : Z := Z.shiftl 1 2.
Definition SOC_UART_CTRL_ENABLE : Z := Z.shiftl 1 0.

Definition SOC_UART_ERR_DISABLED : Z := -1.
Definition SOC_UART_IRQ_LINE : Z := 0.
Definition SOC_UART_DMA_FIFO_SIZE : Z := 16384.

Record soc_uart_t : Type := Mk_soc_uart {
  u_latency_ticks : Z;
  u_perf : ptr;
  u_intc : ptr;
  u_ctrl : Z;
  u_bauddiv : Z;
  u_txdata : Z;
  u_rxdata : Z;
  u_busy : Z;
  u_rx_valid : bool;
  u_fault_stuck_busy : bool;
  u_dma_tx_fifo : list Z;
  u_dma_tx_len : Z;
  u_dma_rx_fifo : list Z;
  u_dma_rx_len : Z
}.

#[export] Instance settable_uart : Settable soc_uart_t :=
  {| eta_record := fun u => Mk_soc_uart (u_latency_ticks u) (u_perf u) (u_intc u) (u_ctrl u)
       (u_bauddiv u) (u_txdata u) (u_rxdata u) (u_busy u) (u_rx_valid u) (u_fault_stuck_busy u)
       (u_dma_tx_fifo u) (u_dma_tx_len u) (u_dma_rx_fifo u) (u_dma_rx_len u) |}.

Definition soc_uart_reset (u : soc_uart_t) : soc_uart_t :=
  u <| u_ctrl := 0 |> <| u_bauddiv := 0 |> <| u_txdata := 0 |> <| u_rxdata := 0 |>
    <| u_busy := 0 |> <| u_rx_valid := false |> <| u_fault_stuck_busy := false |>
    <| u_dma_tx_len := 0 |> <| u_dma_rx_len := 0 |>.

(** The FIFO arrays keep their previous contents. *)
Definition soc_uart_init (u : soc_uart_t) (latency_ticks : Z) (perf intc : ptr) : soc_uart_t :=
  soc_uart_reset (u <| u_latency_ticks := latency_ticks |> <| u_perf := perf |> <| u_intc := intc |>).

Definition soc_uart_status (u : soc_uart_t) : Z :=
  let s := 0 in
  let s := if 0 <? u_busy u then Z.lor s SOC_UART_STATUS_TX_BUSY
           else Z.lor s SOC_UART_STATUS_TX_EMPTY in
  if u_rx_valid u then Z.lor s SOC_UART_STATUS_RX_VALID else s.

Definition soc_uart_read (u : soc_uart_t) (offset : Z) : result Z * soc_uart_t :=
  if offset =? SOC_UART_TXDATA_OFF then (Err SOC_ERR_BUS, u)
  else if offset =? SOC_UART_RXDATA_OFF then
    (Ok (Z.land (u_rxdata u) 0xFF), u <| u_rx_valid := false |>)
  else if offset =? SOC_UART_STATUS_OFF then (Ok (soc_uart_status u), u)
  else if offset =? SOC_UART_CTRL_OFF then (Ok (u_ctrl u), u)
  else if offset =? SOC_UART_BAUDDIV_OFF then (Ok (u_bauddiv u), u)
  else (Err SOC_ERR_BUS, u).

Definition soc_uart_write (u : soc_uart_t) (perf : soc_perf_t) (offset value : Z)
  : Z * soc_uart_t * soc_perf_t :=
  if offset =? SOC_UART_TXDATA_OFF then
    if negb (tst (u_ctrl u) SOC_UART_CTRL_ENABLE) then
      (SOC_UART_ERR_DISABLED, u,
       if linked (u_perf u) then soc_perf_count_stall perf 1 else perf)
    else
      let u := u <| u_txdata := Z.land value 0xFF |> in
      let u := u <| u_busy := if 0 <? u_latency_ticks u then i32 (u_latency_ticks u) else 1 |> in
      (SOC_OK, u, perf)
  else if offset =? SOC_UART_CTRL_OFF then (SOC_OK, u <| u_ctrl := value |>, perf)
  else if offset =? SOC_UART_BAUDDIV_OFF then (SOC_OK, u <| u_bauddiv := value |>, perf)
  else (SOC_ERR_BUS, u, perf).

(** Free room of a stream holding [len] bytes. *)
Definition fifo_space (len : Z) : Z :=
  if len <? SOC_UART_DMA_FIFO_SIZE then SOC_UART_DMA_FIFO_SIZE - len else 0.

(** [payload] is the (never [NULL]) buffer of the [len] bytes passed. *)
Definition soc_uart_dma_tx_append (u : soc_uart_t) (payload : list Z) : soc_uart_t :=
  let len := zlen payload in
  if len =? 0 then u
  else
    let space := fifo_space (u_dma_tx_len u) in
    let n := if len <? space then len else space in
    let u :=
      if 0 <? n then
        u <| u_dma_tx_fifo := blit (u_dma_tx_len u) (slice 0 n payload) (u_dma_tx_fifo u) |>
          <| u_dma_tx_len := u32 (u_dma_tx_len u + n) |>
      else u in
    let space := fifo_space (u_dma_rx_len u) in
    let n := if len <? space then len else space in
    if 0 <? n then
      u <| u_dma_rx_fifo := blit (u_dma_rx_len u) (slice 0 n payload) (u_dma_rx_fifo u) |>
        <| u_dma_rx_len := u32 (u_dma_rx_len u + n) |>
    else u.

(** Returns the [len] bytes written to [out] and the UART. *)
Definition soc_uart_dma_rx_drain (u : soc_uart_t) (len : Z) : list Z * soc_uart_t :=
  if len =? 0 then ([], u)
  else
    let n := if len <? u_dma_rx_len u then len else u_dma_rx_len u in
    let out := if 0 <? n then slice 0 n (u_dma_rx_fifo u) else [] in
    let u :=
      if 0 <? n then
        u <| u_dma_rx_fifo := blit 0 (slice n (u_dma_rx_len u - n) (u_dma_rx_fifo u)) (u_dma_rx_fifo u) |>
          <| u_dma_rx_len := u32 (u_dma_rx_len u - n) |>
      else u in
    (if n <? len then out ++ zeros (len - n) else out, u).

Definition soc_uart_step (u : soc_uart_t) (ic : soc_intc_t) : soc_uart_t * soc_intc_t :=
  if 0 <? u_busy u then
    if u_fault_stuck_busy u then (u, ic)
    else
      let u := u <| u_busy := u_busy u - 1 |> in
      if u_busy u =? 0 then
        let u := u <| u_rxdata := u_txdata u |> in
        let u := u <| u_rx_valid := true |> in
        let b := Z.land (u_txdata u) 0xFF in
        let u := soc_uart_dma_tx_append u [b] in
        (u, if linked (u_intc u) then soc_intc_raise ic SOC_UART_IRQ_LINE else ic)
      else (u, ic)
  else (u, ic).

(** * Well-formedness *)

Record uart_wf (u : soc_uart_t) : Prop := {
  uwf_latency : is_u32 (u_latency_ticks u);
  uwf_ctrl : is_u32 (u_ctrl u);
  uwf_bauddiv : is_u32 (u_bauddiv u);
  uwf_txdata : is_byte (u_txdata u);
  uwf_rxdata : is_byte (u_rxdata u);
  uwf_busy : -0x80000000 <= u_busy u < 0x80000000;
  uwf_tx_size : zlen (u_dma_tx_fifo u) = SOC_UART_DMA_FIFO_SIZE;
  uwf_tx_len : 0 <= u_dma_tx_len u <= SOC_UART_DMA_FIFO_SIZE;
  uwf_tx_bytes : Forall is_byte (u_dma_tx_fifo u);
  uwf_rx_size : zlen (u_dma_rx_fifo u) = SOC_UART_DMA_FIFO_SIZE;
  uwf_rx_len : 0 <= u_dma_rx_len u <= SOC_UART_DMA_FIFO_SIZE;
  uwf_rx_bytes : Forall is_byte (u_dma_rx_fifo u)
}.

(** An initialised UART of latency 5, both arrays zero. *)
Definition uart_zero : soc_uart_t :=
  soc_uart_init (Mk_soc_uart 0 NULL NULL 0 0 0 0 0 false false
    (zeros SOC_UART_DMA_FIFO_SIZE) 0 (zeros SOC_UART_DMA_FIFO_SIZE) 0) 5 LINKED LINKED.

(** The byte streams the arrays hold. *)
Definition tx_stream (u : soc_uart_t) : list Z := slice 0 (u_dma_tx_len u) (u_dma_tx_fifo u).
Definition rx_stream (u : soc_uart_t) : list Z := slice 0 (u_dma_rx_len u) (u_dma_rx_fifo u).

(** Queues of capacity [SOC_UART_DMA_FIFO_SIZE]. *)
Definition queue_append (q payload : list Z) : list Z :=
  slice 0 SOC_UART_DMA_FIFO_SIZE (q ++ payload).

Definition queue_drain (q : list Z) (len : Z) : list Z * list Z :=
  (slice 0 len (q ++ zeros len), drop (Z.to_nat len) q).

(** * Streams *)

(** How many bytes of [payload] a stream of [len] bytes takes. *)
Definition taken (len : Z) (payload : list Z) : Z :=
  Z.min (zlen payload) (SOC_UART_DMA_FIFO_SIZE - len).

Lemma fifo_space_taken len payload :
  0 <= len <= SOC_UART_DMA_FIFO_SIZE ->
  (if zlen payload <? fifo_space len then zlen payload else fifo_space len) = taken len payload.
Proof.
  unfold fifo_space, taken. intros Hl.
  destruct (Z.ltb_spec len SOC_UART_DMA_FIFO_SIZE); case_match; lia.
Qed.

(** One code path for both branches of [if (n > 0)]. *)
Lemma append_record u payload :
  uart_wf u ->
  soc_uart_dma_tx_append u payload =
    u <| u_dma_tx_fifo := blit (u_dma_tx_len u) (slice 0 (taken (u_dma_tx_len u) payload) payload) (u_dma_tx_fifo u) |>
      <| u_dma_tx_len := u_dma_tx_len u + taken (u_dma_tx_len u) payload |>
      <| u_dma_rx_fifo := blit (u_dma_rx_len u) (slice 0 (taken (u_dma_rx_len u) payload) payload) (u_dma_rx_fifo u) |>
      <| u_dma_rx_len := u_dma_rx_len u + taken (u_dma_rx_len u) payload |>.
Proof.
  intros [_ _ _ _ _ _ _ Ht _ _ Hr _]. unfold soc_uart_dma_tx_append.
  pose proof (zlen_nonneg payload) as Hz.
  assert (forall len, 0 <= len <= SOC_UART_DMA_FIFO_SIZE ->
    0 <= taken len payload /\ u32 (len + taken len payload) = len + taken len payload) as Htk.
  { intros len Hl. unfold taken. split; [lia|]. apply u32_id.
    unfold is_u32, two32, SOC_UART_DMA_FIFO_SIZE in *. lia. }
  destruct (Htk _ Ht) as [Ht0 Htu], (Htk _ Hr) as [Hr0 Hru].
  destruct (Z.eqb_spec (zlen payload) 0) as [Hp|Hp].
  { assert (forall len, 0 <= len <= SOC_UART_DMA_FIFO_SIZE -> taken len payload = 0) as H0
      by (intros; unfold taken; lia).
    rewrite !H0, !slice_0_0, !blit_nil, !Z.add_0_r by done. by destruct u. }
  rewrite (fifo_space_taken (u_dma_tx_len u)) by done.
  destruct u as [? ? ? ? ? ? ? ? ? ? txf txl rxf rxl]; rec_simpl.
  destruct (Z.ltb_spec 0 (taken txl payload)) as [|Htle];
    [|replace (taken txl payload) with 0 in * by lia];
    cbn; rewrite (fifo_space_taken rxl), ?Htu by done;
    (destruct (Z.ltb_spec 0 (taken rxl payload)) as [|Hrle];
       [|replace (taken rxl payload) with 0 by lia]);
    by rewrite ?Hru, ?slice_0_0, ?blit_nil, ?Z.add_0_r.
Qed.

(** Storing at the end of a stream's array is appending to the stream. *)
Lemma push_stream len fifo payload :
  zlen fifo = SOC_UART_DMA_FIFO_SIZE -> 0 <= len <= SOC_UART_DMA_FIFO_SIZE ->
  let n := taken len payload in
  slice 0 (len + n) (blit len (slice 0 n payload) fifo) = queue_append (slice 0 len fifo) payload.
Proof.
  intros Hf Hl n. pose proof (zlen_nonneg payload).
  assert (0 <= n <= zlen payload /\ len + n <= SOC_UART_DMA_FIFO_SIZE /\
    (n = zlen payload \/ len + n = SOC_UART_DMA_FIFO_SIZE)) as (Hn & Hn' & Hor)
    by (unfold n, taken; lia).
  assert (zlen (slice 0 n payload) = n) as Hzn by (rewrite zlen_slice0; lia).
  assert (zlen (slice 0 len fifo) = len) as Hzl by (rewrite zlen_slice0; lia).
  assert (zlen (blit len (slice 0 n payload) fifo) = SOC_UART_DMA_FIFO_SIZE) as Hzb
    by (rewrite zlen_blit; lia).
  apply byte_list_eq.
  { unfold queue_append. rewrite !zlen_slice0, zlen_app by (unfold SOC_UART_DMA_FIFO_SIZE in *; lia). lia. }
  intros i Hi. rewrite zlen_slice0, Hzb in Hi by lia. unfold queue_append.
  rewrite !byte_at_slice by (unfold SOC_UART_DMA_FIFO_SIZE in *; lia). rewrite Z.add_0_l.
  rewrite byte_at_blit, byte_at_app by lia.
  rewrite Hzl, Hzn. destruct (Z.leb_spec len i), (Z.ltb_spec i (len + n)), (Z.ltb_spec i len);
    cbn [andb]; try lia; by rewrite byte_at_slice, ?Z.add_0_l by lia.
Qed.

Lemma append_streams u payload :
  uart_wf u -> Forall is_byte payload ->
  let u' := soc_uart_dma_tx_append u payload in
  uart_wf u' /\
  tx_stream u' = queue_append (tx_stream u) payload /\
  rx_stream u' = queue_append (rx_stream u) payload.
Proof.
  intros Hwf Hp. cbv zeta. rewrite append_record by done. pose proof Hwf as [].
  pose proof (zlen_nonneg payload).
  assert (forall len fifo, zlen fifo = SOC_UART_DMA_FIFO_SIZE -> 0 <= len <= SOC_UART_DMA_FIFO_SIZE ->
    zlen (blit len (slice 0 (taken len payload) payload) fifo) = SOC_UART_DMA_FIFO_SIZE) as Hb.
  { intros len fifo Hz Hl. rewrite zlen_blit; rewrite ?zlen_slice0; unfold taken; lia. }
  split; [|split].
  - split; simpl; try done; auto using Forall_blit, Forall_slice; unfold taken; lia.
  - unfold tx_stream. rec_simpl. by apply push_stream.
  - unfold rx_stream. rec_simpl. by apply push_stream.
Qed.

Lemma queue_drain_nil len : 0 <= len -> queue_drain [] len = (zeros len, []).
Proof.
  intros. unfold queue_drain. rewrite drop_nil. f_equal.
  apply slice_all. cbn [app]. by rewrite zlen_zeros.
Qed.

Lemma queue_drain_0 q : queue_drain q 0 = ([], q).
Proof. done. Qed.

(** The bytes a drain of a non-empty stream copies out and shifts down. *)
Lemma drain_array len rl fifo :
  zlen fifo = SOC_UART_DMA_FIFO_SIZE -> 0 < rl <= SOC_UART_DMA_FIFO_SIZE -> 0 < len ->
  let n := Z.min len rl in
  (slice 0 n fifo ++ zeros (len - n),
   slice 0 (rl - n) (blit 0 (slice n (rl - n) fifo) fifo)) = queue_drain (slice 0 rl fifo) len.
Proof.
  intros Hf Hr Hl n. unfold queue_drain.
  assert (zlen (slice n (rl - n) fifo) = rl - n) as Hz by (apply zlen_slice; lia).
  f_equal.
  - assert (zlen (zeros (len - n)) = len - n) by (apply zlen_zeros; lia).
    assert (zlen (zeros len) = len) by (apply zlen_zeros; lia).
    apply byte_list_eq; [rewrite (zlen_slice0 len), !zlen_app, !zlen_slice0 by lia; lia|].
    intros i Hi. rewrite zlen_app, zlen_slice0 in Hi by lia.
    rewrite byte_at_slice, Z.add_0_l, !byte_at_app, !zlen_slice0 by lia.
    destruct (Z.ltb_spec i (Z.min n (zlen fifo))), (Z.ltb_spec i (Z.min rl (zlen fifo))); try lia.
    + by rewrite !byte_at_slice by lia.
    + by rewrite !byte_at_zeros.
  - pose proof (slice_blit 0 (slice n (rl - n) fifo) fifo) as Hsb. rewrite Hz in Hsb.
    rewrite Hsb by lia. unfold slice. rewrite !drop_0.
    destruct (Z.le_gt_cases len rl).
    + replace n with len by lia. rewrite take_drop_commute. do 2 f_equal. lia.
    + replace n with rl by lia. rewrite Z.sub_diag. simpl.
      symmetry. apply drop_ge. rewrite length_take. lia.
Qed.

Lemma drain_streams u len :
  uart_wf u -> 0 <= len ->
  let '(out, u') := soc_uart_dma_rx_drain u len in
  uart_wf u' /\ zlen out = len /\ Forall is_byte out /\
  (out, rx_stream u') = queue_drain (rx_stream u) len /\ tx_stream u' = tx_stream u.
Proof.
  intros Hwf Hl. unfold soc_uart_dma_rx_drain, rx_stream. pose proof Hwf as [].
  destruct (Z.eqb_spec len 0) as [->|Hne]; [done|].
  replace (if len <? u_dma_rx_len u then len else u_dma_rx_len u)
    with (Z.min len (u_dma_rx_len u)) by (case_match; lia).
  destruct (Z.eqb_spec (u_dma_rx_len u) 0) as [E|Hrl].
  - rewrite E, Z.min_r by lia. change (0 <? 0) with false. cbv iota.
    destruct (Z.ltb_spec 0 len); [|lia].
    rewrite E, Z.sub_0_r, slice_0_0, queue_drain_nil by done.
    split_and!; [done|by apply zlen_zeros|apply Forall_byte_zeros|done|done].
  - pose proof (drain_array len (u_dma_rx_len u) (u_dma_rx_fifo u)
      ltac:(done) ltac:(lia) ltac:(lia)) as Harr. cbv zeta in Harr.
    set (n := Z.min len (u_dma_rx_len u)) in *.
    destruct (Z.ltb_spec 0 n); [|lia].
    assert (u32 (u_dma_rx_len u - n) = u_dma_rx_len u - n) as Hu
      by (apply u32_id; unfold is_u32, two32, SOC_UART_DMA_FIFO_SIZE in *; lia).
    assert ((if n <? len then slice 0 n (u_dma_rx_fifo u) ++ zeros (len - n)
             else slice 0 n (u_dma_rx_fifo u)) = slice 0 n (u_dma_rx_fifo u) ++ zeros (len - n)) as ->.
    { destruct (Z.ltb_spec n len); [done|]. replace (len - n) with 0 by lia. by rewrite app_nil_r. }
    assert (zlen (slice n (u_dma_rx_len u - n) (u_dma_rx_fifo u)) = u_dma_rx_len u - n)
      by (apply zlen_slice; lia).
    split_and!.
    + split; simpl; try done; rewrite ?Hu; try lia; [|by apply Forall_blit; [|apply Forall_slice]].
      rewrite zlen_blit; lia.
    + rewrite zlen_app, zlen_slice0, zlen_zeros by lia. lia.
    + apply Forall_app; split; [by apply Forall_slice|apply Forall_byte_zeros].
    + rewrite <- Harr. f_equal. rec_simpl. by rewrite Hu.
    + done.
Qed.

(** * Preservation *)

Lemma tst_uart_enable v : tst v SOC_UART_CTRL_ENABLE = Z.testbit v 0.
Proof. by apply tst_bit. Qed.

#[export] Hint Rewrite tst_uart_enable : bits.

Lemma is_byte_land v : is_byte (Z.land v 0xFF).
Proof. apply is_byte_fits, fits_land_r; [done|]. by unfold fits. Qed.

Lemma i32_range x : -0x80000000 <= i32 x < 0x80000000.
Proof.
  unfold i32, two32. pose proof (Z.mod_pos_bound x 0x100000000).
  destruct (Z.ltb_spec (x mod 0x100000000) 0x80000000); lia.
Qed.

Lemma soc_uart_reset_wf u :
  is_u32 (u_latency_ticks u) -> zlen (u_dma_tx_fifo u) = SOC_UART_DMA_FIFO_SIZE ->
  Forall is_byte (u_dma_tx_fifo u) -> zlen (u_dma_rx_fifo u) = SOC_UART_DMA_FIFO_SIZE ->
  Forall is_byte (u_dma_rx_fifo u) -> uart_wf (soc_uart_reset u).
Proof. intros. split; simpl; try done; unfold is_byte, SOC_UART_DMA_FIFO_SIZE; auto with soc; lia. Qed.

Lemma uart_ctrl_wf u c : uart_wf u -> is_u32 c -> uart_wf (u <| u_ctrl := c |>).
Proof. intros [] Hc. by constructor. Qed.

Lemma uart_zero_wf : uart_wf uart_zero.
Proof.
  apply soc_uart_reset_wf; [done|by apply zlen_zeros|apply Forall_byte_zeros
    |by apply zlen_zeros|apply Forall_byte_zeros].
Qed.

Lemma soc_uart_read_wf u offset r u' :
  uart_wf u -> soc_uart_read u offset = (r, u') -> uart_wf u'.
Proof.
  intros Hu. pose proof Hu as []. unfold soc_uart_read.
  case_switch; intros [= <- <-]; done.
Qed.

Lemma soc_uart_write_wf u perf offset value rc u' perf' :
  uart_wf u -> perf_wf perf -> is_u32 value ->
  soc_uart_write u perf offset value = (rc, u', perf') -> uart_wf u' /\ perf_wf perf'.
Proof.
  intros Hu Hp Hv. pose proof Hu as []. unfold soc_uart_write.
  case_switch; intros [= <- <- <-]; split; auto with soc; try done; split; simpl; try done;
    auto using is_byte_land, i32_range.
Qed.

(** The state a completing byte leaves. *)
Definition uart_completed (u : soc_uart_t) : soc_uart_t :=
  soc_uart_dma_tx_append
    (u <| u_busy := 0 |> <| u_rxdata := u_txdata u |> <| u_rx_valid := true |>)
    [Z.land (u_txdata u) 0xFF].

Definition uart_completed_intc (u : soc_uart_t) (ic : soc_intc_t) : soc_intc_t :=
  if linked (u_intc u) then soc_intc_raise ic SOC_UART_IRQ_LINE else ic.

Lemma append_fields u payload :
  uart_wf u ->
  let u' := soc_uart_dma_tx_append u payload in
  u_latency_ticks u' = u_latency_ticks u /\ u_perf u' = u_perf u /\ u_intc u' = u_intc u /\
  u_ctrl u' = u_ctrl u /\ u_bauddiv u' = u_bauddiv u /\ u_txdata u' = u_txdata u /\
  u_rxdata u' = u_rxdata u /\ u_busy u' = u_busy u /\ u_rx_valid u' = u_rx_valid u /\
  u_fault_stuck_busy u' = u_fault_stuck_busy u.
Proof. intros Hwf. cbv zeta. rewrite append_record by done. by destruct u. Qed.

Lemma append_intc u payload : u_intc (soc_uart_dma_tx_append u payload) = u_intc u.
Proof. unfold soc_uart_dma_tx_append. by case_switch. Qed.

Lemma soc_uart_step_cases u ic :
  soc_uart_step u ic =
    if (0 <? u_busy u) && negb (u_fault_stuck_busy u) then
      if u_busy u =? 1 then (uart_completed u, uart_completed_intc u ic)
      else (u <| u_busy := u_busy u - 1 |>, ic)
    else (u, ic).
Proof.
  unfold soc_uart_step. destruct (Z.ltb_spec 0 (u_busy u)); [|done].
  destruct (u_fault_stuck_busy u); [done|]. cbn [andb negb].
  change (u_busy (u <| u_busy := ?x |>)) with x.
  destruct (Z.eqb_spec (u_busy u) 1) as [E|]; destruct (Z.eqb_spec (u_busy u - 1) 0); try lia; [|done].
  unfold uart_completed, uart_completed_intc. destruct u; rec_simpl. subst.
  change (1 - 1) with 0. by rewrite append_intc.
Qed.

Lemma uart_completed_streams u :
  uart_wf u ->
  uart_wf (uart_completed u) /\
  tx_stream (uart_completed u) = queue_append (tx_stream u) [u_txdata u] /\
  rx_stream (uart_completed u) = queue_append (rx_stream u) [u_txdata u] /\
  u_busy (uart_completed u) = 0 /\ u_rxdata (uart_completed u) = u_txdata u /\
  u_rx_valid (uart_completed u) = true.
Proof.
  intros Hu. unfold uart_completed. set (v := u <| u_busy := 0 |> <| u_rxdata := u_txdata u |> <| u_rx_valid := true |>).
  assert (uart_wf v) as Hv by (pose proof Hu as []; split; simpl; done).
  assert (Z.land (u_txdata u) 0xFF = u_txdata u) as ->.
  { destruct Hu as [_ _ _ Ht]. change 0xFF with (Z.ones 8). rewrite Z.land_ones by done.
    by apply Z.mod_small. }
  destruct (append_fields v [u_txdata u] Hv) as (_ & _ & _ & _ & _ & _ & -> & -> & -> & _).
  destruct (append_streams v [u_txdata u] Hv) as (? & -> & ->); [|done].
  destruct Hu. constructor; [done|constructor].
Qed.

Lemma soc_uart_step_wf u ic :
  uart_wf u -> intc_wf ic ->
  uart_wf (fst (soc_uart_step u ic)) /\ intc_wf (snd (soc_uart_step u ic)).
Proof.
  intros Hu Hi. rewrite soc_uart_step_cases.
  destruct (Z.ltb_spec 0 (u_busy u)), (u_fault_stuck_busy u); simpl; try done.
  destruct (u_busy u =? 1); simpl.
  - split; [by apply uart_completed_streams|]. unfold uart_completed_intc.
    destruct (linked _); auto with soc.
  - split; [|done]. pose proof Hu as []. split; simpl; try done. lia.
Qed.

(** The links of a UART. *)
Definition uart_links (u : soc_uart_t) : ptr * ptr := (u_perf u, u_intc u).

Lemma append_links u payload : uart_links (soc_uart_dma_tx_append u payload) = uart_links u.
Proof. unfold soc_uart_dma_tx_append. by case_switch. Qed.

Lemma drain_links u len : uart_links (snd (soc_uart_dma_rx_drain u len)) = uart_links u.
Proof. unfold soc_uart_dma_rx_drain. by case_switch. Qed.

Lemma drain_busy u len : u_busy (snd (soc_uart_dma_rx_drain u len)) = u_busy u.
Proof. unfold soc_uart_dma_rx_drain. by case_switch. Qed.

Lemma soc_uart_read_links u offset r u' :
  soc_uart_read u offset = (r, u') -> uart_links u' = uart_links u.
Proof. unfold soc_uart_read. case_switch; by intros [= <- <-]. Qed.

Lemma soc_uart_write_links u perf offset value rc u' perf' :
  soc_uart_write u perf offset value = (rc, u', perf') -> uart_links u' = uart_links u.
Proof. unfold soc_uart_write. case_switch; by intros [= <- <- <-]. Qed.

Lemma soc_uart_step_links u ic :
  uart_links (fst (soc_uart_step u ic)) = uart_links u /\
  ic_perf (snd (soc_uart_step u ic)) = ic_perf ic.
Proof.
  rewrite soc_uart_step_cases. unfold uart_completed, uart_completed_intc.
  case_switch; simpl; rewrite ?append_links, ?soc_intc_raise_perf; done.
Qed.

(** [n] ticks of the UART alone. *)
Definition uart_steps (n : nat) (u : soc_uart_t) (ic : soc_intc_t) : soc_uart_t * soc_intc_t :=
  Nat.iter n (fun s => soc_uart_step (fst s) (snd s)) (u, ic).

Lemma uart_steps_S n u ic :
  uart_steps (S n) u ic = uart_steps n (fst (soc_uart_step u ic)) (snd (soc_uart_step u ic)).
Proof. unfold uart_steps. rewrite Nat.iter_succ_r. simpl. by destruct (soc_uart_step u ic). Qed.

Lemma uart_steps_idle n u ic :
  u_busy u <= 0 \/ u_fault_stuck_busy u = true -> uart_steps n u ic = (u, ic).
Proof.
  intros H. induction n as [|n IH]; [done|]. rewrite uart_steps_S, soc_uart_step_cases.
  destruct (Z.ltb_spec 0 (u_busy u)), (u_fault_stuck_busy u); simpl; try done.
  destruct H; [lia|done].
Qed.

Lemma uart_steps_busy n u ic :
  uart_wf u -> 0 < u_busy u -> u_fault_stuck_busy u = false ->
  uart_steps n u ic =
    if Z.of_nat n <? u_busy u
    then (u <| u_busy := u_busy u - Z.of_nat n |>, ic)
    else (uart_completed u, uart_completed_intc u ic).
Proof.
  revert u ic. induction n as [|n IH]; intros u ic Hu Hb Hf.
  { destruct (Z.ltb_spec (Z.of_nat 0) (u_busy u)); [|lia]. destruct u; rec_simpl. by rewrite Z.sub_0_r. }
  rewrite uart_steps_S, soc_uart_step_cases, Hf.
  destruct (Z.ltb_spec 0 (u_busy u)); [|lia]. cbn [andb negb].
  destruct (Z.eqb_spec (u_busy u) 1) as [E|Hne]; cbn [fst snd].
  - destruct (Z.ltb_spec (Z.of_nat (S n)) (u_busy u)); [lia|].
    apply uart_steps_idle. left. destruct (uart_completed_streams u Hu) as (_ & _ & _ & -> & _). done.
  - rewrite IH; [|pose proof Hu as []; split; simpl; try done; lia|simpl; lia|done].
    destruct u as [? ? ? ? ? ? ? b]; rec_simpl.
    destruct (Z.ltb_spec (Z.of_nat n) (b - 1)), (Z.ltb_spec (Z.of_nat (S n)) b); try lia; [|done].
    do 2 f_equal. lia.
Qed.

(** * Properties *)

(** C30. The two stream operations are a bounded queue's: appending keeps the
    first 16384 bytes of the concatenation, draining returns the oldest bytes
    padded with zeros. *)
Theorem uart_streams_are_queues u payload len :
  uart_wf u -> Forall is_byte payload -> 0 <= len ->
  let u1 := soc_uart_dma_tx_append u payload in
  let '(out, u2) := soc_uart_dma_rx_drain u len in
  uart_wf u1 /\ tx_stream u1 = queue_append (tx_stream u) payload /\
  rx_stream u1 = queue_append (rx_stream u) payload /\
  uart_wf u2 /\ zlen out = len /\ (out, rx_stream u2) = queue_drain (rx_stream u) len /\
  tx_stream u2 = tx_stream u.
Proof.
  intros Hu Hp Hl. cbv zeta. pose proof (drain_streams u len Hu Hl) as Hd.
  destruct (soc_uart_dma_rx_drain u len) as [out u2].
  destruct (append_streams u payload Hu Hp) as (Ha1 & Ha2 & Ha3).
  destruct Hd as (Hd1 & Hd2 & _ & Hd3 & Hd4).
  exact (conj Ha1 (conj Ha2 (conj Ha3 (conj Hd1 (conj Hd2 (conj Hd3 Hd4)))))).
Qed.

Lemma uart_streams_are_queues_witness :
  tx_stream (soc_uart_dma_tx_append uart_zero [72; 105]) = queue_append (tx_stream uart_zero) [72; 105].
Proof.
  pose proof (uart_streams_are_queues uart_zero [72; 105] 4 uart_zero_wf
    ltac:(by repeat constructor) ltac:(done)) as H. cbv zeta in H.
  destruct (soc_uart_dma_rx_drain uart_zero 4). apply H.
Defined.

Lemma queue_drain_append p : zlen p <= SOC_UART_DMA_FIFO_SIZE ->
  queue_drain (queue_append [] p) (zlen p) = (p, []).
Proof.
  intros H. unfold queue_append, queue_drain. cbn [app]. rewrite (slice_all SOC_UART_DMA_FIFO_SIZE p) by done.
  rewrite slice_0_app, (slice_all (zlen p) p) by lia. f_equal. unfold zlen. rewrite Nat2Z.id. apply drop_all.
Qed.

(** C29. Transmitting a byte: BUSY for exactly the latency, then RX_VALID with that
    byte, the interrupt, and the byte on both streams. *)
Theorem soc_uart_loopback u perf ic value n :
  uart_wf u -> is_u32 value -> u_latency_ticks u < 0x80000000 ->
  Z.testbit (u_ctrl u) 0 = true -> u_fault_stuck_busy u = false ->
  let latency := Z.max 1 (u_latency_ticks u) in
  let '(rc, u1, perf1) := soc_uart_write u perf SOC_UART_TXDATA_OFF value in
  let '(u2, ic2) := uart_steps n u1 ic in
  rc = SOC_OK /\ perf1 = perf /\
  if Z.of_nat n <? latency then
    Z.testbit (soc_uart_status u2) 0 = true /\ u_rx_valid u2 = u_rx_valid u /\ ic2 = ic
  else
    soc_uart_status u2 = Z.lor SOC_UART_STATUS_TX_EMPTY SOC_UART_STATUS_RX_VALID /\
    fst (soc_uart_read u2 SOC_UART_RXDATA_OFF) = Ok (value mod 256) /\
    tx_stream u2 = queue_append (tx_stream u) [value mod 256] /\
    rx_stream u2 = queue_append (rx_stream u) [value mod 256] /\
    ic2 = (if linked (u_intc u) then soc_intc_raise ic SOC_UART_IRQ_LINE else ic).
Proof.
  intros Hu Hv Hlat He Hf. cbv zeta. pose proof Hu as [Hl _ _ _ _ _ _ _ _ _ _ _].
  unfold soc_uart_write. change (SOC_UART_TXDATA_OFF =? SOC_UART_TXDATA_OFF) with true. cbv iota.
  rewrite tst_uart_enable, He. cbn [negb].
  assert (Z.land value 0xFF = value mod 256) as ->
    by (change 0xFF with (Z.ones 8); by rewrite Z.land_ones).
  set (u1 := _ <| u_busy := _ |>).
  assert (u_busy u1 = Z.max 1 (u_latency_ticks u)) as Hb.
  { unfold u1. rec_simpl. unfold is_u32, i32, two32 in *.
    destruct (Z.ltb_spec 0 (u_latency_ticks u)); [|lia].
    rewrite Z.mod_small by lia. case_match; lia. }
  assert (uart_wf u1) as Hu1.
  { pose proof Hu as []. split; simpl; try done; [unfold is_byte; apply Z.mod_pos_bound; done|].
    change (-2147483648 <= u_busy u1 < 2147483648). unfold is_u32 in *. lia. }
  rewrite uart_steps_busy by (done || lia). rewrite Hb.
  destruct (Z.ltb_spec (Z.of_nat n) (Z.max 1 (u_latency_ticks u)));
    (split; [done|]; split; [done|]).
  - unfold soc_uart_status. change (u_busy (u1 <| u_busy := ?x |>)) with x.
    destruct (Z.ltb_spec 0 (Z.max 1 (u_latency_ticks u) - Z.of_nat n)); [|lia].
    split_and!; [by destruct (u_rx_valid (u1 <| u_busy := _ |>))|done|done].
  - destruct (uart_completed_streams u1 Hu1) as (_ & Ht & Hr & Hbz & Hrx & Hrv).
    rewrite Ht, Hr. unfold soc_uart_status, soc_uart_read. rewrite Hbz, Hrv.
    split_and!; [reflexivity| |by f_equal|by f_equal|reflexivity].
    simpl (_ =? _). cbn [fst]. rewrite Hrx.
    change (u_txdata u1) with (value mod 256). change 0xFF with (Z.ones 8).
    rewrite Z.land_ones by done. by rewrite Z.mod_mod.
Qed.

Lemma soc_uart_loopback_witness :
  let u := uart_zero <| u_ctrl := SOC_UART_CTRL_ENABLE |> in
  let '(_, u1, _) := soc_uart_write u soc_perf_init SOC_UART_TXDATA_OFF 0x141 in
  fst (soc_uart_read (fst (uart_steps 5 u1 (soc_intc_init LINKED))) SOC_UART_RXDATA_OFF) = Ok 0x41.
Proof.
  assert (uart_wf (uart_zero <| u_ctrl := SOC_UART_CTRL_ENABLE |>)) as Hu
    by by apply uart_ctrl_wf; [apply uart_zero_wf|].
  pose proof (soc_uart_loopback _ soc_perf_init (soc_intc_init LINKED) 0x141 5 Hu
    ltac:(done) ltac:(done) ltac:(done) ltac:(done)) as H. cbv zeta in H |- *.
  destruct (soc_uart_write _ _ _ _) as [[rc u1] perf1]. destruct (uart_steps 5 u1 _) as [u2 ic2].
  apply H.
Defined.
