(* ===== verification/DmaSpec.v ===== *)
(** What a DMA transfer request means: the specification that the engine's
    START (Dma.v) and the driver's [validate] (DrvDma.v) both implement.

    A request is judged by a list of checks, in the documented order
    LEN -> ALIGN -> MAX -> ADDR -> capability -> role -> direction; the first
    one it fails gives the register error code.  Endpoints are classified once
    ([classify]); without a FIFO table any mapped peripheral or device region
    counts as a FIFO with both roles, which is the legacy rule. *)

From S2P Require Import Prelude Regions DmaCaps Platform.

Inductive endpoint : Set :=
| Unmapped
| Incapable
| Mem
| Fifo (roles : Z).

Definition classify (regions : option (list memory_region)) (eps : option (list dma_periph_ep))
    (addr len : Z) : endpoint :=
  match eps with
  | Some t =>
      match dma_periph_find eps addr with
      | Some e => Fifo (ep_roles e)
      | None =>
          match find_region regions addr len with
          | None => Unmapped
          | Some r =>
              if decide (mr_type r = MEM_TYPE_SRAM \/ mr_type r = MEM_TYPE_DRAM)
              then Mem else Incapable
          end
      end
  | None =>
      match find_region regions addr len with
      | None => Unmapped
      | Some r =>
          if decide (mr_type r = MEM_TYPE_SRAM \/ mr_type r = MEM_TYPE_DRAM)
          then Mem else Fifo (Z.lor DMA_EP_SRC DMA_EP_DST)
      end
  end.

Definition has_role (role : Z) (e : endpoint) : bool :=
  match e with Fifo roles => tst roles role | _ => true end.

Definition direction_ok (caps : dma_caps) (s d : endpoint) : bool :=
  match s, d with
  | Mem, Mem => cap_ram_to_ram caps
  | Mem, Fifo _ => cap_mem_to_periph caps
  | Fifo _, Mem => cap_periph_to_mem caps
  | _, _ => false
  end.

Definition aligned (caps : dma_caps) (x : Z) : bool :=
  (cap_alignment caps <=? 1) || (x mod cap_alignment caps =? 0).

Definition is_unmapped (e : endpoint) : bool := match e with Unmapped => true | _ => false end.
Definition is_incapable (e : endpoint) : bool := match e with Incapable => true | _ => false end.

(** The outcomes of a judged request; the numbers are the register codes. *)
Inductive refusal : Set := BadLength | Misaligned | BadAddress | Unsupported.

#[export] Instance refusal_eq_dec : EqDecision refusal.
Proof. solve_decision. Defined.

Definition refusal_code (r : refusal) : Z :=
  match r with BadAddress => 1 | Misaligned => 2 | BadLength => 3 | Unsupported => 4 end.

Fixpoint first_failure (checks : list (bool * refusal)) : option refusal :=
  match checks with
  | [] => None
  | (ok, r) :: checks' => if ok then first_failure checks' else Some r
  end.

Definition judge (caps : dma_caps) (regions : option (list memory_region))
    (eps : option (list dma_periph_ep)) (src dst len : Z) : option refusal :=
  let s := classify regions eps src len in
  let d := classify regions eps dst len in
  first_failure [
    (negb (len =? 0) && aligned caps len, BadLength);
    (aligned caps src && aligned caps dst, Misaligned);
    ((cap_max_transfer caps =? 0) || (len <=? cap_max_transfer caps), Unsupported);
    (negb (is_unmapped s || is_unmapped d), BadAddress);
    (negb (is_incapable s || is_incapable d), Unsupported);
    (has_role DMA_EP_SRC s && has_role DMA_EP_DST d, Unsupported);
    (direction_ok caps s d, Unsupported)
  ].

(** * The VLAB platform *)

Definition in_sram (addr len : Z) : Prop := 0x10000000 <= addr /\ addr + len <= 0x10010000.

Definition vlab_judge (src dst len : Z) : option refusal :=
  judge vlab_dma_caps (Some vlab_memory_map) (Some vlab_dma_periph_eps) src dst len.

Definition vlab_classify (addr len : Z) : endpoint :=
  classify (Some vlab_memory_map) (Some vlab_dma_periph_eps) addr len.

(** The transfers the VLAB platform performs. *)
Definition vlab_transfer (src dst len : Z) : Prop :=
  0 < len <= 16384 /\ len mod 4 = 0 /\ src mod 4 = 0 /\ dst mod 4 = 0 /\
  ((in_sram src len /\ in_sram dst len) \/
   (in_sram src len /\ dst = VLAB_UART_TXDATA) \/
   (src = VLAB_UART_RXDATA /\ in_sram dst len)).

(** The endpoint of an address, by cases on the map. *)
Lemma vlab_classify_spec addr len :
  is_u32 addr -> 0 < len <= 16384 ->
  match vlab_classify addr len with
  | Mem => in_sram addr len
  | Fifo roles =>
      (addr = VLAB_UART_TXDATA /\ roles = DMA_EP_DST) \/
      (addr = VLAB_UART_RXDATA /\ roles = DMA_EP_SRC)
  | Incapable =>
      addr <> VLAB_UART_TXDATA /\ addr <> VLAB_UART_RXDATA /\ ~ in_sram addr len /\
      exists r, r ∈ vlab_memory_map /\ memory_region_contains (Some r) addr len = true
  | Unmapped =>
      addr <> VLAB_UART_TXDATA /\ addr <> VLAB_UART_RXDATA /\ ~ in_sram addr len /\
      Forall (fun r => memory_region_contains (Some r) addr len = false) vlab_memory_map
  end.
Proof.
  intros Ha Hl. unfold vlab_classify, classify, vlab_dma_periph_eps, s_vlab_dma_periphs.
  cbn [dma_periph_find dma_periph_find_from ep_fifo_addr ep_roles].
  destruct (Z.eqb_spec VLAB_UART_TXDATA addr) as [<-|Htx]; [by left|].
  destruct (Z.eqb_spec VLAB_UART_RXDATA addr) as [<-|Hrx]; [by right|].
  cbn [find_region]. destruct (find_region_from vlab_memory_map addr len) as [r|] eqn:E.
  - apply find_region_from_some in E as (pre & post & Hmap & Hc & Hpre).
    assert (r ∈ vlab_memory_map) as Hin by (rewrite Hmap; set_solver).
    pose proof (proj1 (contains_true r addr len ltac:(lia)) Hc) as (_ & _ & Hlo & Hhi).
    unfold vlab_memory_map, s_vlab_map in Hin. unfold in_sram.
    repeat (apply elem_of_cons in Hin as [->|Hin]; [
      simpl in Hlo, Hhi |- *; unfold VLAB_ROM_BASE, VLAB_SRAM_BASE, VLAB_UART_BASE,
        VLAB_TIMER_BASE, VLAB_DMA_BASE, VLAB_INTC_BASE, VLAB_PERF_BASE in *;
      first [lia | split_and!; [done|done|lia|eexists; split; [|exact Hc]; set_solver]] |]).
    by apply not_elem_of_nil in Hin.
  - apply find_region_from_none in E. split_and!; [done|done| |done].
    intros [Hlo Hhi]. unfold vlab_memory_map, s_vlab_map in E.
    apply Forall_inv_tail, Forall_inv in E.
    apply not_true_iff_false in E. apply E, contains_true; [lia|].
    unfold two32. simpl. unfold VLAB_SRAM_BASE. lia.
Qed.

(** The classification, as exclusive cases on three facts of an address. *)
Lemma vlab_classify_cases addr len :
  is_u32 addr -> 0 < len <= 16384 ->
  match vlab_classify addr len with
  | Mem => in_sram addr len /\ addr <> VLAB_UART_TXDATA /\ addr <> VLAB_UART_RXDATA
  | Fifo roles =>
      ~ in_sram addr len /\
      ((addr = VLAB_UART_TXDATA /\ addr <> VLAB_UART_RXDATA /\ roles = DMA_EP_DST) \/
       (addr = VLAB_UART_RXDATA /\ addr <> VLAB_UART_TXDATA /\ roles = DMA_EP_SRC))
  | _ => ~ in_sram addr len /\ addr <> VLAB_UART_TXDATA /\ addr <> VLAB_UART_RXDATA
  end.
Proof.
  intros Ha Hl. pose proof (vlab_classify_spec addr len Ha Hl) as H.
  assert (VLAB_UART_TXDATA <> VLAB_UART_RXDATA) by done.
  destruct (vlab_classify addr len); [tauto|tauto| |];
    unfold in_sram, VLAB_UART_TXDATA, VLAB_UART_RXDATA in *; [lia|].
  destruct H as [[-> ->]|[-> ->]]; (split; [lia|]); [left|right]; done.
Qed.

(** The seven checks on the VLAB platform, spelled out. *)
Lemma vlab_judge_unfold src dst len :
  vlab_judge src dst len =
    let s := vlab_classify src len in
    let d := vlab_classify dst len in
    first_failure [
      (negb (len =? 0) && (len mod 4 =? 0), BadLength);
      ((src mod 4 =? 0) && (dst mod 4 =? 0), Misaligned);
      (len <=? 16384, Unsupported);
      (negb (is_unmapped s || is_unmapped d), BadAddress);
      (negb (is_incapable s || is_incapable d), Unsupported);
      (has_role DMA_EP_SRC s && has_role DMA_EP_DST d, Unsupported);
      (match s, d with Mem, Mem | Mem, Fifo _ | Fifo _, Mem => true | _, _ => false end, Unsupported)
    ].
Proof. done. Qed.

Lemma vlab_judge_none src dst len :
  is_u32 src -> is_u32 dst -> is_u32 len ->
  vlab_judge src dst len = None <-> vlab_transfer src dst len.
Proof.
  intros Hs Hd Hl. rewrite vlab_judge_unfold. unfold vlab_transfer. cbv zeta.
  cbn [first_failure].
  destruct (Z.eqb_spec len 0) as [->|Hz]; [simpl; split; [done|lia]|].
  destruct (Z.eqb_spec (len mod 4) 0); [|simpl; split; [done|lia]].
  destruct (Z.eqb_spec (src mod 4) 0); [|simpl; split; [done|lia]].
  destruct (Z.eqb_spec (dst mod 4) 0); [|simpl; split; [done|lia]].
  destruct (Z.leb_spec len 16384); [|simpl; split; [done|lia]]. cbn [negb andb].
  unfold is_u32 in Hl.
  pose proof (vlab_classify_cases src len Hs ltac:(lia)) as Es.
  pose proof (vlab_classify_cases dst len Hd ltac:(lia)) as Ed.
  transitivity ((in_sram src len /\ in_sram dst len) \/
     (in_sram src len /\ dst = VLAB_UART_TXDATA) \/
     (src = VLAB_UART_RXDATA /\ in_sram dst len)); [|split; [intros; split_and!; done || lia|tauto]].
  destruct (vlab_classify src len) as [| | |rs], (vlab_classify dst len) as [| | |rd];
    cbn [is_unmapped is_incapable orb negb has_role andb];
    try (split; [done|tauto]); try (split; [tauto|done]).
  - destruct Ed as (? & [(? & ? & ->)|(? & ? & ->)]); simpl; split; (done || tauto).
  - destruct Es as (? & [(? & ? & ->)|(? & ? & ->)]); simpl; split; (done || tauto).
  - split; [by case_match|tauto].
Qed.

(** No FIFO at the address, and no region contains the range. *)
Definition vlab_unmapped (len a : Z) : Prop :=
  a <> VLAB_UART_TXDATA /\ a <> VLAB_UART_RXDATA /\
  Forall (fun r => memory_region_contains (Some r) a len = false) vlab_memory_map.

Lemma in_sram_mapped addr len : in_sram addr len -> 0 < len -> ~ vlab_unmapped len addr.
Proof.
  intros [Hlo Hhi] Hl (_ & _ & Hall).
  unfold vlab_memory_map, s_vlab_map in Hall. apply Forall_inv_tail, Forall_inv in Hall.
  apply not_true_iff_false in Hall. destruct Hall. apply contains_true; [lia|].
  unfold two32. simpl. unfold VLAB_SRAM_BASE. lia.
Qed.

Lemma is_unmapped_spec addr len :
  is_u32 addr -> 0 < len <= 16384 ->
  is_unmapped (vlab_classify addr len) = true <-> vlab_unmapped len addr.
Proof.
  intros Ha Hl. pose proof (vlab_classify_spec addr len Ha Hl) as H. unfold vlab_unmapped.
  destruct (vlab_classify addr len); simpl.
  - tauto.
  - split; [done|]. intros (_ & _ & Hall). destruct H as (_ & _ & _ & r & Hr & Hc).
    rewrite Forall_forall in Hall. specialize (Hall r Hr). congruence.
  - split; [done|]. intros Hun. by apply in_sram_mapped in H; [|lia].
  - split; [done|]. tauto.
Qed.

(** A request that passes the first three checks is refused for one of the
    remaining four reasons. *)
Lemma vlab_judge_late src dst len :
  is_u32 src -> is_u32 dst -> is_u32 len ->
  len <> 0 -> len mod 4 = 0 -> src mod 4 = 0 -> dst mod 4 = 0 -> len <= 16384 ->
  vlab_judge src dst len =
    if decide (vlab_judge src dst len = None) then None
    else if is_unmapped (vlab_classify src len) || is_unmapped (vlab_classify dst len)
         then Some BadAddress else Some Unsupported.
Proof.
  intros Hs Hd Hl H0 H1 H2 H3 H4. case_decide as Hn; [done|]. revert Hn.
  rewrite vlab_judge_unfold. cbv zeta. cbn [first_failure].
  apply Z.eqb_neq in H0 as ->. rewrite H1, H2, H3. simpl (0 =? 0).
  apply Z.leb_le in H4 as ->. cbn [negb andb].
  destruct (is_unmapped (vlab_classify src len) || is_unmapped (vlab_classify dst len)); [done|].
  cbn [negb]. repeat case_match; done.
Qed.

(** Every request, by the first condition it violates. *)
Lemma vlab_judge_cases src dst len :
  is_u32 src -> is_u32 dst -> is_u32 len ->
  let length_bad := len = 0 \/ len mod 4 <> 0 in
  let misaligned := src mod 4 <> 0 \/ dst mod 4 <> 0 in
  match vlab_judge src dst len with
  | None => vlab_transfer src dst len
  | Some BadLength => length_bad
  | Some Misaligned => ~ length_bad /\ misaligned
  | Some BadAddress =>
      ~ length_bad /\ ~ misaligned /\ len <= 16384 /\
      (vlab_unmapped len src \/ vlab_unmapped len dst)
  | Some Unsupported =>
      ~ length_bad /\ ~ misaligned /\
      (16384 < len \/
       len <= 16384 /\ ~ vlab_unmapped len src /\ ~ vlab_unmapped len dst /\
       ~ vlab_transfer src dst len)
  end.
Proof.
  intros Hs Hd Hl. cbv zeta. pose proof (vlab_judge_none src dst len Hs Hd Hl) as Hnone.
  destruct (decide (len = 0 \/ len mod 4 <> 0)) as [Hb|Hb].
  { rewrite vlab_judge_unfold. cbv zeta. cbn [first_failure].
    destruct (Z.eqb_spec len 0), (Z.eqb_spec (len mod 4) 0); done || lia. }
  destruct (decide (src mod 4 <> 0 \/ dst mod 4 <> 0)) as [Hm|Hm].
  { rewrite vlab_judge_unfold. cbv zeta. cbn [first_failure].
    destruct (Z.eqb_spec len 0), (Z.eqb_spec (len mod 4) 0); try lia.
    by destruct (Z.eqb_spec (src mod 4) 0), (Z.eqb_spec (dst mod 4) 0); try lia. }
  destruct (Z.le_gt_cases len 16384) as [Hmax|Hmax].
  - assert (0 < len <= 16384) as Hr by (unfold is_u32 in Hl; lia).
    pose proof (is_unmapped_spec src len Hs Hr) as Us.
    pose proof (is_unmapped_spec dst len Hd Hr) as Ud.
    rewrite (vlab_judge_late src dst len) by (done || lia).
    case_decide as Hj; [by apply Hnone|].
    destruct (is_unmapped (vlab_classify src len)), (is_unmapped (vlab_classify dst len));
      cbn [orb]; (split; [done|]; split; [done|]).
    1-3: split; [done|]; tauto.
    right. split; [done|]. split_and!; intros ?; [by apply Us in H|by apply Ud in H|tauto].
  - rewrite vlab_judge_unfold. cbv zeta. cbn [first_failure].
    destruct (Z.eqb_spec len 0), (Z.eqb_spec (len mod 4) 0); try lia.
    destruct (Z.eqb_spec (src mod 4) 0), (Z.eqb_spec (dst mod 4) 0); try lia.
    destruct (Z.leb_spec len 16384); [lia|]. simpl. tauto.
Qed.

(** What an admitted transfer does not violate. *)
Lemma vlab_transfer_mapped src dst len :
  vlab_transfer src dst len ->
  ~ (len = 0 \/ len mod 4 <> 0) /\ ~ (src mod 4 <> 0 \/ dst mod 4 <> 0) /\ len <= 16384 /\
  ~ (vlab_unmapped len src \/ vlab_unmapped len dst).
Proof.
  intros (Hl & Hl4 & Hs4 & Hd4 & Hcase). split; [lia|]. split; [lia|]. split; [lia|].
  intros [Hu|Hu]; destruct Hcase as [[Hs Hd]|[[Hs ->]|[-> Hd]]];
    first [by apply (in_sram_mapped _ _ Hs (proj1 Hl))|by apply (in_sram_mapped _ _ Hd (proj1 Hl))
          |by destruct Hu as (? & ? & _)].
Qed.
