(* ===== verification/Dma.v ===== *)
(** DMA engine: [soc_c/src/soc_dma.c].

    One channel, synchronous validation at START, a countdown, and one
    memmove-like transfer when it expires.  Memory and the UART streams are
    reached through two function pointers and a context: here the class
    [DmaBridge], with its laws in [DmaBridgeLaws]; Soc.v gives the instance.
    The theorems: the phases of the engine and the transitions between them,
    what START accepts and with which code it refuses, the exact transfer
    time, and what completion does to the context. *)

From S2P Require Import Prelude Regions DmaCaps Platform DmaSpec Perf Intc.

Definition SOC_DMA_SRC_OFF : Z := 0x00.
Definition SOC_DMA_DST_OFF : Z := 0x04.
Definition SOC_DMA_LEN_OFF : Z := 0x08.
Definition SOC_DMA_CTRL_OFF : Z := 0x0C.
Definition SOC_DMA_STATUS_OFF : Z := 0x10.
Definition SOC_DMA_IRQ_CLEAR_OFF : Z := 0x14.
Definition SOC_DMA_ERR_CODE_OFF : Z := 0x18.

Definition SOC_DMA_CTRL_START : Z := Z.shiftl 1 0.
Definition SOC_DMA_CTRL_IRQ_ENABLE : Z := Z.shiftl 1 1.

Definition SOC_DMA_STATUS_BUSY : Z := Z.shiftl 1 0.
Definition SOC_DMA_STATUS_DONE : Z := Z.shiftl 1 1.
Definition SOC_DMA_STATUS_ERROR : Z := Z.shiftl 1 2.

Definition SOC_DMA_ERR_NONE : Z := 0.
Definition SOC_DMA_ERR_ADDR : Z := 1.
Definition SOC_DMA_ERR_ALIGN : Z := 2.
Definition SOC_DMA_ERR_LEN : Z := 3.
Definition SOC_DMA_ERR_UNSUPPORTED : Z := 4.

Definition SOC_DMA_IRQ_LINE : Z := 2.

(** [regions]/[n_regions] and [periph_eps]/[n_periph_eps] are one [option]
    list each ([soc_dma_init] forces [n_periph_eps] to 0 for a [NULL] table);
    [mem_ctx] is the context the operations take and return. *)
Record soc_dma_t : Type := Mk_soc_dma {
  d_latency_per_word : Z;
  d_burst : Z;
  d_regions : option (list memory_region);
  d_periph_eps : option (list dma_periph_ep);
  d_caps : dma_caps;
  d_irq_line : Z;
  d_intc : ptr;
  d_perf : ptr;
  d_reader : ptr;
  d_writer : ptr;
  d_src : Z;
  d_dst : Z;
  d_length : Z;
  d_ctrl : Z;
  d_busy : bool;
  d_done : bool;
  d_error : bool;
  d_err_code : Z;
  d_remaining : Z;
  d_irq_enable_latched : bool;
  d_fault_stuck_busy : bool
}.

#[export] Instance settable_dma : Settable soc_dma_t :=
  {| eta_record := fun d => Mk_soc_dma (d_latency_per_word d) (d_burst d) (d_regions d)
       (d_periph_eps d) (d_caps d) (d_irq_line d) (d_intc d) (d_perf d) (d_reader d) (d_writer d)
       (d_src d) (d_dst d) (d_length d) (d_ctrl d) (d_busy d) (d_done d) (d_error d)
       (d_err_code d) (d_remaining d) (d_irq_enable_latched d) (d_fault_stuck_busy d) |}.

(** [soc_dma_reader_t] and [soc_dma_writer_t]: [reader ctx addr len] fills a
    buffer of [len] bytes, [writer ctx addr payload] consumes one. *)
Class DmaBridge (C : Type) : Type := {
  dma_reader : C -> Z -> Z -> result (list Z) * C;
  dma_writer : C -> Z -> list Z -> Z * C
}.

(** 0 = MEM, 1 = PERIPHERAL, -1 = unmapped or overflowing, -2 = mapped but
    not DMA-capable. *)
Definition soc_endpoint_class (regions : option (list memory_region))
    (eps : option (list dma_periph_ep)) (addr len : Z) : Z :=
  match eps with
  | Some _ =>
      match dma_periph_find eps addr with
      | Some _ => 1
      | None =>
          match find_region regions addr len with
          | None => -1
          | Some r =>
              match mr_type r with
              | MEM_TYPE_SRAM | MEM_TYPE_DRAM => 0
              | _ => -2
              end
          end
      end
  | None => dma_endpoint_type regions addr len
  end.

Definition soc_dma_reset (d : soc_dma_t) : soc_dma_t :=
  d <| d_src := 0 |> <| d_dst := 0 |> <| d_length := 0 |> <| d_ctrl := 0 |>
    <| d_busy := false |> <| d_done := false |> <| d_error := false |>
    <| d_err_code := SOC_DMA_ERR_NONE |> <| d_remaining := 0 |>
    <| d_irq_enable_latched := false |> <| d_fault_stuck_busy := false |>.

(** With [caps] = [NULL] the two feature flags keep their previous value. *)
Definition soc_dma_init (d : soc_dma_t) (latency_per_word burst : Z)
    (regions : option (list memory_region)) (periph_eps : option (list dma_periph_ep))
    (caps : option dma_caps) (irq_line : Z) (intc perf reader writer : ptr) : soc_dma_t :=
  let d := d <| d_latency_per_word := if 0 <? latency_per_word then latency_per_word else 1 |>
             <| d_burst := if 0 <? burst then burst else 1 |>
             <| d_regions := regions |> <| d_periph_eps := periph_eps |> in
  let d := match caps with
           | Some c => d <| d_caps := c |>
           | None => d <| d_caps := {|
               cap_alignment := 4; cap_max_transfer := 0; cap_ram_to_ram := true;
               cap_mem_to_periph := false; cap_periph_to_mem := false;
               cap_interrupts := cap_interrupts (d_caps d); cap_cancel := cap_cancel (d_caps d) |} |>
           end in
  soc_dma_reset (d <| d_irq_line := irq_line |> <| d_intc := intc |> <| d_perf := perf |>
                   <| d_reader := reader |> <| d_writer := writer |>).

Definition soc_dma_read (d : soc_dma_t) (offset : Z) : result Z :=
  if offset =? SOC_DMA_SRC_OFF then Ok (d_src d)
  else if offset =? SOC_DMA_DST_OFF then Ok (d_dst d)
  else if offset =? SOC_DMA_LEN_OFF then Ok (d_length d)
  else if offset =? SOC_DMA_CTRL_OFF then Ok (d_ctrl d)
  else if offset =? SOC_DMA_STATUS_OFF then
    let s := 0 in
    let s := if d_busy d then Z.lor s SOC_DMA_STATUS_BUSY else s in
    let s := if d_done d then Z.lor s SOC_DMA_STATUS_DONE else s in
    let s := if d_error d then Z.lor s SOC_DMA_STATUS_ERROR else s in
    Ok s
  else if offset =? SOC_DMA_ERR_CODE_OFF then Ok (d_err_code d)
  else Err SOC_ERR_BUS.

(** [if (d->irq_enable_latched && d->intc) soc_intc_raise(d->intc, d->irq_line);] *)
Definition dma_raise (d : soc_dma_t) (ic : soc_intc_t) : soc_intc_t :=
  if d_irq_enable_latched d && linked (d_intc d) then soc_intc_raise ic (d_irq_line d) else ic.

Definition soc_dma_fail (d : soc_dma_t) (ic : soc_intc_t) (code : Z) : soc_dma_t * soc_intc_t :=
  let d := d <| d_busy := false |> <| d_done := false |> <| d_error := true |>
             <| d_err_code := code |> in
  (d, dma_raise d ic).

Definition soc_dma_start (d : soc_dma_t) (ic : soc_intc_t) (perf : soc_perf_t) (irq_enable : bool)
  : soc_dma_t * soc_intc_t * soc_perf_t :=
  if d_busy d then (d, ic, if linked (d_perf d) then soc_perf_count_stall perf 1 else perf)
  else
    let d := d <| d_irq_enable_latched := irq_enable |> <| d_done := false |>
               <| d_error := false |> <| d_err_code := SOC_DMA_ERR_NONE |> in
    let align := if 1 <? cap_alignment (d_caps d) then cap_alignment (d_caps d) else 1 in
    if (d_length d =? 0) || ((1 <? align) && negb (d_length d mod align =? 0)) then
      (soc_dma_fail d ic SOC_DMA_ERR_LEN, perf)
    else if (1 <? align) && (negb (d_src d mod align =? 0) || negb (d_dst d mod align =? 0)) then
      (soc_dma_fail d ic SOC_DMA_ERR_ALIGN, perf)
    else if negb (cap_max_transfer (d_caps d) =? 0) && (cap_max_transfer (d_caps d) <? d_length d) then
      (soc_dma_fail d ic SOC_DMA_ERR_UNSUPPORTED, perf)
    else
      let src_type := soc_endpoint_class (d_regions d) (d_periph_eps d) (d_src d) (d_length d) in
      let dst_type := soc_endpoint_class (d_regions d) (d_periph_eps d) (d_dst d) (d_length d) in
      if (src_type <? 0) || (dst_type <? 0) then
        (soc_dma_fail d ic (if (src_type =? -1) || (dst_type =? -1)
                            then SOC_DMA_ERR_ADDR else SOC_DMA_ERR_UNSUPPORTED), perf)
      else
        let s_ep := dma_periph_find (d_periph_eps d) (d_src d) in
        let d_ep := dma_periph_find (d_periph_eps d) (d_dst d) in
        let wrong_role :=
          match d_periph_eps d with
          | None => false
          | Some _ =>
              match s_ep with Some e => negb (tst (ep_roles e) DMA_EP_SRC) | None => false end ||
              match d_ep with Some e => negb (tst (ep_roles e) DMA_EP_DST) | None => false end
          end in
        if wrong_role then (soc_dma_fail d ic SOC_DMA_ERR_UNSUPPORTED, perf)
        else if negb (dma_direction_supported (Some (d_caps d)) src_type dst_type) then
          (soc_dma_fail d ic SOC_DMA_ERR_UNSUPPORTED, perf)
        else
          let d := d <| d_busy := true |> in
          let words := u32 (d_length d + 3) / 4 in
          let bursts := u32 (words + d_burst d - 1) / d_burst d in
          let d := d <| d_remaining := i32 (words * d_latency_per_word d + (bursts - 1)) |> in
          let d := if d_remaining d <? 1 then d <| d_remaining := 1 |> else d in
          (d, ic, perf).

Definition soc_dma_write (d : soc_dma_t) (ic : soc_intc_t) (perf : soc_perf_t) (offset value : Z)
  : Z * (soc_dma_t * soc_intc_t * soc_perf_t) :=
  if offset =? SOC_DMA_SRC_OFF then (SOC_OK, (d <| d_src := value |>, ic, perf))
  else if offset =? SOC_DMA_DST_OFF then (SOC_OK, (d <| d_dst := value |>, ic, perf))
  else if offset =? SOC_DMA_LEN_OFF then (SOC_OK, (d <| d_length := value |>, ic, perf))
  else if offset =? SOC_DMA_CTRL_OFF then
    let irq_en := tst value SOC_DMA_CTRL_IRQ_ENABLE in
    let '(d, ic, perf) := if tst value SOC_DMA_CTRL_START
                          then soc_dma_start d ic perf irq_en else (d, ic, perf) in
    let d := d <| d_ctrl := Z.lor (Z.land value (not32 SOC_DMA_CTRL_START))
                              (if irq_en then SOC_DMA_CTRL_IRQ_ENABLE else 0) |> in
    (SOC_OK, (d, ic, perf))
  else if offset =? SOC_DMA_IRQ_CLEAR_OFF then
    (SOC_OK, (d <| d_done := false |> <| d_error := false |> <| d_err_code := SOC_DMA_ERR_NONE |>,
              ic, perf))
  else (SOC_ERR_BUS, (d, ic, perf)).

Section Step.

Context {C : Type} `{DmaBridge C}.

(** Whether [malloc] of a size succeeds, at the moment of the call. *)
Variable malloc_ok : Z -> bool.

Definition soc_dma_step (d : soc_dma_t) (ic : soc_intc_t) (perf : soc_perf_t) (ctx : C)
  : soc_dma_t * soc_intc_t * soc_perf_t * C :=
  if negb (d_busy d) then (d, ic, perf, ctx)
  else if d_fault_stuck_busy d then (d, ic, perf, ctx)
  else
    let d := d <| d_remaining := d_remaining d - 1 |> in
    if 0 <? d_remaining d then (d, ic, perf, ctx)
    else if negb (linked (d_reader d)) || negb (linked (d_writer d)) then (d, ic, perf, ctx)
    else if negb (malloc_ok (if d_length d =? 0 then 1 else d_length d)) then (d, ic, perf, ctx)
    else
      match dma_reader ctx (d_src d) (d_length d) with
      | (Err _, ctx) =>
          let '(d, ic) := soc_dma_fail d ic SOC_DMA_ERR_ADDR in (d, ic, perf, ctx)
      | (Ok tmp, ctx) =>
          let '(rc, ctx) := dma_writer ctx (d_dst d) tmp in
          if negb (rc =? SOC_OK) then
            let '(d, ic) := soc_dma_fail d ic SOC_DMA_ERR_ADDR in (d, ic, perf, ctx)
          else
            let d := d <| d_busy := false |> <| d_done := true |> <| d_error := false |> in
            let perf := if linked (d_perf d) then soc_perf_count_dma perf (d_length d) else perf in
            (d, dma_raise d ic, perf, ctx)
      end.

End Step.

(** * Well-formedness *)

(** The flags describe exactly one phase, and the error code goes with it. *)
Record dma_wf (d : soc_dma_t) : Prop := {
  dwf_latency : 1 <= d_latency_per_word d < two32;
  dwf_burst : 1 <= d_burst d < two32;
  dwf_src : is_u32 (d_src d);
  dwf_dst : is_u32 (d_dst d);
  dwf_length : is_u32 (d_length d);
  dwf_ctrl : is_u32 (d_ctrl d);
  dwf_align : is_u32 (cap_alignment (d_caps d));
  dwf_max : is_u32 (cap_max_transfer (d_caps d));
  dwf_flags : match d_busy d, d_done d, d_error d with
              | false, _, false | false, false, true | true, false, false => True
              | _, _, _ => False
              end;
  dwf_code : if d_error d then 1 <= d_err_code d <= 4 else d_err_code d = 0;
  dwf_line : 0 <= d_irq_line d < SOC_N_LINES
}.

(** An idle engine of the default configuration, programmed with a RAM-to-RAM
    request of 64 bytes. *)
Definition dma_demo : soc_dma_t :=
  Mk_soc_dma 1 4 (Some vlab_memory_map) (Some vlab_dma_periph_eps) vlab_dma_caps SOC_DMA_IRQ_LINE
    LINKED LINKED LINKED LINKED 0x10000000 0x10000100 64 0 false false false 0 0 false false.

Lemma dma_demo_wf : dma_wf dma_demo.
Proof. by constructor. Qed.

Lemma tst_dma_start v : tst v SOC_DMA_CTRL_START = Z.testbit v 0.
Proof. by apply tst_bit. Qed.
Lemma tst_dma_irq_enable v : tst v SOC_DMA_CTRL_IRQ_ENABLE = Z.testbit v 1.
Proof. by apply tst_bit. Qed.

#[export] Hint Rewrite tst_dma_start tst_dma_irq_enable : bits.

Lemma dma_raise_wf d ic : intc_wf ic -> intc_wf (dma_raise d ic).
Proof. intros. unfold dma_raise. destruct (_ && _); auto with soc. Qed.

#[export] Hint Resolve dma_raise_wf : soc.

Lemma dma_raise_linked d ic b :
  d_irq_enable_latched d = b -> d_intc d = LINKED -> d_irq_line d = SOC_DMA_IRQ_LINE ->
  dma_raise d ic = if b then soc_intc_raise ic SOC_DMA_IRQ_LINE else ic.
Proof. intros <- Hi Hl. unfold dma_raise. rewrite Hi, Hl. by rewrite andb_true_r. Qed.

(** * START *)

(** The engine's endpoint classes are the specification's. *)
Lemma endpoint_class_classify regions eps addr len :
  match classify regions eps addr len with
  | Unmapped => soc_endpoint_class regions eps addr len = -1
  | Incapable => soc_endpoint_class regions eps addr len = -2
  | Mem => soc_endpoint_class regions eps addr len = DMA_ADDR_MEM
  | Fifo _ => soc_endpoint_class regions eps addr len = DMA_ADDR_PERIPHERAL \/
              soc_endpoint_class regions eps addr len = DMA_ADDR_DEVICE
  end.
Proof.
  unfold classify, soc_endpoint_class, dma_endpoint_type. destruct eps as [t|].
  - destruct (dma_periph_find (Some t) addr); [by left|].
    destruct (find_region regions addr len) as [r|]; [|done].
    case_decide; destruct (mr_type r); intuition congruence.
  - destruct (find_region regions addr len) as [r|]; [|done].
    case_decide; destruct (mr_type r); intuition congruence.
Qed.

Lemma direction_supported_ok caps regions eps1 s1 l1 eps2 s2 l2 :
  let s := classify regions eps1 s1 l1 in
  let d := classify regions eps2 s2 l2 in
  is_unmapped s || is_unmapped d = false -> is_incapable s || is_incapable d = false ->
  dma_direction_supported (Some caps) (soc_endpoint_class regions eps1 s1 l1)
    (soc_endpoint_class regions eps2 s2 l2) = direction_ok caps s d.
Proof.
  cbv zeta. pose proof (endpoint_class_classify regions eps1 s1 l1) as Hs.
  pose proof (endpoint_class_classify regions eps2 s2 l2) as Hd.
  destruct (classify regions eps1 s1 l1), (classify regions eps2 s2 l2); try done; intros _ _;
    repeat match goal with H : _ \/ _ |- _ => destruct H as [H|H] end; by rewrite Hs, Hd.
Qed.

(** The role test of the engine, on the specification's endpoints. *)
Lemma role_classify regions eps role addr len :
  role = DMA_EP_SRC \/ role = DMA_EP_DST ->
  match eps with
  | None => true
  | Some _ => match dma_periph_find eps addr with
              | Some e => tst (ep_roles e) role
              | None => true
              end
  end = has_role role (classify regions eps addr len).
Proof.
  intros Hr. unfold classify. destruct eps as [t|].
  - destruct (dma_periph_find (Some t) addr); [done|].
    destruct (find_region regions addr len); [|done]. by case_decide.
  - destruct (find_region regions addr len); [|done]. case_decide; [done|].
    by destruct Hr as [-> | ->].
Qed.

(** The state START arms before it validates. *)
Definition dma_armed (d : soc_dma_t) (irq_enable : bool) : soc_dma_t :=
  d <| d_irq_enable_latched := irq_enable |> <| d_done := false |>
    <| d_error := false |> <| d_err_code := SOC_DMA_ERR_NONE |>.

(** The countdown START loads, with the source's 32-bit arithmetic. *)
Definition dma_countdown (d : soc_dma_t) : Z :=
  let words := u32 (d_length d + 3) / 4 in
  let bursts := u32 (words + d_burst d - 1) / d_burst d in
  Z.max 1 (i32 (words * d_latency_per_word d + (bursts - 1))).

#[global] Arguments dma_countdown : simpl never.

Definition dma_judge (d : soc_dma_t) : option refusal :=
  judge (d_caps d) (d_regions d) (d_periph_eps d) (d_src d) (d_dst d) (d_length d).

Definition dma_started (d : soc_dma_t) (irq_enable : bool) : soc_dma_t :=
  dma_armed d irq_enable <| d_busy := true |> <| d_remaining := dma_countdown d |>.

Lemma aligned_test caps x :
  (1 <? (if 1 <? cap_alignment caps then cap_alignment caps else 1)) &&
  negb (x mod (if 1 <? cap_alignment caps then cap_alignment caps else 1) =? 0)
  = negb (aligned caps x).
Proof.
  unfold aligned. destruct (Z.ltb_spec 1 (cap_alignment caps)) as [H|H].
  - by rewrite (proj2 (Z.ltb_lt _ _) H), (proj2 (Z.leb_gt _ _) H).
  - by rewrite (proj2 (Z.leb_le _ _) H).
Qed.

(** The three tests of START that are not one capability helper each. *)
Lemma endpoint_class_neg regions eps addr len :
  (soc_endpoint_class regions eps addr len <? 0)
    = is_unmapped (classify regions eps addr len) || is_incapable (classify regions eps addr len) /\
  (soc_endpoint_class regions eps addr len =? -1) = is_unmapped (classify regions eps addr len).
Proof.
  pose proof (endpoint_class_classify regions eps addr len) as H.
  destruct (classify regions eps addr len); [by rewrite H..|].
  by destruct H as [-> | ->].
Qed.

Lemma wrong_role_classify regions eps src dst len :
  match eps with
  | None => false
  | Some _ =>
      match dma_periph_find eps src with Some e => negb (tst (ep_roles e) DMA_EP_SRC) | None => false end ||
      match dma_periph_find eps dst with Some e => negb (tst (ep_roles e) DMA_EP_DST) | None => false end
  end = negb (has_role DMA_EP_SRC (classify regions eps src len) &&
              has_role DMA_EP_DST (classify regions eps dst len)).
Proof.
  rewrite <- (role_classify regions eps DMA_EP_SRC src len) by auto.
  rewrite <- (role_classify regions eps DMA_EP_DST dst len) by auto.
  destruct eps as [t|]; [|done]. rewrite negb_andb. repeat case_match; done.
Qed.

Lemma misaligned_test caps src dst :
  let align := if 1 <? cap_alignment caps then cap_alignment caps else 1 in
  (1 <? align) && (negb (src mod align =? 0) || negb (dst mod align =? 0))
  = negb (aligned caps src && aligned caps dst).
Proof. cbv zeta. by rewrite andb_orb_distrib_r, !aligned_test, negb_andb. Qed.

Lemma remaining_clamp d x :
  (if d_remaining (d <| d_remaining := x |>) <? 1
   then d <| d_remaining := x |> <| d_remaining := 1 |> else d <| d_remaining := x |>)
  = d <| d_remaining := Z.max 1 x |>.
Proof.
  change (d_remaining (d <| d_remaining := x |>)) with x.
  destruct (Z.ltb_spec x 1); [rewrite Z.max_l by lia|rewrite Z.max_r by lia]; done.
Qed.

(** On an idle engine START is the specification: the first failed check
    decides the error code, and a request that fails none starts the
    countdown. *)
Lemma soc_dma_start_idle d ic perf irq_enable :
  d_busy d = false ->
  soc_dma_start d ic perf irq_enable =
    match dma_judge d with
    | Some r => (soc_dma_fail (dma_armed d irq_enable) ic (refusal_code r), perf)
    | None => (dma_started d irq_enable, ic, perf)
    end.
Proof.
  intros Hb. unfold soc_dma_start, dma_judge, judge. rewrite Hb.
  fold (dma_armed d irq_enable). set (d1 := dma_armed d irq_enable).
  cbv zeta.
  change (d_caps d1) with (d_caps d). change (d_length d1) with (d_length d).
  change (d_src d1) with (d_src d). change (d_dst d1) with (d_dst d).
  change (d_regions d1) with (d_regions d). change (d_periph_eps d1) with (d_periph_eps d).
  rewrite aligned_test, misaligned_test. cbn [first_failure].
  destruct (d_length d =? 0), (aligned (d_caps d) (d_length d)); try done; cbn [orb negb andb].
  destruct (aligned (d_caps d) (d_src d) && aligned (d_caps d) (d_dst d)); [|done]. cbn [negb].
  rewrite Z.ltb_antisym, <- negb_orb.
  destruct ((cap_max_transfer (d_caps d) =? 0) || (d_length d <=? cap_max_transfer (d_caps d)));
    [|done]. cbn [negb].
  rewrite (wrong_role_classify (d_regions d) _ _ _ (d_length d)).
  destruct (endpoint_class_neg (d_regions d) (d_periph_eps d) (d_src d) (d_length d)) as [-> ->].
  destruct (endpoint_class_neg (d_regions d) (d_periph_eps d) (d_dst d) (d_length d)) as [-> ->].
  pose proof (direction_supported_ok (d_caps d) (d_regions d) (d_periph_eps d) (d_src d)
    (d_length d) (d_periph_eps d) (d_dst d) (d_length d)) as Hdir. cbv zeta in Hdir.
  destruct (is_unmapped _ || is_unmapped _) eqn:Eu.
  { by apply orb_true_iff in Eu as [-> | ->]; rewrite ?orb_true_r. }
  destruct (is_incapable _ || is_incapable _) eqn:Ei.
  { apply orb_false_iff in Eu as [-> ->]. cbn [orb]. by rewrite Ei. }
  rewrite Hdir by done. apply orb_false_iff in Eu as [-> ->], Ei as [-> ->]. cbn [orb negb].
  destruct (has_role _ _ && has_role _ _); [|done]. cbn [negb].
  destruct (direction_ok _ _ _); [|done]. cbn [negb].
  by rewrite remaining_clamp.
Qed.

(** A second START while a transfer runs changes nothing but the stall
    counter. *)
Lemma soc_dma_start_busy d ic perf irq_enable :
  d_busy d = true ->
  soc_dma_start d ic perf irq_enable =
    (d, ic, if linked (d_perf d) then soc_perf_count_stall perf 1 else perf).
Proof. intros Hb. unfold soc_dma_start. by rewrite Hb. Qed.

(** * Preservation *)

Lemma refusal_code_range r : 1 <= refusal_code r <= 4.
Proof. destruct r; simpl; lia. Qed.

Lemma soc_dma_reset_wf d : dma_wf d -> dma_wf (soc_dma_reset d).
Proof. intros []. destruct d; rec_simpl. constructor; simpl; auto with soc. Qed.

Lemma soc_dma_fail_wf d ic code d' ic' :
  dma_wf d -> intc_wf ic -> 1 <= code <= 4 ->
  soc_dma_fail d ic code = (d', ic') -> dma_wf d' /\ intc_wf ic'.
Proof.
  intros [] Hic Hc [= <- <-]. split; [|by apply dma_raise_wf].
  destruct d; rec_simpl. constructor; simpl; auto.
Qed.

Lemma dma_armed_wf d irq_enable : dma_wf d -> dma_wf (dma_armed d irq_enable).
Proof.
  intros []. unfold dma_armed. destruct d; rec_simpl. constructor; simpl; auto.
  by destruct d_busy0.
Qed.

Lemma dma_busy_wf d c :
  dma_wf d -> d_done d = false -> d_error d = false ->
  dma_wf (d <| d_busy := true |> <| d_remaining := c |>).
Proof.
  intros [] Hdone Herr. destruct d; rec_simpl; subst. constructor; simpl; auto.
Qed.

Lemma dma_started_wf d irq_enable : dma_wf d -> dma_wf (dma_started d irq_enable).
Proof. intros Hd. by apply dma_busy_wf; [apply dma_armed_wf|..]. Qed.

Lemma soc_dma_start_wf d ic perf irq_enable d' ic' perf' :
  dma_wf d -> intc_wf ic -> perf_wf perf ->
  soc_dma_start d ic perf irq_enable = (d', ic', perf') ->
  dma_wf d' /\ intc_wf ic' /\ perf_wf perf'.
Proof.
  intros Hd Hic Hp. destruct (d_busy d) eqn:Hb.
  - rewrite soc_dma_start_busy by done. intros [= <- <- <-]. case_match; auto with soc.
  - rewrite soc_dma_start_idle by done. destruct (dma_judge d) as [r|].
    + destruct (soc_dma_fail _ _ _) as [d1 ic1] eqn:Ef. intros [= <- <- <-].
      apply soc_dma_fail_wf in Ef; auto using dma_armed_wf, refusal_code_range. tauto.
    + intros [= <- <- <-]. auto using dma_started_wf.
Qed.

Lemma soc_dma_ctrl_wf d value :
  dma_wf d -> is_u32 value -> dma_wf (d <| d_ctrl := value |>).
Proof. intros [] Hv. destruct d; rec_simpl. constructor; simpl; auto. Qed.

Lemma soc_dma_write_wf d ic perf offset value rc d' ic' perf' :
  dma_wf d -> intc_wf ic -> perf_wf perf -> is_u32 value ->
  soc_dma_write d ic perf offset value = (rc, (d', ic', perf')) ->
  dma_wf d' /\ intc_wf ic' /\ perf_wf perf'.
Proof.
  intros Hd Hic Hp Hv. unfold soc_dma_write.
  do 3 (case_match; [intros [= <- <- <- <-]; split; [|done];
                     destruct Hd, d; rec_simpl; constructor; simpl; auto|]).
  case_match.
  - destruct (if tst value SOC_DMA_CTRL_START then _ else _) as [[d1 ic1] perf1] eqn:E.
    intros [= <- <- <- <-].
    assert (dma_wf d1 /\ intc_wf ic1 /\ perf_wf perf1) as (Hd1 & Hic1 & Hp1).
    { destruct (tst value SOC_DMA_CTRL_START); [by eapply soc_dma_start_wf|].
      by injection E as <- <- <-. }
    split; [|done]. apply soc_dma_ctrl_wf; [done|].
    apply is_u32_lor; [by apply is_u32_land|].
    by destruct (tst value SOC_DMA_CTRL_IRQ_ENABLE).
  - case_match; intros [= <- <- <- <-]; [|done]. split; [|done].
    destruct Hd, d; rec_simpl. constructor; simpl; auto. by destruct d_busy0.
Qed.

(** * The phases

    The three flags and the error code are one state machine. *)

Inductive dma_phase : Set := Idle | Busy | Done | Failed (code : Z).

#[export] Instance dma_phase_eq_dec : EqDecision dma_phase.
Proof. solve_decision. Defined.

Definition phase (d : soc_dma_t) : dma_phase :=
  if d_busy d then Busy
  else if d_error d then Failed (d_err_code d)
  else if d_done d then Done else Idle.

(** What STATUS and ERR_CODE show of a phase. *)
Definition phase_status (p : dma_phase) : Z :=
  match p with Idle => 0 | Busy => 1 | Done => 2 | Failed _ => 4 end.

Definition phase_code (p : dma_phase) : Z := match p with Failed c => c | _ => 0 end.

(** A register write, on phases: only a START on a free engine and
    IRQ_CLEAR on a free engine move it. *)
Definition phase_write (p : dma_phase) (verdict : option refusal) (offset value : Z) : dma_phase :=
  match p with
  | Busy => Busy
  | _ =>
      if (offset =? SOC_DMA_CTRL_OFF) && Z.testbit value 0 then
        match verdict with None => Busy | Some r => Failed (refusal_code r) end
      else if offset =? SOC_DMA_IRQ_CLEAR_OFF then Idle else p
  end.

Lemma phase_armed_fail d ic irq_enable code :
  phase (fst (soc_dma_fail (dma_armed d irq_enable) ic code)) = Failed code.
Proof. done. Qed.

Lemma phase_free d : phase d <> Busy <-> d_busy d = false.
Proof. unfold phase. destruct (d_busy d); [done|]. split; [done|]. by repeat case_match. Qed.

Lemma phase_ctrl d value : phase (d <| d_ctrl := value |>) = phase d.
Proof. done. Qed.

Lemma soc_dma_start_phase d ic perf irq_enable :
  phase (fst (fst (soc_dma_start d ic perf irq_enable))) =
  match phase d with
  | Busy => Busy
  | _ => match dma_judge d with None => Busy | Some r => Failed (refusal_code r) end
  end.
Proof.
  destruct (d_busy d) eqn:Hb.
  - rewrite soc_dma_start_busy by done. unfold phase. simpl. by rewrite Hb.
  - rewrite soc_dma_start_idle by done. apply phase_free in Hb.
    destruct (dma_judge d); by destruct (phase d).
Qed.

Lemma soc_dma_status_phase d :
  dma_wf d ->
  soc_dma_read d SOC_DMA_STATUS_OFF = Ok (phase_status (phase d)) /\
  soc_dma_read d SOC_DMA_ERR_CODE_OFF = Ok (phase_code (phase d)).
Proof.
  intros []. unfold phase. change (soc_dma_read d SOC_DMA_ERR_CODE_OFF) with (Ok (d_err_code d)).
  cbn -[Z.lor]. split; destruct (d_busy d), (d_done d), (d_error d); simpl; done || by f_equal.
Qed.

Lemma dma_ctrl_value v :
  is_u32 v ->
  Z.lor (Z.land v (not32 SOC_DMA_CTRL_START))
    (if Z.testbit v 1 then SOC_DMA_CTRL_IRQ_ENABLE else 0) = Z.ldiff v 1.
Proof.
  intros Hv. rewrite land_not32 by done. change SOC_DMA_CTRL_START with 1.
  destruct (Z.testbit v 1) eqn:Hb; [|by rewrite Z.lor_0_r].
  apply Z.bits_inj'. intros n Hn. rewrite Z.lor_spec, Z.ldiff_spec.
  unfold SOC_DMA_CTRL_IRQ_ENABLE. rewrite testbit_shiftl1 by lia.
  destruct (Z.eqb_spec 1 n) as [<-|]; [by rewrite Hb|apply orb_false_r].
Qed.

Lemma soc_dma_write_ctrl d ic perf v :
  is_u32 v ->
  soc_dma_write d ic perf SOC_DMA_CTRL_OFF v =
    let '(d', ic', perf') :=
      if Z.testbit v 0 then soc_dma_start d ic perf (Z.testbit v 1) else (d, ic, perf) in
    (SOC_OK, (d' <| d_ctrl := Z.ldiff v 1 |>, ic', perf')).
Proof.
  intros Hv. unfold soc_dma_write.
  change (SOC_DMA_CTRL_OFF =? SOC_DMA_SRC_OFF) with false.
  change (SOC_DMA_CTRL_OFF =? SOC_DMA_DST_OFF) with false.
  change (SOC_DMA_CTRL_OFF =? SOC_DMA_LEN_OFF) with false.
  rewrite Z.eqb_refl. cbv iota zeta. autorewrite with bits. by rewrite dma_ctrl_value.
Qed.

(** Whether a write is a START. *)
Definition is_start (offset value : Z) : bool :=
  (offset =? SOC_DMA_CTRL_OFF) && Z.testbit value 0.

Lemma soc_dma_start_effects d ic perf irq_enable :
  let '(_, ic', perf') := soc_dma_start d ic perf irq_enable in
  ic' = (match phase d, dma_judge d with
         | Busy, _ | _, None => ic
         | _, Some _ => if irq_enable && linked (d_intc d) then soc_intc_raise ic (d_irq_line d) else ic
         end) /\
  perf' = (match phase d with
           | Busy => if linked (d_perf d) then soc_perf_count_stall perf 1 else perf
           | _ => perf
           end).
Proof.
  destruct (d_busy d) eqn:Hb.
  - rewrite soc_dma_start_busy by done. unfold phase. by rewrite Hb.
  - rewrite soc_dma_start_idle by done. apply phase_free in Hb.
    destruct (dma_judge d); by destruct (phase d).
Qed.

(** C10. Every register access, seen through the phases: STATUS and ERR_CODE
    display the phase; a write moves the phase as [phase_write] says, with
    the interrupt line raised exactly by a START refused with IRQ_ENABLE and
    a stall counted exactly for a START on a busy engine; SRC, DST and LEN
    are storage, and CTRL reads back with START cleared. *)
Theorem soc_dma_registers d ic perf offset value :
  dma_wf d -> is_u32 value ->
  soc_dma_read d SOC_DMA_STATUS_OFF = Ok (phase_status (phase d)) /\
  soc_dma_read d SOC_DMA_ERR_CODE_OFF = Ok (phase_code (phase d)) /\
  let '(rc, (d', ic', perf')) := soc_dma_write d ic perf offset value in
  phase d' = phase_write (phase d) (dma_judge d) offset value /\
  ic' = (match phase d, dma_judge d with
         | Busy, _ | _, None => ic
         | _, Some _ => if is_start offset value && Z.testbit value 1 && linked (d_intc d)
                        then soc_intc_raise ic (d_irq_line d) else ic
         end) /\
  perf' = (match phase d with
           | Busy => if is_start offset value && linked (d_perf d)
                     then soc_perf_count_stall perf 1 else perf
           | _ => perf
           end) /\
  (rc = SOC_OK -> soc_dma_read d' offset =
     if offset =? SOC_DMA_CTRL_OFF then Ok (Z.ldiff value 1)
     else if offset =? SOC_DMA_IRQ_CLEAR_OFF then Err SOC_ERR_BUS else Ok value) /\
  (rc <> SOC_OK -> rc = SOC_ERR_BUS /\ d' = d).
Proof.
  intros Hd Hv. destruct (soc_dma_status_phase d Hd) as [-> ->]. do 2 (split; [done|]).
  unfold phase_write, is_start.
  destruct (Z.eqb_spec offset SOC_DMA_CTRL_OFF) as [->|Hc].
  - rewrite soc_dma_write_ctrl by done. change (SOC_DMA_CTRL_OFF =? SOC_DMA_IRQ_CLEAR_OFF) with false.
    destruct (Z.testbit value 0).
    + pose proof (soc_dma_start_phase d ic perf (Z.testbit value 1)) as Hp.
      pose proof (soc_dma_start_effects d ic perf (Z.testbit value 1)) as He.
      destruct (soc_dma_start d ic perf (Z.testbit value 1)) as [[d1 ic1] perf1].
      destruct He as [-> ->]. simpl in Hp. rewrite phase_ctrl, Hp. cbn [andb].
      split_and!; [|done..]. by destruct (phase d).
    + cbn [andb]. split_and!; [by rewrite phase_ctrl; destruct (phase d)|..]; try done;
        by destruct (phase d), (dma_judge d).
  - unfold soc_dma_write. rewrite (proj2 (Z.eqb_neq _ _) Hc). cbn [andb].
    destruct (Z.eqb_spec offset SOC_DMA_SRC_OFF) as [->|];
      [|destruct (Z.eqb_spec offset SOC_DMA_DST_OFF) as [->|];
        [|destruct (Z.eqb_spec offset SOC_DMA_LEN_OFF) as [->|];
          [|destruct (Z.eqb_spec offset SOC_DMA_IRQ_CLEAR_OFF) as [->|]]]];
      split_and!; try done; unfold phase; simpl; destruct (d_busy d), (d_done d), (d_error d);
      try done; by destruct (dma_judge d).
Qed.

Lemma soc_dma_registers_witness :
  let '(rc, (d', _, _)) :=
    soc_dma_write dma_demo (soc_intc_init LINKED) soc_perf_init SOC_DMA_CTRL_OFF 3 in
  phase d' = Busy.
Proof.
  pose proof (soc_dma_registers dma_demo (soc_intc_init LINKED) soc_perf_init SOC_DMA_CTRL_OFF 3
    dma_demo_wf ltac:(done)) as (_ & _ & H).
  destruct (soc_dma_write _ _ _ _ _) as [rc [[d' ic'] perf']]. destruct H as (-> & _). done.
Defined.

(** * The transfer time *)

(** One tick per word at the configured rate, one more between bursts. *)
Definition transfer_ticks (latency burst len : Z) : Z :=
  let words := (len + 3) / 4 in words * latency + (words - 1) / burst.

Lemma transfer_ticks_pos latency burst len :
  1 <= latency -> 1 <= burst -> 0 < len -> 1 <= transfer_ticks latency burst len.
Proof.
  intros Hl Hb Hlen. unfold transfer_ticks.
  assert (1 <= (len + 3) / 4) by (Z.to_euclidean_division_equations; lia).
  assert (0 <= ((len + 3) / 4 - 1) / burst) by (apply Z.div_pos; lia). nia.
Qed.

Lemma i32_small x : 0 <= x < 0x80000000 -> i32 x = x.
Proof.
  intros Hx. unfold i32. rewrite Z.mod_small by (unfold two32; lia).
  destruct (Z.ltb_spec x 0x80000000); lia.
Qed.

(** Within these bounds none of the 32-bit operations of START wraps. *)
Lemma dma_countdown_exact d :
  1 <= d_latency_per_word d -> 1 <= d_burst d ->
  0 < d_length d -> d_length d + 3 < two32 ->
  (d_length d + 3) / 4 + d_burst d - 1 < two32 ->
  transfer_ticks (d_latency_per_word d) (d_burst d) (d_length d) < 0x80000000 ->
  dma_countdown d = transfer_ticks (d_latency_per_word d) (d_burst d) (d_length d).
Proof.
  intros Hl Hb H0 H1 H2 H3.
  pose proof (transfer_ticks_pos (d_latency_per_word d) (d_burst d) (d_length d) Hl Hb H0) as Hpos.
  unfold dma_countdown, transfer_ticks in *. rewrite (u32_id (d_length d + 3)) by (split; lia).
  set (words := (d_length d + 3) / 4) in *.
  assert (1 <= words) by (subst words; Z.to_euclidean_division_equations; lia).
  rewrite u32_id by (split; lia).
  replace (words + d_burst d - 1) with (words - 1 + 1 * d_burst d) by lia.
  rewrite Z.div_add by lia. rewrite i32_small by lia. lia.
Qed.

(** * Stepping *)

Section Transfer.

Context {C : Type} `{DmaBridge C} (malloc_ok : Z -> bool).

(** The clock of the engine alone: [n] ticks. *)
Definition dma_steps (n : nat) (st : soc_dma_t * soc_intc_t * soc_perf_t * C)
  : soc_dma_t * soc_intc_t * soc_perf_t * C :=
  Nat.iter n (fun '(d, ic, perf, ctx) => soc_dma_step malloc_ok d ic perf ctx) st.

Lemma dma_steps_S n d ic perf ctx :
  dma_steps (S n) (d, ic, perf, ctx) = dma_steps n (soc_dma_step malloc_ok d ic perf ctx).
Proof. unfold dma_steps. by rewrite Nat.iter_succ_r. Qed.

Lemma soc_dma_step_free d ic perf (ctx : C) :
  d_busy d = false -> soc_dma_step malloc_ok d ic perf ctx = (d, ic, perf, ctx).
Proof. intros Hb. unfold soc_dma_step. by rewrite Hb. Qed.

Lemma soc_dma_step_stuck d ic perf (ctx : C) :
  d_fault_stuck_busy d = true -> soc_dma_step malloc_ok d ic perf ctx = (d, ic, perf, ctx).
Proof. intros Hf. unfold soc_dma_step. rewrite Hf. by case_match. Qed.

Lemma soc_dma_step_wait d ic perf (ctx : C) :
  d_busy d = true -> d_fault_stuck_busy d = false -> 1 < d_remaining d ->
  soc_dma_step malloc_ok d ic perf ctx =
    (d <| d_remaining := d_remaining d - 1 |>, ic, perf, ctx).
Proof.
  intros Hb Hf Hr. unfold soc_dma_step. rewrite Hb, Hf. cbn [negb].
  change (d_remaining (d <| d_remaining := d_remaining d - 1 |>)) with (d_remaining d - 1).
  by rewrite (proj2 (Z.ltb_lt _ _)) by lia.
Qed.

(** The engine after its countdown expired, and what it did on the way. *)
Definition dma_finish (d : soc_dma_t) (ic : soc_intc_t) (perf : soc_perf_t) (ctx : C)
  : soc_dma_t * soc_intc_t * soc_perf_t * C :=
  let d0 := d <| d_remaining := d_remaining d - 1 |> in
  match dma_reader ctx (d_src d) (d_length d) with
  | (Err _, ctx1) => (soc_dma_fail d0 ic SOC_DMA_ERR_ADDR, perf, ctx1)
  | (Ok tmp, ctx1) =>
      let '(rc, ctx2) := dma_writer ctx1 (d_dst d) tmp in
      if rc =? SOC_OK then
        (d0 <| d_busy := false |> <| d_done := true |> <| d_error := false |>, dma_raise d ic,
         (if linked (d_perf d) then soc_perf_count_dma perf (d_length d) else perf), ctx2)
      else (soc_dma_fail d0 ic SOC_DMA_ERR_ADDR, perf, ctx2)
  end.

Lemma soc_dma_step_finish d ic perf (ctx : C) :
  d_busy d = true -> d_fault_stuck_busy d = false -> d_remaining d <= 1 ->
  d_reader d = LINKED -> d_writer d = LINKED ->
  malloc_ok (if d_length d =? 0 then 1 else d_length d) = true ->
  soc_dma_step malloc_ok d ic perf ctx = dma_finish d ic perf ctx.
Proof.
  intros Hb Hf Hr Hrd Hwr Hm. unfold soc_dma_step, dma_finish. rewrite Hb, Hf. cbn [negb].
  set (d0 := d <| d_remaining := d_remaining d - 1 |>).
  change (d_remaining d0) with (d_remaining d - 1).
  rewrite (proj2 (Z.ltb_ge _ _)) by lia.
  change (d_reader d0) with (d_reader d). change (d_writer d0) with (d_writer d).
  change (d_length d0) with (d_length d). change (d_src d0) with (d_src d).
  change (d_dst d0) with (d_dst d). rewrite Hrd, Hwr, Hm. cbn [linked negb orb].
  destruct (dma_reader ctx (d_src d) (d_length d)) as [[tmp|] ctx1]; [|done].
  destruct (dma_writer ctx1 (d_dst d) tmp) as [rc ctx2].
  by destruct (Z.eqb_spec rc SOC_OK).
Qed.

Lemma soc_dma_step_blocked d ic perf (ctx : C) :
  d_busy d = true -> d_fault_stuck_busy d = false -> d_remaining d <= 1 ->
  linked (d_reader d) && linked (d_writer d) &&
    malloc_ok (if d_length d =? 0 then 1 else d_length d) = false ->
  soc_dma_step malloc_ok d ic perf ctx =
    (d <| d_remaining := d_remaining d - 1 |>, ic, perf, ctx).
Proof.
  intros Hb Hf Hr Hgo. unfold soc_dma_step. rewrite Hb, Hf. cbn [negb].
  set (d0 := d <| d_remaining := d_remaining d - 1 |>).
  change (d_remaining d0) with (d_remaining d - 1).
  rewrite (proj2 (Z.ltb_ge _ _)) by lia.
  change (d_reader d0) with (d_reader d). change (d_writer d0) with (d_writer d).
  change (d_length d0) with (d_length d).
  destruct (linked (d_reader d)), (linked (d_writer d)); try done.
  cbn [andb negb orb] in Hgo |- *. by rewrite Hgo.
Qed.

Lemma dma_steps_free n d ic perf (ctx : C) :
  d_busy d = false -> dma_steps n (d, ic, perf, ctx) = (d, ic, perf, ctx).
Proof.
  intros Hb. induction n as [|n IH]; [done|]. by rewrite dma_steps_S, soc_dma_step_free.
Qed.

Lemma dma_steps_wait n d ic perf (ctx : C) :
  d_busy d = true -> d_fault_stuck_busy d = false -> Z.of_nat n < d_remaining d ->
  dma_steps n (d, ic, perf, ctx) =
    (d <| d_remaining := d_remaining d - Z.of_nat n |>, ic, perf, ctx).
Proof.
  revert d. induction n as [|n IH]; intros d Hb Hf Hn.
  - simpl. rewrite Z.sub_0_r. by destruct d.
  - rewrite dma_steps_S, soc_dma_step_wait by (done || lia).
    rewrite IH; [|done..|]; change (d_remaining (d <| d_remaining := d_remaining d - 1 |>))
      with (d_remaining d - 1); [|lia].
    do 3 f_equal. unfold set_field; simpl. f_equal. lia.
Qed.

End Transfer.

(** * The interface to the memory system

    What the engine relies on, and what Soc.v proves of the two bridge
    functions: a read delivers exactly the bytes asked for, a refused write
    leaves the context alone, and a request the platform judges valid is
    served. *)
Class DmaBridgeLaws (C : Type) `{DmaBridge C} : Type := {
  bridge_wf : C -> Prop;
  bridge_reader_ok c addr len r c' :
    bridge_wf c -> is_u32 addr -> is_u32 len -> dma_reader c addr len = (r, c') ->
    bridge_wf c' /\ match r with Ok bs => zlen bs = len /\ Forall is_byte bs | Err _ => c' = c end;
  bridge_writer_ok c addr bs rc c' :
    bridge_wf c -> is_u32 addr -> is_u32 (zlen bs) -> Forall is_byte bs ->
    dma_writer c addr bs = (rc, c') -> bridge_wf c' /\ (rc <> SOC_OK -> c' = c);
  bridge_serves c src dst len :
    bridge_wf c -> is_u32 src -> is_u32 dst -> vlab_transfer src dst len ->
    exists bs c1 c2, dma_reader c src len = (Ok bs, c1) /\ dma_writer c1 dst bs = (SOC_OK, c2)
}.

(** The least memory system that keeps the promises: it reads zeros and
    forgets what is written. *)
#[local] Instance null_bridge : DmaBridge unit := {
  dma_reader c addr len := (Ok (zeros len), c);
  dma_writer c addr bs := (SOC_OK, c)
}.

#[local] Instance null_bridge_laws : DmaBridgeLaws unit.
Proof.
  refine {| bridge_wf _ := True |}.
  - intros c addr len r c' _ _ Hl [= <- <-]. split; [done|].
    split; [apply zlen_zeros, Hl|apply Forall_byte_zeros].
  - intros c addr bs rc c' _ _ _ _ [= <- <-]. done.
  - intros c src dst len _ _ _ _. by eexists _, _, _.
Defined.

(** The engine as the platform wires it. *)
Record dma_vlab (d : soc_dma_t) : Prop := {
  dv_regions : d_regions d = Some vlab_memory_map;
  dv_eps : d_periph_eps d = Some vlab_dma_periph_eps;
  dv_caps : d_caps d = vlab_dma_caps;
  dv_line : d_irq_line d = SOC_DMA_IRQ_LINE;
  dv_intc : d_intc d = LINKED;
  dv_perf : d_perf d = LINKED;
  dv_reader : d_reader d = LINKED;
  dv_writer : d_writer d = LINKED
}.

(** The fields only [soc_dma_init] sets. *)
Definition dma_config (d : soc_dma_t) :=
  (d_latency_per_word d, d_burst d, d_regions d, d_periph_eps d, d_caps d, d_irq_line d,
   d_intc d, d_perf d, d_reader d, d_writer d).

Lemma dma_vlab_config d d' : dma_config d' = dma_config d -> dma_vlab d -> dma_vlab d'.
Proof.
  intros Hc []. injection Hc as ??????????. constructor; congruence.
Qed.

Lemma dma_demo_vlab : dma_vlab dma_demo.
Proof. by constructor. Qed.

Lemma soc_dma_start_config d ic perf irq_enable :
  dma_config (fst (fst (soc_dma_start d ic perf irq_enable))) = dma_config d.
Proof.
  destruct (d_busy d) eqn:Hb.
  - by rewrite soc_dma_start_busy.
  - rewrite soc_dma_start_idle by done. by destruct (dma_judge d).
Qed.

Lemma soc_dma_write_config d ic perf offset value rc d' ic' perf' :
  soc_dma_write d ic perf offset value = (rc, (d', ic', perf')) -> dma_config d' = dma_config d.
Proof.
  unfold soc_dma_write. repeat (case_match; [try by intros [= <- <- <- <-]|]);
    try by intros [= <- <- <- <-].
  pose proof (soc_dma_start_config d ic perf (tst value SOC_DMA_CTRL_IRQ_ENABLE)) as Hc.
  destruct (tst value SOC_DMA_CTRL_START); [|by intros [= <- <- <- <-]].
  destruct (soc_dma_start d ic perf _) as [[d1 ic1] perf1]. by intros [= <- <- <- <-].
Qed.

Lemma soc_dma_write_intc d ic perf offset value rc d' ic' perf' :
  soc_dma_write d ic perf offset value = (rc, (d', ic', perf')) -> ic_perf ic' = ic_perf ic.
Proof.
  unfold soc_dma_write. repeat (case_match; [try by intros [= <- <- <- <-]|]);
    try by intros [= <- <- <- <-].
  pose proof (soc_dma_start_effects d ic perf (tst value SOC_DMA_CTRL_IRQ_ENABLE)) as He.
  destruct (tst value SOC_DMA_CTRL_START); [|by intros [= <- <- <- <-]].
  destruct (soc_dma_start d ic perf _) as [[d1 ic1] perf1]. destruct He as [-> _].
  intros [= <- <- <- <-]. repeat case_match; auto using soc_intc_raise_perf.
Qed.

Lemma dma_judge_vlab d :
  dma_vlab d -> dma_judge d = vlab_judge (d_src d) (d_dst d) (d_length d).
Proof. intros []. unfold dma_judge, vlab_judge. congruence. Qed.

Lemma dma_countdown_vlab d :
  dma_wf d -> vlab_transfer (d_src d) (d_dst d) (d_length d) ->
  d_latency_per_word d <= 524286 -> d_burst d <= two32 - 4096 ->
  dma_countdown d = transfer_ticks (d_latency_per_word d) (d_burst d) (d_length d) /\
  1 <= transfer_ticks (d_latency_per_word d) (d_burst d) (d_length d).
Proof.
  intros Hd (Hlen & _) Hl Hb. pose proof (dwf_latency _ Hd). pose proof (dwf_burst _ Hd).
  split; [|apply transfer_ticks_pos; lia].
  assert ((d_length d + 3) / 4 <= 4096) as Hwords
    by (Z.to_euclidean_division_equations; lia).
  apply dma_countdown_exact; unfold two32 in *; try lia. unfold transfer_ticks.
  assert (((d_length d + 3) / 4 - 1) / d_burst d <= 4095); [|nia].
  apply Z.div_le_upper_bound; nia.
Qed.

Section Laws.

Context {C : Type} `{DmaBridgeLaws C} (malloc_ok : Z -> bool).

Lemma dma_remaining_wf d r : dma_wf d -> dma_wf (d <| d_remaining := r |>).
Proof. intros []. destruct d; rec_simpl. constructor; simpl; auto. Qed.

Lemma dma_done_wf d :
  dma_wf d -> d_busy d = true ->
  dma_wf (d <| d_busy := false |> <| d_done := true |> <| d_error := false |>).
Proof.
  intros [] Hb. destruct d; rec_simpl; subst.
  destruct d_error0; [by destruct d_done0|]. constructor; simpl; auto.
Qed.

Lemma dma_finish_wf d ic perf (ctx : C) d' ic' perf' ctx' :
  dma_wf d -> d_busy d = true -> intc_wf ic -> perf_wf perf -> bridge_wf ctx ->
  dma_finish d ic perf ctx = (d', ic', perf', ctx') ->
  dma_wf d' /\ intc_wf ic' /\ perf_wf perf' /\ bridge_wf ctx'.
Proof.
  intros Hd Hb Hic Hp Hctx. unfold dma_finish. pose proof (dwf_src d Hd). pose proof (dwf_dst d Hd).
  pose proof (dwf_length d Hd) as Hlen.
  destruct (dma_reader ctx (d_src d) (d_length d)) as [r ctx1] eqn:Er.
  apply bridge_reader_ok in Er as [Hctx1 Hr]; [|done..].
  assert (dma_wf (d <| d_remaining := d_remaining d - 1 |>)) as Hd0 by by apply dma_remaining_wf.
  assert (forall rc, soc_dma_fail (d <| d_remaining := d_remaining d - 1 |>) ic SOC_DMA_ERR_ADDR = rc ->
    dma_wf (fst rc) /\ intc_wf (snd rc)) as Hfail.
  { intros [d1 ic1] Ef. by apply soc_dma_fail_wf in Ef. }
  destruct r as [tmp|rc].
  - destruct Hr as [Hl Hbs]. destruct (dma_writer ctx1 (d_dst d) tmp) as [rc ctx2] eqn:Ew.
    apply bridge_writer_ok in Ew as [Hctx2 _]; [|done|done|by rewrite Hl|done].
    destruct (rc =? SOC_OK).
    + intros [= <- <- <- <-]. split_and!; [by apply dma_done_wf|auto with soc| |done].
      case_match; auto with soc.
    + specialize (Hfail _ eq_refl). destruct (soc_dma_fail _ _ _). intros [= <- <- <- <-]. tauto.
  - specialize (Hfail _ eq_refl). destruct (soc_dma_fail _ _ _). intros [= <- <- <- <-]. tauto.
Qed.

(** A tick is one of four moves. *)
Lemma soc_dma_step_cases d ic perf (ctx : C) :
  soc_dma_step malloc_ok d ic perf ctx = (d, ic, perf, ctx) \/
  d_busy d = true /\ d_fault_stuck_busy d = false /\
  (soc_dma_step malloc_ok d ic perf ctx =
     (d <| d_remaining := d_remaining d - 1 |>, ic, perf, ctx) \/
   soc_dma_step malloc_ok d ic perf ctx = dma_finish d ic perf ctx).
Proof.
  destruct (d_busy d) eqn:Hb; [|left; by apply soc_dma_step_free].
  destruct (d_fault_stuck_busy d) eqn:Hf; [left; by apply soc_dma_step_stuck|].
  right. do 2 (split; [done|]).
  destruct (Z.lt_ge_cases 1 (d_remaining d)) as [Hr|Hr]; [left; by apply soc_dma_step_wait|].
  destruct (linked (d_reader d) && linked (d_writer d) &&
            malloc_ok (if d_length d =? 0 then 1 else d_length d)) eqn:Hgo.
  - apply andb_true_iff in Hgo as [Hgo Hm]. apply andb_true_iff in Hgo as [Hrd Hwr]. right.
    apply soc_dma_step_finish; try done; [by destruct (d_reader d)|by destruct (d_writer d)].
  - left. by apply soc_dma_step_blocked.
Qed.

Lemma dma_finish_frame d ic perf (ctx : C) d' ic' perf' ctx' :
  dma_finish d ic perf ctx = (d', ic', perf', ctx') ->
  dma_config d' = dma_config d /\ d_fault_stuck_busy d' = d_fault_stuck_busy d /\
  ic_perf ic' = ic_perf ic.
Proof.
  unfold dma_finish. assert (forall d1, ic_perf (dma_raise d1 ic) = ic_perf ic) as Hr.
  { intros d1. unfold dma_raise. case_match; auto using soc_intc_raise_perf. }
  destruct (dma_reader ctx (d_src d) (d_length d)) as [[tmp|] ctx1].
  - destruct (dma_writer ctx1 (d_dst d) tmp) as [rc ctx2].
    destruct (rc =? SOC_OK); intros [= <- <- <- <-]; split_and!; done || apply Hr.
  - intros [= <- <- <- <-]; split_and!; done || apply Hr.
Qed.

Lemma soc_dma_step_frame d ic perf (ctx : C) d' ic' perf' ctx' :
  soc_dma_step malloc_ok d ic perf ctx = (d', ic', perf', ctx') ->
  dma_config d' = dma_config d /\ d_fault_stuck_busy d' = d_fault_stuck_busy d /\
  ic_perf ic' = ic_perf ic.
Proof.
  destruct (soc_dma_step_cases d ic perf ctx) as [-> | (_ & _ & [-> | ->])];
    [by intros [= <- <- <- <-]..|apply dma_finish_frame].
Qed.

Lemma soc_dma_step_wf d ic perf (ctx : C) d' ic' perf' ctx' :
  dma_wf d -> intc_wf ic -> perf_wf perf -> bridge_wf ctx ->
  soc_dma_step malloc_ok d ic perf ctx = (d', ic', perf', ctx') ->
  dma_wf d' /\ intc_wf ic' /\ perf_wf perf' /\ bridge_wf ctx'.
Proof.
  intros Hd Hic Hp Hctx.
  destruct (soc_dma_step_cases d ic perf ctx) as [-> | (Hb & Hf & [-> | ->])].
  - by intros [= <- <- <- <-].
  - intros [= <- <- <- <-]. auto using dma_remaining_wf.
  - by apply dma_finish_wf.
Qed.

(** [n] ticks of a running engine: nothing until the countdown, then the
    completion, then nothing. *)
Lemma dma_steps_run n d ic perf (ctx : C) :
  d_busy d = true -> d_fault_stuck_busy d = false -> 1 <= d_remaining d ->
  d_reader d = LINKED -> d_writer d = LINKED -> (forall k, malloc_ok k = true) ->
  (forall d' ic' perf' ctx', dma_finish (d <| d_remaining := 1 |>) ic perf ctx = (d', ic', perf', ctx') ->
     d_busy d' = false) ->
  dma_steps malloc_ok n (d, ic, perf, ctx) =
    if Z.of_nat n <? d_remaining d
    then (d <| d_remaining := d_remaining d - Z.of_nat n |>, ic, perf, ctx)
    else dma_finish (d <| d_remaining := 1 |>) ic perf ctx.
Proof.
  intros Hb Hf Hr Hrd Hwr Hm Hfree. destruct (Z.ltb_spec (Z.of_nat n) (d_remaining d)).
  { by apply dma_steps_wait. }
  set (k := Z.to_nat (d_remaining d - 1)).
  replace n with ((n - S k) + S k)%nat by lia. unfold dma_steps.
  rewrite Nat.iter_add. fold (dma_steps malloc_ok (S k) (d, ic, perf, ctx)).
  assert (dma_steps malloc_ok (S k) (d, ic, perf, ctx) =
          dma_finish (d <| d_remaining := 1 |>) ic perf ctx) as ->.
  { unfold dma_steps. rewrite Nat.iter_succ.
    fold (dma_steps malloc_ok k (d, ic, perf, ctx)).
    rewrite dma_steps_wait by (done || lia).
    replace (d_remaining d - Z.of_nat k) with 1 by lia. by apply soc_dma_step_finish. }
  destruct (dma_finish _ _ _ _) as [[[d' ic'] perf'] ctx'] eqn:E.
  apply dma_steps_free. by eapply Hfree.
Qed.

Lemma dma_finish_served d ic perf (ctx : C) bs ctx1 ctx2 :
  dma_reader ctx (d_src d) (d_length d) = (Ok bs, ctx1) ->
  dma_writer ctx1 (d_dst d) bs = (SOC_OK, ctx2) ->
  dma_finish d ic perf ctx =
    (d <| d_remaining := d_remaining d - 1 |> <| d_busy := false |> <| d_done := true |>
       <| d_error := false |>, dma_raise d ic,
     (if linked (d_perf d) then soc_perf_count_dma perf (d_length d) else perf), ctx2).
Proof. intros Hr Hw. unfold dma_finish. by rewrite Hr, Hw. Qed.

(** C11. From START to completion: a request the platform admits is BUSY for
    exactly [transfer_ticks] ticks, during which nothing else changes; then
    the bytes move from source to destination in one read and one write, the
    engine is DONE, the bytes are counted and the interrupt is raised if START
    asked for it.  An admitted request never ends in an error. *)
Theorem soc_dma_transfer d ic perf (ctx : C) ctrl n :
  dma_wf d -> dma_vlab d -> phase d <> Busy -> d_fault_stuck_busy d = false ->
  bridge_wf ctx -> (forall k, malloc_ok k = true) ->
  vlab_transfer (d_src d) (d_dst d) (d_length d) ->
  d_latency_per_word d <= 524286 -> d_burst d <= two32 - 4096 ->
  is_u32 ctrl -> Z.testbit ctrl 0 = true ->
  let ticks := transfer_ticks (d_latency_per_word d) (d_burst d) (d_length d) in
  let '(rc, (d1, ic1, perf1)) := soc_dma_write d ic perf SOC_DMA_CTRL_OFF ctrl in
  let '(d', ic', perf', ctx') := dma_steps malloc_ok n (d1, ic1, perf1, ctx) in
  rc = SOC_OK /\
  if Z.of_nat n <? ticks then phase d' = Busy /\ ic' = ic /\ perf' = perf /\ ctx' = ctx
  else
    phase d' = Done /\
    ic' = (if Z.testbit ctrl 1 then soc_intc_raise ic SOC_DMA_IRQ_LINE else ic) /\
    perf' = soc_perf_count_dma perf (d_length d) /\
    exists bs ctx1, dma_reader ctx (d_src d) (d_length d) = (Ok bs, ctx1) /\
                    dma_writer ctx1 (d_dst d) bs = (SOC_OK, ctx').
Proof.
  intros Hd Hv Hp Hf Hctx Hm Hreq Hlat Hburst Hctrl Hstart. cbv zeta.
  rewrite soc_dma_write_ctrl, Hstart by done.
  rewrite soc_dma_start_idle by by apply phase_free.
  rewrite dma_judge_vlab by done. pose proof Hd as Hd0. destruct Hd0.
  pose proof (proj2 (vlab_judge_none _ _ _ dwf_src0 dwf_dst0 dwf_length0) Hreq) as ->.
  destruct (bridge_serves ctx _ _ _ Hctx dwf_src0 dwf_dst0 Hreq) as (bs & ctx1 & ctx2 & Hr & Hw).
  destruct (dma_countdown_vlab d Hd Hreq Hlat Hburst) as [Hcount Hpos].
  rewrite <- Hcount in Hpos |- *.
  set (d1 := dma_started d (Z.testbit ctrl 1) <| d_ctrl := Z.ldiff ctrl 1 |>).
  destruct Hv. rewrite dma_steps_run; try done; cycle 1.
  { intros ????. by rewrite (dma_finish_served _ _ _ _ bs ctx1 ctx2) by done; intros [= <- <- <- <-]. }
  change (d_remaining d1) with (dma_countdown d).
  destruct (Z.of_nat n <? dma_countdown d); [done|].
  rewrite (dma_finish_served _ _ _ _ bs ctx1 ctx2) by done.
  split_and!; [done|done| | |by eauto].
  - by apply dma_raise_linked.
  - change (d_perf (d1 <| d_remaining := 1 |>)) with (d_perf d). by rewrite dv_perf0.
Qed.

(** C23. Whatever SRC, DST and LEN hold when the countdown expires (START judged
    the values of its time), the engine leaves BUSY: it is DONE and has
    counted the bytes, or has failed with the address code and counted
    nothing.  The latched interrupt is raised in both cases. *)
Theorem soc_dma_completion d ic perf (ctx : C) :
  dma_wf d -> dma_vlab d -> phase d = Busy -> d_fault_stuck_busy d = false ->
  d_remaining d <= 1 -> (forall k, malloc_ok k = true) ->
  let '(d', ic', perf', ctx') := soc_dma_step malloc_ok d ic perf ctx in
  ic' = (if d_irq_enable_latched d then soc_intc_raise ic SOC_DMA_IRQ_LINE else ic) /\
  ((phase d' = Done /\ perf' = soc_perf_count_dma perf (d_length d)) \/
   (phase d' = Failed SOC_DMA_ERR_ADDR /\ perf' = perf)).
Proof.
  intros Hd [] Hp Hf Hr Hm.
  assert (d_busy d = true) as Hb by (destruct (d_busy d) eqn:E; [done|by apply phase_free in E]).
  rewrite soc_dma_step_finish by done. unfold dma_finish.
  set (d0 := d <| d_remaining := d_remaining d - 1 |>).
  pose proof (dma_raise_linked d ic _ eq_refl dv_intc0 dv_line0) as Hraise.
  assert (exists d', soc_dma_fail d0 ic SOC_DMA_ERR_ADDR = (d', dma_raise d ic) /\
                     phase d' = Failed SOC_DMA_ERR_ADDR) as (d' & -> & Hph)
    by (eexists; split; reflexivity).
  rewrite Hraise. destruct (dma_reader ctx (d_src d) (d_length d)) as [[tmp|rc] ctx1]; [|auto].
  destruct (dma_writer ctx1 (d_dst d) tmp) as [rc ctx2]. destruct (rc =? SOC_OK); [|auto].
  rewrite dv_perf0. auto.
Qed.

End Laws.

Lemma soc_dma_transfer_witness :
  let '(_, (d1, ic1, perf1)) :=
    soc_dma_write dma_demo (soc_intc_init LINKED) soc_perf_init SOC_DMA_CTRL_OFF 3 in
  let '(d18, _, _, _) := dma_steps (fun _ => true) 18 (d1, ic1, perf1, tt) in
  let '(d19, ic19, _, _) := dma_steps (fun _ => true) 19 (d1, ic1, perf1, tt) in
  phase d18 = Busy /\ phase d19 = Done /\ ic_pending ic19 = 4.
Proof.
  assert (vlab_transfer 0x10000000 0x10000100 64) as Hreq by (split_and!; try done; left; done).
  pose proof (fun n => soc_dma_transfer (fun _ => true) dma_demo (soc_intc_init LINKED) soc_perf_init
    tt 3 n dma_demo_wf dma_demo_vlab ltac:(done) ltac:(done) I ltac:(done) Hreq ltac:(done)
    ltac:(done) ltac:(done) ltac:(done)) as H. cbv zeta in H.
  destruct (soc_dma_write _ _ _ _ _) as [rc [[d1 ic1] perf1]].
  pose proof (H 18%nat) as H18. pose proof (H 19%nat) as H19. clear H.
  destruct (dma_steps _ 18 _) as [[[d18 ?] ?] ?], (dma_steps _ 19 _) as [[[d19 ic19] ?] ?].
  destruct H18 as (_ & -> & _), H19 as (_ & -> & -> & _). done.
Defined.

Lemma soc_dma_completion_witness :
  let d := dma_demo <| d_busy := true |> <| d_remaining := 1 |> <| d_irq_enable_latched := true |> in
  let '(d', ic', _, _) := soc_dma_step (fun _ => true) d (soc_intc_init LINKED) soc_perf_init tt in
  ic_pending ic' = 4 /\ phase d' <> Busy.
Proof.
  cbv zeta. set (d := dma_demo <| d_busy := true |> <| d_remaining := 1 |> <| d_irq_enable_latched := true |>).
  assert (dma_wf d /\ dma_vlab d) as [Hwf Hv] by (by split; constructor).
  pose proof (soc_dma_completion (fun _ => true) d (soc_intc_init LINKED) soc_perf_init tt Hwf Hv
    ltac:(done) ltac:(done) ltac:(done) ltac:(done)) as H.
  destruct (soc_dma_step _ _ _ _ _) as [[[d' ic'] perf'] ctx'].
  destruct H as [-> [[-> _] | [-> _]]]; done.
Defined.

(** C40. A burst so long that [words + burst - 1] leaves 32 bits: the burst count
    comes out as 0 and START loads one tick less than the transfer costs. *)
Theorem soc_dma_burst_wrap d ic perf irq_enable :
  phase d <> Busy -> dma_judge d = None ->
  1 <= d_latency_per_word d -> d_burst d < two32 ->
  0 < d_length d <= 16384 -> two32 < (d_length d + 3) / 4 + d_burst d ->
  (d_length d + 3) / 4 * d_latency_per_word d < 0x80000000 ->
  let '(d', _, _) := soc_dma_start d ic perf irq_enable in
  d_remaining d' = transfer_ticks (d_latency_per_word d) (d_burst d) (d_length d) - 1.
Proof.
  intros Hp Hj Hl Hb Hlen Hw Ht. rewrite soc_dma_start_idle, Hj by by apply phase_free.
  change (d_remaining (dma_started d irq_enable)) with (dma_countdown d).
  unfold dma_countdown, transfer_ticks. unfold two32 in *. rewrite u32_id by (split; unfold two32; lia).
  set (words := (d_length d + 3) / 4) in *.
  assert (2 <= words <= 4096) by (subst words; Z.to_euclidean_division_equations; lia).
  assert (u32 (words + d_burst d - 1) = words + d_burst d - 1 - two32) as ->.
  { unfold u32. replace (words + d_burst d - 1) with (words + d_burst d - 1 - two32 + 1 * two32) by lia.
    rewrite Z.mod_add by done. rewrite Z.mod_small; unfold two32; lia. }
  rewrite (Z.div_small (_ - two32)) by (unfold two32; lia).
  rewrite (Z.div_small (words - 1)) by lia. rewrite i32_small; nia.
Qed.

Lemma soc_dma_burst_wrap_witness :
  let d := dma_demo <| d_burst := 0xFFFFFFFF |> in
  let '(d', _, _) := soc_dma_start d (soc_intc_init LINKED) soc_perf_init false in
  d_remaining d' = 15 /\ transfer_ticks 1 0xFFFFFFFF 64 = 16.
Proof.
  cbv zeta. set (d := dma_demo <| d_burst := 0xFFFFFFFF |>).
  pose proof (soc_dma_burst_wrap d (soc_intc_init LINKED)
    soc_perf_init false ltac:(done) ltac:(reflexivity) ltac:(done) ltac:(done) ltac:(done)
    ltac:(done) ltac:(done)) as H.
  destruct (soc_dma_start _ _ _ _) as [[d' ic'] perf']. rewrite H. done.
Defined.
