(* ===== verification/Soc.v ===== *)
(** The SoC: [soc_c/src/soc.c] and [soc_c/src/soc_cpu.c].

    One record of components, the bus access functions, the clock and the
    boot sequence.  [s_rom] and [s_sram] carry their backing stores
    ([_rom_store], [_sram_store]), which are longer than the platform's
    windows.  The DMA bridge functions are the instance of the engine's
    interface.  [malloc]'s outcome is an oracle of the tick and the size. *)

From Stdlib Require Strings.String.
From S2P Require Import Prelude Regions DmaCaps Platform Memory Perf Intc Timer Uart.
From S2P Require Import DmaSpec Dma.
Import Strings.String.StringSyntax.
Local Open Scope string_scope.
Local Open Scope Z_scope.

Definition SOC_ROM_BASE : Z := 0x00000000.
Definition SOC_SRAM_BASE : Z := 0x10000000.
Definition SOC_UART_BASE : Z := 0x20000000.
Definition SOC_TIMER_BASE : Z := 0x20001000.
Definition SOC_DMA_BASE : Z := 0x20002000.
Definition SOC_INTC_BASE : Z := 0x20003000.
Definition SOC_PERF_BASE : Z := 0x20004000.
Definition SOC_BOOT_TICKS : Z := 5.
Definition SOC_MAX_ROM_SIZE : Z := 65536.
Definition SOC_MAX_SRAM_SIZE : Z := 262144.

(** * CPU bookkeeping *)

Record soc_cpu_t : Type := Mk_soc_cpu {
  c_rom_base : Z;
  c_sram_top : Z;
  c_pc : Z;
  c_sp : Z;
  c_running : bool;
  c_boot_ticks : Z
}.

#[export] Instance settable_cpu : Settable soc_cpu_t :=
  {| eta_record := fun c => Mk_soc_cpu (c_rom_base c) (c_sram_top c) (c_pc c) (c_sp c)
       (c_running c) (c_boot_ticks c) |}.

Definition soc_cpu_init (rom_base sram_top : Z) : soc_cpu_t := {|
  c_rom_base := rom_base; c_sram_top := sram_top; c_pc := rom_base; c_sp := sram_top;
  c_running := false; c_boot_ticks := 0
|}.

Definition soc_cpu_reset (c : soc_cpu_t) : soc_cpu_t :=
  c <| c_pc := c_rom_base c |> <| c_sp := c_sram_top c |> <| c_running := false |>
    <| c_boot_ticks := 0 |>.

Definition soc_cpu_enter_main (c : soc_cpu_t) : soc_cpu_t := c <| c_running := true |>.

(** * State *)

Record soc_config_t : Type := Mk_soc_config {
  cfg_cpu_frequency_mhz : Z;
  cfg_uart_latency_ticks : Z;
  cfg_dma_latency_per_word_ticks : Z;
  cfg_dma_burst : Z
}.

Definition soc_config_default : soc_config_t := {|
  cfg_cpu_frequency_mhz := 100;
  cfg_uart_latency_ticks := 5;
  cfg_dma_latency_per_word_ticks := 1;
  cfg_dma_burst := 4
|}.

(** [regions] is set by [soc_init]; before it, [n_regions] is 0. *)
Record soc_t : Type := Mk_soc {
  s_config : soc_config_t;
  s_rom : soc_mem_t;
  s_sram : soc_mem_t;
  s_regions : list memory_region;
  s_perf : soc_perf_t;
  s_intc : soc_intc_t;
  s_uart : soc_uart_t;
  s_timer : soc_timer_t;
  s_dma : soc_dma_t;
  s_cpu : soc_cpu_t;
  s_ticks : Z
}.

#[export] Instance settable_soc : Settable soc_t :=
  {| eta_record := fun s => Mk_soc (s_config s) (s_rom s) (s_sram s) (s_regions s) (s_perf s)
       (s_intc s) (s_uart s) (s_timer s) (s_dma s) (s_cpu s) (s_ticks s) |}.

(** * The DMA bridge

    The part of the SoC the two bridge functions reach. *)

Record soc_dma_ctx : Type := Mk_soc_dma_ctx { x_uart : soc_uart_t; x_sram : soc_mem_t }.

#[export] Instance settable_ctx : Settable soc_dma_ctx :=
  {| eta_record := fun x => Mk_soc_dma_ctx (x_uart x) (x_sram x) |}.

Definition soc_dma_reader_bridge (ctx : soc_dma_ctx) (addr len : Z)
  : result (list Z) * soc_dma_ctx :=
  if addr =? SOC_UART_BASE + SOC_UART_RXDATA_OFF then
    let '(out, u) := soc_uart_dma_rx_drain (x_uart ctx) len in (Ok out, ctx <| x_uart := u |>)
  else (soc_mem_read_bytes (x_sram ctx) addr len, ctx).

Definition soc_dma_writer_bridge (ctx : soc_dma_ctx) (addr : Z) (payload : list Z)
  : Z * soc_dma_ctx :=
  if addr =? SOC_UART_BASE + SOC_UART_TXDATA_OFF then
    (SOC_OK, ctx <| x_uart := soc_uart_dma_tx_append (x_uart ctx) payload |>)
  else let '(rc, m) := soc_mem_write_bytes (x_sram ctx) addr payload in (rc, ctx <| x_sram := m |>).

#[export] Instance soc_dma_bridge : DmaBridge soc_dma_ctx := {
  dma_reader := soc_dma_reader_bridge;
  dma_writer := soc_dma_writer_bridge
}.

(** * Reset *)

(** [map[i]]. *)
Definition region_at (map : list memory_region) (i : nat) : memory_region :=
  nth i map (Mk_memory_region String.EmptyString 0 0 MEM_TYPE_ROM 0).

(** Fields [soc_init] leaves alone ([perf.enabled] is not one of them) keep
    the values of the previous state. *)
Definition soc_init (s : soc_t) (cfg : option soc_config_t) : soc_t :=
  let cfg := match cfg with Some c => c | None => soc_config_default end in
  let map := vlab_memory_map in
  let rom := region_at map 0 in
  let sram := region_at map 1 in
  {|
    s_config := cfg;
    s_rom := soc_mem_init (mr_base rom) (mr_size rom) true "ROM" (m_data (s_rom s));
    s_sram := soc_mem_init (mr_base sram) (mr_size sram) false "SRAM" (m_data (s_sram s));
    s_regions := map;
    s_perf := soc_perf_init;
    s_intc := soc_intc_init LINKED;
    s_uart := soc_uart_init (s_uart s) (cfg_uart_latency_ticks cfg) LINKED LINKED;
    s_timer := soc_timer_init LINKED;
    s_dma := soc_dma_init (s_dma s) (cfg_dma_latency_per_word_ticks cfg) (cfg_dma_burst cfg)
               (Some map) (Some vlab_dma_periph_eps) (Some vlab_dma_caps) SOC_IRQ_DMA
               LINKED LINKED LINKED LINKED;
    s_cpu := soc_cpu_init SOC_ROM_BASE (u32 (mr_base sram + mr_size sram));
    s_ticks := 0
  |}.

Definition soc_reset_peripherals (s : soc_t) : soc_t :=
  s <| s_uart := soc_uart_reset (s_uart s) |> <| s_timer := soc_timer_reset (s_timer s) |>
    <| s_dma := soc_dma_reset (s_dma s) |> <| s_intc := soc_intc_reset (s_intc s) |>.

(** * Bus access *)

Definition soc_route (s : soc_t) (addr : Z) : Z := soc_bus_route (s_regions s) addr.

Definition soc_count_stall (s : soc_t) : soc_t :=
  s <| s_perf := soc_perf_count_stall (s_perf s) 1 |>.

(** The [switch] of [soc_read]; [None] is its [default]. *)
Definition soc_read_at (s : soc_t) (kind addr : Z) : option (result Z * soc_t) :=
  if kind =? 0 then Some (soc_mem_read_word (s_rom s) addr, s)
  else if kind =? 1 then Some (soc_mem_read_word (s_sram s) addr, s)
  else if kind =? 2 then
    let '(r, u) := soc_uart_read (s_uart s) (u32 (addr - SOC_UART_BASE)) in
    Some (r, s <| s_uart := u |>)
  else if kind =? 3 then Some (soc_timer_read (s_timer s) (u32 (addr - SOC_TIMER_BASE)), s)
  else if kind =? 4 then Some (soc_dma_read (s_dma s) (u32 (addr - SOC_DMA_BASE)), s)
  else if kind =? 5 then
    let '(r, ic, perf) := soc_intc_read (s_intc s) (s_perf s) (u32 (addr - SOC_INTC_BASE)) in
    Some (r, s <| s_intc := ic |> <| s_perf := perf |>)
  else if kind =? 6 then Some (soc_perf_read (s_perf s) (u32 (addr - SOC_PERF_BASE)), s)
  else None.

Definition soc_read (s : soc_t) (addr : Z) : result Z * soc_t :=
  if negb (addr mod 4 =? 0) then (Err SOC_ERR_BUS, soc_count_stall s)
  else
    let s := s <| s_perf := soc_perf_count_mem (s_perf s) |> in
    match soc_read_at s (soc_route s addr) addr with
    | None => (Err SOC_ERR_BUS, soc_count_stall s)
    | Some (Err _, s) => (Err SOC_ERR_BUS, soc_count_stall s)
    | Some (Ok v, s) => (Ok v, s)
    end.

(** The [switch] of [soc_write]; [None] is its [default]. *)
Definition soc_write_at (s : soc_t) (kind addr value : Z) : option (Z * soc_t) :=
  if kind =? 0 then
    let '(rc, m) := soc_mem_write_word (s_rom s) addr value in Some (rc, s <| s_rom := m |>)
  else if kind =? 1 then
    let '(rc, m) := soc_mem_write_word (s_sram s) addr value in Some (rc, s <| s_sram := m |>)
  else if kind =? 2 then
    let '(rc, u, perf) := soc_uart_write (s_uart s) (s_perf s) (u32 (addr - SOC_UART_BASE)) value in
    Some (rc, s <| s_uart := u |> <| s_perf := perf |>)
  else if kind =? 3 then
    let '(rc, t) := soc_timer_write (s_timer s) (u32 (addr - SOC_TIMER_BASE)) value in
    Some (rc, s <| s_timer := t |>)
  else if kind =? 4 then
    let '(rc, (d, ic, perf)) :=
      soc_dma_write (s_dma s) (s_intc s) (s_perf s) (u32 (addr - SOC_DMA_BASE)) value in
    Some (rc, s <| s_dma := d |> <| s_intc := ic |> <| s_perf := perf |>)
  else if kind =? 5 then
    let '(rc, ic) := soc_intc_write (s_intc s) (u32 (addr - SOC_INTC_BASE)) value in
    Some (rc, s <| s_intc := ic |>)
  else if kind =? 6 then
    let '(rc, perf) := soc_perf_write (s_perf s) (u32 (addr - SOC_PERF_BASE)) value in
    Some (rc, s <| s_perf := perf |>)
  else None.

Definition soc_write (s : soc_t) (addr value : Z) : Z * soc_t :=
  if negb (addr mod 4 =? 0) then (SOC_ERR_BUS, soc_count_stall s)
  else
    let s := s <| s_perf := soc_perf_count_mem (s_perf s) |> in
    let kind := soc_route s addr in
    match soc_write_at s kind addr value with
    | None => (SOC_ERR_BUS, soc_count_stall s)
    | Some (rc, s) =>
        if (kind =? 2) && (rc =? SOC_UART_ERR_DISABLED) then (rc, s)
        else if negb (rc =? SOC_OK) then
          (rc, if rc =? SOC_ERR_BUS then soc_count_stall s else s)
        else (SOC_OK, s)
    end.

(** * The clock *)

Section Clock.

Variable malloc_ok : Z -> Z -> bool.

(** One turn of the loop of [soc_step]. *)
Definition soc_tick (s : soc_t) : soc_t :=
  let s := s <| s_ticks := u32 (s_ticks s + 1) |> in
  let s := s <| s_perf := soc_perf_tick (s_perf s) |> in
  let '(u, ic) := soc_uart_step (s_uart s) (s_intc s) in
  let s := s <| s_uart := u |> <| s_intc := ic |> in
  let '(t, ic) := soc_timer_step (s_timer s) (s_intc s) in
  let s := s <| s_timer := t |> <| s_intc := ic |> in
  let '(d, ic, perf, ctx) :=
    soc_dma_step (malloc_ok (s_ticks s)) (s_dma s) (s_intc s) (s_perf s)
      (Mk_soc_dma_ctx (s_uart s) (s_sram s)) in
  s <| s_dma := d |> <| s_intc := ic |> <| s_perf := perf |>
    <| s_uart := x_uart ctx |> <| s_sram := x_sram ctx |>.

Definition soc_step (s : soc_t) (n : nat) : soc_t := Nat.iter n soc_tick s.

(** [pred ctx] may read and change the machine it closes over, and anything
    else ([X]); [None] is a [NULL] predicate. *)
Fixpoint run_until_from {X} (fuel : nat) (elapsed : Z)
    (pred : option (X * soc_t -> bool * (X * soc_t))) (st : X * soc_t) : Z * (X * soc_t) :=
  let '(hit, st) := match pred with Some p => p st | None => (false, st) end in
  if hit then (i32 elapsed, st)
  else match fuel with
  | O => (-1, st)
  | S fuel' => run_until_from fuel' (elapsed + 1) pred (fst st, soc_step (snd st) 1)
  end.

(** [max_ticks] is the fuel: the loop body runs at most [max_ticks] times. *)
Definition soc_run_until {X} (pred : option (X * soc_t -> bool * (X * soc_t))) (max_ticks : nat)
    (st : X * soc_t) : Z * (X * soc_t) := run_until_from max_ticks 0 pred st.

Record soc_boot_info_t : Type := Mk_soc_boot_info {
  bi_boot_ticks : Z;
  bi_cpu_frequency_mhz : Z;
  bi_boot_ns : Z
}.

(** [soc_boot] up to its [soc_step]; [rom_words] is the image with its
    length, [None] is [NULL]. *)
Definition soc_boot_reset (s : soc_t) (rom_words : option (list Z)) : soc_t :=
  let s := s <| s_ticks := 0 |> in
  let s := s <| s_cpu := soc_cpu_reset (s_cpu s) |> in
  let sram := region_at (s_regions s) 1 in
  let s := s <| s_cpu := s_cpu s <| c_sram_top := u32 (mr_base sram + mr_size sram) |> |> in
  let s := s <| s_cpu := s_cpu s <| c_sp := c_sram_top (s_cpu s) |> |> in
  let s := soc_reset_peripherals s in
  let s := s <| s_perf := soc_perf_reset_counters (s_perf s) |> in
  let s := s <| s_perf := s_perf s <| p_enabled := true |> <| p_ctrl := 0x1 |> |> in
  let s := match rom_words with
           | Some words =>
               if 0 <? zlen words then
                 let rom := s_rom s <| m_data :=
                   Some (blit 0 (zeros (mr_size (region_at (s_regions s) 0))) (m_bytes (s_rom s))) |> in
                 s <| s_rom := snd (soc_mem_load_words rom words) |>
               else s
           | None => s
           end in
  s <| s_sram := soc_mem_zero (s_sram s) |>.

Definition soc_boot (s : soc_t) (rom_words : option (list Z)) : soc_boot_info_t * soc_t :=
  let s := soc_boot_reset s rom_words in
  let s := soc_step s (Z.to_nat SOC_BOOT_TICKS) in
  let s := s <| s_cpu := soc_cpu_enter_main (s_cpu s) |> in
  let mhz := if cfg_cpu_frequency_mhz (s_config s) =? 0 then 100
             else cfg_cpu_frequency_mhz (s_config s) in
  ({| bi_boot_ticks := s_ticks s; bi_cpu_frequency_mhz := mhz;
      bi_boot_ns := u32 (s_ticks s * 1000) / mhz |}, s).

End Clock.

#[global] Arguments soc_read : simpl never.
#[global] Arguments soc_write : simpl never.
#[global] Arguments soc_tick : simpl never.
#[global] Arguments soc_step : simpl never.
#[global] Arguments soc_boot_reset : simpl never.
#[global] Arguments soc_boot : simpl never.

Definition soc_sram_write_word (s : soc_t) (addr value : Z) : Z * soc_t := soc_write s addr value.

Definition soc_sram_read_word (s : soc_t) (addr : Z) : result Z * soc_t := soc_read s addr.

(** * The invariant *)

(** The windows and the static stores of the two memories. *)
Definition is_rom (m : soc_mem_t) : Prop :=
  mem_wf m /\ m_base m = VLAB_ROM_BASE /\ m_size m = 16384 /\ m_readonly m = true /\
  zlen (m_bytes m) = SOC_MAX_ROM_SIZE.

Definition is_sram (m : soc_mem_t) : Prop :=
  mem_wf m /\ m_base m = VLAB_SRAM_BASE /\ m_size m = 65536 /\ m_readonly m = false /\
  zlen (m_bytes m) = SOC_MAX_SRAM_SIZE.

(** What holds between any two calls into a SoC that was initialised: every
    component's invariant, and the wiring. *)
Record soc_wf (s : soc_t) : Prop := {
  swf_regions : s_regions s = vlab_memory_map;
  swf_rom : is_rom (s_rom s);
  swf_sram : is_sram (s_sram s);
  swf_perf : perf_wf (s_perf s);
  swf_intc : intc_wf (s_intc s);
  swf_uart : uart_wf (s_uart s);
  swf_timer : timer_wf (s_timer s);
  swf_dma : dma_wf (s_dma s);
  swf_vlab : dma_vlab (s_dma s);
  swf_intc_perf : ic_perf (s_intc s) = LINKED;
  swf_uart_links : u_perf (s_uart s) = LINKED /\ u_intc (s_uart s) = LINKED;
  swf_timer_intc : tm_intc (s_timer s) = LINKED;
  swf_ticks : is_u32 (s_ticks s)
}.

(** What the static stores provide before the first [soc_init]. *)
Record soc_stores (s : soc_t) : Prop := {
  st_rom : exists d, m_data (s_rom s) = Some d /\ zlen d = SOC_MAX_ROM_SIZE /\ Forall is_byte d;
  st_sram : exists d, m_data (s_sram s) = Some d /\ zlen d = SOC_MAX_SRAM_SIZE /\ Forall is_byte d;
  st_tx : zlen (u_dma_tx_fifo (s_uart s)) = SOC_UART_DMA_FIFO_SIZE /\
          Forall is_byte (u_dma_tx_fifo (s_uart s));
  st_rx : zlen (u_dma_rx_fifo (s_uart s)) = SOC_UART_DMA_FIFO_SIZE /\
          Forall is_byte (u_dma_rx_fifo (s_uart s))
}.

Record cfg_wf (cfg : soc_config_t) : Prop := {
  cwf_mhz : is_u32 (cfg_cpu_frequency_mhz cfg);
  cwf_uart : is_u32 (cfg_uart_latency_ticks cfg);
  cwf_dma : is_u32 (cfg_dma_latency_per_word_ticks cfg);
  cwf_burst : is_u32 (cfg_dma_burst cfg)
}.

(** A [static soc_t]: everything zero, the stores in place. *)
Definition soc_static : soc_t := {|
  s_config := Mk_soc_config 0 0 0 0;
  s_rom := Mk_soc_mem 0 0 false String.EmptyString (Some (zeros SOC_MAX_ROM_SIZE));
  s_sram := Mk_soc_mem 0 0 false String.EmptyString (Some (zeros SOC_MAX_SRAM_SIZE));
  s_regions := [];
  s_perf := soc_perf_init;
  s_intc := soc_intc_init NULL;
  s_uart := Mk_soc_uart 0 NULL NULL 0 0 0 0 0 false false
              (zeros SOC_UART_DMA_FIFO_SIZE) 0 (zeros SOC_UART_DMA_FIFO_SIZE) 0;
  s_timer := soc_timer_init NULL;
  s_dma := Mk_soc_dma 0 0 None None (Mk_dma_caps 0 0 false false false false false) 0
             NULL NULL NULL NULL 0 0 0 0 false false false 0 0 false false;
  s_cpu := soc_cpu_init 0 0;
  s_ticks := 0
|}.

Lemma soc_static_stores : soc_stores soc_static.
Proof.
  constructor.
  - exists (zeros SOC_MAX_ROM_SIZE). split_and!; [done|by apply zlen_zeros|apply Forall_byte_zeros].
  - exists (zeros SOC_MAX_SRAM_SIZE). split_and!; [done|by apply zlen_zeros|apply Forall_byte_zeros].
  - split; [by apply zlen_zeros|apply Forall_byte_zeros].
  - split; [by apply zlen_zeros|apply Forall_byte_zeros].
Qed.

Lemma is_rom_shape m m' : is_rom m -> mem_wf m' -> same_shape m m' -> is_rom m'.
Proof. intros (_&?&?&?&?) Hm (?&?&?&?). unfold is_rom. split_and!; [done|congruence..]. Qed.

Lemma is_sram_shape m m' : is_sram m -> mem_wf m' -> same_shape m m' -> is_sram m'.
Proof. intros (_&?&?&?&?) Hm (?&?&?&?). unfold is_sram. split_and!; [done|congruence..]. Qed.

Lemma soc_dma_init_wf d lat burst ic perf rd wr :
  is_u32 lat -> is_u32 burst ->
  dma_wf (soc_dma_init d lat burst (Some vlab_memory_map) (Some vlab_dma_periph_eps)
            (Some vlab_dma_caps) SOC_IRQ_DMA ic perf rd wr).
Proof.
  intros Hl Hb. unfold is_u32 in *. constructor; simpl; try done.
  - destruct (Z.ltb_spec 0 lat); unfold two32 in *; lia.
  - destruct (Z.ltb_spec 0 burst); unfold two32 in *; lia.
Qed.

(** Initialisation establishes the invariant, whatever the previous state. *)
Lemma soc_init_wf s cfg :
  soc_stores s -> (forall c, cfg = Some c -> cfg_wf c) -> soc_wf (soc_init s cfg).
Proof.
  intros [(rd & Erd & Hrl & Hrb) (sd & Esd & Hsl & Hsb) [] []] Hcfg.
  assert (cfg_wf (match cfg with Some c => c | None => soc_config_default end)) as [].
  { destruct cfg; [by apply Hcfg|]. by constructor. }
  constructor; try done.
  - change (is_rom (soc_mem_init VLAB_ROM_BASE 16384 true "ROM" (m_data (s_rom s)))).
    rewrite Erd. split; [apply soc_mem_init_wf; [done..|by rewrite Hrl|done]|].
    split_and!; [done..|]. by rewrite soc_mem_init_len; rewrite Hrl.
  - change (is_sram (soc_mem_init VLAB_SRAM_BASE 65536 false "SRAM" (m_data (s_sram s)))).
    rewrite Esd. split; [apply soc_mem_init_wf; [done..|by rewrite Hsl|done]|].
    split_and!; [done..|]. by rewrite soc_mem_init_len; rewrite Hsl.
  - by apply soc_dma_init_wf.
Qed.

(** The machine of the default configuration. *)
Definition soc_default : soc_t := soc_init soc_static None.

Lemma soc_default_wf : soc_wf soc_default.
Proof. by apply soc_init_wf; [apply soc_static_stores|]. Qed.

(** Replacing one component. *)
Ltac soc_part := intros [] **; constructor; simpl; try done.

Lemma soc_wf_perf s p : soc_wf s -> perf_wf p -> soc_wf (s <| s_perf := p |>).
Proof. soc_part. Qed.

Lemma soc_wf_intc s ic :
  soc_wf s -> intc_wf ic -> ic_perf ic = ic_perf (s_intc s) -> soc_wf (s <| s_intc := ic |>).
Proof. soc_part. congruence. Qed.

Lemma soc_wf_uart s u :
  soc_wf s -> uart_wf u -> uart_links u = uart_links (s_uart s) -> soc_wf (s <| s_uart := u |>).
Proof. soc_part. unfold uart_links in *. split; intuition congruence. Qed.

Lemma soc_wf_timer s t :
  soc_wf s -> timer_wf t -> tm_intc t = tm_intc (s_timer s) -> soc_wf (s <| s_timer := t |>).
Proof. soc_part. congruence. Qed.

Lemma soc_wf_dma s d :
  soc_wf s -> dma_wf d -> dma_config d = dma_config (s_dma s) -> soc_wf (s <| s_dma := d |>).
Proof. soc_part. by apply dma_vlab_config with (s_dma s). Qed.

Lemma soc_wf_rom s m : soc_wf s -> mem_wf m -> same_shape (s_rom s) m -> soc_wf (s <| s_rom := m |>).
Proof. soc_part. by apply is_rom_shape with (s_rom s). Qed.

Lemma soc_wf_sram s m : soc_wf s -> mem_wf m -> same_shape (s_sram s) m -> soc_wf (s <| s_sram := m |>).
Proof. soc_part. by apply is_sram_shape with (s_sram s). Qed.

Lemma soc_wf_cpu s c : soc_wf s -> soc_wf (s <| s_cpu := c |>).
Proof. soc_part. Qed.

Lemma soc_wf_ticks s n : soc_wf s -> is_u32 n -> soc_wf (s <| s_ticks := n |>).
Proof. soc_part. Qed.

Lemma soc_count_stall_wf s : soc_wf s -> soc_wf (soc_count_stall s).
Proof. intros Hs. apply soc_wf_perf; [done|]. destruct Hs. auto with soc. Qed.

Lemma soc_count_mem_wf s :
  soc_wf s -> soc_wf (s <| s_perf := soc_perf_count_mem (s_perf s) |>).
Proof. intros Hs. apply soc_wf_perf; [done|]. destruct Hs. auto with soc. Qed.

#[export] Hint Resolve soc_wf_perf soc_wf_intc soc_wf_uart soc_wf_timer soc_wf_dma soc_wf_rom
  soc_wf_sram soc_wf_cpu soc_wf_ticks soc_count_stall_wf soc_count_mem_wf : soc.

(** * Preservation *)

Lemma soc_read_at_wf s kind addr r s' :
  soc_wf s -> soc_read_at s kind addr = Some (r, s') -> soc_wf s'.
Proof.
  intros Hs. unfold soc_read_at. pose proof (swf_uart s Hs). pose proof (swf_intc s Hs).
  pose proof (swf_perf s Hs). repeat (case_match; [try by intros [= <- <-]|]); try done.
  - destruct (soc_uart_read _ _) as [r1 u] eqn:E. intros [= <- <-].
    apply soc_wf_uart; [done|by eapply soc_uart_read_wf|by eapply soc_uart_read_links].
  - destruct (soc_intc_read _ _ _) as [[r1 ic] perf] eqn:E. intros [= <- <-].
    pose proof (soc_intc_read_wf _ _ _ _ _ _ H0 H1 E) as [??].
    apply soc_wf_perf; [|done]. apply soc_wf_intc; [done..|by eapply soc_intc_read_perf].
Qed.

Lemma soc_read_wf s addr : soc_wf s -> soc_wf (snd (soc_read s addr)).
Proof.
  intros Hs. unfold soc_read. destruct (negb _); [by apply soc_count_stall_wf|].
  destruct (soc_read_at _ _ _) as [[[v|rc] s']|] eqn:E; simpl; auto with soc;
    apply soc_read_at_wf in E; auto with soc.
Qed.

Lemma soc_write_at_wf s kind addr value rc s' :
  soc_wf s -> is_u32 value -> soc_write_at s kind addr value = Some (rc, s') -> soc_wf s'.
Proof.
  intros Hs Hv. pose proof Hs as [_ [] []]. unfold soc_write_at.
  case_match; [destruct (soc_mem_write_word _ _ _) as [? m] eqn:E; intros [= <- <-];
    apply soc_mem_write_word_wf in E as [??]; auto with soc|].
  case_match; [destruct (soc_mem_write_word _ _ _) as [? m] eqn:E; intros [= <- <-];
    apply soc_mem_write_word_wf in E as [??]; auto with soc|].
  case_match.
  { destruct (soc_uart_write _ _ _ _) as [[? u] perf] eqn:E. intros [= <- <-].
    pose proof (soc_uart_write_links _ _ _ _ _ _ _ E).
    apply soc_uart_write_wf in E as [??]; auto with soc. }
  case_match.
  { destruct (soc_timer_write _ _ _) as [? t] eqn:E. intros [= <- <-].
    pose proof (soc_timer_write_link _ _ _ _ _ E).
    apply soc_timer_write_wf in E; auto with soc. }
  case_match.
  { destruct (soc_dma_write _ _ _ _ _) as [? [[d ic] perf]] eqn:E. intros [= <- <-].
    pose proof (soc_dma_write_config _ _ _ _ _ _ _ _ _ E).
    pose proof (soc_dma_write_intc _ _ _ _ _ _ _ _ _ E).
    apply soc_dma_write_wf in E as (?&?&?); auto with soc. }
  case_match.
  { destruct (soc_intc_write _ _ _) as [? ic] eqn:E. intros [= <- <-].
    pose proof (soc_intc_write_perf _ _ _ _ _ E).
    apply soc_intc_write_wf in E; auto with soc. }
  case_match; [|done].
  destruct (soc_perf_write _ _ _) as [? perf] eqn:E. intros [= <- <-].
  apply soc_perf_write_wf in E; auto with soc.
Qed.

Lemma soc_write_wf s addr value : soc_wf s -> is_u32 value -> soc_wf (snd (soc_write s addr value)).
Proof.
  intros Hs Hv. unfold soc_write. destruct (negb _); [by apply soc_count_stall_wf|].
  destruct (soc_write_at _ _ _ _) as [[rc s']|] eqn:E; simpl; [|auto with soc].
  apply soc_write_at_wf in E; [|auto with soc..].
  repeat case_match; simpl; auto with soc.
Qed.

(** * The bridge keeps its promises *)

Definition ctx_wf (x : soc_dma_ctx) : Prop := uart_wf (x_uart x) /\ is_sram (x_sram x).

Lemma sram_contains m addr len :
  is_sram m -> 0 < len -> in_sram addr len <-> soc_mem_contains m addr len = true.
Proof.
  intros (Hwf & Hb & Hs & _) Hl. rewrite soc_mem_contains_spec by (done || lia).
  unfold in_sram. rewrite Hb, Hs. unfold VLAB_SRAM_BASE, two32. lia.
Qed.

Lemma soc_reader_bridge_ok c addr len r c' :
  ctx_wf c -> is_u32 addr -> is_u32 len -> soc_dma_reader_bridge c addr len = (r, c') ->
  ctx_wf c' /\ match r with Ok bs => zlen bs = len /\ Forall is_byte bs | Err _ => c' = c end.
Proof.
  intros [Hu Hm] Ha Hl. pose proof Hm as (Hmwf & _). unfold soc_dma_reader_bridge.
  destruct (addr =? SOC_UART_BASE + SOC_UART_RXDATA_OFF).
  - pose proof (drain_streams (x_uart c) len Hu (proj1 Hl)) as Hd.
    destruct (soc_uart_dma_rx_drain (x_uart c) len) as [out u]. intros [= <- <-].
    destruct Hd as (Hu' & Hlen & Hby & _). done.
  - rewrite soc_mem_read_bytes_cases by apply Hl.
    destruct (soc_mem_contains (x_sram c) addr len) eqn:Hc; intros [= <- <-]; [|done].
    split; [done|]. split; [|by apply mem_range_bytes].
    apply zlen_mem_range; [done|apply Hl|done].
Qed.

Lemma soc_writer_bridge_ok c addr bs rc c' :
  ctx_wf c -> Forall is_byte bs -> soc_dma_writer_bridge c addr bs = (rc, c') ->
  ctx_wf c' /\ (rc <> SOC_OK -> c' = c).
Proof.
  intros [Hu Hm] Hb. unfold soc_dma_writer_bridge.
  destruct (addr =? SOC_UART_BASE + SOC_UART_TXDATA_OFF).
  - intros [= <- <-]. split; [|done]. split; [|done]. by apply append_streams.
  - destruct (soc_mem_write_bytes (x_sram c) addr bs) as [rc1 m] eqn:E. intros [= <- <-].
    pose proof (soc_mem_write_bytes_wf _ _ _ _ _ (proj1 Hm) Hb E) as [Hwf Hsh].
    split; [split; [done|by apply is_sram_shape with (x_sram c)]|].
    destruct (soc_mem_write_bytes_cases (x_sram c) addr bs) as [(_ & _ & E')|[_ E']];
      rewrite E' in E; injection E as <- <-; [done|]. intros _. by destruct c.
Qed.

Lemma soc_bridge_serves c src dst len :
  ctx_wf c -> vlab_transfer src dst len ->
  exists bs c1 c2, soc_dma_reader_bridge c src len = (Ok bs, c1) /\
                   soc_dma_writer_bridge c1 dst bs = (SOC_OK, c2).
Proof.
  intros Hc (Hl & _ & Hs4 & Hd4 & Hcase). pose proof Hc as [Hu Hm].
  assert (exists bs c1, soc_dma_reader_bridge c src len = (Ok bs, c1) /\ zlen bs = len /\
    is_sram (x_sram c1)) as (bs & c1 & Hr & Hbs & Hm1).
  { unfold soc_dma_reader_bridge.
    destruct (Z.eqb_spec src (SOC_UART_BASE + SOC_UART_RXDATA_OFF)) as [->|Hne].
    - pose proof (drain_streams (x_uart c) len Hu ltac:(lia)) as Hd.
      destruct (soc_uart_dma_rx_drain (x_uart c) len) as [out u]. eexists _, _.
      split; [done|]. split; [apply Hd|done].
    - assert (in_sram src len) as Hin by (destruct Hcase as [[? _]|[[? _]|[? _]]]; done).
      eexists _, _. rewrite soc_mem_read_bytes_cases by lia.
      apply (sram_contains (x_sram c)) in Hin as Hct; [|done|lia]. rewrite Hct.
      split; [done|]. split; [|done]. apply zlen_mem_range; [apply Hm|lia|done]. }
  exists bs, c1. unfold soc_dma_writer_bridge.
  destruct (Z.eqb_spec dst (SOC_UART_BASE + SOC_UART_TXDATA_OFF)) as [->|Hne]; [by eexists|].
  assert (in_sram dst len) as Hin by (destruct Hcase as [[_ ?]|[[_ ?]|[_ ?]]]; done).
  apply (sram_contains (x_sram c1)) in Hin as Hct; [|done|lia]. rewrite <- Hbs in Hct.
  destruct (soc_mem_write_bytes_cases (x_sram c1) dst bs) as [(_ & _ & ->)|[[Hro|Hno] _]].
  - by eexists.
  - destruct Hm1 as (_ & _ & _ & Hrw & _). congruence.
  - congruence.
Qed.

#[export] Instance soc_dma_bridge_laws : DmaBridgeLaws soc_dma_ctx := {
  bridge_wf := ctx_wf;
  bridge_reader_ok := soc_reader_bridge_ok;
  bridge_writer_ok c addr bs rc c' Hc _ _ := soc_writer_bridge_ok c addr bs rc c' Hc;
  bridge_serves c src dst len Hc _ _ := soc_bridge_serves c src dst len Hc
}.

(** * The clock preserves the invariant *)

(** What the two stream operations of the UART keep, a DMA step keeps. *)
Class StreamFrame {A} (f : soc_uart_t -> A) : Prop := {
  frame_append u payload : f (soc_uart_dma_tx_append u payload) = f u;
  frame_drain u len : f (snd (soc_uart_dma_rx_drain u len)) = f u
}.

#[export] Instance uart_links_frame : StreamFrame uart_links :=
  {| frame_append := append_links; frame_drain := drain_links |}.

Section Framed.

Context {A : Type} (f : soc_uart_t -> A) `{!StreamFrame f}.

Lemma soc_reader_bridge_frame c addr len r c' :
  soc_dma_reader_bridge c addr len = (r, c') -> f (x_uart c') = f (x_uart c).
Proof.
  unfold soc_dma_reader_bridge. case_match; [|by intros [= <- <-]].
  pose proof (frame_drain (x_uart c) len) as Hl.
  destruct (soc_uart_dma_rx_drain (x_uart c) len) as [out u]. by intros [= <- <-].
Qed.

Lemma soc_writer_bridge_frame c addr bs rc c' :
  soc_dma_writer_bridge c addr bs = (rc, c') -> f (x_uart c') = f (x_uart c).
Proof.
  unfold soc_dma_writer_bridge. case_match.
  - intros [= <- <-]. apply frame_append.
  - destruct (soc_mem_write_bytes _ _ _) as [rc1 m]. by intros [= <- <-].
Qed.

Lemma dma_step_uart_frame malloc_ok d ic perf ctx d' ic' perf' ctx' :
  soc_dma_step malloc_ok d ic perf ctx = (d', ic', perf', ctx') ->
  f (x_uart ctx') = f (x_uart ctx).
Proof.
  destruct (soc_dma_step_cases malloc_ok d ic perf ctx) as [-> | (_ & _ & [-> | ->])];
    [by intros [= <- <- <- <-]..|].
  unfold dma_finish. simpl. destruct (soc_dma_reader_bridge _ _ _) as [[tmp|] c1] eqn:Er;
    apply soc_reader_bridge_frame in Er; [|by intros [= <- <- <- <-]].
  destruct (soc_dma_writer_bridge _ _ _) as [rc c2] eqn:Ew.
  apply soc_writer_bridge_frame in Ew. case_match; intros [= <- <- <- <-]; congruence.
Qed.

End Framed.

Lemma soc_tick_wf malloc_ok s : soc_wf s -> soc_wf (soc_tick malloc_ok s).
Proof.
  intros Hs. unfold soc_tick.
  set (s1 := s <| s_ticks := u32 (s_ticks s + 1) |>).
  set (s2 := s1 <| s_perf := soc_perf_tick (s_perf s1) |>).
  assert (soc_wf s2) as H2.
  { apply soc_wf_perf; [apply soc_wf_ticks; auto with soc|].
    apply soc_perf_tick_wf. apply (swf_perf s Hs). }
  clearbody s2. clear s1 s Hs.
  pose proof (soc_uart_step_wf (s_uart s2) (s_intc s2) (swf_uart _ H2) (swf_intc _ H2)) as [Hu Hi].
  pose proof (soc_uart_step_links (s_uart s2) (s_intc s2)) as [Hul Hil].
  destruct (soc_uart_step (s_uart s2) (s_intc s2)) as [u ic]. simpl in Hu, Hi, Hul, Hil.
  assert (soc_wf (s2 <| s_uart := u |> <| s_intc := ic |>)) as H3 by auto with soc.
  set (s3 := s2 <| s_uart := u |> <| s_intc := ic |>) in *. clearbody s3.
  pose proof (soc_timer_step_wf (s_timer s3) (s_intc s3) (swf_timer _ H3) (swf_intc _ H3)) as [Ht Hi3].
  pose proof (soc_timer_step_link (s_timer s3) (s_intc s3)) as [Htl Htp].
  destruct (soc_timer_step (s_timer s3) (s_intc s3)) as [t ic3]. simpl in Ht, Hi3, Htl, Htp.
  assert (soc_wf (s3 <| s_timer := t |> <| s_intc := ic3 |>)) as H4 by auto with soc.
  set (s4 := s3 <| s_timer := t |> <| s_intc := ic3 |>) in *. clearbody s4.
  destruct (soc_dma_step _ _ _ _ _) as [[[d ic4] perf] ctx] eqn:E.
  pose proof (soc_dma_step_frame _ _ _ _ _ _ _ _ _ E) as (Hdc & _ & Hdp).
  pose proof (dma_step_uart_frame uart_links _ _ _ _ _ _ _ _ _ E) as Hcl.
  pose proof H4 as [_ _ Hsram Hp Hi4 Hu4 _ Hd4 _ _ _ _ _].
  apply soc_dma_step_wf in E as (Hd & Hi5 & Hp5 & Hu5 & Hm5); [|done..].
  assert (soc_wf (s4 <| s_dma := d |> <| s_intc := ic4 |> <| s_perf := perf |>
                     <| s_uart := x_uart ctx |>)) as H5 by auto with soc.
  destruct H5. constructor; done.
Qed.

Lemma soc_step_S malloc_ok s n : soc_step malloc_ok s (S n) = soc_step malloc_ok (soc_tick malloc_ok s) n.
Proof. apply Nat.iter_succ_r. Qed.

Lemma soc_step_add malloc_ok s n m :
  soc_step malloc_ok s (n + m) = soc_step malloc_ok (soc_step malloc_ok s n) m.
Proof. unfold soc_step. rewrite Nat.add_comm. apply Nat.iter_add. Qed.

Lemma soc_step_ind malloc_ok (P : soc_t -> Prop) :
  (forall s, P s -> P (soc_tick malloc_ok s)) -> forall n s, P s -> P (soc_step malloc_ok s n).
Proof. intros HP n s Hs. induction n as [|n IH]; [done|]. by apply HP. Qed.

Lemma soc_step_wf malloc_ok s n : soc_wf s -> soc_wf (soc_step malloc_ok s n).
Proof. apply soc_step_ind, soc_tick_wf. Qed.

Lemma soc_reset_peripherals_wf s : soc_wf s -> soc_wf (soc_reset_peripherals s).
Proof.
  intros Hs. pose proof Hs as [? ? ? ? ? Hu ? Hd]. unfold soc_reset_peripherals.
  apply soc_wf_intc; [|done|done]. apply soc_wf_dma; [|by apply soc_dma_reset_wf|done].
  apply soc_wf_timer; [|done|done]. apply soc_wf_uart; [done| |done].
  destruct Hu. by apply soc_uart_reset_wf.
Qed.

(** The image part of the boot. *)
Definition boot_rom (rom : soc_mem_t) (rom_words : option (list Z)) : soc_mem_t :=
  match rom_words with
  | Some words =>
      if 0 <? zlen words
      then snd (soc_mem_load_words (store rom 0 (zeros 16384)) words) else rom
  | None => rom
  end.

Lemma boot_rom_wf rom rom_words : is_rom rom -> is_rom (boot_rom rom rom_words).
Proof.
  intros Hrom. destruct rom_words as [words|]; [|done]. unfold boot_rom.
  destruct (0 <? zlen words); [|done]. pose proof Hrom as (Hwf & Hb & Hs & Hro).
  pose proof (wf_len _ Hwf) as Hlen.
  assert (zlen (zeros 16384) = 16384) as Hz by by apply zlen_zeros.
  assert (mem_wf (store rom 0 (zeros 16384))) as Hwf1
    by (apply store_wf; [done|lia|lia|apply Forall_byte_zeros]).
  assert (same_shape rom (store rom 0 (zeros 16384))) as Hsh1 by (apply store_same_shape; lia).
  assert (m_size (store rom 0 (zeros 16384)) = 16384) as Hs1 by (by rewrite <- Hs).
  destruct (load_words_from_wf (store rom 0 (zeros 16384)) 0 words Hwf1) as [Hwf2 Hsh2];
    [unfold two32; lia|lia|lia|].
  apply is_rom_shape with rom; [done|done|].
  by apply same_shape_trans with (store rom 0 (zeros 16384)).
Qed.

(** What the boot leaves in each part of the machine before its ticks. *)
Lemma soc_boot_reset_parts s rom_words :
  soc_wf s ->
  let s' := soc_boot_reset s rom_words in
  s_ticks s' = 0 /\ s_rom s' = boot_rom (s_rom s) rom_words /\
  s_sram s' = soc_mem_zero (s_sram s) /\ s_regions s' = s_regions s /\
  s_config s' = s_config s /\ s_uart s' = soc_uart_reset (s_uart s) /\
  s_timer s' = soc_timer_reset (s_timer s) /\ s_dma s' = soc_dma_reset (s_dma s) /\
  s_intc s' = soc_intc_reset (s_intc s) /\
  s_perf s' = soc_perf_reset_counters (s_perf s) <| p_enabled := true |> <| p_ctrl := 1 |> /\
  c_sp (s_cpu s') = 0x10010000 /\ c_pc (s_cpu s') = c_rom_base (s_cpu s).
Proof.
  intros [Hr]. unfold soc_boot_reset. cbv zeta.
  destruct rom_words as [words|]; unfold boot_rom; [destruct (0 <? zlen words)|];
    rewrite <- ?Hr; split_and!; try reflexivity; simpl; rewrite ?Hr; reflexivity.
Qed.

Lemma soc_boot_reset_wf s rom_words : soc_wf s -> soc_wf (soc_boot_reset s rom_words).
Proof.
  intros Hs. pose proof (soc_reset_peripherals_wf s Hs) as [_ _ _ _ Hi Hu Ht Hd].
  destruct (soc_boot_reset_parts s rom_words Hs)
    as (Et & Er & Em & Eg & Ec & Eu & Etm & Ed & Ei & Ep & _). pose proof Hs as [].
  destruct (soc_mem_zero_wf (s_sram s) (proj1 swf_sram0)) as [Hzw Hzs].
  constructor.
  - by rewrite Eg.
  - rewrite Er. by apply boot_rom_wf.
  - rewrite Em. by apply is_sram_shape with (s_sram s).
  - rewrite Ep. by constructor.
  - by rewrite Ei.
  - by rewrite Eu.
  - by rewrite Etm.
  - by rewrite Ed.
  - rewrite Ed. by apply dma_vlab_config with (s_dma s).
  - by rewrite Ei.
  - by rewrite Eu.
  - by rewrite Etm.
  - by rewrite Et.
Qed.

Lemma soc_boot_wf malloc_ok s rom_words : soc_wf s -> soc_wf (snd (soc_boot malloc_ok s rom_words)).
Proof.
  intros Hs. unfold soc_boot. cbv zeta. cbn [snd]. apply soc_wf_cpu.
  by apply soc_step_wf, soc_boot_reset_wf.
Qed.
