(* ===== verification/SocBus.v ===== *)
(** The bus of the SoC, as theorems about [soc_read] and [soc_write].

    Every sequence of calls preserves the invariant; the accepted addresses
    are exactly the documented map; a refused access only counts a stall;
    SRAM is a word store and ROM is never written by the bus or the clock. *)

From S2P Require Import Prelude Regions DmaCaps Platform Memory Perf Intc Timer Uart.
From S2P Require Import DmaSpec Dma Soc.

(** * Sequences of calls *)

Inductive soc_op : Type :=
| OpRead (addr : Z)
| OpWrite (addr value : Z)
| OpStep (n : nat)
| OpResetPeripherals
| OpBoot (rom_words : option (list Z))
| OpInit (cfg : option soc_config_t).

Definition soc_op_ok (op : soc_op) : Prop :=
  match op with
  | OpWrite _ value => is_u32 value
  | OpInit (Some cfg) => cfg_wf cfg
  | _ => True
  end.

Section Ops.

Variable malloc_ok : Z -> Z -> bool.

Definition soc_op_run (s : soc_t) (op : soc_op) : soc_t :=
  match op with
  | OpRead addr => snd (soc_read s addr)
  | OpWrite addr value => snd (soc_write s addr value)
  | OpStep n => soc_step malloc_ok s n
  | OpResetPeripherals => soc_reset_peripherals s
  | OpBoot rom_words => snd (soc_boot malloc_ok s rom_words)
  | OpInit cfg => soc_init s cfg
  end.

Definition soc_run (s : soc_t) (ops : list soc_op) : soc_t := foldl soc_op_run s ops.

(** The stores outlive everything, so a machine can be initialised again. *)
Lemma soc_wf_stores s : soc_wf s -> soc_stores s.
Proof.
  intros [_ [Hr Hrom] [Hm Hsram] _ _ Hu _ _ _ _ _ _ _]. destruct Hr, Hm, Hu.
  unfold m_bytes in *. constructor; [| |done|done].
  - destruct (m_data (s_rom s)) as [d|]; [|done]. exists d. split_and!; [done|apply Hrom|done].
  - destruct (m_data (s_sram s)) as [d|]; [|done]. exists d. split_and!; [done|apply Hsram|done].
Qed.

Lemma soc_op_wf s op : soc_wf s -> soc_op_ok op -> soc_wf (soc_op_run s op).
Proof.
  intros Hs Hop. destruct op; cbn [soc_op_run soc_op_ok] in *.
  - by apply soc_read_wf.
  - by apply soc_write_wf.
  - by apply soc_step_wf.
  - by apply soc_reset_peripherals_wf.
  - by apply soc_boot_wf.
  - apply soc_init_wf; [by apply soc_wf_stores|]. by intros c ->.
Qed.

(** C5. From any machine whose static stores exist, initialisation followed by
    any sequence of bus accesses, ticks, resets, boots and re-initialisations
    keeps every component's invariant and the wiring between them. *)
Theorem soc_reachable_wf s cfg ops :
  soc_stores s -> soc_op_ok (OpInit cfg) -> Forall soc_op_ok ops ->
  soc_wf (soc_run (soc_init s cfg) ops).
Proof.
  intros Hs Hc Hops. assert (soc_wf (soc_init s cfg)) as Hwf
    by (apply soc_init_wf; [done|by intros c ->]).
  unfold soc_run. generalize dependent (soc_init s cfg). induction Hops as [|op ops Hop Hops IH].
  - done.
  - intros s1 Hwf. apply IH. by apply soc_op_wf.
Qed.

End Ops.

Lemma soc_reachable_wf_witness :
  soc_wf (soc_run (fun _ _ => true) (soc_init soc_static None)
    [OpWrite VLAB_UART_CTRL 1; OpWrite VLAB_UART_TXDATA 0x48; OpStep 7; OpRead VLAB_UART_RXDATA;
     OpBoot (Some [0x11111111]); OpResetPeripherals; OpInit None]).
Proof. apply soc_reachable_wf; [apply soc_static_stores|done|by repeat constructor]. Defined.

(** * The address map *)

(** The registers a bus read reaches. *)
Definition readable_regs : list Z := [
  VLAB_UART_RXDATA; VLAB_UART_STATUS; VLAB_UART_CTRL; VLAB_UART_BAUDDIV;
  VLAB_TIMER_CTRL; VLAB_TIMER_LOAD; VLAB_TIMER_VALUE; VLAB_TIMER_IRQ_STATUS;
  VLAB_DMA_SRC; VLAB_DMA_DST; VLAB_DMA_LEN; VLAB_DMA_CTRL; VLAB_DMA_STATUS; VLAB_DMA_ERR_CODE;
  VLAB_INTC_ENABLE; VLAB_INTC_PENDING; VLAB_INTC_ACK; VLAB_INTC_ACTIVE;
  VLAB_PERF_CYCLES; VLAB_PERF_MEM_ACC; VLAB_PERF_DMA_BYTES; VLAB_PERF_IRQ_COUNT;
  VLAB_PERF_STALLS; VLAB_PERF_CTRL
].

(** The registers a bus write reaches; TXDATA needs the UART enabled. *)
Definition writable_regs (uart_enabled : bool) : list Z :=
  (if uart_enabled then [VLAB_UART_TXDATA] else []) ++ [
  VLAB_UART_CTRL; VLAB_UART_BAUDDIV;
  VLAB_TIMER_CTRL; VLAB_TIMER_LOAD; VLAB_TIMER_IRQ_STATUS; VLAB_TIMER_IRQ_CLEAR;
  VLAB_DMA_SRC; VLAB_DMA_DST; VLAB_DMA_LEN; VLAB_DMA_CTRL; VLAB_DMA_IRQ_CLEAR;
  VLAB_INTC_ENABLE; VLAB_INTC_CLEAR;
  VLAB_PERF_CYCLES; VLAB_PERF_MEM_ACC; VLAB_PERF_DMA_BYTES; VLAB_PERF_IRQ_COUNT;
  VLAB_PERF_STALLS; VLAB_PERF_CTRL
].

Definition in_rom_window (addr : Z) : Prop := addr < 0x4000.
Definition in_sram_window (addr : Z) : Prop := 0x10000000 <= addr < 0x10010000.

Lemma soc_route_window s addr :
  soc_wf s -> is_u32 addr -> addr mod 4 = 0 -> soc_route s addr = vlab_window addr.
Proof. intros Hs. unfold soc_route. rewrite (swf_regions s Hs). apply soc_bus_route_vlab. Qed.

Lemma rom_contains_word m addr :
  is_rom m -> 0 <= addr -> addr mod 4 = 0 -> addr < 0x4000 -> soc_mem_contains m addr 4 = true.
Proof.
  intros (Hwf & Hb & Hs & _) H0 H4 Ha. apply soc_mem_contains_spec; [done|done|].
  rewrite Hb, Hs. unfold VLAB_ROM_BASE. Z.to_euclidean_division_equations; lia.
Qed.

Lemma sram_contains_word m addr :
  is_sram m -> addr mod 4 = 0 -> in_sram_window addr -> soc_mem_contains m addr 4 = true.
Proof.
  intros (Hwf & Hb & Hs & _) H4 Ha. apply soc_mem_contains_spec; [done|done|].
  rewrite Hb, Hs. unfold VLAB_SRAM_BASE, in_sram_window in *.
  Z.to_euclidean_division_equations; lia.
Qed.

Lemma soc_dma_write_status d ic perf offset value :
  fst (soc_dma_write d ic perf offset value) =
    if (offset =? SOC_DMA_SRC_OFF) || (offset =? SOC_DMA_DST_OFF) || (offset =? SOC_DMA_LEN_OFF) ||
       (offset =? SOC_DMA_CTRL_OFF) || (offset =? SOC_DMA_IRQ_CLEAR_OFF)
    then SOC_OK else SOC_ERR_BUS.
Proof.
  unfold soc_dma_write. repeat (case_match; [try done|]); try done.
  destruct (if tst value SOC_DMA_CTRL_START then _ else _) as [[??]?].
  by destruct (offset =? SOC_DMA_SRC_OFF), (offset =? SOC_DMA_DST_OFF), (offset =? SOC_DMA_LEN_OFF).
Qed.

(** Turn membership in the register lists into arithmetic. *)
Ltac regs :=
  unfold readable_regs, writable_regs, in_rom_window, in_sram_window;
  rewrite ?elem_of_app, ?elem_of_cons, ?elem_of_nil;
  unfold VLAB_UART_TXDATA, VLAB_UART_RXDATA, VLAB_UART_STATUS, VLAB_UART_CTRL, VLAB_UART_BAUDDIV,
    VLAB_TIMER_CTRL, VLAB_TIMER_LOAD, VLAB_TIMER_VALUE, VLAB_TIMER_IRQ_STATUS, VLAB_TIMER_IRQ_CLEAR,
    VLAB_DMA_SRC, VLAB_DMA_DST, VLAB_DMA_LEN, VLAB_DMA_CTRL, VLAB_DMA_STATUS, VLAB_DMA_ERR_CODE,
    VLAB_DMA_IRQ_CLEAR, VLAB_INTC_ENABLE, VLAB_INTC_PENDING, VLAB_INTC_ACK, VLAB_INTC_ACTIVE,
    VLAB_INTC_CLEAR, VLAB_PERF_CYCLES, VLAB_PERF_MEM_ACC, VLAB_PERF_DMA_BYTES,
    VLAB_PERF_IRQ_COUNT, VLAB_PERF_STALLS, VLAB_PERF_CTRL.

(** The offset a component receives. *)
Lemma offset_in addr base : is_u32 addr -> 0 <= base <= addr -> u32 (addr - base) = addr - base.
Proof. intros Ha Hb. apply u32_id. unfold is_u32 in *. lia. Qed.

(** A goal [is_ok (if off =? A then .. else ..) = true <-> arithmetic]. *)
Ltac iff_lia := split; [first [intros _; lia|done]|first [done|intros; exfalso; lia]].

Ltac by_offset :=
  repeat match goal with
  | |- context [if ?x =? ?y then _ else _] => destruct (Z.eqb_spec x y)
  end; iff_lia.

Lemma soc_read_at_ok s addr :
  soc_wf s -> is_u32 addr -> addr mod 4 = 0 ->
  match soc_read_at s (vlab_window addr) addr with Some (r, _) => is_ok r | None => false end = true <->
  in_rom_window addr \/ in_sram_window addr \/ addr ∈ readable_regs.
Proof.
  intros Hs Ha H4. unfold soc_read_at.
  destruct (vlab_window_cases addr (proj1 Ha))
    as [[-> H]|[[-> H]|[[-> H]|[[-> H]|[[-> H]|[[-> H]|[[-> H]|[-> H]]]]]]]];
    cbn [Z.eqb Pos.eqb].
  - rewrite soc_mem_read_word_cases, (rom_contains_word _ _ (swf_rom s Hs) (proj1 Ha) H4 H), H4.
    split; [|done]. by left.
  - rewrite soc_mem_read_word_cases, (sram_contains_word _ _ (swf_sram s Hs) H4 H), H4.
    split; [|done]. by right; left.
  - unfold soc_uart_read. rewrite offset_in by (unfold SOC_UART_BASE; done || lia).
    unfold SOC_UART_BASE, SOC_UART_TXDATA_OFF, SOC_UART_RXDATA_OFF, SOC_UART_STATUS_OFF,
      SOC_UART_CTRL_OFF, SOC_UART_BAUDDIV_OFF.
    regs. by_offset.
  - unfold soc_timer_read. rewrite offset_in by (unfold SOC_TIMER_BASE; done || lia).
    unfold SOC_TIMER_BASE, SOC_TIMER_CTRL_OFF, SOC_TIMER_LOAD_OFF, SOC_TIMER_VALUE_OFF,
      SOC_TIMER_IRQ_STATUS_OFF.
    regs. by_offset.
  - unfold soc_dma_read. rewrite offset_in by (unfold SOC_DMA_BASE; done || lia).
    unfold SOC_DMA_BASE, SOC_DMA_SRC_OFF, SOC_DMA_DST_OFF, SOC_DMA_LEN_OFF, SOC_DMA_CTRL_OFF,
      SOC_DMA_STATUS_OFF, SOC_DMA_ERR_CODE_OFF. cbv zeta.
    regs. by_offset.
  - unfold soc_intc_read. rewrite offset_in by (unfold SOC_INTC_BASE; done || lia).
    unfold SOC_INTC_BASE, SOC_INTC_ENABLE_OFF, SOC_INTC_PENDING_OFF, SOC_INTC_ACTIVE_OFF,
      SOC_INTC_ACK_OFF. cbv zeta.
    destruct (soc_intc_highest (s_intc s) <? 0); regs; by_offset.
  - unfold soc_perf_read. rewrite offset_in by (unfold SOC_PERF_BASE; done || lia).
    unfold SOC_PERF_BASE, SOC_PERF_CYCLES_OFF, SOC_PERF_MEM_ACC_OFF, SOC_PERF_DMA_BYTES_OFF,
      SOC_PERF_IRQ_COUNT_OFF, SOC_PERF_STALLS_OFF, SOC_PERF_CTRL_OFF.
    regs. by_offset.
  - regs. iff_lia.
Qed.

Lemma soc_write_at_ok s addr value :
  soc_wf s -> is_u32 addr -> addr mod 4 = 0 ->
  match soc_write_at s (vlab_window addr) addr value with
  | Some (rc, _) => rc =? SOC_OK | None => false end = true <->
  in_sram_window addr \/ addr ∈ writable_regs (Z.testbit (u_ctrl (s_uart s)) 0).
Proof.
  intros Hs Ha H4. unfold soc_write_at.
  destruct (vlab_window_cases addr (proj1 Ha))
    as [[-> H]|[[-> H]|[[-> H]|[[-> H]|[[-> H]|[[-> H]|[[-> H]|[-> H]]]]]]]];
    cbn [Z.eqb Pos.eqb].
  - destruct (soc_mem_write_word_cases (s_rom s) addr value) as [(_ & Hro & _)|[_ ->]].
    + destruct (swf_rom s Hs) as (_ & _ & _ & Hro' & _). congruence.
    + simpl (_ =? _). destruct (Z.testbit (u_ctrl (s_uart s)) 0); regs; iff_lia.
  - destruct (soc_mem_write_word_cases (s_sram s) addr value) as [(_ & _ & _ & ->)|[Hno _]].
    + simpl (_ =? _). split; [|done]. by left.
    + destruct (swf_sram s Hs) as (_ & _ & _ & Hrw & _).
      rewrite (sram_contains_word _ _ (swf_sram s Hs) H4 H) in Hno. intuition congruence.
  - unfold soc_uart_write. rewrite offset_in by (unfold SOC_UART_BASE; done || lia).
    unfold SOC_UART_BASE, SOC_UART_TXDATA_OFF, SOC_UART_CTRL_OFF, SOC_UART_BAUDDIV_OFF.
    rewrite tst_uart_enable. destruct (Z.testbit (u_ctrl (s_uart s)) 0); cbn [negb]; regs; by_offset.
  - unfold soc_timer_write. rewrite offset_in by (unfold SOC_TIMER_BASE; done || lia).
    unfold SOC_TIMER_BASE, SOC_TIMER_CTRL_OFF, SOC_TIMER_LOAD_OFF,
      SOC_TIMER_IRQ_STATUS_OFF, SOC_TIMER_IRQ_CLEAR_OFF. cbv zeta.
    destruct (Z.testbit (u_ctrl (s_uart s)) 0); regs; by_offset.
  - pose proof (soc_dma_write_status (s_dma s) (s_intc s) (s_perf s)
      (u32 (addr - SOC_DMA_BASE)) value) as Hrc.
    destruct (soc_dma_write _ _ _ _ _) as [rc [[d ic] perf]]. simpl in Hrc. subst rc.
    rewrite offset_in by (unfold SOC_DMA_BASE; done || lia).
    unfold SOC_DMA_BASE, SOC_DMA_SRC_OFF, SOC_DMA_DST_OFF, SOC_DMA_LEN_OFF, SOC_DMA_CTRL_OFF,
      SOC_DMA_IRQ_CLEAR_OFF.
    destruct (_ || _) eqn:E; simpl (_ =? _).
    all: rewrite ?orb_true_iff, ?orb_false_iff, ?Z.eqb_eq, ?Z.eqb_neq in E.
    all: destruct (Z.testbit (u_ctrl (s_uart s)) 0); regs; iff_lia.
  - unfold soc_intc_write. rewrite offset_in by (unfold SOC_INTC_BASE; done || lia).
    unfold SOC_INTC_BASE, SOC_INTC_ENABLE_OFF, SOC_INTC_CLEAR_OFF.
    destruct (Z.testbit (u_ctrl (s_uart s)) 0); regs; by_offset.
  - unfold soc_perf_write. rewrite offset_in by (unfold SOC_PERF_BASE; done || lia).
    unfold SOC_PERF_BASE, SOC_PERF_CYCLES_OFF, SOC_PERF_MEM_ACC_OFF, SOC_PERF_DMA_BYTES_OFF,
      SOC_PERF_IRQ_COUNT_OFF, SOC_PERF_STALLS_OFF, SOC_PERF_CTRL_OFF. cbv zeta.
    destruct (Z.testbit (u_ctrl (s_uart s)) 0); regs; by_offset.
  - destruct (Z.testbit (u_ctrl (s_uart s)) 0); regs; iff_lia.
Qed.

(** C16. The bus answers exactly the documented map: an aligned address reads if it
    is in ROM, in SRAM or a readable register, and can be written if it is in
    SRAM or a writable register (TXDATA while the UART is enabled). *)
Theorem soc_access_map s addr value :
  soc_wf s -> is_u32 addr ->
  (is_ok (fst (soc_read s addr)) = true <->
     addr mod 4 = 0 /\ (in_rom_window addr \/ in_sram_window addr \/ addr ∈ readable_regs)) /\
  (fst (soc_write s addr value) = SOC_OK <->
     addr mod 4 = 0 /\
     (in_sram_window addr \/ addr ∈ writable_regs (Z.testbit (u_ctrl (s_uart s)) 0))).
Proof.
  intros Hs Ha. unfold soc_read, soc_write.
  destruct (Z.eqb_spec (addr mod 4) 0) as [H4|H4]; cbn [negb fst is_ok];
    [|split; (split; [done|by intros [? _]])].
  set (s1 := s <| s_perf := _ |>). assert (soc_wf s1) as Hs1 by by apply soc_count_mem_wf.
  rewrite (soc_route_window s1 addr Hs1 Ha H4).
  pose proof (soc_read_at_ok s1 addr Hs1 Ha H4) as Hr.
  pose proof (soc_write_at_ok s1 addr value Hs1 Ha H4) as Hw.
  change (u_ctrl (s_uart s1)) with (u_ctrl (s_uart s)) in Hw. split.
  - destruct (soc_read_at _ _ _) as [[[v|rc] s2]|]; simpl in *; tauto.
  - destruct (soc_write_at _ _ _ _) as [[rc s2]|]; [|split; [done|by intros [_ Hx%Hw]]].
    destruct (Z.eqb_spec rc SOC_OK) as [->|Hrc].
    + rewrite andb_false_r. cbn [negb fst]. split; [|done]. intros _. by rewrite <- Hw.
    + split; [|by intros [_ Hx%Hw]]. intros Hf. by repeat case_match.
Qed.

Lemma soc_access_map_witness :
  is_ok (fst (soc_read soc_default 0x1000FFFC)) = true /\
  fst (soc_write soc_default VLAB_ROM_BASE 1) <> SOC_OK.
Proof.
  split.
  - apply (proj1 (soc_access_map soc_default 0x1000FFFC 0 soc_default_wf ltac:(done))).
    split; [done|]. right; left. done.
  - intros H. apply (proj2 (soc_access_map soc_default VLAB_ROM_BASE 1 soc_default_wf ltac:(done))) in H.
    destruct H as [_ [[H _]|H]]; [done|].
    change (Z.testbit _ 0) with false in H. unfold writable_regs in H.
    rewrite app_nil_l, !elem_of_cons, elem_of_nil in H. by repeat (destruct H as [H|H]; [discriminate H|]).
Defined.

(** * Refused accesses *)

(** A component that refuses an access is unchanged. *)
Lemma soc_read_at_refused s kind addr rc s' :
  soc_read_at s kind addr = Some (Err rc, s') -> s' = s.
Proof.
  unfold soc_read_at. repeat (case_match; [try by intros [= _ <-]|]); try done.
  - unfold soc_uart_read. case_switch; intros [= _ <-]; by destruct s.
  - unfold soc_intc_read. case_switch; intros [= _ <-]; by destruct s.
Qed.

Lemma soc_dma_write_refused d ic perf offset value rc r :
  soc_dma_write d ic perf offset value = (rc, r) -> rc <> SOC_OK ->
  rc = SOC_ERR_BUS /\ r = (d, ic, perf).
Proof.
  unfold soc_dma_write. repeat (case_match; [try (by intros [= <- <-])|]).
  - destruct (if tst value SOC_DMA_CTRL_START then _ else _) as [[??]?]. by intros [= <- <-].
  - by intros [= <- <-].
Qed.

Lemma soc_uart_write_refused u perf offset value rc u' perf' :
  soc_uart_write u perf offset value = (rc, u', perf') -> rc <> SOC_OK ->
  (rc = SOC_ERR_BUS /\ u' = u /\ perf' = perf) \/
  (rc = SOC_UART_ERR_DISABLED /\ u' = u /\
   perf' = if linked (u_perf u) then soc_perf_count_stall perf 1 else perf).
Proof. unfold soc_uart_write. case_switch; intros [= <- <- <-] Hrc; (done || by auto). Qed.

Lemma soc_timer_write_refused t offset value rc t' :
  soc_timer_write t offset value = (rc, t') -> rc <> SOC_OK -> rc = SOC_ERR_BUS /\ t' = t.
Proof. unfold soc_timer_write. case_switch; by intros [= <- <-]. Qed.

Lemma soc_intc_write_refused ic offset value rc ic' :
  soc_intc_write ic offset value = (rc, ic') -> rc <> SOC_OK -> rc = SOC_ERR_BUS /\ ic' = ic.
Proof. unfold soc_intc_write. case_switch; by intros [= <- <-]. Qed.

Lemma soc_perf_write_refused p offset value rc p' :
  soc_perf_write p offset value = (rc, p') -> rc <> SOC_OK -> rc = SOC_ERR_BUS /\ p' = p.
Proof. unfold soc_perf_write. case_switch; by intros [= <- <-]. Qed.

Lemma soc_mem_write_word_refused m addr value rc m' :
  soc_mem_write_word m addr value = (rc, m') -> rc <> SOC_OK -> rc = SOC_ERR_BUS /\ m' = m.
Proof.
  destruct (soc_mem_write_word_cases m addr value) as [(_ & _ & _ & ->)|[_ ->]];
    by intros [= <- <-].
Qed.

(** What each status of the [switch] of [soc_write] means for the state; the
    disabled UART has already counted its stall. *)
Lemma soc_write_at_refused s kind addr value rc s' :
  soc_wf s -> soc_write_at s kind addr value = Some (rc, s') -> rc <> SOC_OK ->
  (rc = SOC_ERR_BUS /\ s' = s) \/
  (kind = 2 /\ rc = SOC_UART_ERR_DISABLED /\ s' = soc_count_stall s).
Proof.
  intros Hs. unfold soc_write_at.
  destruct (Z.eqb_spec kind 0).
  { destruct (soc_mem_write_word _ _ _) as [rc1 m] eqn:E. intros [= <- <-] Hrc.
    apply soc_mem_write_word_refused in E as [-> ->]; [|done]. left. by destruct s. }
  destruct (Z.eqb_spec kind 1).
  { destruct (soc_mem_write_word _ _ _) as [rc1 m] eqn:E. intros [= <- <-] Hrc.
    apply soc_mem_write_word_refused in E as [-> ->]; [|done]. left. by destruct s. }
  destruct (Z.eqb_spec kind 2) as [->|].
  { destruct (soc_uart_write _ _ _ _) as [[rc1 u] perf] eqn:E. intros [= <- <-] Hrc.
    apply soc_uart_write_refused in E as [(-> & -> & ->)|(-> & -> & ->)]; [| |done].
    - left. by destruct s.
    - destruct (swf_uart_links s Hs) as [-> _]. right. by destruct s. }
  destruct (Z.eqb_spec kind 3).
  { destruct (soc_timer_write _ _ _) as [rc1 t] eqn:E. intros [= <- <-] Hrc.
    apply soc_timer_write_refused in E as [-> ->]; [|done]. left. by destruct s. }
  destruct (Z.eqb_spec kind 4).
  { destruct (soc_dma_write _ _ _ _ _) as [rc1 [[d ic] perf]] eqn:E. intros [= <- <-] Hrc.
    apply soc_dma_write_refused in E as [-> [= -> -> ->]]; [|done]. left. by destruct s. }
  destruct (Z.eqb_spec kind 5).
  { destruct (soc_intc_write _ _ _) as [rc1 ic] eqn:E. intros [= <- <-] Hrc.
    apply soc_intc_write_refused in E as [-> ->]; [|done]. left. by destruct s. }
  destruct (Z.eqb_spec kind 6); [|done].
  destruct (soc_perf_write _ _ _) as [rc1 p] eqn:E. intros [= <- <-] Hrc.
  apply soc_perf_write_refused in E as [-> ->]; [|done]. left. by destruct s.
Qed.

(** The accounting of a refused access. *)
Definition refused_access (s : soc_t) (addr : Z) : soc_t :=
  let perf := if addr mod 4 =? 0 then soc_perf_count_mem (s_perf s) else s_perf s in
  s <| s_perf := soc_perf_count_stall perf 1 |>.

(** C20. A refused read or write has one effect on the machine: MEM_ACC counts it
    when it was aligned, and STALLS counts exactly one.  The status is the bus
    error, or the UART's "disabled" for TXDATA; there is no third one. *)
Theorem soc_refused_access s addr value :
  soc_wf s ->
  match soc_read s addr with
  | (Ok _, _) => True
  | (Err rc, s') => rc = SOC_ERR_BUS /\ s' = refused_access s addr
  end /\
  let '(rc, s') := soc_write s addr value in
  rc = SOC_OK \/
  (rc = SOC_ERR_BUS \/ rc = SOC_UART_ERR_DISABLED /\ soc_route s addr = 2) /\
  s' = refused_access s addr.
Proof.
  intros Hs. unfold soc_read, soc_write, refused_access.
  destruct (Z.eqb_spec (addr mod 4) 0) as [H4|H4]; cbn [negb]; [|by auto].
  set (s1 := s <| s_perf := soc_perf_count_mem (s_perf s) |>).
  assert (soc_wf s1) as Hs1 by by apply soc_count_mem_wf. cbv zeta. split.
  - destruct (soc_read_at s1 (soc_route s1 addr) addr) as [[[v|rc] s2]|] eqn:E; [done| |done].
    apply soc_read_at_refused in E as ->. done.
  - destruct (soc_write_at s1 (soc_route s1 addr) addr value) as [[rc s2]|] eqn:E; [|by auto].
    destruct (Z.eqb_spec rc SOC_OK) as [->|Hrc]; [rewrite andb_false_r; by left|].
    apply soc_write_at_refused in E as [[-> ->]|(Hk & -> & ->)]; [| |done..].
    + rewrite andb_false_r. cbn. right. split; [by left|done].
    + rewrite Hk. right. split; [|done]. right. done.
Qed.

Lemma soc_refused_access_witness :
  let '(rc, s') := soc_write soc_default 0x30000000 1 in
  rc <> SOC_OK -> s' = refused_access soc_default 0x30000000.
Proof.
  pose proof (soc_refused_access soc_default 0x30000000 1 soc_default_wf) as [_ H].
  destruct (soc_write soc_default 0x30000000 1) as [rc s']. destruct H as [H|[_ H]]; [done|].
  intros _. exact H.
Defined.

(** * Register access

    A register access of a well-formed machine is the access of one
    component. *)

Definition counted (s : soc_t) : soc_t := s <| s_perf := soc_perf_count_mem (s_perf s) |>.

Lemma counted_wf s : soc_wf s -> soc_wf (counted s).
Proof. apply soc_count_mem_wf. Qed.

Lemma soc_read_reg s addr :
  soc_wf s -> is_u32 addr -> addr mod 4 = 0 ->
  soc_read s addr =
    match soc_read_at (counted s) (vlab_window addr) addr with
    | None => (Err SOC_ERR_BUS, soc_count_stall (counted s))
    | Some (Err _, s') => (Err SOC_ERR_BUS, soc_count_stall s')
    | Some (Ok v, s') => (Ok v, s')
    end.
Proof.
  intros Hs Ha H4. unfold soc_read. rewrite H4. cbn [negb Z.eqb]. fold (counted s).
  by rewrite soc_route_window by (done || by apply counted_wf).
Qed.

Lemma soc_write_reg s addr value :
  soc_wf s -> is_u32 addr -> addr mod 4 = 0 ->
  soc_write s addr value =
    match soc_write_at (counted s) (vlab_window addr) addr value with
    | None => (SOC_ERR_BUS, soc_count_stall (counted s))
    | Some (rc, s') =>
        if (vlab_window addr =? 2) && (rc =? SOC_UART_ERR_DISABLED) then (rc, s')
        else if negb (rc =? SOC_OK) then (rc, if rc =? SOC_ERR_BUS then soc_count_stall s' else s')
        else (SOC_OK, s')
    end.
Proof.
  intros Hs Ha H4. unfold soc_write. rewrite H4. cbn [negb Z.eqb]. fold (counted s).
  by rewrite soc_route_window by (done || by apply counted_wf).
Qed.

(** What a register reads as is a 32-bit value. *)
Lemma soc_read_at_u32 s kind addr v s' :
  soc_wf s -> soc_read_at s kind addr = Some (Ok v, s') -> is_u32 v.
Proof.
  intros Hs. pose proof (swf_uart _ Hs) as [_ Hc Hb _ Hrx]. pose proof (swf_timer _ Hs) as [].
  pose proof (swf_dma _ Hs) as Hd. pose proof (swf_intc _ Hs) as [].
  pose proof (swf_perf _ Hs) as [].
  unfold soc_read_at.
  destruct (kind =? 0); [rewrite soc_mem_read_word_cases; case_switch; intros [= <- _];
    apply word_at_u32, (swf_rom _ Hs)|].
  destruct (kind =? 1); [rewrite soc_mem_read_word_cases; case_switch; intros [= <- _];
    apply word_at_u32, (swf_sram _ Hs)|].
  destruct (kind =? 2).
  { unfold soc_uart_read, soc_uart_status. case_switch; intros [= <- _]; try done.
    apply is_u32_land. unfold is_byte, is_u32, two32 in *. lia. }
  destruct (kind =? 3); [unfold soc_timer_read; case_switch; by intros [= <- _]|].
  destruct (kind =? 4).
  { pose proof (dwf_code _ Hd) as Hcode.
    assert (is_u32 (d_err_code (s_dma s)))
      by (unfold is_u32, two32; destruct (d_error (s_dma s)); lia).
    unfold soc_dma_read. destruct Hd. case_switch; by intros [= <- _]. }
  destruct (kind =? 5).
  { unfold soc_intc_read, SOC_IRQ_NONE.
    destruct (soc_intc_highest_line (s_intc s)) as [->|Hl]; [|rewrite (proj2 (Z.ltb_ge _ _)) by lia];
      case_switch; intros [= <- _]; unfold fits, is_u32, two32, SOC_N_LINES in *; lia. }
  destruct (kind =? 6); [unfold soc_perf_read; case_switch; by intros [= <- _]|done].
Qed.

Lemma soc_read_u32 s addr v : soc_wf s -> fst (soc_read s addr) = Ok v -> is_u32 v.
Proof.
  intros Hs. unfold soc_read. destruct (negb _); [done|].
  destruct (soc_read_at _ _ _) as [[[w|rc] s']|] eqn:E; try done. cbn [fst]. intros [= ->].
  by apply soc_read_at_u32 in E; [|apply soc_count_mem_wf].
Qed.

(** * Memory through the bus *)

Lemma vlab_window_sram addr : in_sram_window addr -> vlab_window addr = 1.
Proof.
  unfold in_sram_window. intros H.
  destruct (vlab_window_cases addr ltac:(lia)) as [|[|[|[|[|[|[|]]]]]]]; lia.
Qed.

Lemma vlab_window_rom addr : 0 <= addr -> in_rom_window addr -> vlab_window addr = 0.
Proof.
  unfold in_rom_window. intros H0 H.
  destruct (vlab_window_cases addr H0) as [|[|[|[|[|[|[|]]]]]]]; lia.
Qed.

Lemma soc_read_sram s addr :
  soc_wf s -> addr mod 4 = 0 -> in_sram_window addr ->
  fst (soc_read s addr) = Ok (word_at (s_sram s) addr).
Proof.
  intros Hs H4 Hin. unfold soc_read. rewrite H4. cbn [negb Z.eqb].
  set (s1 := s <| s_perf := _ |>). assert (soc_wf s1) as Hs1 by by apply soc_count_mem_wf.
  rewrite soc_route_window, vlab_window_sram; [|done|done| |done];
    [|unfold in_sram_window, is_u32, two32 in *; lia].
  unfold soc_read_at. cbn [Z.eqb]. rewrite soc_mem_read_word_cases, H4.
  change (s_sram s1) with (s_sram s). by rewrite (sram_contains_word _ _ (swf_sram s Hs) H4 Hin).
Qed.

Lemma soc_read_rom s addr :
  soc_wf s -> 0 <= addr -> addr mod 4 = 0 -> in_rom_window addr ->
  fst (soc_read s addr) = Ok (word_at (s_rom s) addr).
Proof.
  intros Hs H0 H4 Hin. unfold soc_read. rewrite H4. cbn [negb Z.eqb].
  set (s1 := s <| s_perf := _ |>). assert (soc_wf s1) as Hs1 by by apply soc_count_mem_wf.
  rewrite soc_route_window, vlab_window_rom; [|done|done|done| |done];
    [|unfold in_rom_window, is_u32, two32 in *; lia].
  unfold soc_read_at. cbn [Z.eqb]. rewrite soc_mem_read_word_cases, H4.
  change (s_rom s1) with (s_rom s). by rewrite (rom_contains_word _ _ (swf_rom s Hs) H0 H4 Hin).
Qed.

Lemma soc_write_sram s addr value :
  soc_wf s -> addr mod 4 = 0 -> in_sram_window addr ->
  soc_write s addr value =
    (SOC_OK, s <| s_perf := soc_perf_count_mem (s_perf s) |>
               <| s_sram := store (s_sram s) (addr - VLAB_SRAM_BASE) (le_bytes value) |>).
Proof.
  intros Hs H4 Hin. unfold soc_write. rewrite H4. cbn [negb Z.eqb].
  set (s1 := s <| s_perf := _ |>). assert (soc_wf s1) as Hs1 by by apply soc_count_mem_wf.
  rewrite soc_route_window, vlab_window_sram; [|done|done| |done];
    [|unfold in_sram_window, is_u32, two32 in *; lia].
  unfold soc_write_at. cbn [Z.eqb]. change (s_sram s1) with (s_sram s).
  destruct (swf_sram s Hs) as (_ & Hb & _ & Hrw & _). rewrite <- Hb.
  destruct (soc_mem_write_word_cases (s_sram s) addr value) as [(_ & _ & _ & ->)|[Hno _]]; [done|].
  rewrite (sram_contains_word _ _ (swf_sram s Hs) H4 Hin) in Hno. intuition congruence.
Qed.

(** SRAM through the bus is a word store, independent of ROM: a write succeeds
    and is what the next read of that address returns, and no other word of
    either memory changes. *)
Theorem soc_sram_words s a b value :
  soc_wf s -> is_u32 value -> a mod 4 = 0 -> in_sram_window a ->
  0 <= b -> b mod 4 = 0 -> in_sram_window b \/ in_rom_window b ->
  let '(rc, s') := soc_write s a value in
  rc = SOC_OK /\
  fst (soc_read s' b) = if b =? a then Ok value else fst (soc_read s b).
Proof.
  intros Hs Hv Ha4 Ha Hb0 Hb4 Hb. rewrite soc_write_sram by done. split; [done|].
  pose proof (soc_write_wf s a value Hs Hv) as Hs'. rewrite soc_write_sram in Hs' by done.
  cbn [snd] in Hs'. set (s' := s <| s_perf := _ |> <| s_sram := _ |>) in *.
  destruct (swf_sram s Hs) as (Hwf & Hbase & Hsize & _).
  pose proof (sram_contains_word _ _ (swf_sram s Hs) Ha4 Ha) as Hca.
  destruct Hb as [Hb|Hb].
  - rewrite !soc_read_sram by done.
    change (s_sram s') with (store (s_sram s) (a - VLAB_SRAM_BASE) (le_bytes value)).
    rewrite <- Hbase. destruct (Z.eqb_spec b a) as [->|Hne].
    + f_equal. by apply word_at_store_same.
    + f_equal. pose proof (wf_len _ Hwf). unfold in_sram_window, VLAB_SRAM_BASE in *.
      apply word_at_store_other; change (zlen (le_bytes value)) with 4;
        Z.to_euclidean_division_equations; lia.
  - rewrite !soc_read_rom by done. destruct (Z.eqb_spec b a) as [->|]; [|done].
    unfold in_sram_window, in_rom_window in *. lia.
Qed.

Lemma soc_sram_words_witness :
  fst (soc_read (snd (soc_write soc_default 0x10000010 0xDEADBEEF)) 0x10000010) = Ok 0xDEADBEEF.
Proof.
  pose proof (soc_sram_words soc_default 0x10000010 0x10000010 0xDEADBEEF soc_default_wf ltac:(done)
    ltac:(done) ltac:(done) ltac:(done) ltac:(done) ltac:(by left)) as H.
  destruct (soc_write soc_default 0x10000010 0xDEADBEEF) as [rc s']. apply H.
Defined.

(** * ROM *)

Lemma soc_read_at_mems s kind addr r s' :
  soc_read_at s kind addr = Some (r, s') -> s_rom s' = s_rom s /\ s_sram s' = s_sram s.
Proof.
  unfold soc_read_at. repeat (case_match; [try by intros [= _ <-]|]); try done.
  - destruct (soc_uart_read _ _). by intros [= _ <-].
  - destruct (soc_intc_read _ _ _) as [[??]?]. by intros [= _ <-].
Qed.

Lemma soc_read_mems s addr :
  s_rom (snd (soc_read s addr)) = s_rom s /\ s_sram (snd (soc_read s addr)) = s_sram s.
Proof.
  unfold soc_read. destruct (negb _); [done|].
  destruct (soc_read_at _ _ _) as [[[v|rc] s']|] eqn:E; simpl; [| |done];
    by apply soc_read_at_mems in E.
Qed.

Lemma soc_write_at_rom s kind addr value rc s' :
  m_readonly (s_rom s) = true -> soc_write_at s kind addr value = Some (rc, s') -> s_rom s' = s_rom s.
Proof.
  intros Hro. unfold soc_write_at.
  case_match.
  { destruct (soc_mem_write_word_cases (s_rom s) addr value) as [(_ & Hro' & _)|[_ ->]];
      [congruence|]. by intros [= _ <-]. }
  repeat case_match; try done; by intros [= _ <-].
Qed.

Lemma soc_write_rom s addr value : soc_wf s -> s_rom (snd (soc_write s addr value)) = s_rom s.
Proof.
  intros Hs. unfold soc_write. destruct (negb _); [done|]. cbv zeta.
  destruct (soc_write_at _ _ _ _) as [[rc s']|] eqn:E; simpl; [|done].
  apply soc_write_at_rom in E; [|apply (swf_rom s Hs)].
  repeat case_match; simpl; done.
Qed.

Lemma soc_tick_rom malloc_ok s : s_rom (soc_tick malloc_ok s) = s_rom s.
Proof. unfold soc_tick. by repeat case_match. Qed.

(** C21. No bus write, no DMA transfer, no tick and no peripheral reset changes a
    byte of ROM: only a boot with an image, or [soc_init], does. *)
Theorem soc_rom_immutable malloc_ok s ops :
  soc_wf s -> Forall soc_op_ok ops ->
  Forall (fun op => match op with OpBoot _ | OpInit _ => False | _ => True end) ops ->
  s_rom (soc_run malloc_ok s ops) = s_rom s.
Proof.
  intros Hs Hok Hops. unfold soc_run. revert s Hs.
  induction ops as [|op ops IH]; intros s Hs; [done|].
  apply Forall_cons_1 in Hok as [Ho Hok], Hops as [Hp Hops]. cbn [foldl].
  rewrite IH by (done || by apply soc_op_wf).
  destruct op; try done; cbn [soc_op_run].
  - apply soc_read_mems.
  - by apply soc_write_rom.
  - apply (soc_step_ind malloc_ok (fun s' => s_rom s' = s_rom s)); [|done].
    intros s1 <-. apply soc_tick_rom.
Qed.

Lemma soc_rom_immutable_witness :
  s_rom (soc_run (fun _ _ => true) soc_default
    [OpWrite VLAB_ROM_BASE 0xDEADBEEF; OpWrite VLAB_DMA_DST VLAB_ROM_BASE; OpWrite VLAB_DMA_CTRL 1;
     OpStep 100; OpResetPeripherals]) = s_rom soc_default.
Proof. apply soc_rom_immutable; [apply soc_default_wf|by repeat constructor..]. Defined.
