(* ===== verification/SocClock.v ===== *)
(** The SoC over time, as theorems about [soc_step], [soc_run_until] and
    [soc_boot]: what a tick does to each component, DMA transfers from the bus
    write that starts them to the memory they leave, polling, and boot. *)

From S2P Require Import Prelude Regions DmaCaps Platform Memory Perf Intc Timer Uart.
From S2P Require Import DmaSpec Dma Soc SocBus.

(** * Vocabulary *)

(** The word at [a] is out of the engine's reach. *)
Definition dma_spares (s : soc_t) (a : Z) : Prop :=
  d_busy (s_dma s) = false \/
  a + 4 <= d_dst (s_dma s) \/ d_dst (s_dma s) + d_length (s_dma s) <= a.

(** A 32-bit counter [n] increments later. *)
Definition after_ticks (n : nat) (v : Z) : Z := u32 (v + Z.of_nat n).

(** Every peripheral as a reset leaves it. *)
Definition peripherals_reset (s : soc_t) : Prop :=
  phase (s_dma s) = Idle /\ u_busy (s_uart s) = 0 /\ u_rx_valid (s_uart s) = false /\
  tm_ctrl (s_timer s) = 0 /\ ic_pending (s_intc s) = 0 /\ ic_active (s_intc s) = 0 /\
  ic_enable (s_intc s) = 0.

(** Clearing the stuck-busy latch of the engine. *)
Definition unstick (s : soc_t) : soc_t :=
  s <| s_dma := s_dma s <| d_fault_stuck_busy := false |> |>.

Section Clock.

Variable malloc_ok : Z -> Z -> bool.

#[local] Abbreviation soc_tick := (soc_tick malloc_ok).
#[local] Abbreviation soc_step := (soc_step malloc_ok).

(** * One tick, component by component *)

Lemma soc_tick_eq s u ic1 t ic2 d ic3 perf ctx :
  soc_uart_step (s_uart s) (s_intc s) = (u, ic1) ->
  soc_timer_step (s_timer s) ic1 = (t, ic2) ->
  soc_dma_step (malloc_ok (u32 (s_ticks s + 1))) (s_dma s) ic2 (soc_perf_tick (s_perf s))
    (Mk_soc_dma_ctx u (s_sram s)) = (d, ic3, perf, ctx) ->
  soc_tick s = Mk_soc (s_config s) (s_rom s) (x_sram ctx) (s_regions s) perf ic3 (x_uart ctx) t d
                 (s_cpu s) (u32 (s_ticks s + 1)).
Proof.
  intros Hu Ht Hd. unfold Soc.soc_tick. cbv zeta.
  change (s_uart (s <| s_ticks := _ |> <| s_perf := _ |>)) with (s_uart s).
  change (s_intc (s <| s_ticks := _ |> <| s_perf := _ |>)) with (s_intc s).
  rewrite Hu. simpl. rewrite Ht. simpl. by rewrite Hd.
Qed.

(** A tick on which the engine leaves its surroundings alone: the engine is
    free, stuck, or still counting. *)
Definition dma_after (d : soc_dma_t) : soc_dma_t :=
  if d_busy d && negb (d_fault_stuck_busy d) then d <| d_remaining := d_remaining d - 1 |> else d.

Definition dma_quiet (d : soc_dma_t) : Prop :=
  d_busy d = false \/ d_fault_stuck_busy d = true \/ 1 < d_remaining d.

Lemma dma_quiet_step m d ic perf (ctx : soc_dma_ctx) :
  dma_quiet d -> soc_dma_step m d ic perf ctx = (dma_after d, ic, perf, ctx).
Proof.
  intros Hq. unfold dma_after. destruct (d_busy d) eqn:Hb; [|by apply soc_dma_step_free].
  destruct (d_fault_stuck_busy d) eqn:Hf; [by apply soc_dma_step_stuck|]. cbn [andb negb].
  apply soc_dma_step_wait; [done..|]. destruct Hq as [Hq|[Hq|Hq]]; congruence || done.
Qed.

Lemma soc_tick_quiet s :
  dma_quiet (s_dma s) ->
  let '(u, ic1) := soc_uart_step (s_uart s) (s_intc s) in
  let '(t, ic2) := soc_timer_step (s_timer s) ic1 in
  soc_tick s = Mk_soc (s_config s) (s_rom s) (s_sram s) (s_regions s) (soc_perf_tick (s_perf s)) ic2
                 u t (dma_after (s_dma s)) (s_cpu s) (u32 (s_ticks s + 1)).
Proof.
  intros Hq. destruct (soc_uart_step _ _) as [u ic1] eqn:Hu.
  destruct (soc_timer_step _ _) as [t ic2] eqn:Ht.
  by rewrite (soc_tick_eq s _ _ _ _ _ _ _ _ Hu Ht (dma_quiet_step _ _ _ _ _ Hq)).
Qed.

(** * Interrupt lines only go up *)

Definition pending_le (ic ic' : soc_intc_t) : Prop :=
  (forall n, Z.testbit (ic_pending ic) n = true -> Z.testbit (ic_pending ic') n = true) /\
  ic_enable ic' = ic_enable ic /\ ic_active ic' = ic_active ic.

#[local] Instance pending_le_refl : Reflexive pending_le.
Proof. by intros ic. Qed.

#[local] Instance pending_le_trans : Transitive pending_le.
Proof.
  intros a b c (H1 & H2 & H3) (H4 & H5 & H6). split; [auto|]. split; congruence.
Qed.

Lemma raise_pending_le ic line : pending_le ic (soc_intc_raise ic line).
Proof.
  unfold soc_intc_raise. case_match; [|done]. split; [|done]. intros n Hn. simpl.
  by rewrite Z.lor_spec, Hn.
Qed.

Lemma dma_raise_pending_le d ic : pending_le ic (dma_raise d ic).
Proof. unfold dma_raise. case_match; [apply raise_pending_le|done]. Qed.

Lemma uart_step_pending_le u ic : pending_le ic (snd (soc_uart_step u ic)).
Proof.
  rewrite soc_uart_step_cases. unfold uart_completed_intc.
  repeat case_match; simpl; done || apply raise_pending_le.
Qed.

Lemma timer_step_pending_le t ic : pending_le ic (snd (soc_timer_step t ic)).
Proof. unfold soc_timer_step. case_switch; simpl; done || apply raise_pending_le. Qed.

Lemma dma_step_pending_le m d ic perf (ctx : soc_dma_ctx) :
  pending_le ic (snd (fst (fst (soc_dma_step m d ic perf ctx)))).
Proof.
  destruct (soc_dma_step_cases m d ic perf ctx) as [-> | (_ & _ & [-> | ->])]; [done..|].
  unfold dma_finish. repeat case_match; simplify_eq; simpl; apply dma_raise_pending_le.
Qed.

Lemma soc_tick_pending_le s : pending_le (s_intc s) (s_intc (soc_tick s)).
Proof.
  pose proof (uart_step_pending_le (s_uart s) (s_intc s)) as H1.
  destruct (soc_uart_step (s_uart s) (s_intc s)) as [u ic1] eqn:Hu.
  pose proof (timer_step_pending_le (s_timer s) ic1) as H2.
  destruct (soc_timer_step (s_timer s) ic1) as [t ic2] eqn:Ht.
  pose proof (dma_step_pending_le (malloc_ok (u32 (s_ticks s + 1))) (s_dma s) ic2
    (soc_perf_tick (s_perf s)) (Mk_soc_dma_ctx u (s_sram s))) as H3.
  destruct (soc_dma_step _ _ _ _ _) as [[[d ic3] perf] ctx] eqn:Hd.
  rewrite (soc_tick_eq s _ _ _ _ _ _ _ _ Hu Ht Hd). simpl in *.
  by transitivity ic1; [|transitivity ic2].
Qed.

Lemma soc_step_pending_le s n : pending_le (s_intc s) (s_intc (soc_step s n)).
Proof.
  apply (soc_step_ind malloc_ok (fun s' => pending_le (s_intc s) (s_intc s'))); [|done].
  intros s' H. transitivity (s_intc s'); [done|apply soc_tick_pending_le].
Qed.

(** * Running the engine inside the machine *)

Lemma uart_step_idle u ic : u_busy u <= 0 -> soc_uart_step u ic = (u, ic).
Proof. intros H. rewrite soc_uart_step_cases. by destruct (Z.ltb_spec 0 (u_busy u)); [lia|]. Qed.

Lemma soc_tick_quiet_parts s :
  dma_quiet (s_dma s) ->
  s_dma (soc_tick s) = dma_after (s_dma s) /\ s_sram (soc_tick s) = s_sram s /\
  s_perf (soc_tick s) = soc_perf_tick (s_perf s) /\
  (u_busy (s_uart s) <= 0 -> s_uart (soc_tick s) = s_uart s).
Proof.
  intros Hq. pose proof (soc_tick_quiet s Hq) as H.
  destruct (soc_uart_step (s_uart s) (s_intc s)) as [u ic1] eqn:Hu.
  destruct (soc_timer_step (s_timer s) ic1) as [t ic2]. rewrite H. simpl. split_and!; [done..|].
  intros Hb. rewrite uart_step_idle in Hu by done. by injection Hu.
Qed.

(** [n] ticks of a free engine. *)
Lemma soc_step_free s n :
  d_busy (s_dma s) = false ->
  s_dma (soc_step s n) = s_dma s /\ s_sram (soc_step s n) = s_sram s /\
  s_perf (soc_step s n) = Nat.iter n soc_perf_tick (s_perf s) /\
  (u_busy (s_uart s) <= 0 -> s_uart (soc_step s n) = s_uart s).
Proof.
  intros Hb. induction n as [|n (Hd & Hm & Hp & Hu)]; [done|].
  change (soc_step s (S n)) with (soc_tick (soc_step s n)). set (s' := soc_step s n) in *.
  destruct (soc_tick_quiet_parts s') as (-> & -> & -> & Hu'); [left; congruence|].
  unfold dma_after. rewrite Hd, Hb, Hm, Hp. split_and!; [done..|].
  intros Hi. rewrite <- (Hu Hi) in Hi |- *. by apply Hu'.
Qed.

(** [n] ticks of an engine that is still counting. *)
Lemma soc_step_count s n :
  d_busy (s_dma s) = true -> d_fault_stuck_busy (s_dma s) = false ->
  Z.of_nat n < d_remaining (s_dma s) ->
  s_dma (soc_step s n) = s_dma s <| d_remaining := d_remaining (s_dma s) - Z.of_nat n |> /\
  s_sram (soc_step s n) = s_sram s /\
  s_perf (soc_step s n) = Nat.iter n soc_perf_tick (s_perf s) /\
  (u_busy (s_uart s) <= 0 -> s_uart (soc_step s n) = s_uart s).
Proof.
  intros Hb Hf. induction n as [|n IH]; intros Hn.
  { rewrite Z.sub_0_r. split; [|done]. change (s_dma s = s_dma s <| d_remaining := d_remaining (s_dma s) |>).
    by destruct (s_dma s). }
  destruct IH as (Hd & Hm & Hp & Hu); [lia|].
  change (soc_step s (S n)) with (soc_tick (soc_step s n)). set (s' := soc_step s n) in *.
  destruct (soc_tick_quiet_parts s') as (-> & -> & -> & Hu').
  { right; right. rewrite Hd. change (1 < d_remaining (s_dma s) - Z.of_nat n). lia. }
  unfold dma_after. rewrite Hd, Hm, Hp. split_and!; [|done..|].
  - change (d_busy (_ <| d_remaining := _ |>)) with (d_busy (s_dma s)).
    change (d_fault_stuck_busy (_ <| d_remaining := _ |>)) with (d_fault_stuck_busy (s_dma s)).
    rewrite Hb, Hf. cbn [andb negb]. unfold set_field; simpl. f_equal. lia.
  - intros Hi. rewrite <- (Hu Hi) in Hi |- *. by apply Hu'.
Qed.

(** The tick on which the countdown expires. *)
Lemma soc_tick_finish s bs c1 c2 :
  d_busy (s_dma s) = true -> d_fault_stuck_busy (s_dma s) = false -> d_remaining (s_dma s) <= 1 ->
  dma_vlab (s_dma s) -> (forall t k, malloc_ok t k = true) ->
  let u := fst (soc_uart_step (s_uart s) (s_intc s)) in
  soc_dma_reader_bridge (Mk_soc_dma_ctx u (s_sram s)) (d_src (s_dma s)) (d_length (s_dma s))
    = (Ok bs, c1) ->
  soc_dma_writer_bridge c1 (d_dst (s_dma s)) bs = (SOC_OK, c2) ->
  s_sram (soc_tick s) = x_sram c2 /\ s_uart (soc_tick s) = x_uart c2 /\
  phase (s_dma (soc_tick s)) = Done /\
  s_perf (soc_tick s) = soc_perf_count_dma (soc_perf_tick (s_perf s)) (d_length (s_dma s)) /\
  (d_irq_enable_latched (s_dma s) = true -> Z.testbit (ic_pending (s_intc (soc_tick s))) 2 = true).
Proof.
  intros Hb Hf Hr Hv Hmalloc. cbv zeta. intros Hrd Hwr.
  destruct (soc_uart_step (s_uart s) (s_intc s)) as [u ic1] eqn:Hu.
  destruct (soc_timer_step (s_timer s) ic1) as [t ic2] eqn:Ht. cbn [fst] in Hrd.
  pose proof (soc_dma_step_finish (malloc_ok (u32 (s_ticks s + 1))) (s_dma s) ic2
    (soc_perf_tick (s_perf s)) (Mk_soc_dma_ctx u (s_sram s)) Hb Hf Hr (dv_reader _ Hv) (dv_writer _ Hv)
    (Hmalloc _ _)) as Hstep.
  rewrite (dma_finish_served _ _ _ (Mk_soc_dma_ctx u (s_sram s)) bs c1 c2) in Hstep by done.
  rewrite (soc_tick_eq s _ _ _ _ _ _ _ _ Hu Ht Hstep). cbn [s_sram s_uart s_dma s_perf s_intc].
  split_and!; [done..|by rewrite (dv_perf _ Hv)|].
  intros Hl. rewrite (dma_raise_linked _ _ true) by (done || by destruct Hv).
  change SOC_DMA_IRQ_LINE with 2. unfold soc_intc_raise. simpl. by rewrite Z.lor_spec, orb_true_r.
Qed.

(** * Bus access to the engine *)

Lemma soc_read_mmio s addr :
  soc_wf s -> is_u32 addr -> addr mod 4 = 0 ->
  fst (soc_read s addr) =
    match soc_read_at (s <| s_perf := soc_perf_count_mem (s_perf s) |>) (vlab_window addr) addr with
    | Some (Ok v, _) => Ok v
    | _ => Err SOC_ERR_BUS
    end.
Proof.
  intros Hs Ha H4. unfold soc_read. rewrite H4. cbn [negb Z.eqb].
  rewrite soc_route_window by (done || by apply soc_count_mem_wf).
  by destruct (soc_read_at _ _ _) as [[[v|rc] s2]|].
Qed.

Lemma soc_read_dma_status s :
  soc_wf s -> fst (soc_read s VLAB_DMA_STATUS) = Ok (phase_status (phase (s_dma s))).
Proof.
  intros Hs. rewrite soc_read_mmio by done. change (vlab_window VLAB_DMA_STATUS) with 4.
  unfold soc_read_at. cbn [Z.eqb Pos.eqb].
  change (u32 (VLAB_DMA_STATUS - SOC_DMA_BASE)) with SOC_DMA_STATUS_OFF.
  change (s_dma (s <| s_perf := _ |>)) with (s_dma s).
  by destruct (soc_dma_status_phase (s_dma s) (swf_dma s Hs)) as [-> _].
Qed.

Lemma soc_write_dma_ctrl s value :
  soc_wf s ->
  soc_write s VLAB_DMA_CTRL value =
    let '(rc, (d, ic, perf)) :=
      soc_dma_write (s_dma s) (s_intc s) (soc_perf_count_mem (s_perf s)) SOC_DMA_CTRL_OFF value in
    (SOC_OK, s <| s_dma := d |> <| s_intc := ic |> <| s_perf := perf |>).
Proof.
  intros Hs. unfold soc_write. change (VLAB_DMA_CTRL mod 4 =? 0) with true. cbn [negb].
  rewrite soc_route_window by (done || by apply soc_count_mem_wf).
  change (vlab_window VLAB_DMA_CTRL) with 4. unfold soc_write_at. cbn [Z.eqb Pos.eqb].
  change (u32 (VLAB_DMA_CTRL - SOC_DMA_BASE)) with SOC_DMA_CTRL_OFF.
  set (s1 := s <| s_perf := soc_perf_count_mem (s_perf s) |>).
  change (s_dma s1) with (s_dma s). change (s_intc s1) with (s_intc s).
  change (s_perf s1) with (soc_perf_count_mem (s_perf s)).
  pose proof (soc_dma_write_status (s_dma s) (s_intc s) (soc_perf_count_mem (s_perf s))
    SOC_DMA_CTRL_OFF value) as Hrc.
  destruct (soc_dma_write _ _ _ _ _) as [rc [[d ic] perf]]. simpl in Hrc. by subst rc.
Qed.

(** * A transfer, from the CTRL write on *)

(** A machine whose engine is programmed with a request the platform admits. *)
Record dma_ready (s : soc_t) (ctrl : Z) : Prop := {
  dr_wf : soc_wf s;
  dr_free : phase (s_dma s) <> Busy;
  dr_unstuck : d_fault_stuck_busy (s_dma s) = false;
  dr_malloc : forall t k, malloc_ok t k = true;
  dr_request : vlab_transfer (d_src (s_dma s)) (d_dst (s_dma s)) (d_length (s_dma s));
  dr_latency : d_latency_per_word (s_dma s) <= 524286;
  dr_burst : d_burst (s_dma s) <= two32 - 4096;
  dr_ctrl : is_u32 ctrl;
  dr_start : Z.testbit ctrl 0 = true
}.

Definition soc_dma_ticks (s : soc_t) : Z :=
  transfer_ticks (d_latency_per_word (s_dma s)) (d_burst (s_dma s)) (d_length (s_dma s)).

(** The ticks a transfer of [len] bytes takes on this machine. *)
Definition soc_dma_time (s : soc_t) (len : Z) : Z :=
  transfer_ticks (d_latency_per_word (s_dma s)) (d_burst (s_dma s)) len.

(** The machine right after the CTRL write. *)
Definition soc_dma_launched (s : soc_t) (ctrl : Z) : soc_t :=
  s <| s_dma := dma_started (s_dma s) (Z.testbit ctrl 1) <| d_ctrl := Z.ldiff ctrl 1 |> |>
    <| s_perf := soc_perf_count_mem (s_perf s) |>.

Lemma soc_write_dma_launch s ctrl :
  soc_wf s -> phase (s_dma s) <> Busy ->
  vlab_judge (d_src (s_dma s)) (d_dst (s_dma s)) (d_length (s_dma s)) = None ->
  is_u32 ctrl -> Z.testbit ctrl 0 = true ->
  soc_write s VLAB_DMA_CTRL ctrl = (SOC_OK, soc_dma_launched s ctrl).
Proof.
  intros Hs Hp Hj Hc H0. rewrite soc_write_dma_ctrl, soc_dma_write_ctrl, H0 by done.
  rewrite soc_dma_start_idle by by apply phase_free.
  rewrite dma_judge_vlab, Hj by apply (swf_vlab _ Hs).
  unfold soc_dma_launched. by destruct s.
Qed.

Lemma soc_dma_launch s ctrl :
  dma_ready s ctrl ->
  soc_write s VLAB_DMA_CTRL ctrl = (SOC_OK, soc_dma_launched s ctrl) /\
  soc_wf (soc_dma_launched s ctrl) /\ d_remaining (s_dma (soc_dma_launched s ctrl)) = soc_dma_ticks s /\
  1 <= soc_dma_ticks s.
Proof.
  intros []. pose proof (swf_dma _ dr_wf0) as Hd.
  assert (soc_write s VLAB_DMA_CTRL ctrl = (SOC_OK, soc_dma_launched s ctrl)) as Hw.
  { apply soc_write_dma_launch; try done.
    by apply (vlab_judge_none _ _ _ (dwf_src _ Hd) (dwf_dst _ Hd) (dwf_length _ Hd)). }
  destruct (dma_countdown_vlab _ Hd dr_request0 dr_latency0 dr_burst0) as [Hc Hp].
  split_and!; [done| |done|done].
  pose proof (soc_write_wf s VLAB_DMA_CTRL ctrl dr_wf0 dr_ctrl0) as H. by rewrite Hw in H.
Qed.

Lemma soc_dma_run_waiting s ctrl n :
  dma_ready s ctrl -> Z.of_nat n < soc_dma_ticks s ->
  let s' := soc_step (soc_dma_launched s ctrl) n in
  phase (s_dma s') = Busy /\ s_sram s' = s_sram s /\
  (u_busy (s_uart s) <= 0 -> s_uart s' = s_uart s) /\
  s_dma s' = s_dma (soc_dma_launched s ctrl) <| d_remaining := soc_dma_ticks s - Z.of_nat n |>.
Proof.
  intros Hr Hn. cbv zeta. destruct (soc_dma_launch s ctrl Hr) as (_ & _ & Hrem & _).
  pose proof (dr_unstuck _ _ Hr).
  destruct (soc_step_count (soc_dma_launched s ctrl) n) as (-> & -> & _ & Hu); [done|done|by rewrite Hrem|].
  rewrite Hrem. split_and!; done.
Qed.

Lemma soc_dma_run_done s ctrl n :
  dma_ready s ctrl -> soc_dma_ticks s <= Z.of_nat n ->
  let s' := soc_step (soc_dma_launched s ctrl) n in
  exists u bs c1 c2,
    uart_wf u /\ (u_busy (s_uart s) <= 0 -> u = s_uart s) /\
    soc_dma_reader_bridge (Mk_soc_dma_ctx u (s_sram s)) (d_src (s_dma s)) (d_length (s_dma s))
      = (Ok bs, c1) /\
    soc_dma_writer_bridge c1 (d_dst (s_dma s)) bs = (SOC_OK, c2) /\
    phase (s_dma s') = Done /\ s_sram s' = x_sram c2 /\
    (u_busy (x_uart c2) <= 0 -> s_uart s' = x_uart c2) /\
    (Z.testbit ctrl 1 = true -> Z.testbit (ic_pending (s_intc s')) 2 = true).
Proof.
  intros Hr Hn. cbv zeta. destruct (soc_dma_launch s ctrl Hr) as (_ & Hwf1 & Hrem & Hpos).
  set (s1 := soc_dma_launched s ctrl) in *. set (k := Z.to_nat (soc_dma_ticks s - 1)).
  destruct (soc_dma_run_waiting s ctrl k Hr ltac:(lia)) as (_ & Hm & Hu & Hd). fold s1 in Hm, Hu, Hd.
  set (s2 := soc_step s1 k) in *. assert (soc_wf s2) as Hwf2 by by apply soc_step_wf.
  pose proof (soc_uart_step_wf (s_uart s2) (s_intc s2) (swf_uart _ Hwf2) (swf_intc _ Hwf2)) as [Huw _].
  set (u := fst (soc_uart_step (s_uart s2) (s_intc s2))) in *.
  destruct (soc_bridge_serves (Mk_soc_dma_ctx u (s_sram s2)) _ _ _ (conj Huw (swf_sram _ Hwf2))
    (dr_request _ _ Hr)) as (bs & c1 & c2 & Hrd & Hwr).
  assert (d_src (s_dma s2) = d_src (s_dma s) /\ d_dst (s_dma s2) = d_dst (s_dma s) /\
    d_length (s_dma s2) = d_length (s_dma s) /\ d_busy (s_dma s2) = true /\
    d_fault_stuck_busy (s_dma s2) = false /\ d_remaining (s_dma s2) <= 1 /\
    d_irq_enable_latched (s_dma s2) = Z.testbit ctrl 1)
    as (Es & Ed & El & Eb & Ef & Er & Ei).
  { rewrite Hd. split_and!; try done; [apply (dr_unstuck _ _ Hr)|].
    change (soc_dma_ticks s - Z.of_nat k <= 1). lia. }
  destruct (soc_tick_finish s2 bs c1 c2 Eb Ef Er (swf_vlab _ Hwf2) (dr_malloc _ _ Hr))
    as (Fm & Fu & Fp & _ & Fi); [by rewrite Es, El|by rewrite Ed|].
  set (s3 := soc_tick s2) in *.
  replace n with (k + (1 + (n - S k)))%nat by lia. rewrite soc_step_add. fold s2.
  rewrite soc_step_add. change (soc_step s2 1) with s3.
  destruct (soc_step_free s3 (n - S k)) as (Gd & Gm & _ & Gu); [apply phase_free; congruence|].
  destruct (soc_step_pending_le s3 (n - S k)) as (Gi & _).
  rewrite Hm in Hrd. exists u, bs, c1, c2. split_and!; try done.
  - intros Hidle. unfold u. rewrite (Hu Hidle), uart_step_idle; done.
  - by rewrite Gd.
  - by rewrite Gm.
  - intros Hidle. rewrite Gu; rewrite Fu; done.
  - intros Hirq. apply Gi, Fi. by rewrite Ei.
Qed.

(** ** Memory to memory *)

(** What a byte transfer to [dst] leaves of a memory. *)
Lemma sram_write_bytes m dst bs rc m' :
  is_sram m -> soc_mem_write_bytes m dst bs = (rc, m') -> rc = SOC_OK ->
  m' = store m (dst - VLAB_SRAM_BASE) bs /\ in_sram dst (zlen bs).
Proof.
  intros Hm E ->. pose proof Hm as (Hwf & Hb & _). rewrite <- Hb.
  destruct (soc_mem_write_bytes_cases m dst bs) as [(_ & Hc & E')|[_ E']]; rewrite E' in E; [|done].
  injection E as <-. split; [done|]. pose proof (zlen_nonneg bs).
  pose proof (contains_in_bounds m dst (zlen bs) Hwf (zlen_nonneg bs) Hc) as (? & _).
  by apply (sram_contains m).
Qed.

(** A RAM-to-RAM transfer stores the source's bytes of the start. *)
Lemma soc_dma_ram_store s ctrl n :
  let src := d_src (s_dma s) in let dst := d_dst (s_dma s) in let len := d_length (s_dma s) in
  dma_ready s ctrl -> in_sram src len -> in_sram dst len -> soc_dma_ticks s <= Z.of_nat n ->
  let s' := soc_step (soc_dma_launched s ctrl) n in
  phase (s_dma s') = Done /\ zlen (mem_range (s_sram s) src len) = len /\
  s_sram s' = store (s_sram s) (dst - VLAB_SRAM_BASE) (mem_range (s_sram s) src len) /\
  (u_busy (s_uart s) <= 0 -> s_uart s' = s_uart s) /\
  (Z.testbit ctrl 1 = true -> Z.testbit (ic_pending (s_intc s')) 2 = true).
Proof.
  cbv zeta. intros Hr Hsrc Hdst Hn. pose proof (dr_wf _ _ Hr) as Hs.
  destruct (soc_dma_run_done s ctrl n Hr Hn)
    as (u & bs & c1 & c2 & _ & Hu & Hrd & Hwr & Hp & Hm & Hu' & Hi).
  destruct (dr_request _ _ Hr) as (Hlen & _).
  assert (bs = mem_range (s_sram s) (d_src (s_dma s)) (d_length (s_dma s)) /\
          c1 = Mk_soc_dma_ctx u (s_sram s)) as [-> ->].
  { revert Hrd. unfold soc_dma_reader_bridge, in_sram in *.
    destruct (Z.eqb_spec (d_src (s_dma s)) (SOC_UART_BASE + SOC_UART_RXDATA_OFF)) as [E|_].
    { unfold SOC_UART_BASE, SOC_UART_RXDATA_OFF in E. lia. }
    cbn [x_sram]. rewrite soc_mem_read_bytes_cases by lia.
    by destruct (soc_mem_contains _ _ _); intros [= <- <-]. }
  revert Hwr. unfold soc_dma_writer_bridge.
  destruct (Z.eqb_spec (d_dst (s_dma s)) (SOC_UART_BASE + SOC_UART_TXDATA_OFF)) as [E|_].
  { unfold in_sram, SOC_UART_BASE, SOC_UART_TXDATA_OFF in *. lia. }
  cbn [x_sram]. destruct (soc_mem_write_bytes _ _ _) as [rc m] eqn:Ew. intros [= -> <-].
  change (x_sram (_ <| x_sram := m |>)) with m in Hm. change (x_uart (_ <| x_sram := m |>)) with u in Hu'.
  destruct (sram_write_bytes _ _ _ _ _ (swf_sram _ Hs) Ew eq_refl) as [-> _].
  destruct (swf_sram _ Hs) as (Hmwf & _).
  split; [exact Hp|]. split; [|split; [done|split; [|exact Hi]]].
  2: { intros Hb. specialize (Hu Hb). subst u. by apply Hu'. }
  apply zlen_mem_range; [done|lia|]. apply sram_contains; [apply (swf_sram _ Hs)|lia|done].
Qed.

(** What it leaves of the ranges and the words. *)
Lemma soc_dma_ram_done s ctrl n :
  let src := d_src (s_dma s) in let dst := d_dst (s_dma s) in let len := d_length (s_dma s) in
  dma_ready s ctrl -> in_sram src len -> in_sram dst len -> soc_dma_ticks s <= Z.of_nat n ->
  let s' := soc_step (soc_dma_launched s ctrl) n in
  phase (s_dma s') = Done /\ mem_range (s_sram s') dst len = mem_range (s_sram s) src len /\
  (forall a, in_sram_window a -> a + 4 <= dst \/ dst + len <= a ->
     word_at (s_sram s') a = word_at (s_sram s) a) /\
  (Z.testbit ctrl 1 = true -> Z.testbit (ic_pending (s_intc s')) 2 = true).
Proof.
  cbv zeta. intros Hr Hsrc Hdst Hn.
  destruct (soc_dma_ram_store s ctrl n Hr Hsrc Hdst Hn) as (Hp & Hbs & Hm & _ & Hi).
  destruct (swf_sram _ (dr_wf _ _ Hr)) as (Hmwf & Hb & Hsz & _). pose proof (wf_len _ Hmwf) as Hbuf.
  destruct (dr_request _ _ Hr) as (Hlen & _).
  unfold in_sram, VLAB_SRAM_BASE in *. split_and!; [exact Hp| | |exact Hi].
  - rewrite Hm. rewrite <- Hbs at 2.
    replace (d_dst (s_dma s)) with (m_base (s_sram s) + (d_dst (s_dma s) - 0x10000000)) at 2 by lia.
    apply mem_range_store_same; lia.
  - intros a Ha Hout. rewrite Hm. unfold in_sram_window in Ha. apply word_at_store_other; lia.
Qed.

(** C1. A RAM-to-RAM transfer through the bus: after the CTRL write STATUS reads
    BUSY and SRAM is untouched for exactly the transfer time; from then on
    STATUS reads DONE, the destination holds the bytes the source held at the
    start (also when the ranges overlap), every other word is unchanged, and
    the DMA line is pending if START asked for it. *)
Theorem soc_dma_sram_copy s ctrl n :
  let src := d_src (s_dma s) in let dst := d_dst (s_dma s) in let len := d_length (s_dma s) in
  dma_ready s ctrl -> in_sram src len -> in_sram dst len ->
  let '(rc, s1) := soc_write s VLAB_DMA_CTRL ctrl in
  let s' := soc_step s1 n in
  rc = SOC_OK /\
  if Z.of_nat n <? soc_dma_ticks s then
    fst (soc_read s' VLAB_DMA_STATUS) = Ok VLAB_DMA_STATUS_BUSY /\ s_sram s' = s_sram s
  else
    fst (soc_read s' VLAB_DMA_STATUS) = Ok VLAB_DMA_STATUS_DONE /\
    mem_range (s_sram s') dst len = mem_range (s_sram s) src len /\
    (forall a, a mod 4 = 0 -> in_sram_window a -> a + 4 <= dst \/ dst + len <= a ->
       fst (soc_read s' a) = fst (soc_read s a)) /\
    (Z.testbit ctrl 1 = true -> Z.testbit (ic_pending (s_intc s')) 2 = true).
Proof.
  cbv zeta. intros Hr Hsrc Hdst. pose proof (dr_wf _ _ Hr) as Hs.
  destruct (soc_dma_launch s ctrl Hr) as (-> & Hwf1 & _ & Hpos). split; [done|].
  pose proof (soc_step_wf malloc_ok _ n Hwf1) as Hwf'. rewrite soc_read_dma_status by done.
  destruct (Z.ltb_spec (Z.of_nat n) (soc_dma_ticks s)) as [Hn|Hn].
  { destruct (soc_dma_run_waiting s ctrl n Hr Hn) as (-> & -> & _). done. }
  destruct (soc_dma_ram_done s ctrl n Hr Hsrc Hdst Hn) as (-> & Hmem & Hother & Hi).
  split; [done|]. split; [exact Hmem|]. split; [|exact Hi].
  intros a H4 Ha Hout. rewrite !soc_read_sram by done. f_equal. by apply Hother.
Qed.

(** ** Memory to UART and back *)

(** Software programs a transfer: three register writes. *)
Definition soc_dma_program (s : soc_t) (src dst len : Z) : soc_t :=
  let s := snd (soc_write s VLAB_DMA_SRC src) in
  let s := snd (soc_write s VLAB_DMA_DST dst) in
  snd (soc_write s VLAB_DMA_LEN len).

Lemma soc_write_dma_reg s off value d :
  soc_wf s -> off mod 4 = 0 -> 0 <= off < 0x1000 ->
  soc_dma_write (s_dma s) (s_intc s) (soc_perf_count_mem (s_perf s)) off value
    = (SOC_OK, (d, s_intc s, soc_perf_count_mem (s_perf s))) ->
  soc_write s (VLAB_DMA_BASE + off) value =
    (SOC_OK, s <| s_dma := d |> <| s_perf := soc_perf_count_mem (s_perf s) |>).
Proof.
  intros Hs H4 Hoff E. unfold soc_write, VLAB_DMA_BASE.
  assert ((0x20002000 + off) mod 4 = 0) as H4' by (Z.to_euclidean_division_equations; lia).
  rewrite H4'. cbn [negb Z.eqb].
  assert (is_u32 (0x20002000 + off)) as Ha by (unfold is_u32, two32; lia).
  rewrite soc_route_window by (done || by apply soc_count_mem_wf).
  destruct (vlab_window_cases (0x20002000 + off) (proj1 Ha)) as [|[|[|[|[[-> _]|[|[|]]]]]]]; try lia.
  unfold soc_write_at. cbn [Z.eqb Pos.eqb].
  rewrite offset_in by (unfold SOC_DMA_BASE; done || lia).
  unfold SOC_DMA_BASE. replace (0x20002000 + off - 0x20002000) with off by lia.
  change (s_dma (s <| s_perf := _ |>)) with (s_dma s).
  change (s_intc (s <| s_perf := _ |>)) with (s_intc s).
  change (s_perf (s <| s_perf := ?p |>)) with p. rewrite E. by destruct s.
Qed.

Lemma soc_dma_program_parts s src dst len :
  soc_wf s -> is_u32 src -> is_u32 dst -> is_u32 len ->
  let s' := soc_dma_program s src dst len in
  soc_wf s' /\ s_dma s' = s_dma s <| d_src := src |> <| d_dst := dst |> <| d_length := len |> /\
  s_sram s' = s_sram s /\ s_uart s' = s_uart s /\ s_intc s' = s_intc s.
Proof.
  intros Hs Hsrc Hdst Hlen. unfold soc_dma_program.
  pose proof (soc_write_wf s VLAB_DMA_SRC src Hs Hsrc) as Hs1.
  change VLAB_DMA_SRC with (VLAB_DMA_BASE + 0) in *.
  rewrite (soc_write_dma_reg s 0 src (s_dma s <| d_src := src |>)) in Hs1 |- * by done.
  cbn [snd] in *. set (s1 := s <| s_dma := _ |> <| s_perf := _ |>) in *.
  pose proof (soc_write_wf s1 VLAB_DMA_DST dst Hs1 Hdst) as Hs2.
  change VLAB_DMA_DST with (VLAB_DMA_BASE + 4) in *.
  rewrite (soc_write_dma_reg s1 4 dst (s_dma s1 <| d_dst := dst |>)) in Hs2 |- * by done.
  cbn [snd] in *. set (s2 := s1 <| s_dma := _ |> <| s_perf := _ |>) in *.
  pose proof (soc_write_wf s2 VLAB_DMA_LEN len Hs2 Hlen) as Hs3.
  change VLAB_DMA_LEN with (VLAB_DMA_BASE + 8) in *.
  rewrite (soc_write_dma_reg s2 8 len (s_dma s2 <| d_length := len |>)) in Hs3 |- * by done.
  done.
Qed.

(** A transfer into the TX FIFO appends to both streams of an idle UART. *)
Lemma soc_dma_to_uart s ctrl n :
  dma_ready s ctrl -> in_sram (d_src (s_dma s)) (d_length (s_dma s)) ->
  d_dst (s_dma s) = VLAB_UART_TXDATA -> u_busy (s_uart s) <= 0 ->
  soc_dma_ticks s <= Z.of_nat n ->
  let payload := mem_range (s_sram s) (d_src (s_dma s)) (d_length (s_dma s)) in
  let s' := soc_step (soc_dma_launched s ctrl) n in
  phase (s_dma s') = Done /\ s_sram s' = s_sram s /\ u_busy (s_uart s') <= 0 /\
  tx_stream (s_uart s') = queue_append (tx_stream (s_uart s)) payload /\
  rx_stream (s_uart s') = queue_append (rx_stream (s_uart s)) payload.
Proof.
  intros Hr Hsrc Hdst Hidle Hn. cbv zeta. pose proof (dr_wf _ _ Hr) as Hs.
  destruct (soc_dma_run_done s ctrl n Hr Hn)
    as (u & bs & c1 & c2 & Huw & Hu & Hrd & Hwr & Hp & Hm & Hu' & _).
  rewrite (Hu Hidle) in *. clear u Hu. destruct (dr_request _ _ Hr) as (Hlen & _).
  revert Hrd. unfold soc_dma_reader_bridge. unfold in_sram in Hsrc.
  destruct (Z.eqb_spec (d_src (s_dma s)) (SOC_UART_BASE + SOC_UART_RXDATA_OFF)) as [E|_].
  { unfold SOC_UART_BASE, SOC_UART_RXDATA_OFF in E. lia. }
  cbn [x_sram]. rewrite soc_mem_read_bytes_cases by lia.
  destruct (soc_mem_contains _ _ _); intros [= <- <-].
  revert Hwr. unfold soc_dma_writer_bridge. rewrite Hdst.
  change (VLAB_UART_TXDATA =? SOC_UART_BASE + SOC_UART_TXDATA_OFF) with true. cbv iota.
  intros [= <-]. cbn [x_uart x_sram] in *.
  set (payload := mem_range _ _ _) in *.
  change (x_uart (_ <| x_uart := ?v |>)) with v in Hu'.
  change (x_sram (_ <| x_uart := ?v |>)) with (s_sram s) in Hm.
  assert (Forall is_byte payload) as Hpb by apply mem_range_bytes, (swf_sram _ Hs).
  destruct (append_fields _ payload Huw) as (_ & _ & _ & _ & _ & _ & _ & Hb & _).
  destruct (append_streams _ payload Huw Hpb) as (_ & Ht & Hrx).
  rewrite Hu' by (by rewrite Hb). rewrite Hb. exact (conj Hp (conj Hm (conj Hidle (conj Ht Hrx)))).
Qed.

(** The engine's configuration and its fault latch survive the clock. *)
Lemma soc_step_dma_static s n :
  dma_config (s_dma (soc_step s n)) = dma_config (s_dma s) /\
  d_fault_stuck_busy (s_dma (soc_step s n)) = d_fault_stuck_busy (s_dma s).
Proof.
  apply (soc_step_ind malloc_ok (fun s' => dma_config (s_dma s') = dma_config (s_dma s) /\
    d_fault_stuck_busy (s_dma s') = d_fault_stuck_busy (s_dma s))); [|done].
  intros s' [<- <-]. destruct (soc_uart_step (s_uart s') (s_intc s')) as [u ic1] eqn:Hu.
  destruct (soc_timer_step (s_timer s') ic1) as [t ic2] eqn:Ht.
  destruct (soc_dma_step (malloc_ok (u32 (s_ticks s' + 1))) (s_dma s') ic2
    (soc_perf_tick (s_perf s')) (Mk_soc_dma_ctx u (s_sram s'))) as [[[d ic3] perf] ctx] eqn:Hd.
  rewrite (soc_tick_eq s' _ _ _ _ _ _ _ _ Hu Ht Hd).
  apply soc_dma_step_frame in Hd as (Hc & Hf & _). done.
Qed.

(** A transfer out of the RX FIFO takes the oldest bytes of the stream. *)
Lemma soc_dma_from_uart_store s ctrl n :
  dma_ready s ctrl -> d_src (s_dma s) = VLAB_UART_RXDATA ->
  in_sram (d_dst (s_dma s)) (d_length (s_dma s)) -> u_busy (s_uart s) <= 0 ->
  soc_dma_ticks s <= Z.of_nat n ->
  let drained := queue_drain (rx_stream (s_uart s)) (d_length (s_dma s)) in
  let s' := soc_step (soc_dma_launched s ctrl) n in
  phase (s_dma s') = Done /\ zlen (fst drained) = d_length (s_dma s) /\
  s_sram s' = store (s_sram s) (d_dst (s_dma s) - VLAB_SRAM_BASE) (fst drained) /\
  u_busy (s_uart s') <= 0 /\ tx_stream (s_uart s') = tx_stream (s_uart s) /\
  rx_stream (s_uart s') = snd drained.
Proof.
  intros Hr Hsrc Hdst Hidle Hn. cbv zeta. pose proof (dr_wf _ _ Hr) as Hs.
  destruct (soc_dma_run_done s ctrl n Hr Hn)
    as (u & bs & c1 & c2 & Huw & Hu & Hrd & Hwr & Hp & Hm & Hu' & _).
  rewrite (Hu Hidle) in *. clear u Hu. destruct (dr_request _ _ Hr) as (Hlen & _).
  revert Hrd. unfold soc_dma_reader_bridge. rewrite Hsrc.
  change (VLAB_UART_RXDATA =? SOC_UART_BASE + SOC_UART_RXDATA_OFF) with true. cbv iota.
  cbn [x_uart]. pose proof (drain_streams (s_uart s) (d_length (s_dma s)) Huw ltac:(lia)) as Hd.
  pose proof (drain_busy (s_uart s) (d_length (s_dma s))) as Hbusy.
  destruct (soc_uart_dma_rx_drain _ _) as [out v]. cbn [snd] in Hbusy.
  destruct Hd as (_ & Hol & _ & Hq & Htx). intros [= <- <-].
  revert Hwr. unfold soc_dma_writer_bridge. unfold in_sram in Hdst.
  destruct (Z.eqb_spec (d_dst (s_dma s)) (SOC_UART_BASE + SOC_UART_TXDATA_OFF)) as [E|_].
  { unfold SOC_UART_BASE, SOC_UART_TXDATA_OFF in E. lia. }
  change (x_sram (_ <| x_uart := v |>)) with (s_sram s).
  destruct (soc_mem_write_bytes _ _ _) as [rc m] eqn:Ew. intros [= -> <-].
  change (x_sram (_ <| x_sram := m |>)) with m in Hm.
  change (x_uart (_ <| x_uart := v |> <| x_sram := m |>)) with v in Hu'.
  destruct (sram_write_bytes _ _ _ _ _ (swf_sram _ Hs) Ew eq_refl) as [-> _].
  destruct (swf_sram _ Hs) as (Hmwf & Hb & Hsz & _). pose proof (wf_len _ Hmwf) as Hbuf.
  rewrite Hu' by (by rewrite Hbusy). rewrite <- Hq, Hbusy.
  exact (conj Hp (conj Hol (conj Hm (conj Hidle (conj Htx eq_refl))))).
Qed.

Lemma soc_dma_from_uart s ctrl n :
  dma_ready s ctrl -> d_src (s_dma s) = VLAB_UART_RXDATA ->
  in_sram (d_dst (s_dma s)) (d_length (s_dma s)) -> u_busy (s_uart s) <= 0 ->
  soc_dma_ticks s <= Z.of_nat n ->
  let drained := queue_drain (rx_stream (s_uart s)) (d_length (s_dma s)) in
  let s' := soc_step (soc_dma_launched s ctrl) n in
  phase (s_dma s') = Done /\
  mem_range (s_sram s') (d_dst (s_dma s)) (d_length (s_dma s)) = fst drained /\
  u_busy (s_uart s') <= 0 /\ tx_stream (s_uart s') = tx_stream (s_uart s) /\
  rx_stream (s_uart s') = snd drained.
Proof.
  intros Hr Hsrc Hdst Hidle Hn. cbv zeta.
  destruct (soc_dma_from_uart_store s ctrl n Hr Hsrc Hdst Hidle Hn) as (Hp & Hol & Hm & Hrest).
  cbv zeta in *. split; [exact Hp|]. split; [|exact Hrest].
  destruct (swf_sram _ (dr_wf _ _ Hr)) as (Hmwf & Hb & Hsz & _). pose proof (wf_len _ Hmwf) as Hbuf.
  destruct (dr_request _ _ Hr) as (Hlen & _). unfold in_sram in Hdst.
  rewrite Hm. rewrite <- Hol at 2. unfold VLAB_SRAM_BASE in *.
  replace (d_dst (s_dma s)) with (m_base (s_sram s) + (d_dst (s_dma s) - 0x10000000)) at 2 by lia.
  apply mem_range_store_same; lia.
Qed.

(** What an admitted transfer moves, in its three directions. *)
Definition soc_moved (s s' : soc_t) (src dst len : Z) : Prop :=
  let payload := mem_range (s_sram s) src len in
  let drained := queue_drain (rx_stream (s_uart s)) len in
  u_busy (s_uart s') <= 0 /\
  if dst =? VLAB_UART_TXDATA then
    s_sram s' = s_sram s /\
    tx_stream (s_uart s') = queue_append (tx_stream (s_uart s)) payload /\
    rx_stream (s_uart s') = queue_append (rx_stream (s_uart s)) payload
  else
    tx_stream (s_uart s') = tx_stream (s_uart s) /\
    if src =? VLAB_UART_RXDATA then
      zlen (fst drained) = len /\
      s_sram s' = store (s_sram s) (dst - VLAB_SRAM_BASE) (fst drained) /\
      rx_stream (s_uart s') = snd drained
    else
      zlen payload = len /\
      s_sram s' = store (s_sram s) (dst - VLAB_SRAM_BASE) payload /\
      rx_stream (s_uart s') = rx_stream (s_uart s).

Lemma in_sram_not_fifo addr len :
  in_sram addr len -> 0 < len -> (addr =? VLAB_UART_TXDATA) = false /\ (addr =? VLAB_UART_RXDATA) = false.
Proof.
  unfold in_sram, VLAB_UART_TXDATA, VLAB_UART_RXDATA. intros [? ?] ?. split; apply Z.eqb_neq; lia.
Qed.

Lemma soc_dma_moves s ctrl n :
  dma_ready s ctrl -> u_busy (s_uart s) <= 0 -> soc_dma_ticks s <= Z.of_nat n ->
  let s' := soc_step (soc_dma_launched s ctrl) n in
  phase (s_dma s') = Done /\
  soc_moved s s' (d_src (s_dma s)) (d_dst (s_dma s)) (d_length (s_dma s)) /\
  (Z.testbit ctrl 1 = true -> Z.testbit (ic_pending (s_intc s')) 2 = true).
Proof.
  intros Hr Hidle Hn. cbv zeta. destruct (dr_request _ _ Hr) as (Hlen & _ & _ & _ & Hcase).
  destruct (soc_dma_run_done s ctrl n Hr Hn) as (u & bs & c1 & c2 & _ & _ & _ & _ & Hp & _ & _ & Hi).
  unfold soc_moved. destruct Hcase as [[Hsrc Hdst]|[[Hsrc Hdst]|[Hsrc Hdst]]].
  - destruct (soc_dma_ram_store s ctrl n Hr Hsrc Hdst Hn) as (_ & Hz & Hm & Hu & _).
    specialize (Hu Hidle). revert Hp Hm Hu Hi. generalize (soc_step (soc_dma_launched s ctrl) n).
    intros s' Hp Hm Hu Hi. rewrite (proj1 (in_sram_not_fifo _ _ Hdst (proj1 Hlen))).
    rewrite (proj2 (in_sram_not_fifo _ _ Hsrc (proj1 Hlen))), Hu.
    exact (conj Hp (conj (conj Hidle (conj eq_refl (conj Hz (conj Hm eq_refl)))) Hi)).
  - destruct (soc_dma_to_uart s ctrl n Hr Hsrc Hdst Hidle Hn) as (_ & Hm & Hb & Ht & Hrx).
    revert Hp Hm Hb Ht Hrx Hi. generalize (soc_step (soc_dma_launched s ctrl) n).
    intros s' Hp Hm Hb Ht Hrx Hi. rewrite Hdst, Z.eqb_refl.
    exact (conj Hp (conj (conj Hb (conj Hm (conj Ht Hrx))) Hi)).
  - destruct (soc_dma_from_uart_store s ctrl n Hr Hsrc Hdst Hidle Hn) as (_ & Hz & Hm & Hb & Ht & Hrx).
    revert Hp Hm Hb Ht Hrx Hi. generalize (soc_step (soc_dma_launched s ctrl) n).
    intros s' Hp Hm Hb Ht Hrx Hi. rewrite (proj1 (in_sram_not_fifo _ _ Hdst (proj1 Hlen))).
    rewrite Hsrc, Z.eqb_refl. exact (conj Hp (conj (conj Hb (conj Ht (conj Hz (conj Hm Hrx)))) Hi)).
Qed.

(** What is fixed about a machine that is about to run transfers. *)
Record dma_platform (s : soc_t) : Prop := {
  dp_wf : soc_wf s;
  dp_free : phase (s_dma s) <> Busy;
  dp_unstuck : d_fault_stuck_busy (s_dma s) = false;
  dp_malloc : forall t k, malloc_ok t k = true;
  dp_latency : d_latency_per_word (s_dma s) <= 524286;
  dp_burst : d_burst (s_dma s) <= two32 - 4096
}.

Lemma soc_dma_program_ready s src dst len ctrl :
  dma_platform s -> is_u32 src -> is_u32 dst -> vlab_transfer src dst len ->
  is_u32 ctrl -> Z.testbit ctrl 0 = true ->
  dma_ready (soc_dma_program s src dst len) ctrl.
Proof.
  intros [] Hs Hd Hreq Hc H0. assert (is_u32 len) as Hl.
  { destruct Hreq as (Hl & _). unfold is_u32, two32. lia. }
  destruct (soc_dma_program_parts s src dst len dp_wf0 Hs Hd Hl) as (Hwf & Ed & _).
  constructor; rewrite ?Ed; try done.
Qed.

Lemma dma_platform_step s ctrl n :
  dma_ready s ctrl -> phase (s_dma (soc_step (soc_dma_launched s ctrl) n)) <> Busy ->
  dma_platform (soc_step (soc_dma_launched s ctrl) n).
Proof.
  intros Hr Hp. destruct (soc_dma_launch s ctrl Hr) as (_ & Hwf & _). destruct Hr.
  destruct (soc_step_dma_static (soc_dma_launched s ctrl) n) as [Hc Hf].
  assert (dma_config (s_dma (soc_dma_launched s ctrl)) = dma_config (s_dma s)) as Hc1 by done.
  rewrite Hc1 in Hc. injection Hc as El Eb _ _ _ _ _ _ _ _.
  constructor; [by apply soc_step_wf|done|by rewrite Hf|done|by rewrite El|by rewrite Eb].
Qed.

(** Running a transfer does not change what transfers cost. *)
Lemma soc_dma_time_run s ctrl n len :
  soc_dma_time (soc_step (soc_dma_launched s ctrl) n) len = soc_dma_time s len.
Proof.
  destruct (soc_step_dma_static (soc_dma_launched s ctrl) n) as [Hc _].
  assert (dma_config (s_dma (soc_dma_launched s ctrl)) = dma_config (s_dma s)) as Hc1 by done.
  rewrite Hc1 in Hc. injection Hc as El Eb _ _ _ _ _ _ _ _.
  unfold soc_dma_time. by rewrite El, Eb.
Qed.

(** C7. The full loop through the peripheral: a RAM buffer streamed to the UART's
    TX FIFO comes back through the RX FIFO into another RAM buffer byte for
    byte, and leaves the RX stream empty. *)
Theorem soc_dma_uart_roundtrip s src dst len ctrl1 ctrl2 n1 n2 :
  dma_platform s -> u_busy (s_uart s) <= 0 -> rx_stream (s_uart s) = [] ->
  0 < len <= 16384 -> len mod 4 = 0 -> src mod 4 = 0 -> dst mod 4 = 0 ->
  in_sram src len -> in_sram dst len ->
  is_u32 ctrl1 -> Z.testbit ctrl1 0 = true -> is_u32 ctrl2 -> Z.testbit ctrl2 0 = true ->
  soc_dma_time s len <= Z.of_nat n1 -> soc_dma_time s len <= Z.of_nat n2 ->
  let s1 := soc_dma_program s src VLAB_UART_TXDATA len in
  let s2 := soc_step (snd (soc_write s1 VLAB_DMA_CTRL ctrl1)) n1 in
  let s3 := soc_dma_program s2 VLAB_UART_RXDATA dst len in
  let s4 := soc_step (snd (soc_write s3 VLAB_DMA_CTRL ctrl2)) n2 in
  mem_range (s_sram s4) dst len = mem_range (s_sram s) src len /\
  rx_stream (s_uart s4) = [] /\ phase (s_dma s4) = Done /\
  tx_stream (s_uart s4) = queue_append (tx_stream (s_uart s)) (mem_range (s_sram s) src len).
Proof.
  intros Hplat Hidle Hrx Hlen Hl4 Hs4 Hd4 Hsrc Hdst Hc1 H1 Hc2 H2 Hn1 Hn2. cbv zeta.
  assert (is_u32 src /\ is_u32 dst /\ is_u32 len) as (Hsu & Hdu & Hlu)
    by (unfold is_u32, in_sram, two32 in *; lia).
  set (s1 := soc_dma_program s src VLAB_UART_TXDATA len).
  destruct (soc_dma_program_parts s src VLAB_UART_TXDATA len) as (_ & Ed1 & Em1 & Eu1 & _);
    [by apply dp_wf|done..|]. fold s1 in Ed1, Em1, Eu1.
  assert (dma_ready s1 ctrl1) as Hr1.
  { apply soc_dma_program_ready; try done. split_and!; try (done || lia). right; left. done. }
  destruct (soc_dma_launch s1 ctrl1 Hr1) as (-> & _). cbn [snd]. set (s2 := soc_step _ n1).
  set (s3 := soc_dma_program s2 VLAB_UART_RXDATA dst len).
  destruct (soc_dma_to_uart s1 ctrl1 n1 Hr1) as (Hp2 & Hm2 & Hb2 & Ht2 & Hr2);
    [by rewrite Ed1|by rewrite Ed1|by rewrite Eu1|by unfold soc_dma_ticks; rewrite Ed1|]. fold s2 in Hp2, Hm2, Hb2, Ht2, Hr2.
  assert (dma_platform s2) as Hplat2.
  { apply dma_platform_step; [done|]. fold s2. by rewrite Hp2. }
  destruct (soc_dma_program_parts s2 VLAB_UART_RXDATA dst len) as (_ & Ed3 & Em3 & Eu3 & _);
    [by apply dp_wf|done..|]. fold s3 in Ed3, Em3, Eu3.
  assert (dma_ready s3 ctrl2) as Hr3.
  { apply soc_dma_program_ready; try done. split_and!; try (done || lia). right; right. done. }
  destruct (soc_dma_launch s3 ctrl2 Hr3) as (-> & _). cbn [snd]. set (s4 := soc_step _ n2).
  assert (soc_dma_ticks s3 = soc_dma_time s len) as Hk3.
  { unfold soc_dma_ticks. rewrite Ed3. change (soc_dma_time s2 len = soc_dma_time s len).
    unfold s2. rewrite soc_dma_time_run. unfold soc_dma_time. by rewrite Ed1. }
  destruct (soc_dma_from_uart s3 ctrl2 n2 Hr3) as (Hp4 & Hm4 & _ & Ht4 & Hr4);
    [by rewrite Ed3|by rewrite Ed3|by rewrite Eu3|by rewrite Hk3|]. fold s4 in Hp4, Hm4, Ht4, Hr4.
  rewrite Ed1, Em1 in Hr2, Ht2. rewrite Eu1 in Hr2, Ht2. rewrite Ed3, Eu3 in Hm4, Hr4.
  rewrite Eu3 in Ht4. cbn [d_src d_dst d_length] in *.
  set (payload := mem_range (s_sram s) src len).
  assert (zlen payload = len) as Hpl.
  { apply zlen_mem_range; [apply (swf_sram _ (dp_wf _ Hplat))|lia|].
    by apply sram_contains; [apply (swf_sram _ (dp_wf _ Hplat))|lia|]. }
  change (rx_stream (s_uart s2) = queue_append (rx_stream (s_uart s)) payload) in Hr2.
  change (tx_stream (s_uart s2) = queue_append (tx_stream (s_uart s)) payload) in Ht2.
  change (mem_range (s_sram s4) dst len = fst (queue_drain (rx_stream (s_uart s2)) len)) in Hm4.
  change (rx_stream (s_uart s4) = snd (queue_drain (rx_stream (s_uart s2)) len)) in Hr4.
  rewrite Hr2, Hrx in Hm4, Hr4. rewrite <- Hpl, queue_drain_append in Hm4, Hr4
    by (unfold SOC_UART_DMA_FIFO_SIZE; lia).
  rewrite Hpl in Hm4. split; [exact Hm4|]. split; [exact Hr4|]. split; [exact Hp4|].
  rewrite Ht4. exact Ht2.
Qed.

(** * What the clock leaves alone *)

Lemma dma_step_sram m d ic perf (ctx : soc_dma_ctx) d' ic' perf' ctx' :
  ctx_wf ctx -> dma_wf d ->
  soc_dma_step m d ic perf ctx = (d', ic', perf', ctx') ->
  d_dst d' = d_dst d /\ d_length d' = d_length d /\
  (x_sram ctx' = x_sram ctx \/
   exists bs, zlen bs = d_length d /\ d_busy d = true /\
     soc_mem_write_bytes (x_sram ctx) (d_dst d) bs = (SOC_OK, x_sram ctx')).
Proof.
  intros Hctx Hd.
  destruct (soc_dma_step_cases m d ic perf ctx) as [-> | (Hb & _ & [-> | ->])];
    [intros [= <- <- <- <-]; by auto..|].
  unfold dma_finish. simpl. destruct (soc_dma_reader_bridge _ _ _) as [r c1] eqn:Er.
  assert (x_sram c1 = x_sram ctx) as E1.
  { revert Er. unfold soc_dma_reader_bridge. case_match; [|by intros [= <- <-]].
    destruct (soc_uart_dma_rx_drain _ _). by intros [= <- <-]. }
  apply soc_reader_bridge_ok in Er as [_ Hr]; [|done|apply Hd|apply Hd].
  destruct r as [bs|rc0]; [|intros [= <- <- <- <-]; rewrite E1; by auto].
  destruct Hr as [Hlen _]. destruct (soc_dma_writer_bridge _ _ _) as [rc c2] eqn:Ew.
  assert (x_sram c2 = x_sram ctx \/
    exists bs, zlen bs = d_length d /\ d_busy d = true /\
     soc_mem_write_bytes (x_sram ctx) (d_dst d) bs = (SOC_OK, x_sram c2)) as Hm.
  { revert Ew. unfold soc_dma_writer_bridge. case_match; [intros [= <- <-]; by left|].
    rewrite E1. destruct (soc_mem_write_bytes_cases (x_sram ctx) (d_dst d) bs)
      as [(_ & _ & E)|[_ E]]; rewrite E; intros [= <- <-]; [|by left].
    right. exists bs. done. }
  destruct (rc =? SOC_OK); intros [= <- <- <- <-]; by auto.
Qed.

(** C22. The clock changes SRAM only inside the destination the engine is
    programmed with, and not at all while the engine is free: a word outside
    [[dst, dst + len)] keeps its value however long the machine runs. *)
Theorem soc_step_sram_frame s n a :
  soc_wf s -> a mod 4 = 0 -> in_sram_window a ->
  dma_spares s a -> fst (soc_read (soc_step s n) a) = fst (soc_read s a).
Proof.
  intros Hs H4 Ha Hout. rewrite !soc_read_sram by (done || by apply soc_step_wf). f_equal.
  destruct Hout as [Hfree|Hout].
  { by destruct (soc_step_free s n Hfree) as (_ & -> & _). }
  set (P := fun s' => soc_wf s' /\ d_dst (s_dma s') = d_dst (s_dma s) /\
    d_length (s_dma s') = d_length (s_dma s) /\ word_at (s_sram s') a = word_at (s_sram s) a).
  assert (P (soc_step s n)) as (_ & _ & _ & H); [|done].
  apply soc_step_ind; [|done]. clear n. intros s' (Hs' & Hd & Hl & Hw).
  pose proof (soc_tick_wf malloc_ok s' Hs') as Hwf. split; [done|].
  destruct (soc_uart_step (s_uart s') (s_intc s')) as [u ic1] eqn:Hu.
  destruct (soc_timer_step (s_timer s') ic1) as [t ic2] eqn:Ht.
  destruct (soc_dma_step (malloc_ok (u32 (s_ticks s' + 1))) (s_dma s') ic2
    (soc_perf_tick (s_perf s')) (Mk_soc_dma_ctx u (s_sram s'))) as [[[d ic3] perf] ctx] eqn:Hdm.
  rewrite (soc_tick_eq s' _ _ _ _ _ _ _ _ Hu Ht Hdm). cbn [s_dma s_sram].
  pose proof (soc_uart_step_wf (s_uart s') (s_intc s') (swf_uart _ Hs') (swf_intc _ Hs')) as [Huw _].
  rewrite Hu in Huw. apply dma_step_sram in Hdm as (-> & -> & Hm);
    [|split; [done|apply (swf_sram _ Hs')]|apply (swf_dma _ Hs')].
  split; [done|]. split; [done|]. cbn [x_sram] in Hm.
  destruct Hm as [->|(bs & Hbs & _ & Ew)]; [done|].
  destruct (sram_write_bytes _ _ _ _ _ (swf_sram _ Hs') Ew eq_refl) as [-> Hin].
  destruct (swf_sram _ Hs') as (Hmwf & Hb & Hsz & _). pose proof (wf_len _ Hmwf).
  rewrite <- Hw. unfold in_sram, in_sram_window, VLAB_SRAM_BASE in *.
  apply word_at_store_other; lia.
Qed.

(** The clock of an idle machine moves only the tick and cycle counters. *)
Lemma soc_step_idle s n :
  u_busy (s_uart s) <= 0 -> Z.testbit (tm_ctrl (s_timer s)) 0 = false ->
  d_busy (s_dma s) = false -> is_u32 (s_ticks s) ->
  soc_step s n = s <| s_ticks := u32 (s_ticks s + Z.of_nat n) |>
                   <| s_perf := Nat.iter n soc_perf_tick (s_perf s) |>.
Proof.
  intros Hu Ht Hd Hk. induction n as [|n IH].
  { rewrite Z.add_0_r, u32_id by done. by destruct s. }
  change (soc_step s (S n)) with (soc_tick (soc_step s n)). rewrite IH.
  set (s1 := s <| s_ticks := _ |> <| s_perf := _ |>).
  rewrite (soc_tick_eq s1 (s_uart s) (s_intc s) (s_timer s) (s_intc s) (s_dma s) (s_intc s)
    (soc_perf_tick (s_perf s1)) (Mk_soc_dma_ctx (s_uart s) (s_sram s)));
    [|by apply uart_step_idle|apply soc_timer_step_idle; by left|by apply soc_dma_step_free].
  destruct s; unfold set_field; simpl. f_equal.
  unfold u32. rewrite Zplus_mod_idemp_l. f_equal. lia.
Qed.

(** * Time *)

(** The engine only counts its bytes, and does not look at the counters. *)
Definition counts_only (f : soc_perf_t -> soc_perf_t) : Prop :=
  f = id \/ exists n, f = fun p => soc_perf_count_dma p n.

Lemma dma_step_perf m d ic (ctx : soc_dma_ctx) :
  exists d' ic' ctx' f, counts_only f /\
    forall perf, soc_dma_step m d ic perf ctx = (d', ic', f perf, ctx').
Proof.
  unfold soc_dma_step.
  repeat match goal with
  | |- context [if ?b then _ else _] => destruct b
  | |- context [match dma_reader ?c ?a ?l with _ => _ end] => destruct (dma_reader c a l) as [[?|?] ?]
  | |- context [match dma_writer ?c ?a ?l with _ => _ end] => destruct (dma_writer c a l) as [? ?]
  | |- context [match soc_dma_fail ?d ?i ?e with _ => _ end] => destruct (soc_dma_fail d i e)
  end.
  all: do 3 eexists; first [exists id; split; [by left|reflexivity]
                           |eexists; split; [right; eexists; reflexivity|reflexivity]].
Qed.

(** What the clock leaves alone in the counters. *)
Definition access_counts (p : soc_perf_t) : Z * Z * bool := (p_mem_acc p, p_stalls p, p_enabled p).

Lemma counts_only_frame f p :
  counts_only f -> p_cycles (f p) = p_cycles p /\ access_counts (f p) = access_counts p.
Proof.
  intros [->|[n ->]]; [done|]. unfold access_counts, soc_perf_count_dma. by destruct (p_enabled p) eqn:E; simpl; rewrite ?E.
Qed.

(** A tick on two machines that differ in their counters only. *)
Lemma soc_tick_perf s :
  exists f, counts_only f /\
    forall perf, soc_tick (s <| s_perf := perf |>) = soc_tick s <| s_perf := f (soc_perf_tick perf) |>.
Proof.
  destruct (soc_uart_step (s_uart s) (s_intc s)) as [u ic1] eqn:Hu.
  destruct (soc_timer_step (s_timer s) ic1) as [t ic2] eqn:Ht.
  destruct (dma_step_perf (malloc_ok (u32 (s_ticks s + 1))) (s_dma s) ic2 (Mk_soc_dma_ctx u (s_sram s)))
    as (d & ic3 & ctx & f & Hf & Hd).
  exists f. split; [done|]. intros perf. rewrite (soc_tick_eq s _ _ _ _ _ _ _ _ Hu Ht (Hd _)).
  set (s' := s <| s_perf := perf |>). by rewrite (soc_tick_eq s' _ _ _ _ _ _ _ _ Hu Ht (Hd _)).
Qed.

Lemma soc_tick_counters s :
  exists f, counts_only f /\ s_ticks (soc_tick s) = u32 (s_ticks s + 1) /\
    s_perf (soc_tick s) = f (soc_perf_tick (s_perf s)).
Proof.
  destruct (soc_uart_step (s_uart s) (s_intc s)) as [u ic1] eqn:Hu.
  destruct (soc_timer_step (s_timer s) ic1) as [t ic2] eqn:Ht.
  destruct (dma_step_perf (malloc_ok (u32 (s_ticks s + 1))) (s_dma s) ic2 (Mk_soc_dma_ctx u (s_sram s)))
    as (d & ic3 & ctx & f & Hf & Hd).
  exists f. by rewrite (soc_tick_eq s _ _ _ _ _ _ _ _ Hu Ht (Hd _)).
Qed.

Lemma soc_step_access_counts s n : access_counts (s_perf (soc_step s n)) = access_counts (s_perf s).
Proof.
  apply (soc_step_ind malloc_ok (fun s' => access_counts (s_perf s') = access_counts (s_perf s))); [|done].
  intros s' H. destruct (soc_tick_counters s') as (f & Hf & _ & ->).
  destruct (counts_only_frame f (soc_perf_tick (s_perf s')) Hf) as [_ ->]. rewrite <- H.
  unfold access_counts, soc_perf_tick. by destruct (p_enabled (s_perf s')) eqn:E; simpl; rewrite ?E.
Qed.

(** C37. [soc_step n] is [n] ticks whatever the components do: the tick counter
    advances by [n], CYCLES by [n] when the counters are enabled, and running
    [n] then [m] ticks is running [n + m]. *)
Theorem soc_step_time s n m :
  soc_wf s ->
  soc_step (soc_step s n) m = soc_step s (n + m) /\
  s_ticks (soc_step s n) = after_ticks n (s_ticks s) /\
  p_cycles (s_perf (soc_step s n)) =
    if p_enabled (s_perf s) then after_ticks n (p_cycles (s_perf s)) else p_cycles (s_perf s).
Proof.
  intros Hs. split; [by rewrite soc_step_add|]. unfold after_ticks.
  assert (s_ticks (soc_step s n) = u32 (s_ticks s + Z.of_nat n) /\
    p_enabled (s_perf (soc_step s n)) = p_enabled (s_perf s) /\
    p_cycles (s_perf (soc_step s n)) =
    if p_enabled (s_perf s) then u32 (p_cycles (s_perf s) + Z.of_nat n) else p_cycles (s_perf s))
    as (? & _ & ?); [|done].
  induction n as [|n (IH1 & IH2 & IH3)].
  { rewrite Z.add_0_r, u32_id by apply (swf_ticks _ Hs). split_and!; [done..|].
    by rewrite Z.add_0_r, u32_id by apply (pwf_cycles _ (swf_perf _ Hs)); case_match. }
  change (soc_step s (S n)) with (soc_tick (soc_step s n)). set (s' := soc_step s n) in *.
  destruct (soc_tick_counters s') as (f & Hf & -> & ->).
  destruct (counts_only_frame f (soc_perf_tick (s_perf s')) Hf) as [-> He].
  rewrite IH1. unfold soc_perf_tick in *. rewrite IH2 in *. injection He as _ _ He.
  split_and!.
  - unfold u32. rewrite Zplus_mod_idemp_l. f_equal. lia.
  - rewrite He. by destruct (p_enabled (s_perf s)); simpl; rewrite ?IH2.
  - destruct (p_enabled (s_perf s)); simpl; rewrite IH3; [|done].
    unfold u32. rewrite Zplus_mod_idemp_l. f_equal. lia.
Qed.

(** * Polling *)

(** [j] is the first tick count after which the machine satisfies [p]. *)
Definition first_hit (p : soc_t -> bool) (s : soc_t) (j : nat) : Prop :=
  p (soc_step s j) = true /\ forall i, (i < j)%nat -> p (soc_step s i) = false.

Lemma run_until_spec {X} (p : soc_t -> bool) fuel k x s :
  let '(r, (x', s')) := run_until_from malloc_ok (X := X) fuel k
    (Some (fun st => (p (snd st), st))) (x, s) in
  exists j, (j <= fuel)%nat /\ x' = x /\ s' = soc_step s j /\
    (forall i, (i < j)%nat -> p (soc_step s i) = false) /\
    (p s' = true /\ r = i32 (k + Z.of_nat j) \/ p s' = false /\ j = fuel /\ r = -1).
Proof.
  revert k s. induction fuel as [|fuel IH]; intros k s; simpl.
  - destruct (p s) eqn:Hp; exists 0%nat; rewrite ?Z.add_0_r; split_and!; try done; try lia; auto.
  - destruct (p s) eqn:Hp.
    { exists 0%nat. rewrite Z.add_0_r. split_and!; try done; try lia; auto. }
    specialize (IH (k + 1) (soc_step s 1)). destruct (run_until_from _ _ _ _ _) as [r [x' s']].
    destruct IH as (j & Hj & -> & -> & Hlt & Hr). rewrite <- soc_step_add in *.
    exists (S j). split_and!; [lia|done|done| |].
    + intros [|i] Hi; [done|]. specialize (Hlt i ltac:(lia)). by rewrite <- soc_step_add in Hlt.
    + destruct Hr as [[Ht ->]|(Hf & -> & ->)]; [left|right; by auto].
      split; [done|]. f_equal. lia.
Qed.

(** C24. Polling with a condition on the machine stops at the first tick that
    satisfies it and returns the number of ticks it waited, or returns -1
    after exactly [max_ticks] ticks when none does (the last one included). *)
Theorem soc_run_until_spec {X} (p : soc_t -> bool) max_ticks (x : X) s :
  Z.of_nat max_ticks < 0x80000000 ->
  let '(r, (x', s')) := soc_run_until malloc_ok (Some (fun st => (p (snd st), st))) max_ticks (x, s) in
  x' = x /\
  ((exists j, (j <= max_ticks)%nat /\ r = Z.of_nat j /\ s' = soc_step s j /\ first_hit p s j) \/
   (r = -1 /\ s' = soc_step s max_ticks /\
     forall i, (i <= max_ticks)%nat -> p (soc_step s i) = false)).
Proof.
  intros Hmax. unfold soc_run_until. pose proof (run_until_spec (X := X) p max_ticks 0 x s) as H.
  destruct (run_until_from _ _ _ _ _) as [r [x' s']].
  destruct H as (j & Hj & -> & -> & Hlt & Hr). split; [done|].
  destruct Hr as [[Ht ->]|(Hf & -> & ->)].
  - left. exists j. split_and!; try done. rewrite Z.add_0_l. apply i32_small. lia.
  - right. split_and!; try done. intros i Hi.
    destruct (decide (i = max_ticks)) as [->|]; [done|]. apply Hlt. lia.
Qed.

(** * Boot *)

Lemma boot_rom_words rom words k w :
  is_rom rom -> zlen words * 4 <= 16384 -> Forall is_u32 words -> words !! k = Some w ->
  word_at (boot_rom rom (Some words)) (4 * Z.of_nat k) = w.
Proof.
  intros Hrom Hfit Hw Hk. unfold boot_rom.
  assert (Z.of_nat k < zlen words) as Hkl by (apply lookup_lt_Some in Hk; unfold zlen; lia).
  destruct (Z.ltb_spec 0 (zlen words)); [|lia].
  pose proof (boot_rom_wf rom (Some words) Hrom) as Hr.
  unfold boot_rom in Hr. rewrite (proj2 (Z.ltb_lt _ _)) in Hr by lia.
  destruct Hrom as (Hwf & Hb & Hs & _). pose proof (wf_len _ Hwf) as Hlen.
  assert (zlen (zeros 16384) = 16384) as Hz by by apply zlen_zeros.
  assert (mem_wf (store rom 0 (zeros 16384))) as Hwf1
    by (apply store_wf; [done|lia|lia|apply Forall_byte_zeros]).
  assert (m_size (store rom 0 (zeros 16384)) = 16384) as Hs1 by (by rewrite <- Hs).
  assert (m_base (store rom 0 (zeros 16384)) = 0) as Hb1 by (by rewrite <- (Hb : m_base rom = 0)).
  pose proof (soc_mem_load_words_spec (store rom 0 (zeros 16384)) words Hwf1) as H1.
  destruct (soc_mem_load_words _ words) as [rc rom'].
  destruct H1 as (_ & _ & _ & H1 & _); [unfold two32; lia|lia|by rewrite Hb1|done|].
  specialize (H1 k w Hk). rewrite Hb1, Z.add_0_l, soc_mem_read_word_cases in H1.
  cbn [snd] in *. case_match; congruence.
Qed.

(** The boot ticks find every device idle. *)
Lemma soc_boot_steps s words :
  soc_wf s ->
  let s0 := soc_boot_reset s words in
  soc_step s0 5 = s0 <| s_ticks := u32 (s_ticks s0 + Z.of_nat 5) |>
                     <| s_perf := Nat.iter 5 soc_perf_tick (s_perf s0) |>.
Proof.
  intros Hs. destruct (soc_boot_reset_parts s words Hs) as (Et & _ & _ & _ & _ & Eu & Etm & Ed & _).
  cbv zeta. apply soc_step_idle; rewrite ?Eu, ?Etm, ?Ed, ?Et; done.
Qed.

(** A boot resets the engine and ends in five ticks. *)
Lemma soc_boot_engine s words :
  soc_wf s ->
  let '(info, s') := soc_boot malloc_ok s words in
  bi_boot_ticks info = 5 /\ soc_wf s' /\ s_dma s' = soc_dma_reset (s_dma s).
Proof.
  intros Hs. pose proof (soc_boot_wf malloc_ok s words Hs) as Hs'.
  pose proof (soc_boot_steps s words Hs) as Estep. cbv zeta in Estep.
  destruct (soc_boot_reset_parts s words Hs) as (Et & _ & _ & _ & _ & _ & _ & Ed & _).
  unfold soc_boot in *. set (s0 := soc_boot_reset s words) in *.
  change (Z.to_nat SOC_BOOT_TICKS) with 5%nat in *. rewrite Estep in *. clear Estep. cbv zeta in *.
  split; [|split; [exact Hs'|exact Ed]].
  change (u32 (s_ticks s0 + Z.of_nat 5) = 5). by rewrite Et.
Qed.

(** C17. Reset to main in five ticks: CPU at ROM base with the stack at the top of
    SRAM, the image (when it fits) in ROM, SRAM zero, every peripheral in its
    reset state with nothing pending, and the performance counters running
    with exactly the boot ticks on them. *)
Theorem soc_boot_spec s words :
  soc_wf s -> zlen words * 4 <= 16384 -> Forall is_u32 words ->
  let '(info, s') := soc_boot malloc_ok s (Some words) in
  bi_boot_ticks info = 5 /\ s_ticks s' = 5 /\
  bi_boot_ns info = 5000 / bi_cpu_frequency_mhz info /\
  c_running (s_cpu s') = true /\ c_pc (s_cpu s') = c_rom_base (s_cpu s) /\
  c_sp (s_cpu s') = 0x10010000 /\
  (forall k w, words !! k = Some w -> fst (soc_read s' (4 * Z.of_nat k)) = Ok w) /\
  (forall a, a mod 4 = 0 -> in_sram_window a -> fst (soc_read s' a) = Ok 0) /\
  peripherals_reset s' /\
  p_cycles (s_perf s') = 5 /\ p_mem_acc (s_perf s') = 0 /\ p_stalls (s_perf s') = 0.
Proof.
  intros Hs Hfit Hwords. pose proof (soc_boot_wf malloc_ok s (Some words) Hs) as Hs'.
  destruct (soc_boot_reset_parts s (Some words) Hs)
    as (Et & Er & Em & _ & Ec & Eu & Etm & Ed & Ei & Ep & Esp & Epc).
  pose proof (soc_boot_steps s (Some words) Hs) as Estep. cbv zeta in Estep.
  unfold soc_boot in *. set (s0 := soc_boot_reset s (Some words)) in *.
  change (Z.to_nat SOC_BOOT_TICKS) with 5%nat in *.
  rewrite Estep in *. clear Estep. cbv zeta in *. cbn [snd] in Hs'.
  set (s' := _ <| s_cpu := _ |>) in *.
  assert (s_rom s' = boot_rom (s_rom s) (Some words)) as Er' by exact Er.
  assert (s_sram s' = soc_mem_zero (s_sram s)) as Em' by exact Em.
  assert (s_uart s' = soc_uart_reset (s_uart s)) as Eu' by exact Eu.
  assert (s_timer s' = soc_timer_reset (s_timer s)) as Etm' by exact Etm.
  assert (s_dma s' = soc_dma_reset (s_dma s)) as Ed' by exact Ed.
  assert (s_intc s' = soc_intc_reset (s_intc s)) as Ei' by exact Ei.
  assert (s_perf s' = Nat.iter 5 soc_perf_tick (s_perf s0)) as Ep' by done.
  assert (s_ticks s' = 5) as Et' by (change (u32 (s_ticks s0 + Z.of_nat 5) = 5); by rewrite Et).
  unfold peripherals_reset. rewrite Eu', Etm', Ed', Ei', Ep', Ep. cbn [bi_boot_ticks bi_cpu_frequency_mhz bi_boot_ns].
  split_and!; try done.
  - by rewrite Et'.
  - intros k w Hk. assert (Z.of_nat k < zlen words) by (apply lookup_lt_Some in Hk; unfold zlen; lia).
    rewrite soc_read_rom; [|done|lia| |unfold in_rom_window; lia].
    + rewrite Er'. f_equal. by apply boot_rom_words; [apply (swf_rom _ Hs)|..].
    + rewrite Z.mul_comm. by apply Z.mod_mul.
  - intros a H4 Ha. rewrite soc_read_sram by done. rewrite Em'. f_equal.
    apply soc_mem_zero_word; [apply (swf_sram _ Hs)|].
    by apply sram_contains_word; [apply (swf_sram _ Hs)|..].
Qed.

(** * Faults *)

(** A latched engine does not move. *)
Lemma soc_step_stuck s n :
  d_fault_stuck_busy (s_dma s) = true ->
  s_dma (soc_step s n) = s_dma s /\ s_sram (soc_step s n) = s_sram s.
Proof.
  intros Hf. induction n as [|n [IHd IHm]]; [done|].
  change (soc_step s (S n)) with (soc_tick (soc_step s n)).
  destruct (soc_tick_quiet_parts (soc_step s n)) as (-> & -> & _).
  - right; left. by rewrite IHd.
  - unfold dma_after. by rewrite IHd, Hf, andb_false_r, IHm.
Qed.

(** C38. A latched stuck-busy DMA never finishes, whatever its countdown: SRAM, the
    engine and its BUSY status are frozen for as long as the latch is set, and
    clearing it resumes the transfer where it stopped. *)
Theorem soc_dma_stuck s n m :
  soc_wf s -> phase (s_dma s) = Busy -> d_fault_stuck_busy (s_dma s) = true ->
  let s' := soc_step s n in
  fst (soc_read s' VLAB_DMA_STATUS) = Ok VLAB_DMA_STATUS_BUSY /\
  s_dma s' = s_dma s /\ s_sram s' = s_sram s /\
  (Z.of_nat m < d_remaining (s_dma s) ->
   d_remaining (s_dma (soc_step (unstick s') m)) = d_remaining (s_dma s) - Z.of_nat m).
Proof.
  intros Hs Hp Hf. cbv zeta.
  destruct (soc_step_stuck s n Hf) as [Hd Hm].
  rewrite soc_read_dma_status by by apply soc_step_wf. rewrite Hd, Hp. do 3 (split; [done|]).
  intros Hm'. set (s1 := unstick _).
  assert (s_dma s1 = s_dma s <| d_fault_stuck_busy := false |>) as E1
    by (change (s_dma s1) with (s_dma (soc_step s n) <| d_fault_stuck_busy := false |>); by rewrite Hd).
  assert (d_busy (s_dma s) = true) as Hb by (destruct (d_busy (s_dma s)) eqn:E; [done|by apply phase_free in E]).
  by destruct (soc_step_count s1 m) as (-> & _); rewrite ?E1.
Qed.

End Clock.

(** * The machine of the default configuration *)

Lemma soc_default_platform : dma_platform (fun _ _ => true) soc_default.
Proof. constructor; [apply soc_default_wf|done..]. Qed.

Lemma vlab_transfer_demo : vlab_transfer 0x10000000 0x10000020 64.
Proof. split_and!; try done. by left. Qed.

Lemma soc_program_demo_parts :
  let s := soc_dma_program soc_default 0x10000000 0x10000020 64 in
  soc_wf s /\ s_dma s = s_dma soc_default <| d_src := 0x10000000 |> <| d_dst := 0x10000020 |>
                          <| d_length := 64 |>.
Proof.
  destruct (soc_dma_program_parts (fun _ _ => true) soc_default 0x10000000 0x10000020 64 soc_default_wf)
    as (Hwf & Ed & _); [done..|]. split; [exact Hwf|exact Ed].
Qed.

Lemma soc_program_demo_ready :
  dma_ready (fun _ _ => true) (soc_dma_program soc_default 0x10000000 0x10000020 64) 3.
Proof.
  apply soc_dma_program_ready; [apply soc_default_platform|done|done|apply vlab_transfer_demo|done|done].
Qed.

(** ** Runs of it *)

Lemma soc_dma_sram_copy_witness :
  let s := soc_dma_program soc_default 0x10000000 0x10000020 64 in
  let s1 := snd (soc_write s VLAB_DMA_CTRL 3) in
  fst (soc_read (soc_step (fun _ _ => true) s1 18) VLAB_DMA_STATUS) = Ok VLAB_DMA_STATUS_BUSY /\
  fst (soc_read (soc_step (fun _ _ => true) s1 19) VLAB_DMA_STATUS) = Ok VLAB_DMA_STATUS_DONE.
Proof.
  destruct soc_program_demo_parts as [_ Ed]. pose proof soc_program_demo_ready as Hr.
  cbv zeta. set (s := soc_dma_program _ _ _ _) in *. clearbody s.
  pose proof (fun n => soc_dma_sram_copy (fun _ _ => true) s 3 n Hr) as H.
  unfold soc_dma_ticks in H. rewrite Ed in H. cbv zeta in H.
  destruct (soc_write s VLAB_DMA_CTRL 3) as [rc s1].
  split; [apply (H 18%nat)|apply (H 19%nat)]; done.
Defined.

Lemma soc_dma_uart_roundtrip_witness :
  let step := soc_step (fun _ _ => true) in
  let s1 := soc_dma_program soc_default 0x10000000 VLAB_UART_TXDATA 64 in
  let s2 := step (snd (soc_write s1 VLAB_DMA_CTRL 1)) 19%nat in
  let s3 := soc_dma_program s2 VLAB_UART_RXDATA 0x10000100 64 in
  let s4 := step (snd (soc_write s3 VLAB_DMA_CTRL 1)) 19%nat in
  mem_range (s_sram s4) 0x10000100 64 = mem_range (s_sram soc_default) 0x10000000 64.
Proof.
  apply (soc_dma_uart_roundtrip (fun _ _ => true) soc_default 0x10000000 0x10000100 64 1 1 19 19
    soc_default_platform); done.
Defined.

Lemma soc_step_sram_frame_witness :
  let s := soc_dma_program soc_default 0x10000000 0x10000020 64 in
  fst (soc_read (soc_step (fun _ _ => true) s 100) 0x10000060) = fst (soc_read s 0x10000060).
Proof.
  destruct soc_program_demo_parts as [Hwf Ed]. cbv zeta in *.
  set (s := soc_dma_program _ _ _ _) in *. clearbody s.
  apply soc_step_sram_frame; [exact Hwf|done|done|]. right; right. by rewrite Ed.
Defined.

Lemma soc_step_time_witness :
  s_ticks (soc_step (fun _ _ => true) soc_default 100) = 100.
Proof. apply (soc_step_time (fun _ _ => true) soc_default 100 0 soc_default_wf). Defined.

Lemma soc_run_until_spec_witness :
  let '(r, (_, s')) :=
    soc_run_until (fun _ _ => true) (Some (fun st => (s_ticks (snd st) =? 7, st))) 3 (tt, soc_default) in
  s' = soc_step (fun _ _ => true) soc_default 3 \/ exists j, r = Z.of_nat j.
Proof.
  pose proof (soc_run_until_spec (fun _ _ => true) (fun s => s_ticks s =? 7) 3 tt soc_default
    ltac:(done)) as H.
  destruct (soc_run_until _ _ _ _) as [r [x' s']].
  destruct H as [_ [(j & _ & H & _)|(_ & H & _)]]; [right; by exists j|by left].
Defined.

Lemma soc_boot_spec_witness :
  let '(info, s') := soc_boot (fun _ _ => true) soc_default (Some [0x11111111; 0x22222222]) in
  bi_boot_ticks info = 5 /\ fst (soc_read s' 4) = Ok 0x22222222.
Proof.
  pose proof (soc_boot_spec (fun _ _ => true) soc_default [0x11111111; 0x22222222] soc_default_wf
    ltac:(done) ltac:(by repeat constructor)) as H.
  destruct (soc_boot _ _ _) as [info s']. split; [apply H|].
  by apply (proj1 (proj2 (proj2 (proj2 (proj2 (proj2 (proj2 H)))))) 1%nat).
Defined.

Lemma soc_dma_stuck_witness :
  let d := dma_demo <| d_busy := true |> <| d_remaining := 19 |> <| d_fault_stuck_busy := true |> in
  let s := soc_default <| s_dma := d |> in
  fst (soc_read (soc_step (fun _ _ => true) s 1000) VLAB_DMA_STATUS) = Ok VLAB_DMA_STATUS_BUSY.
Proof.
  cbv zeta. set (d := dma_demo <| d_busy := true |> <| d_remaining := 19 |> <| d_fault_stuck_busy := true |>).
  assert (dma_wf d) as Hd by (by constructor).
  pose proof (soc_wf_dma soc_default d soc_default_wf Hd ltac:(reflexivity)) as Hwf.
  apply (soc_dma_stuck (fun _ _ => true) _ 1000 0 Hwf); reflexivity.
Defined.
