(* ===== verification/SocCount.v ===== *)
(** Machines up to their performance counters.

    Every bus access moves the counters, so a program that only looks at the
    machine leaves it changed, but equivalent: [only_counted] relates machines
    that differ in the counters alone.  The clock respects it, and so does
    polling with a predicate that reads registers. *)

From S2P Require Import Prelude Regions DmaCaps Platform Memory Perf Intc Timer Uart.
From S2P Require Import DmaSpec Dma Soc SocBus SocClock.

Local Open Scope c_scope.

(** [s'] is [s] with other counters. *)
Definition only_counted (s s' : soc_t) : Prop := exists p, s' = s <| s_perf := p |>.

#[export] Instance only_counted_equivalence : Equivalence only_counted.
Proof.
  split.
  - intros s. exists (s_perf s). by destruct s.
  - intros s s' [p ->]. exists (s_perf s). by destruct s.
  - intros s1 s2 s3 [p ->] [q ->]. by exists q.
Qed.

Lemma only_counted_refl s : only_counted s s.
Proof. reflexivity. Qed.

Lemma only_counted_step s s' : only_counted s s' -> only_counted s (counted s').
Proof. intros [p ->]. by eexists. Qed.

#[export] Instance counted_proper : Proper (only_counted ==> only_counted) counted.
Proof. intros s s' [p ->]. by eexists. Qed.

#[export] Instance s_dma_proper : Proper (only_counted ==> eq) s_dma.
Proof. by intros s s' [p ->]. Qed.

#[export] Instance s_sram_proper : Proper (only_counted ==> eq) s_sram.
Proof. by intros s s' [p ->]. Qed.

#[export] Instance soc_tick_proper malloc_ok :
  Proper (only_counted ==> only_counted) (soc_tick malloc_ok).
Proof.
  intros s s' [p ->]. destruct (soc_tick_perf malloc_ok s) as (f & _ & Hf).
  exists (f (soc_perf_tick p)). apply Hf.
Qed.

#[export] Instance soc_step_proper malloc_ok :
  Proper (only_counted ==> eq ==> only_counted) (soc_step malloc_ok).
Proof.
  intros s s' Hs n ? <-. induction n as [|n IH]; [done|].
  change (only_counted (soc_tick malloc_ok (soc_step malloc_ok s n))
                       (soc_tick malloc_ok (soc_step malloc_ok s' n))). by rewrite IH.
Qed.

Lemma read_dma_status s :
  soc_wf s -> soc_read s VLAB_DMA_STATUS = (Ok (phase_status (phase (s_dma s))), counted s).
Proof.
  intros Hs. rewrite (surjective_pairing (soc_read s VLAB_DMA_STATUS)), soc_read_dma_status by done.
  f_equal. rewrite soc_read_reg by done. done.
Qed.

(** * Polling with a predicate that reads *)

Section Polling.

Variable malloc_ok : Z -> Z -> bool.

(** The predicate looks at [p] of the machine and only counts its accesses. *)
Variables (X : Type) (x : X) (pred : X * soc_t -> bool * (X * soc_t)) (p : soc_t -> bool).
Hypothesis p_proper : Proper (only_counted ==> eq) p.
Hypothesis pred_reads : forall s, soc_wf s ->
  exists s', pred (x, s) = (p s, (x, s')) /\ soc_wf s' /\ only_counted s s'.

Lemma run_until_reads fuel k s s' j :
  soc_wf s' -> only_counted s s' -> (j <= fuel)%nat -> first_hit malloc_ok p s j ->
  exists s'', run_until_from malloc_ok fuel k (Some pred) (x, s') = (i32 (k + Z.of_nat j), (x, s'')) /\
              soc_wf s'' /\ only_counted (soc_step malloc_ok s j) s''.
Proof.
  revert k s s' j. induction fuel as [|fuel IH]; intros k s s' j Hs' Hc Hj [Hhit Hmiss].
  - assert (j = 0%nat) as -> by lia. destruct (pred_reads s' Hs') as (s2 & E & H2 & Hc2). simpl.
    rewrite E, <- (p_proper _ _ Hc). change (p s = true) in Hhit. rewrite Hhit, Z.add_0_r.
    exists s2. split; [done|]. split; [done|]. by transitivity s'.
  - destruct (pred_reads s' Hs') as (s2 & E & H2 & Hc2). simpl.
    rewrite E, <- (p_proper _ _ Hc).
    destruct j as [|j].
    + change (p s = true) in Hhit. rewrite Hhit, Z.add_0_r.
      exists s2. split; [done|]. split; [done|]. by transitivity s'.
    + pose proof (Hmiss 0%nat ltac:(lia)) as H0. change (p s = false) in H0. rewrite H0.
      destruct (IH (k + 1) (soc_step malloc_ok s 1) (soc_step malloc_ok s2 1) j) as (s3 & E3 & H3 & Hc3).
      * by apply soc_step_wf.
      * by rewrite Hc, Hc2.
      * lia.
      * split; [by rewrite <- soc_step_add|]. intros i Hi. rewrite <- soc_step_add. apply Hmiss. lia.
      * exists s3. rewrite <- soc_step_add in Hc3. split; [|by split].
        etransitivity; [exact E3|]. do 2 f_equal. lia.
Qed.

End Polling.
