(* ===== verification/Hal.v ===== *)
(** The host machine the firmware runs on: [soc_c/src/host_bridge.c],
    [firmware/hal/hal.c] and [firmware/hal/host.c].

    [machine] is the static storage of the linked program: the one live SoC of
    the bridge, the HAL's interrupt mask, and the statics of the ISR
    dispatcher, the DMA driver and the bring-up code, whose functions are in
    their own files.  Firmware functions are computations in [M machine];
    [volatile] temporaries are plain values.  The lemmas give what a register
    access does on an initialised machine; the theorem, what the
    read-modify-write helpers leave in a register. *)

From S2P Require Import Prelude Regions DmaCaps Platform Memory Perf Intc Timer Uart.
From S2P Require Import DmaSpec Dma Soc SocBus SocClock.

Local Open Scope c_scope.

(** * Static storage *)

Record host_t : Type := Mk_host { g_soc : soc_t; g_inited : bool }.

#[export] Instance settable_host : Settable host_t :=
  {| eta_record := fun h => Mk_host (g_soc h) (g_inited h) |}.

(** [isr_handler_t] values are addresses; 0 is [NULL]. *)
Record isr_t : Type := Mk_isr { s_vectors : list Z; s_n_lines : Z; s_dispatched : Z }.

#[export] Instance settable_isr : Settable isr_t :=
  {| eta_record := fun i => Mk_isr (s_vectors i) (s_n_lines i) (s_dispatched i) |}.

Inductive dma_state_t : Set :=
| DMA_S_IDLE | DMA_S_STARTING | DMA_S_ACTIVE | DMA_S_COMPLETE | DMA_S_ERROR | DMA_S_RECOVERY.

#[export] Instance dma_state_eq_dec : EqDecision dma_state_t.
Proof. solve_decision. Defined.

Record dma_driver_t : Type := Mk_dma_driver {
  s_map : option (list memory_region);
  s_caps : option dma_caps;
  s_periphs : option (list dma_periph_ep);
  s_state : dma_state_t;
  s_done_flag : Z;
  s_err_latch : Z;
  s_irq_count : Z
}.

#[export] Instance settable_dma_driver : Settable dma_driver_t :=
  {| eta_record := fun d => Mk_dma_driver (s_map d) (s_caps d) (s_periphs d) (s_state d)
       (s_done_flag d) (s_err_latch d) (s_irq_count d) |}.

Record bringup_t : Type := Mk_bringup { s_ram_data : list Z; s_ram_bss : list Z }.

#[export] Instance settable_bringup : Settable bringup_t :=
  {| eta_record := fun b => Mk_bringup (s_ram_data b) (s_ram_bss b) |}.

Record machine : Type := Mk_machine {
  host : host_t;
  s_irq_masked : Z;
  isr : isr_t;
  drv : dma_driver_t;
  bringup : bringup_t
}.

#[export] Instance settable_machine : Settable machine :=
  {| eta_record := fun m => Mk_machine (host m) (s_irq_masked m) (isr m) (drv m) (bringup m) |}.

Definition soc_of (m : machine) : soc_t := g_soc (host m).

Definition with_soc (m : machine) (s : soc_t) : machine :=
  m <| host := host m <| g_soc := s |> |>.

(** * Host bridge *)

Definition soc_host_init (cfg : option soc_config_t) : M machine unit :=
  mmodify (fun m =>
    let cfg := match cfg with Some c => c | None => soc_config_default end in
    m <| host := Mk_host (soc_init (soc_of m) (Some cfg)) true |>).

(** [if (!g_inited) soc_host_init(NULL);] *)
Definition ensure_inited : M machine unit :=
  m <- mget ;; if negb (g_inited (host m)) then soc_host_init None else mret tt.

Definition soc_host_soc : M machine soc_t :=
  ensure_inited ;;; m <- mget ;; mret (soc_of m).

Definition vlab_mmio_read (addr : Z) : M machine Z :=
  ensure_inited ;;;
  m <- mget ;;
  let '(r, s) := soc_read (soc_of m) addr in
  mmodify (fun m => with_soc m s) ;;;
  mret (match r with Ok v => v | Err _ => 0 end).

Definition vlab_mmio_write (addr val : Z) : M machine unit :=
  ensure_inited ;;;
  mmodify (fun m => with_soc m (snd (soc_write (soc_of m) addr val))).

Definition vlab_test_raise_irq (line : Z) : M machine unit :=
  ensure_inited ;;;
  mmodify (fun m =>
    with_soc m (soc_of m <| s_intc := soc_intc_raise (s_intc (soc_of m)) (i32 line) |>)).

Definition vlab_test_dma_error (code : Z) : M machine unit :=
  m <- mget ;;
  if negb (g_inited (host m)) then mret tt
  else mmodify (fun m =>
    let s := soc_of m in
    let s := s <| s_dma := s_dma s <| d_busy := false |> <| d_done := false |>
                             <| d_error := true |> <| d_err_code := code |> |> in
    with_soc m
      (if tst (d_ctrl (s_dma s)) SOC_DMA_CTRL_IRQ_ENABLE
       then s <| s_intc := soc_intc_raise (s_intc s) SOC_DMA_IRQ_LINE |> else s)).

Section Clocked.

Variable malloc_ok : Z -> Z -> bool.

Definition soc_host_boot : M machine unit :=
  ensure_inited ;;;
  mmodify (fun m => with_soc m (snd (soc_boot malloc_ok (soc_of m) None))).

Definition soc_host_step (n : nat) : M machine unit :=
  ensure_inited ;;;
  mmodify (fun m => with_soc m (soc_step malloc_ok (soc_of m) n)).

(** The polling loop of [vlab_test_dma_complete]; a refused read would leave
    [st] as it was. *)
Fixpoint dma_complete_from (fuel : nat) (st : Z) : M machine unit :=
  match fuel with
  | O => mret tt
  | S fuel' =>
      m <- mget ;;
      let '(r, s) := soc_read (soc_of m) (SOC_DMA_BASE + 0x10) in
      mmodify (fun m => with_soc m s) ;;;
      let st := match r with Ok v => v | Err _ => st end in
      if tst st (Z.lor SOC_DMA_STATUS_DONE SOC_DMA_STATUS_ERROR) then mret tt
      else if negb (tst st SOC_DMA_STATUS_BUSY) then mret tt
      else
        mmodify (fun m => with_soc m (soc_step malloc_ok (soc_of m) 1)) ;;;
        dma_complete_from fuel' st
  end.

Definition vlab_test_dma_complete : M machine unit :=
  m <- mget ;;
  if negb (g_inited (host m)) then mret tt else dma_complete_from (Z.to_nat 100000) 0.

End Clocked.

(** * HAL *)

Definition hal_read_reg (addr : Z) : M machine Z := vlab_mmio_read addr.

Definition hal_write_reg (addr val : Z) : M machine unit := vlab_mmio_write addr val.

Definition hal_set_bits (addr mask : Z) : M machine unit :=
  cur <- hal_read_reg addr ;; hal_write_reg addr (Z.lor cur mask).

Definition hal_clear_bits (addr mask : Z) : M machine unit :=
  cur <- hal_read_reg addr ;; hal_write_reg addr (Z.land cur (not32 mask)).

Definition hal_modify_reg (addr mask val : Z) : M machine unit :=
  cur <- hal_read_reg addr ;;
  hal_write_reg addr (Z.lor (Z.land cur (not32 mask)) (Z.land val mask)).

Definition hal_irq_disable : M machine Z :=
  m <- mget ;; mmodify (fun m => m <| s_irq_masked := 1 |>) ;;; mret (s_irq_masked m).

Definition hal_irq_restore (state : Z) : M machine unit :=
  mmodify (fun m => m <| s_irq_masked := Z.land state 1 |>).

(** * Accesses on an initialised machine *)

Definition ready (m : machine) : Prop := g_inited (host m) = true /\ soc_wf (soc_of m).

(** The statics as the linked program starts with them: [s_vectors] is
    [ISR_MAX_LINES] null pointers, [s_n_lines] is [VLAB_IRQ_COUNT]. *)
Definition machine_static : machine := {|
  host := Mk_host soc_static false;
  s_irq_masked := 0;
  isr := Mk_isr (replicate 8 0) 3 0;
  drv := Mk_dma_driver None None None DMA_S_IDLE 0 0 0;
  bringup := Mk_bringup (replicate 4 0) (replicate 8 0)
|}.

Definition machine_default : machine := snd (soc_host_init None machine_static).

Lemma machine_default_ready : ready machine_default.
Proof.
  split; [done|]. apply (soc_init_wf soc_static (Some soc_config_default)); [apply soc_static_stores|].
  intros c [= <-]. by constructor.
Qed.

Lemma ready_with_soc m s : ready m -> soc_wf s -> ready (with_soc m s).
Proof. by intros [Hi _] Hs. Qed.

Lemma soc_of_with_soc m s : soc_of (with_soc m s) = s.
Proof. done. Qed.

Lemma ensure_inited_ready m : ready m -> ensure_inited m = (tt, m).
Proof. intros [Hi _]. unfold ensure_inited, mbind, mget. by rewrite Hi. Qed.

Lemma hal_read_ready m addr :
  ready m ->
  hal_read_reg addr m =
    (match fst (soc_read (soc_of m) addr) with Ok v => v | Err _ => 0 end,
     with_soc m (snd (soc_read (soc_of m) addr))).
Proof.
  intros Hm. unfold hal_read_reg, vlab_mmio_read. unfold mbind at 1. rewrite ensure_inited_ready by done.
  unfold mbind, mget. destruct (soc_read (soc_of m) addr) as [[v|rc] s]; done.
Qed.

Lemma hal_write_ready m addr val :
  ready m -> hal_write_reg addr val m = (tt, with_soc m (snd (soc_write (soc_of m) addr val))).
Proof.
  intros Hm. unfold hal_write_reg, vlab_mmio_write, mbind. by rewrite ensure_inited_ready.
Qed.

(** A write with a known effect on the SoC. *)
Lemma hal_write_effect m addr val rc s' :
  ready m -> is_u32 val -> soc_write (soc_of m) addr val = (rc, s') ->
  hal_write_reg addr val m = (tt, with_soc m s') /\ ready (with_soc m s').
Proof.
  intros Hm Hv E. rewrite hal_write_ready, E by done. split; [done|].
  apply ready_with_soc; [done|]. pose proof (soc_write_wf (soc_of m) addr val (proj2 Hm) Hv) as H.
  by rewrite E in H.
Qed.

Lemma host_step_ready malloc_ok m n :
  ready m -> soc_host_step malloc_ok n m = (tt, with_soc m (soc_step malloc_ok (soc_of m) n)).
Proof. intros Hm. unfold soc_host_step, mbind. by rewrite ensure_inited_ready. Qed.

Lemma hal_read_preserves m addr v m' :
  ready m -> hal_read_reg addr m = (v, m') -> ready m'.
Proof.
  intros Hm. rewrite hal_read_ready by done. intros [= _ <-].
  apply ready_with_soc; [done|]. apply soc_read_wf, Hm.
Qed.

Lemma hal_write_preserves m addr val u m' :
  ready m -> is_u32 val -> hal_write_reg addr val m = (u, m') -> ready m'.
Proof.
  intros Hm Hv. rewrite hal_write_ready by done. intros [= _ <-].
  apply ready_with_soc; [done|]. by apply soc_write_wf; [apply Hm|].
Qed.

(** * Read-modify-write *)

Lemma not32_testbit mask n : 0 <= n < 32 -> Z.testbit (not32 mask) n = negb (Z.testbit mask n).
Proof.
  intros Hn. unfold not32. rewrite Z.lxor_spec. change 0xFFFFFFFF with (Z.ones 32).
  rewrite Z.ones_spec_low by lia. by destruct (Z.testbit mask n).
Qed.

Lemma is_u32_modify cur mask val :
  is_u32 cur -> is_u32 mask -> is_u32 (Z.lor (Z.land cur (not32 mask)) (Z.land val mask)).
Proof.
  intros Hc Hm. apply is_u32_lor; [by apply is_u32_land|]. rewrite Z.land_comm. by apply is_u32_land.
Qed.

(** [hal_modify_reg] on a memory word replaces exactly the masked bits; the
    set and clear helpers are its two special cases. *)
Theorem hal_modify_sram m addr mask val :
  ready m -> addr mod 4 = 0 -> in_sram_window addr -> is_u32 mask -> is_u32 val ->
  let old := word_at (s_sram (soc_of m)) addr in
  let after (op : M machine unit) := word_at (s_sram (soc_of (snd (op m)))) addr in
  (forall n, 0 <= n < 32 ->
     Z.testbit (after (hal_modify_reg addr mask val)) n =
       if Z.testbit mask n then Z.testbit val n else Z.testbit old n) /\
  after (hal_set_bits addr mask) = after (hal_modify_reg addr mask mask) /\
  after (hal_clear_bits addr mask) = after (hal_modify_reg addr mask 0).
Proof.
  intros Hm H4 Ha Hmask Hval. cbv zeta. set (old := word_at (s_sram (soc_of m)) addr).
  destruct Hm as [Hi Hs]. assert (is_u32 old) as Hold by (apply word_at_u32, (swf_sram _ Hs)).
  set (m1 := with_soc m (snd (soc_read (soc_of m) addr))).
  assert (ready m1) as Hm1 by (apply ready_with_soc; [done|by apply soc_read_wf]).
  assert (forall v, is_u32 v ->
    word_at (s_sram (soc_of (snd (hal_write_reg addr v m1)))) addr = v) as Hw.
  { intros v Hv. rewrite hal_write_ready, soc_write_sram by (done || apply Hm1).
    cbn [snd]. rewrite soc_of_with_soc. destruct (swf_sram _ (proj2 Hm1)) as (Hwf & Hb & _).
    change (s_sram (_ <| s_sram := ?x |>)) with x. rewrite <- Hb.
    apply word_at_store_same; [done|by apply sram_contains_word; [apply (swf_sram _ (proj2 Hm1))|..]|done]. }
  assert (hal_read_reg addr m = (old, m1)) as Hr.
  { rewrite hal_read_ready by done. unfold m1. by rewrite soc_read_sram. }
  unfold hal_modify_reg, hal_set_bits, hal_clear_bits, mbind. rewrite Hr.
  rewrite !Hw by (apply is_u32_modify || apply is_u32_lor || apply is_u32_land; done). split_and!.
  - intros n Hn. rewrite Z.lor_spec, !Z.land_spec, not32_testbit by done.
    destruct (Z.testbit mask n), (Z.testbit val n), (Z.testbit old n); done.
  - apply (fits_bits_eq 32); [done|by apply is_u32_lor|by apply is_u32_modify|].
    intros n Hn. rewrite !Z.lor_spec, !Z.land_spec, not32_testbit by done.
    destruct (Z.testbit mask n), (Z.testbit old n); done.
  - by rewrite Z.land_0_l, Z.lor_0_r.
Qed.

Lemma hal_modify_sram_witness :
  let m' := snd (hal_modify_reg 0x10000040 0xFF 0x5A machine_default) in
  Z.testbit (word_at (s_sram (soc_of m')) 0x10000040) 1 = true /\
  Z.testbit (word_at (s_sram (soc_of m')) 0x10000040) 9 =
    Z.testbit (word_at (s_sram (soc_of machine_default)) 0x10000040) 9.
Proof.
  pose proof (hal_modify_sram machine_default 0x10000040 0xFF 0x5A machine_default_ready
    ltac:(done) ltac:(done) ltac:(done) ltac:(done)) as [H _].
  split; [exact (H 1 ltac:(done))|exact (H 9 ltac:(done))].
Defined.
