(* ===== verification/Drivers.v ===== *)
(** Timer, interrupt-controller and UART drivers: [firmware/drivers/timer.c],
    [intc.c] and [uart.c].

    The theorems run a driver against the live SoC: a byte written comes back
    after the latency, a write on a busy or disabled UART changes no UART
    state, and a one-shot timer reports its expiry exactly from the programmed
    tick on. *)

From S2P Require Import Prelude Regions DmaCaps Platform Memory Perf Intc Timer Uart.
From S2P Require Import DmaSpec Dma Soc SocBus SocClock SocCount Hal.

Local Open Scope c_scope.

(** * Timer *)

Definition TIMER_ENABLE : Z := Z.shiftl 1 0.
Definition TIMER_PERIODIC : Z := Z.shiftl 1 1.
Definition TIMER_IRQ_EN : Z := Z.shiftl 1 2.

Definition timer_start (load : Z) (periodic irq_enable : bool) : M machine Z :=
  if load =? 0 then mret (-1)
  else
    hal_write_reg VLAB_TIMER_LOAD load ;;;
    let ctrl := Z.lor (Z.lor TIMER_ENABLE (if periodic then TIMER_PERIODIC else 0))
                      (if irq_enable then TIMER_IRQ_EN else 0) in
    hal_write_reg VLAB_TIMER_CTRL ctrl ;;;
    mret 0.

Definition timer_stop : M machine unit := hal_write_reg VLAB_TIMER_CTRL 0.

Definition timer_fired : M machine bool :=
  st <- hal_read_reg VLAB_TIMER_IRQ_STATUS ;; mret (tst st 0x1).

Definition timer_clear : M machine unit := hal_write_reg VLAB_TIMER_IRQ_CLEAR 0x1.

Definition timer_value : M machine Z := hal_read_reg VLAB_TIMER_VALUE.

(** * Interrupt controller *)

Definition intc_enable (mask : Z) : M machine unit := hal_write_reg VLAB_INTC_ENABLE (Z.land mask 0x7).

Definition intc_ack : M machine Z := hal_read_reg VLAB_INTC_ACK.

Definition intc_clear (irq : Z) : M machine unit := hal_write_reg VLAB_INTC_CLEAR irq.

(** * UART *)

Definition VLAB_UART_OK : Z := 0.
Definition VLAB_UART_ERR_DISABLED : Z := -1.
Definition VLAB_UART_ERR_TIMEOUT : Z := -2.

Definition uart_init (bauddiv : Z) : M machine Z :=
  hal_write_reg VLAB_UART_BAUDDIV bauddiv ;;;
  hal_write_reg VLAB_UART_CTRL VLAB_UART_CTRL_ENABLE ;;;
  mret VLAB_UART_OK.

Definition uart_status : M machine Z := hal_read_reg VLAB_UART_STATUS.

(** The polling loop from index [i] with [fuel] turns left: whether the write
    may go on. *)
Fixpoint uart_poll (fuel : nat) (i : Z) : M machine bool :=
  match fuel with
  | O => mret true
  | S fuel' =>
      st <- hal_read_reg VLAB_UART_STATUS ;;
      if tst st VLAB_UART_STATUS_TX_EMPTY then mret true
      else if i =? 999 then mret false
      else uart_poll fuel' (i + 1)
  end.

Definition uart_write_byte (b : Z) : M machine Z :=
  ctrl <- hal_read_reg VLAB_UART_CTRL ;;
  if negb (tst ctrl VLAB_UART_CTRL_ENABLE) then mret VLAB_UART_ERR_DISABLED
  else
    go <- uart_poll (Z.to_nat 1000) 0 ;;
    if negb go then mret VLAB_UART_ERR_TIMEOUT
    else
      hal_write_reg VLAB_UART_TXDATA b ;;;
      mret VLAB_UART_OK.

(** [Ok b]: status 0 and [*out = b] (when [out] is not [NULL]). *)
Definition uart_read_byte : M machine (result Z) :=
  st <- hal_read_reg VLAB_UART_STATUS ;;
  if negb (tst st VLAB_UART_STATUS_RX_VALID) then mret (Err VLAB_UART_ERR_TIMEOUT)
  else
    v <- hal_read_reg VLAB_UART_RXDATA ;;
    mret (Ok (Z.land v 0xFF)).

Lemma soc_wf_uart_ctrl s c :
  soc_wf s -> is_u32 c -> soc_wf (s <| s_uart := s_uart s <| u_ctrl := c |> |>).
Proof.
  intros Hs Hc. apply soc_wf_uart; [done|apply uart_ctrl_wf; [apply (swf_uart _ Hs)|done]|done].
Qed.

(** * Registers of the three devices *)

Section Registers.

Variable s : soc_t.
Hypothesis Hs : soc_wf s.

Lemma read_uart_status :
  soc_read s VLAB_UART_STATUS = (Ok (soc_uart_status (s_uart s)), counted s).
Proof. rewrite soc_read_reg by done. unfold counted. by destruct s. Qed.

Lemma read_uart_ctrl : soc_read s VLAB_UART_CTRL = (Ok (u_ctrl (s_uart s)), counted s).
Proof. rewrite soc_read_reg by done. unfold counted. by destruct s. Qed.

Lemma read_uart_rxdata :
  soc_read s VLAB_UART_RXDATA =
    (Ok (Z.land (u_rxdata (s_uart s)) 0xFF),
     counted s <| s_uart := s_uart s <| u_rx_valid := false |> |>).
Proof. rewrite soc_read_reg by done. unfold counted. by destruct s. Qed.

Lemma write_uart_ctrl v :
  soc_write s VLAB_UART_CTRL v = (SOC_OK, counted s <| s_uart := s_uart s <| u_ctrl := v |> |>).
Proof. rewrite soc_write_reg by done. unfold counted. by destruct s. Qed.

Lemma write_uart_bauddiv v :
  soc_write s VLAB_UART_BAUDDIV v = (SOC_OK, counted s <| s_uart := s_uart s <| u_bauddiv := v |> |>).
Proof. rewrite soc_write_reg by done. unfold counted. by destruct s. Qed.

Lemma write_uart_txdata v :
  Z.testbit (u_ctrl (s_uart s)) 0 = true ->
  soc_write s VLAB_UART_TXDATA v =
    (SOC_OK, counted s <| s_uart := s_uart s <| u_txdata := Z.land v 0xFF |>
       <| u_busy := if 0 <? u_latency_ticks (s_uart s)
                    then i32 (u_latency_ticks (s_uart s)) else 1 |> |>).
Proof.
  intros He. rewrite soc_write_reg by done. change (vlab_window VLAB_UART_TXDATA) with 2.
  unfold soc_write_at. cbn [Z.eqb Pos.eqb].
  change (u32 (VLAB_UART_TXDATA - SOC_UART_BASE)) with SOC_UART_TXDATA_OFF.
  unfold soc_uart_write. rewrite Z.eqb_refl, tst_uart_enable.
  change (s_uart (counted s)) with (s_uart s). rewrite He. by destruct s.
Qed.

Lemma write_timer_load v :
  soc_write s VLAB_TIMER_LOAD v = (SOC_OK, counted s <| s_timer := s_timer s <| tm_load := v |> |>).
Proof. rewrite soc_write_reg by done. unfold counted. by destruct s. Qed.

Lemma write_timer_ctrl v :
  soc_write s VLAB_TIMER_CTRL v =
    (SOC_OK, counted s <| s_timer := snd (soc_timer_write (s_timer s) SOC_TIMER_CTRL_OFF v) |>).
Proof. rewrite soc_write_reg by done. unfold counted. by destruct s. Qed.

Lemma read_timer_irq_status :
  soc_read s VLAB_TIMER_IRQ_STATUS = (Ok (tm_irq_status (s_timer s)), counted s).
Proof. rewrite soc_read_reg by done. unfold counted. by destruct s. Qed.

End Registers.

(** * Devices under the system clock

    Whatever the other components do, the UART's byte machine and the timer
    move as they do alone. *)

Record uart_core_t : Set := Mk_uart_core {
  co_busy : Z; co_stuck : bool; co_tx : Z; co_rx : Z; co_valid : bool
}.

Definition uart_core (u : soc_uart_t) : uart_core_t :=
  Mk_uart_core (u_busy u) (u_fault_stuck_busy u) (u_txdata u) (u_rxdata u) (u_rx_valid u).

Definition core_step (c : uart_core_t) : uart_core_t :=
  if (0 <? co_busy c) && negb (co_stuck c) then
    if co_busy c =? 1 then Mk_uart_core 0 false (co_tx c) (co_tx c) true
    else Mk_uart_core (co_busy c - 1) false (co_tx c) (co_rx c) (co_valid c)
  else c.

(** [n] turns of the byte machine in closed form. *)
Lemma core_steps n c :
  co_stuck c = false ->
  Nat.iter n core_step c =
    if (0 <? co_busy c) && (co_busy c <=? Z.of_nat n)
    then Mk_uart_core 0 false (co_tx c) (co_tx c) true
    else if 0 <? co_busy c
         then Mk_uart_core (co_busy c - Z.of_nat n) false (co_tx c) (co_rx c) (co_valid c)
         else c.
Proof.
  intros Hf. induction n as [|n IH].
  - change (Z.of_nat 0) with 0. destruct c as [b f t r v]; simpl in *; subst.
    destruct (Z.ltb_spec 0 b); [|done]. destruct (Z.leb_spec b 0); [lia|]. simpl. f_equal. lia.
  - rewrite Nat.iter_succ, IH. destruct c as [b f t r v]; simpl in *; subst.
    destruct (Z.ltb_spec 0 b); cbn [andb].
    + destruct (Z.leb_spec b (Z.of_nat n)), (Z.leb_spec b (Z.of_nat (S n))); try lia; [done| |];
        unfold core_step; simpl; destruct (Z.ltb_spec 0 (b - Z.of_nat n)); try lia; cbn [andb];
        destruct (Z.eqb_spec (b - Z.of_nat n) 1); try lia; f_equal; lia.
    + unfold core_step. simpl. destruct (Z.ltb_spec 0 b); [lia|done].
Qed.

Lemma append_core u payload : uart_core (soc_uart_dma_tx_append u payload) = uart_core u.
Proof. unfold soc_uart_dma_tx_append. by case_switch. Qed.

Lemma drain_core u len : uart_core (snd (soc_uart_dma_rx_drain u len)) = uart_core u.
Proof. unfold soc_uart_dma_rx_drain. by case_switch. Qed.

Lemma uart_step_core u ic : uart_core (fst (soc_uart_step u ic)) = core_step (uart_core u).
Proof.
  rewrite soc_uart_step_cases. unfold core_step. simpl.
  destruct (0 <? u_busy u); cbn [andb]; [|done].
  destruct (u_fault_stuck_busy u) eqn:Hf; cbn [negb]; [done|].
  destruct (u_busy u =? 1); cbn [fst].
  - unfold uart_completed. rewrite append_core. unfold uart_core. simpl. by rewrite Hf.
  - unfold uart_core. simpl. by rewrite Hf.
Qed.

#[export] Instance uart_core_frame : StreamFrame uart_core :=
  {| frame_append := append_core; frame_drain := drain_core |}.

(** The settings software gives the UART. *)
Definition uart_setup (u : soc_uart_t) : Z * Z := (u_ctrl u, u_latency_ticks u).

#[export] Instance uart_setup_frame : StreamFrame uart_setup.
Proof. split; intros; unfold soc_uart_dma_tx_append, soc_uart_dma_rx_drain; by case_switch. Qed.

Lemma uart_step_setup u ic : uart_setup (fst (soc_uart_step u ic)) = uart_setup u.
Proof.
  rewrite soc_uart_step_cases. unfold uart_completed.
  case_switch; simpl; rewrite ?(frame_append (f := uart_setup)); done.
Qed.

Lemma timer_step_intc t ic ic' : fst (soc_timer_step t ic) = fst (soc_timer_step t ic').
Proof. unfold soc_timer_step. by case_switch. Qed.

Section Devices.

Variable malloc_ok : Z -> Z -> bool.

Lemma soc_tick_devices s ic0 :
  uart_core (s_uart (soc_tick malloc_ok s)) = core_step (uart_core (s_uart s)) /\
  uart_setup (s_uart (soc_tick malloc_ok s)) = uart_setup (s_uart s) /\
  s_timer (soc_tick malloc_ok s) = fst (soc_timer_step (s_timer s) ic0).
Proof.
  pose proof (uart_step_setup (s_uart s) (s_intc s)) as Hs.
  pose proof (uart_step_core (s_uart s) (s_intc s)) as Hc.
  destruct (soc_uart_step (s_uart s) (s_intc s)) as [u ic1] eqn:Hu.
  pose proof (timer_step_intc (s_timer s) ic1 ic0) as Ht0.
  destruct (soc_timer_step (s_timer s) ic1) as [t ic2] eqn:Ht.
  destruct (soc_dma_step (malloc_ok (u32 (s_ticks s + 1))) (s_dma s) ic2
    (soc_perf_tick (s_perf s)) (Mk_soc_dma_ctx u (s_sram s))) as [[[d ic3] perf] ctx] eqn:Hd.
  rewrite (soc_tick_eq malloc_ok s _ _ _ _ _ _ _ _ Hu Ht Hd). cbn [s_uart s_timer fst] in *.
  rewrite (dma_step_uart_frame uart_core _ _ _ _ _ _ _ _ _ Hd).
  by rewrite (dma_step_uart_frame uart_setup _ _ _ _ _ _ _ _ _ Hd).
Qed.

Lemma soc_step_uart_core s n :
  uart_core (s_uart (soc_step malloc_ok s n)) = Nat.iter n core_step (uart_core (s_uart s)).
Proof.
  induction n as [|n IH]; [done|].
  change (soc_step malloc_ok s (S n)) with (soc_tick malloc_ok (soc_step malloc_ok s n)).
  destruct (soc_tick_devices (soc_step malloc_ok s n) (s_intc s)) as [-> _]. by rewrite IH.
Qed.

Lemma soc_step_uart_setup s n : uart_setup (s_uart (soc_step malloc_ok s n)) = uart_setup (s_uart s).
Proof.
  apply (soc_step_ind malloc_ok (fun s' => uart_setup (s_uart s') = uart_setup (s_uart s))); [|done].
  intros s' H. destruct (soc_tick_devices s' (s_intc s')) as (_ & -> & _). exact H.
Qed.

Lemma soc_step_timer s n ic0 :
  s_timer (soc_step malloc_ok s n) = fst (timer_steps n (s_timer s) ic0).
Proof.
  induction n as [|n IH]; [done|].
  change (soc_step malloc_ok s (S n)) with (soc_tick malloc_ok (soc_step malloc_ok s n)).
  change (timer_steps (S n) (s_timer s) ic0) with
    (soc_timer_step (fst (timer_steps n (s_timer s) ic0)) (snd (timer_steps n (s_timer s) ic0))).
  destruct (soc_tick_devices (soc_step malloc_ok s n) (snd (timer_steps n (s_timer s) ic0)))
    as (_ & _ & ->). by rewrite IH.
Qed.

End Devices.

(** * The UART driver *)

Lemma status_tx_empty u :
  tst (soc_uart_status u) VLAB_UART_STATUS_TX_EMPTY = negb (0 <? u_busy u).
Proof. unfold soc_uart_status. by destruct (0 <? u_busy u), (u_rx_valid u). Qed.

Lemma status_rx_valid u : tst (soc_uart_status u) VLAB_UART_STATUS_RX_VALID = u_rx_valid u.
Proof. unfold soc_uart_status. by destruct (0 <? u_busy u), (u_rx_valid u). Qed.

Lemma ready_counted m : ready m -> ready (with_soc m (counted (soc_of m))).
Proof. intros Hm. apply ready_with_soc; [done|]. apply counted_wf, Hm. Qed.

Lemma hal_read_uart_status m :
  ready m ->
  hal_read_reg VLAB_UART_STATUS m =
    (soc_uart_status (s_uart (soc_of m)), with_soc m (counted (soc_of m))).
Proof. intros Hm. rewrite hal_read_ready, read_uart_status by (done || apply Hm). done. Qed.

Lemma uart_poll_idle fuel i m :
  ready m -> u_busy (s_uart (soc_of m)) <= 0 ->
  uart_poll (S fuel) i m = (true, with_soc m (counted (soc_of m))).
Proof.
  intros Hm Hb. simpl. unfold mbind. rewrite hal_read_uart_status, status_tx_empty by done.
  by destruct (Z.ltb_spec 0 (u_busy (s_uart (soc_of m)))); [lia|].
Qed.

Lemma uart_poll_busy fuel i m :
  ready m -> 0 < u_busy (s_uart (soc_of m)) -> i + Z.of_nat (S fuel) = 1000 ->
  exists m', uart_poll (S fuel) i m = (false, m') /\ ready m' /\
             only_counted (soc_of m) (soc_of m').
Proof.
  revert i m. induction fuel as [|fuel IH]; intros i m Hm Hb Hi.
  - exists (with_soc m (counted (soc_of m))). simpl. unfold mbind.
    rewrite hal_read_uart_status, status_tx_empty by done.
    rewrite (proj2 (Z.ltb_lt _ _) Hb). destruct (Z.eqb_spec i 999); [|lia].
    split; [done|]. split; [by apply ready_counted|].
    apply only_counted_step, only_counted_refl.
  - change (uart_poll (S (S fuel)) i m) with
      (mbind (hal_read_reg VLAB_UART_STATUS) (fun st =>
         if tst st VLAB_UART_STATUS_TX_EMPTY then mret true
         else if i =? 999 then mret false else uart_poll (S fuel) (i + 1)) m).
    unfold mbind. rewrite hal_read_uart_status, status_tx_empty by done.
    rewrite (proj2 (Z.ltb_lt _ _) Hb). destruct (Z.eqb_spec i 999); [lia|]. cbn [negb].
    destruct (IH (i + 1) (with_soc m (counted (soc_of m)))) as (m' & -> & Hm' & [p Hp]);
      [by apply ready_counted|done|lia|].
    exists m'. split_and!; [done|done|]. exists p. rewrite Hp. by destruct m as [[[] ?]].
Qed.

(** A busy UART times the driver out. *)
Lemma uart_write_byte_busy m b :
  ready m -> Z.testbit (u_ctrl (s_uart (soc_of m))) 0 = true -> 0 < u_busy (s_uart (soc_of m)) ->
  exists m', uart_write_byte b m = (VLAB_UART_ERR_TIMEOUT, m') /\ ready m' /\
             only_counted (soc_of m) (soc_of m').
Proof.
  intros Hm He Hb. unfold uart_write_byte, mbind.
  rewrite hal_read_ready, read_uart_ctrl by (done || apply Hm). cbn [fst snd].
  change VLAB_UART_CTRL_ENABLE with SOC_UART_CTRL_ENABLE. rewrite tst_uart_enable, He. cbn [negb].
  change (Z.to_nat 1000) with (S 999).
  destruct (uart_poll_busy 999 0 (with_soc m (counted (soc_of m)))) as (m' & -> & H' & [p Hp]);
    [by apply ready_counted|done|done|].
  exists m'. split; [done|]. split; [done|]. exists p. rewrite Hp. by destruct m as [[[] ?]].
Qed.

(** C35. A byte written while the UART is disabled, or still busy when the 1000
    polls are over, is refused with the documented status and not queued: the
    machine only counted the accesses. *)
Theorem uart_write_byte_refused m b :
  ready m ->
  (Z.testbit (u_ctrl (s_uart (soc_of m))) 0 = false \/ 0 < u_busy (s_uart (soc_of m))) ->
  let '(rc, m') := uart_write_byte b m in
  rc = (if Z.testbit (u_ctrl (s_uart (soc_of m))) 0
        then VLAB_UART_ERR_TIMEOUT else VLAB_UART_ERR_DISABLED) /\
  only_counted (soc_of m) (soc_of m').
Proof.
  intros Hm Hno. destruct (Z.testbit (u_ctrl (s_uart (soc_of m))) 0) eqn:He.
  - destruct Hno as [|Hb]; [done|].
    by destruct (uart_write_byte_busy m b Hm He Hb) as (m' & -> & _ & Hc).
  - unfold uart_write_byte, mbind. rewrite hal_read_ready, read_uart_ctrl by (done || apply Hm).
    cbn [fst snd]. change VLAB_UART_CTRL_ENABLE with SOC_UART_CTRL_ENABLE.
    rewrite tst_uart_enable, He. split; [done|]. apply only_counted_step, only_counted_refl.
Qed.

Lemma uart_write_byte_refused_witness :
  fst (uart_write_byte 0x48 machine_default) = VLAB_UART_ERR_DISABLED.
Proof.
  pose proof (uart_write_byte_refused machine_default 0x48 machine_default_ready ltac:(by left)) as H.
  destruct (uart_write_byte 0x48 machine_default) as [rc m']. apply H.
Defined.

(** The UART with a byte on its way. *)
Definition uart_sending (u : soc_uart_t) (b : Z) : soc_uart_t :=
  u <| u_txdata := b |>
    <| u_busy := if 0 <? u_latency_ticks u then i32 (u_latency_ticks u) else 1 |>.

(** The successful write, on an enabled and idle UART: three accesses. *)
Lemma uart_write_byte_accepted m b :
  ready m -> Z.testbit (u_ctrl (s_uart (soc_of m))) 0 = true ->
  u_busy (s_uart (soc_of m)) <= 0 -> is_byte b ->
  let m' := with_soc m (counted (counted (counted (soc_of m)))
                          <| s_uart := uart_sending (s_uart (soc_of m)) b |>) in
  uart_write_byte b m = (VLAB_UART_OK, m') /\ ready m'.
Proof.
  intros Hm He Hb Hbyte. cbv zeta. unfold uart_write_byte, mbind.
  rewrite hal_read_ready, read_uart_ctrl by (done || apply Hm). cbn [fst snd].
  change VLAB_UART_CTRL_ENABLE with SOC_UART_CTRL_ENABLE. rewrite tst_uart_enable, He. cbn [negb].
  change (Z.to_nat 1000) with (S 999). set (m1 := with_soc m (counted (soc_of m))).
  assert (ready m1) as Hm1 by by apply ready_counted.
  rewrite uart_poll_idle by done. cbn [negb]. set (m2 := with_soc m1 (counted (soc_of m1))).
  assert (ready m2) as Hm2 by by apply ready_counted.
  destruct (hal_write_reg VLAB_UART_TXDATA b m2) as [t m3] eqn:E.
  assert (ready m3) as Hm3
    by (apply (hal_write_preserves _ _ _ _ _ Hm2) in E; [done|unfold is_byte, is_u32, two32 in *; lia]).
  rewrite hal_write_ready, write_uart_txdata in E by (done || apply Hm2). injection E as _ <-.
  cbn [snd] in *. revert Hm3. unfold m2, m1, uart_sending. rewrite !soc_of_with_soc.
  assert (Z.land b 0xFF = b) as ->.
  { change 0xFF with (Z.ones 8). rewrite Z.land_ones by done. by apply Z.mod_small. }
  change (s_uart (counted ?x)) with (s_uart x).
  generalize (counted (counted (counted (soc_of m)))). intros s3. by destruct m, s3.
Qed.

Section Programs.

Variable malloc_ok : Z -> Z -> bool.

(** C34. A byte through the driver and the model: written to an enabled, idle UART
    it is not readable before the latency has passed and is read back, once,
    from then on; whatever else the machine does meanwhile. *)
Theorem uart_driver_roundtrip m b n :
  let u := s_uart (soc_of m) in
  ready m -> Z.testbit (u_ctrl u) 0 = true -> u_busy u <= 0 -> u_rx_valid u = false ->
  u_fault_stuck_busy u = false -> u_latency_ticks u < 0x80000000 -> is_byte b ->
  let '(rc, m1) := uart_write_byte b m in
  let '(_, m2) := soc_host_step malloc_ok n m1 in
  let '(r, m3) := uart_read_byte m2 in
  rc = VLAB_UART_OK /\
  if Z.of_nat n <? Z.max 1 (u_latency_ticks u) then r = Err VLAB_UART_ERR_TIMEOUT
  else r = Ok b /\ fst (uart_read_byte m3) = Err VLAB_UART_ERR_TIMEOUT.
Proof.
  cbv zeta. intros Hm He Hb Hv Hf Hl Hbyte.
  destruct (uart_write_byte_accepted m b Hm He Hb Hbyte) as [-> Hm1]. set (m1 := with_soc m _) in *.
  assert (s_uart (soc_of m1) = uart_sending (s_uart (soc_of m)) b) as Hu1 by done. clearbody m1.
  rewrite host_step_ready by done. set (m2 := with_soc m1 _).
  assert (ready m2) as Hm2 by (apply ready_with_soc; [done|apply soc_step_wf, Hm1]).
  set (latency := Z.max 1 (u_latency_ticks (s_uart (soc_of m)))).
  pose proof (uwf_latency _ (swf_uart _ (proj2 Hm))) as Hlu.
  assert (uart_core (s_uart (soc_of m1)) =
    Mk_uart_core latency false b (u_rxdata (s_uart (soc_of m))) false) as Hc.
  { rewrite Hu1. unfold uart_core, uart_sending, latency. cbn -[i32].
    change (u_fault_stuck_busy (_ <| u_busy := _ |>)) with (u_fault_stuck_busy (s_uart (soc_of m))).
    rewrite Hf, Hv. f_equal. unfold is_u32 in Hlu.
    destruct (Z.ltb_spec 0 (u_latency_ticks (s_uart (soc_of m)))); [rewrite i32_small; lia|lia]. }
  pose proof (soc_step_uart_core malloc_ok (soc_of m1) n) as Hn.
  rewrite Hc, core_steps in Hn by done. cbn [co_busy co_tx co_rx co_valid] in Hn.
  change (soc_step malloc_ok (soc_of m1) n) with (soc_of m2) in Hn.
  rewrite (proj2 (Z.ltb_lt 0 latency)) in Hn by lia. cbn [andb] in Hn.
  unfold uart_read_byte at 1, mbind at 1. rewrite hal_read_uart_status, status_rx_valid by done.
  destruct (Z.ltb_spec (Z.of_nat n) latency) as [Hlt|Hge].
  - rewrite (proj2 (Z.leb_gt _ _)) in Hn by done. injection Hn as _ _ _ _ ->. done.
  - rewrite (proj2 (Z.leb_le _ _)) in Hn by done. injection Hn as Hb2 _ _ Hr2 ->. cbn [negb].
    set (m3 := with_soc m2 (counted (soc_of m2))). assert (ready m3) as Hm3 by by apply ready_counted.
    unfold mbind. rewrite hal_read_ready, read_uart_rxdata by (done || apply Hm3). cbn [fst snd].
    change (s_uart (soc_of m3)) with (s_uart (soc_of m2)). rewrite Hr2.
    set (m4 := with_soc m3 _). assert (ready m4) as Hm4.
    { apply ready_with_soc; [done|].
      pose proof (soc_read_wf (soc_of m3) VLAB_UART_RXDATA (proj2 Hm3)) as Hw.
      by rewrite read_uart_rxdata in Hw by apply Hm3. }
    split; [done|]. split.
    + unfold mret. cbn [fst]. change 0xFF with (Z.ones 8). rewrite !Z.land_ones by done.
      rewrite Z.mod_mod by done. by rewrite Z.mod_small.
    + unfold uart_read_byte, mbind. by rewrite hal_read_uart_status, status_rx_valid by done.
Qed.

(** * The timer driver *)

Lemma timer_ctrl_bits (periodic irq_enable : bool) :
  let ctrl := Z.lor (Z.lor TIMER_ENABLE (if periodic then TIMER_PERIODIC else 0))
                    (if irq_enable then TIMER_IRQ_EN else 0) in
  is_u32 ctrl /\ Z.testbit ctrl 0 = true /\ Z.testbit ctrl 1 = periodic /\
  Z.testbit ctrl 2 = irq_enable.
Proof. by destruct periodic, irq_enable. Qed.

(** Two accesses, and the timer programmed. *)
Lemma timer_start_ready m load (periodic irq_enable : bool) :
  ready m -> is_u32 load -> load <> 0 ->
  let t := timer_program (s_timer (soc_of m)) load
             (Z.lor (Z.lor TIMER_ENABLE (if periodic then TIMER_PERIODIC else 0))
                    (if irq_enable then TIMER_IRQ_EN else 0)) in
  let m' := with_soc m (counted (counted (soc_of m)) <| s_timer := t |>) in
  timer_start load periodic irq_enable m = (0, m') /\ ready m'.
Proof.
  intros Hm Hl Hne. cbv zeta. unfold timer_start. rewrite (proj2 (Z.eqb_neq _ _) Hne). unfold mbind.
  destruct (timer_ctrl_bits periodic irq_enable) as [Hcu _]. cbv zeta in Hcu.
  set (ctrl := Z.lor (Z.lor _ _) _) in *.
  destruct (hal_write_reg VLAB_TIMER_LOAD load m) as [t1 m1] eqn:E1.
  assert (ready m1) as Hm1 by by apply (hal_write_preserves _ _ _ _ _ Hm Hl E1).
  rewrite hal_write_ready, write_timer_load in E1 by (done || apply Hm). injection E1 as _ <-.
  destruct (hal_write_reg VLAB_TIMER_CTRL ctrl _) as [t2 m2] eqn:E2.
  assert (ready m2) as Hm2 by by apply (hal_write_preserves _ _ _ _ _ Hm1 Hcu E2).
  rewrite hal_write_ready, write_timer_ctrl in E2 by (done || apply Hm1). injection E2 as _ <-.
  cbn [snd] in *. revert Hm2. rewrite !soc_of_with_soc. unfold timer_program.
  generalize (counted (soc_of m)). intros s1. by destruct m, s1.
Qed.

(** A one-shot programmed on a stopped, cleared timer fires at [load]. *)
Lemma timer_armed_fires t s load (irq_enable : bool) n :
  timer_wf t -> is_u32 load -> load <> 0 ->
  Z.testbit (tm_ctrl t) 0 = false -> tm_value t = 0 -> Z.testbit (tm_irq_status t) 0 = false ->
  s_timer s = timer_program t load (Z.lor (Z.lor TIMER_ENABLE 0) (if irq_enable then TIMER_IRQ_EN else 0)) ->
  Z.testbit (tm_irq_status (s_timer (soc_step malloc_ok s n))) 0 = (load <=? Z.of_nat n).
Proof.
  intros Hwf0 Hl Hne Hd Hv Hst Ht1. rewrite (soc_step_timer malloc_ok s n (s_intc s)), Ht1.
  destruct (timer_ctrl_bits false irq_enable) as (Hcu & Hc0 & Hc1 & _). cbv zeta in *.
  set (ctrl := Z.lor (Z.lor _ _) _) in *.
  pose proof (timer_program_wf t load ctrl Hwf0 Hl Hcu) as Hwf.
  rewrite timer_program_disabled in Hwf |- * by done. rewrite Hv in Hwf |- *. unfold is_u32 in Hl.
  rewrite timer_oneshot_steps; [|exact Hwf|exact Hc0|exact Hc1|exact Hne|simpl; lia].
  change (tm_value (_ <| tm_value := ?x |>)) with x. rewrite Z.eqb_refl.
  rewrite Z.leb_antisym. destruct (Z.ltb_spec (Z.of_nat n) load); cbn [fst negb].
  - exact Hst.
  - assert (forall t, Z.testbit (tm_irq_status (timer_fired_state t)) 0 = true) as Hfired.
    { intros t'. unfold timer_fired_state. cbv zeta.
      destruct (Z.testbit (tm_ctrl _) 1); simpl; by rewrite Z.lor_spec, orb_true_r. }
    apply Hfired.
Qed.

Lemma timer_fired_ready m :
  ready m ->
  timer_fired m = (Z.testbit (tm_irq_status (s_timer (soc_of m))) 0, with_soc m (counted (soc_of m))).
Proof.
  intros Hm. unfold timer_fired, mbind. rewrite hal_read_ready, read_timer_irq_status by (done || apply Hm).
  cbn [fst snd mret]. by rewrite tst_timer_fired.
Qed.

(** C36. A one-shot timer armed on a stopped, cleared timer reads as fired from the
    programmed tick on and not before, whatever else the machine does. *)
Theorem timer_driver_oneshot m load irq_enable n :
  let t := s_timer (soc_of m) in
  ready m -> is_u32 load -> load <> 0 ->
  Z.testbit (tm_ctrl t) 0 = false -> tm_value t = 0 -> Z.testbit (tm_irq_status t) 0 = false ->
  let '(rc, m1) := timer_start load false irq_enable m in
  let '(_, m2) := soc_host_step malloc_ok n m1 in
  rc = 0 /\ fst (timer_fired m2) = (load <=? Z.of_nat n).
Proof.
  cbv zeta. intros Hm Hl Hne Hd Hv Hst. destruct (timer_start_ready m load false irq_enable Hm Hl Hne) as [-> Hm1].
  set (m1 := with_soc m _) in *.
  assert (s_timer (soc_of m1) = timer_program (s_timer (soc_of m)) load
    (Z.lor (Z.lor TIMER_ENABLE 0) (if irq_enable then TIMER_IRQ_EN else 0))) as Ht1 by done.
  clearbody m1.
  rewrite host_step_ready by done. set (m2 := with_soc m1 _).
  assert (ready m2) as Hm2 by (apply ready_with_soc; [done|apply soc_step_wf, Hm1]).
  split; [done|]. rewrite timer_fired_ready by done. cbn [fst].
  by apply (timer_armed_fires (s_timer (soc_of m)) _ _ irq_enable); [apply Hm|..].
Qed.

End Programs.

Lemma uart_driver_roundtrip_witness :
  let malloc_ok (_ _ : Z) := true in
  let s := soc_of machine_default in
  let m := with_soc machine_default (s <| s_uart := s_uart s <| u_ctrl := 1 |> |>) in
  let '(_, m1) := uart_write_byte 0x48 m in
  let '(_, m2) := soc_host_step malloc_ok 5 m1 in
  fst (uart_read_byte m2) = Ok 0x48.
Proof.
  cbv zeta. set (m := with_soc _ _).
  assert (ready m) as Hm.
  { apply ready_with_soc; [apply machine_default_ready|].
    apply soc_wf_uart_ctrl; [apply machine_default_ready|done]. }
  pose proof (uart_driver_roundtrip (fun _ _ => true) m 0x48 5 Hm ltac:(done) ltac:(done)
    ltac:(done) ltac:(done) ltac:(done) ltac:(done)) as H.
  destruct (uart_write_byte 0x48 m) as [rc m1]. destruct (soc_host_step _ 5 m1) as [? m2].
  destruct (uart_read_byte m2) as [r m3]. destruct H as [_ [-> _]]. done.
Defined.

Lemma timer_driver_oneshot_witness :
  let malloc_ok (_ _ : Z) := true in
  let m1 := snd (timer_start 100 false true machine_default) in
  fst (timer_fired (snd (soc_host_step malloc_ok 99 m1))) = false /\
  fst (timer_fired (snd (soc_host_step malloc_ok 100 m1))) = true.
Proof.
  pose proof (fun n => timer_driver_oneshot (fun _ _ => true) machine_default 100 true n
    machine_default_ready ltac:(done) ltac:(done) ltac:(done) ltac:(done) ltac:(done)) as H.
  cbv zeta in H |- *. destruct (timer_start 100 false true machine_default) as [rc m1]. cbn [snd].
  split; [pose proof (H 99%nat) as Hn|pose proof (H 100%nat) as Hn];
    destruct (soc_host_step _ _ m1) as [? m2]; apply Hn.
Defined.
