(* ===== verification/DrvDma.v ===== *)
(** DMA driver: [firmware/drivers/dma.c].

    The driver keeps a copy of the platform configuration and validates a
    request before it touches the engine; [dma_submit], [dma_isr] and
    [dma_recover] run the interrupt-driven life cycle.  The theorems: the
    driver and the engine judge a request alike, each with the verdict this
    platform gives, so a request the driver starts is never refused by the
    engine; and a submission starts the engine or changes nothing but counters.  Lifecycle.v follows it
    to its end. *)

From S2P Require Import Prelude Regions DmaCaps Platform Memory Perf Intc Timer Uart.
From S2P Require Import DmaSpec Dma Soc SocBus SocClock SocCount Hal Drivers.

Local Open Scope c_scope.

Definition VLAB_DMA_OK : Z := 0.
Definition VLAB_DMA_ERR_ADDR : Z := -1.
Definition VLAB_DMA_ERR_ALIGN : Z := -2.
Definition VLAB_DMA_ERR_LEN : Z := -3.
Definition VLAB_DMA_ERR_BUSY : Z := -4.
Definition VLAB_DMA_ERR_UNSUPPORTED : Z := -5.

(** The driver's endpoint kinds; [EP_PERIPH] carries the entry found. *)
Inductive ep_kind_t : Type :=
| EP_INVALID
| EP_MEM
| EP_PERIPH (ep : dma_periph_ep)
| EP_INCAPABLE.

Definition classify_endpoint (d : dma_driver_t) (addr len : Z) : ep_kind_t :=
  match dma_periph_find (s_periphs d) addr with
  | Some ep => EP_PERIPH ep
  | None =>
      match find_region (s_map d) addr len with
      | None => EP_INVALID
      | Some r =>
          match mr_type r with
          | MEM_TYPE_SRAM | MEM_TYPE_DRAM => EP_MEM
          | _ => EP_INCAPABLE
          end
      end
  end.

(** The type test of [validate] for one endpoint kind. *)
Definition ep_kind_type (k : ep_kind_t) : Z :=
  match k with EP_MEM => DMA_ADDR_MEM | _ => DMA_ADDR_PERIPHERAL end.

(** [validate] from its first line without bus traffic on. *)
Definition validate_request (d : dma_driver_t) (src dst len : Z) : Z :=
  let align := match s_caps d with
               | Some c => if 1 <? cap_alignment c then cap_alignment c else 1
               | None => 1
               end in
  if (len =? 0) || ((1 <? align) && negb (len mod align =? 0)) then VLAB_DMA_ERR_LEN
  else if (1 <? align) && (negb (src mod align =? 0) || negb (dst mod align =? 0)) then
    VLAB_DMA_ERR_ALIGN
  else if match s_caps d with
          | Some c => negb (cap_max_transfer c =? 0) && (cap_max_transfer c <? len)
          | None => false
          end then VLAB_DMA_ERR_UNSUPPORTED
  else
    let direction src_type dst_type :=
      match s_caps d with
      | Some c => if negb (dma_direction_supported (Some c) src_type dst_type)
                  then VLAB_DMA_ERR_UNSUPPORTED else VLAB_DMA_OK
      | None => VLAB_DMA_OK
      end in
    match s_periphs d with
    | Some _ =>
        let s_kind := classify_endpoint d src len in
        let d_kind := classify_endpoint d dst len in
        match s_kind, d_kind with
        | EP_INVALID, _ | _, EP_INVALID => VLAB_DMA_ERR_ADDR
        | EP_INCAPABLE, _ | _, EP_INCAPABLE => VLAB_DMA_ERR_UNSUPPORTED
        | _, _ =>
            if match s_kind with EP_PERIPH e => negb (tst (ep_roles e) DMA_EP_SRC) | _ => false end
            then VLAB_DMA_ERR_UNSUPPORTED
            else if match d_kind with EP_PERIPH e => negb (tst (ep_roles e) DMA_EP_DST) | _ => false end
            then VLAB_DMA_ERR_UNSUPPORTED
            else direction (ep_kind_type s_kind) (ep_kind_type d_kind)
        end
    | None =>
        let src_type := dma_endpoint_type (s_map d) src len in
        let dst_type := dma_endpoint_type (s_map d) dst len in
        if (src_type <? 0) || (dst_type <? 0) then VLAB_DMA_ERR_ADDR
        else direction src_type dst_type
    end.

Definition validate (src dst len : Z) : M machine Z :=
  st <- hal_read_reg VLAB_DMA_STATUS ;;
  if tst st VLAB_DMA_STATUS_BUSY then mret VLAB_DMA_ERR_BUSY
  else m <- mget ;; mret (validate_request (drv m) src dst len).

Definition set_drv (f : dma_driver_t -> dma_driver_t) : M machine unit :=
  mmodify (fun m => m <| drv := f (drv m) |>).

Definition dma_init : M machine unit :=
  set_drv (fun d => d <| s_map := Some vlab_memory_map |> <| s_caps := Some vlab_dma_caps |>
                      <| s_periphs := Some vlab_dma_periph_eps |>).

Definition dma_configure (map : option (list memory_region)) (caps : option dma_caps)
  : M machine unit :=
  set_drv (fun d =>
    let d := match map with Some (r :: map') => d <| s_map := Some (r :: map') |> | _ => d end in
    match caps with Some c => d <| s_caps := Some c |> | None => d end).

Definition dma_configure_periph (eps : option (list dma_periph_ep)) : M machine unit :=
  set_drv (fun d => d <| s_periphs := eps |>).

(** The four register writes [dma_start] and [dma_submit] share. *)
Definition dma_program (src dst len : Z) (irq_enable : bool) : M machine unit :=
  hal_write_reg VLAB_DMA_SRC src ;;;
  hal_write_reg VLAB_DMA_DST dst ;;;
  hal_write_reg VLAB_DMA_LEN len ;;;
  hal_write_reg VLAB_DMA_CTRL
    (Z.lor VLAB_DMA_CTRL_START (if irq_enable then VLAB_DMA_CTRL_IRQ_ENABLE else 0)).

Definition dma_start (src dst len : Z) (irq_enable : bool) : M machine Z :=
  rc <- validate src dst len ;;
  if negb (rc =? VLAB_DMA_OK) then mret rc
  else dma_program src dst len irq_enable ;;; mret VLAB_DMA_OK.

Definition dma_status : M machine Z := hal_read_reg VLAB_DMA_STATUS.

Definition dma_clear : M machine unit := hal_write_reg VLAB_DMA_IRQ_CLEAR 1.

Definition dma_err_code : M machine Z := hal_read_reg VLAB_DMA_ERR_CODE.

Definition dma_submit (src dst len : Z) (irq_enable : bool) : M machine Z :=
  key <- hal_irq_disable ;;
  m <- mget ;;
  if negb (bool_decide (s_state (drv m) = DMA_S_IDLE)) then
    hal_irq_restore key ;;; mret VLAB_DMA_ERR_BUSY
  else
    set_drv (fun d => d <| s_state := DMA_S_STARTING |>) ;;;
    rc <- validate src dst len ;;
    if negb (rc =? VLAB_DMA_OK) then
      set_drv (fun d => d <| s_state := DMA_S_IDLE |>) ;;;
      hal_irq_restore key ;;; mret rc
    else
      set_drv (fun d => d <| s_done_flag := 0 |> <| s_err_latch := 0 |>) ;;;
      dma_program src dst len irq_enable ;;;
      set_drv (fun d => d <| s_state := DMA_S_ACTIVE |>) ;;;
      hal_irq_restore key ;;;
      mret VLAB_DMA_OK.

Definition dma_state : M machine dma_state_t := m <- mget ;; mret (s_state (drv m)).

Definition dma_is_complete : M machine bool := m <- mget ;; mret (negb (s_done_flag (drv m) =? 0)).

Definition dma_latched_error : M machine Z := m <- mget ;; mret (s_err_latch (drv m)).

Definition dma_irq_count : M machine Z := m <- mget ;; mret (s_irq_count (drv m)).

Definition dma_isr (line : Z) : M machine unit :=
  st <- hal_read_reg VLAB_DMA_STATUS ;;
  (if tst st VLAB_DMA_STATUS_DONE then
     set_drv (fun d => d <| s_done_flag := 1 |> <| s_state := DMA_S_COMPLETE |>)
   else if tst st VLAB_DMA_STATUS_ERROR then
     code <- hal_read_reg VLAB_DMA_ERR_CODE ;;
     set_drv (fun d => d <| s_err_latch := code |> <| s_state := DMA_S_ERROR |>)
   else mret tt) ;;;
  dma_clear ;;;
  intc_clear VLAB_IRQ_DMA ;;;
  set_drv (fun d => d <| s_irq_count := u32 (s_irq_count d + 1) |>).

Definition dma_recover : M machine unit :=
  key <- hal_irq_disable ;;
  m <- mget ;;
  (if bool_decide (s_state (drv m) = DMA_S_ERROR) || bool_decide (s_state (drv m) = DMA_S_COMPLETE) then
     set_drv (fun d => d <| s_state := DMA_S_RECOVERY |>) ;;;
     dma_clear ;;;
     intc_clear VLAB_IRQ_DMA ;;;
     set_drv (fun d => d <| s_done_flag := 0 |> <| s_err_latch := 0 |>
                         <| s_state := DMA_S_IDLE |>)
   else mret tt) ;;;
  hal_irq_restore key.

(** * The driver judges as the engine does *)

Definition driver_code (r : refusal) : Z :=
  match r with
  | BadAddress => VLAB_DMA_ERR_ADDR
  | Misaligned => VLAB_DMA_ERR_ALIGN
  | BadLength => VLAB_DMA_ERR_LEN
  | Unsupported => VLAB_DMA_ERR_UNSUPPORTED
  end.

Definition verdict_code (v : option refusal) : Z :=
  match v with None => VLAB_DMA_OK | Some r => driver_code r end.

Definition kind_endpoint (k : ep_kind_t) : endpoint :=
  match k with
  | EP_INVALID => Unmapped
  | EP_MEM => Mem
  | EP_PERIPH e => Fifo (ep_roles e)
  | EP_INCAPABLE => Incapable
  end.

Lemma classify_endpoint_spec d t addr len :
  s_periphs d = Some t ->
  classify (s_map d) (Some t) addr len = kind_endpoint (classify_endpoint d addr len).
Proof.
  intros Ht. unfold classify, classify_endpoint. rewrite Ht.
  destruct (dma_periph_find (Some t) addr) as [e|]; [done|].
  destruct (find_region (s_map d) addr len) as [r|]; [|done].
  case_decide; destruct (mr_type r); intuition congruence.
Qed.

(** Without a FIFO table the two legacy classifications agree too. *)
Lemma endpoint_type_classify map addr len :
  match classify map None addr len with
  | Unmapped => dma_endpoint_type map addr len = -1
  | Incapable => False
  | Mem => dma_endpoint_type map addr len = DMA_ADDR_MEM
  | Fifo roles => roles = Z.lor DMA_EP_SRC DMA_EP_DST /\
      (dma_endpoint_type map addr len = DMA_ADDR_PERIPHERAL \/
       dma_endpoint_type map addr len = DMA_ADDR_DEVICE)
  end.
Proof.
  unfold classify, dma_endpoint_type. destruct (find_region map addr len) as [r|]; [|done].
  case_decide; destruct (mr_type r); intuition congruence.
Qed.

Lemma validate_request_judge d caps src dst len :
  s_caps d = Some caps ->
  validate_request d src dst len = verdict_code (judge caps (s_map d) (s_periphs d) src dst len).
Proof.
  intros Hc. unfold validate_request, judge. rewrite Hc, aligned_test, misaligned_test.
  cbn [first_failure].
  destruct (len =? 0), (aligned caps len); try done; cbn [orb negb andb].
  destruct (aligned caps src && aligned caps dst); [|done]. cbn [negb].
  rewrite Z.ltb_antisym, <- negb_orb.
  destruct ((cap_max_transfer caps =? 0) || (len <=? cap_max_transfer caps)); [|done]. cbn [negb].
  destruct (s_periphs d) as [t|] eqn:Ht.
  - rewrite !(classify_endpoint_spec d t) by done.
    destruct (classify_endpoint d src len) as [| |es|], (classify_endpoint d dst len) as [| |ed|];
      try done; cbn [kind_endpoint is_unmapped is_incapable orb negb has_role andb ep_kind_type
        direction_ok dma_direction_supported Z.eqb Pos.eqb DMA_ADDR_MEM DMA_ADDR_PERIPHERAL].
    + by destruct (cap_ram_to_ram caps).
    + destruct (tst (ep_roles ed) DMA_EP_DST); [|done]. by destruct (cap_mem_to_periph caps).
    + destruct (tst (ep_roles es) DMA_EP_SRC); [|done]. by destruct (cap_periph_to_mem caps).
    + by destruct (tst (ep_roles es) DMA_EP_SRC), (tst (ep_roles ed) DMA_EP_DST).
  - pose proof (endpoint_type_classify (s_map d) src len) as Hs.
    pose proof (endpoint_type_classify (s_map d) dst len) as Hd.
    destruct (classify (s_map d) None src len) as [| | |rs],
             (classify (s_map d) None dst len) as [| | |rd]; try done;
      repeat match goal with
      | H : _ /\ _ |- _ => destruct H as [-> H]
      | H : _ \/ _ |- _ => destruct H as [H|H]
      end; rewrite Hs, Hd; try done.
    all: cbn; by destruct (cap_ram_to_ram caps), (cap_mem_to_periph caps), (cap_periph_to_mem caps).
Qed.

(** * The driver on the live engine *)

Lemma hal_read_dma_status m :
  ready m ->
  hal_read_reg VLAB_DMA_STATUS m =
    (phase_status (phase (s_dma (soc_of m))), with_soc m (counted (soc_of m))).
Proof. intros Hm. by rewrite hal_read_ready, read_dma_status by (done || apply Hm). Qed.

Lemma status_busy p : tst (phase_status p) VLAB_DMA_STATUS_BUSY = bool_decide (p = Busy).
Proof. by destruct p. Qed.

(** The driver as [dma_init] configures it. *)
Definition drv_vlab (d : dma_driver_t) : Prop :=
  s_map d = Some vlab_memory_map /\ s_caps d = Some vlab_dma_caps /\
  s_periphs d = Some vlab_dma_periph_eps.

(** What the driver answers to a request. *)
Definition driver_answer (s : soc_t) (src dst len : Z) : Z :=
  if bool_decide (phase (s_dma s) = Busy) then VLAB_DMA_ERR_BUSY
  else verdict_code (vlab_judge src dst len).

Lemma validate_ready m src dst len :
  ready m -> drv_vlab (drv m) ->
  validate src dst len m =
    (driver_answer (soc_of m) src dst len, with_soc m (counted (soc_of m))).
Proof.
  intros Hm (E1 & E2 & E3). unfold validate, driver_answer, mbind.
  rewrite hal_read_dma_status, status_busy by done. case_bool_decide; [done|].
  unfold mget, mret. change (drv (with_soc m _)) with (drv m).
  by rewrite (validate_request_judge _ vlab_dma_caps), E1, E3.
Qed.

Lemma driver_answer_ok s src dst len :
  driver_answer s src dst len = VLAB_DMA_OK <->
  phase (s_dma s) <> Busy /\ vlab_judge src dst len = None.
Proof.
  unfold driver_answer. case_bool_decide; [split; [done|tauto]|].
  destruct (vlab_judge src dst len) as [[]|]; naive_solver.
Qed.

Definition start_ctrl (irq_enable : bool) : Z := if irq_enable then 3 else 1.

(** The machine after an accepted request: the engine runs it. *)
Definition dma_submitted (s : soc_t) (src dst len : Z) (irq_enable : bool) : soc_t :=
  soc_dma_launched (soc_dma_program (counted s) src dst len) (start_ctrl irq_enable).

Lemma dma_program_ready m src dst len irq_enable :
  ready m -> phase (s_dma (soc_of m)) <> Busy -> vlab_judge src dst len = None ->
  is_u32 src -> is_u32 dst -> is_u32 len ->
  let s1 := soc_dma_program (soc_of m) src dst len in
  dma_program src dst len irq_enable m = (tt, with_soc m (soc_dma_launched s1 (start_ctrl irq_enable))).
Proof.
  intros Hm Hp Hj Hs Hd Hl. cbv zeta.
  destruct (soc_dma_program_parts (fun _ _ => true) (soc_of m) src dst len) as (Hwf & Ed & _);
    [apply Hm|done..|].
  unfold dma_program, mbind. rewrite hal_write_ready by done.
  set (m1 := with_soc m _). assert (ready m1) as H1 by (apply ready_with_soc; [done|by apply soc_write_wf; [apply Hm|]]).
  rewrite hal_write_ready by done.
  set (m2 := with_soc m1 _). assert (ready m2) as H2 by (apply ready_with_soc; [done|by apply soc_write_wf; [apply H1|]]).
  rewrite hal_write_ready by done.
  set (m3 := with_soc m2 _). assert (ready m3) as H3 by (apply ready_with_soc; [done|by apply soc_write_wf; [apply H2|]]).
  rewrite hal_write_ready by done.
  assert (soc_of m3 = soc_dma_program (soc_of m) src dst len) as Em3
    by (unfold soc_dma_program, m3; rewrite soc_of_with_soc; unfold m2; rewrite soc_of_with_soc;
        unfold m1; rewrite soc_of_with_soc; cbv zeta; reflexivity).
  assert (forall s', with_soc m3 s' = with_soc m s') as Ew by done.
  rewrite Em3, Ew. clear Em3 Ew. clearbody m1 m2 m3.
  assert (Z.lor VLAB_DMA_CTRL_START (if irq_enable then VLAB_DMA_CTRL_IRQ_ENABLE else 0) =
    start_ctrl irq_enable) as -> by by destruct irq_enable.
  rewrite soc_write_dma_launch; [done|done|by rewrite Ed|by rewrite Ed|by destruct irq_enable..].
Qed.

(** [s'] is [s] with the engine busy on this request, and nothing refused. *)
Definition engine_runs (s s' : soc_t) (src dst len : Z) (irq_enable : bool) : Prop :=
  phase (s_dma s') = Busy /\ d_src (s_dma s') = src /\ d_dst (s_dma s') = dst /\
  d_length (s_dma s') = len /\ d_irq_enable_latched (s_dma s') = irq_enable /\
  s_sram s' = s_sram s /\ s_uart s' = s_uart s /\ s_intc s' = s_intc s.

Lemma launched_runs s s1 src dst len irq_enable :
  s_dma s1 = s_dma s <| d_src := src |> <| d_dst := dst |> <| d_length := len |> ->
  s_sram s1 = s_sram s -> s_uart s1 = s_uart s -> s_intc s1 = s_intc s ->
  engine_runs s (soc_dma_launched s1 (start_ctrl irq_enable)) src dst len irq_enable.
Proof.
  intros Ed Em Eu Ei. destruct s1; cbn in Ed, Em, Eu, Ei; subst. by destruct irq_enable.
Qed.

Lemma dma_submitted_runs s src dst len irq_enable :
  soc_wf s -> is_u32 src -> is_u32 dst -> is_u32 len ->
  engine_runs s (dma_submitted s src dst len irq_enable) src dst len irq_enable.
Proof.
  intros Hs H1 H2 H3.
  destruct (soc_dma_program_parts (fun _ _ => true) (counted s) src dst len (counted_wf _ Hs) H1 H2 H3)
    as (_ & Ed & Em & Eu & Ei).
  exact (launched_runs s _ src dst len irq_enable Ed Em Eu Ei).
Qed.

Lemma dma_start_accepted m src dst len irq_enable :
  ready m -> drv_vlab (drv m) -> is_u32 src -> is_u32 dst -> is_u32 len ->
  driver_answer (soc_of m) src dst len = VLAB_DMA_OK ->
  dma_start src dst len irq_enable m =
    (VLAB_DMA_OK, with_soc m (dma_submitted (soc_of m) src dst len irq_enable)).
Proof.
  intros Hm Hd H1 H2 H3 E. unfold dma_start, mbind. rewrite validate_ready, E by done. cbn [negb Z.eqb VLAB_DMA_OK].
  apply driver_answer_ok in E as [Hp Hj].
  by rewrite dma_program_ready by (done || by apply ready_counted).
Qed.

Lemma dma_start_refused m src dst len irq_enable :
  ready m -> drv_vlab (drv m) -> driver_answer (soc_of m) src dst len <> VLAB_DMA_OK ->
  dma_start src dst len irq_enable m =
    (driver_answer (soc_of m) src dst len, with_soc m (counted (soc_of m))).
Proof.
  intros Hm Hd E. unfold dma_start, mbind. rewrite validate_ready by done.
  by rewrite (proj2 (Z.eqb_neq _ _)).
Qed.

Lemma dma_start_answer m src dst len irq_enable :
  ready m -> drv_vlab (drv m) -> is_u32 src -> is_u32 dst -> is_u32 len ->
  fst (dma_start src dst len irq_enable m) = driver_answer (soc_of m) src dst len.
Proof.
  intros Hm Hd H1 H2 H3. destruct (decide (driver_answer (soc_of m) src dst len = VLAB_DMA_OK)) as [E|E].
  - by rewrite dma_start_accepted, E.
  - by rewrite dma_start_refused.
Qed.

(** C12. With the configuration of [dma_init], [dma_start] answers with the
    verdict on the request, and with BUSY while the engine runs; the engine is
    started exactly on OK, and then it is busy with that request: what the
    driver accepts, the engine never refuses.  On any other answer the machine
    is as it was but for the one access that read STATUS. *)
Theorem dma_start_spec m src dst len irq_enable :
  ready m -> drv_vlab (drv m) -> is_u32 src -> is_u32 dst -> is_u32 len ->
  let '(rc, m') := dma_start src dst len irq_enable m in
  rc = driver_answer (soc_of m) src dst len /\ drv m' = drv m /\
  if rc =? VLAB_DMA_OK then engine_runs (soc_of m) (soc_of m') src dst len irq_enable
  else m' = with_soc m (counted (soc_of m)).
Proof.
  intros Hm Hd H1 H2 H3. destruct (Z.eqb_spec (driver_answer (soc_of m) src dst len) VLAB_DMA_OK) as [E|E].
  - rewrite dma_start_accepted, E by done. split; [done|]. split; [done|]. rewrite Z.eqb_refl, soc_of_with_soc.
    apply dma_submitted_runs; [apply Hm|done..].
  - rewrite dma_start_refused by done. split; [done|]. split; [done|]. by rewrite (proj2 (Z.eqb_neq _ _)).
Qed.

(** ** The verdicts, spelled out *)

(** The verdict is what the engine shows when the same request reaches it by
    its registers alone. *)
Lemma engine_verdict s src dst len irq_enable :
  soc_wf s -> phase (s_dma s) <> Busy -> is_u32 src -> is_u32 dst -> is_u32 len ->
  phase (s_dma (snd (soc_write (soc_dma_program s src dst len) VLAB_DMA_CTRL (start_ctrl irq_enable)))) =
    match vlab_judge src dst len with None => Busy | Some r => Failed (refusal_code r) end.
Proof.
  intros Hs Hp H1 H2 H3.
  destruct (soc_dma_program_parts (fun _ _ => true) s src dst len Hs H1 H2 H3) as (Hwf & Ed & _).
  pose proof (swf_vlab _ Hwf) as Hv. revert Hwf Ed Hv. generalize (soc_dma_program s src dst len).
  intros s1 Hwf Ed Hv. rewrite soc_write_dma_ctrl by done.
  rewrite soc_dma_write_ctrl by by destruct irq_enable.
  assert (Z.testbit (start_ctrl irq_enable) 0 = true) as -> by by destruct irq_enable.
  pose proof (soc_dma_start_phase (s_dma s1) (s_intc s1) (soc_perf_count_mem (s_perf s1))
    (Z.testbit (start_ctrl irq_enable) 1)) as Hphase.
  destruct (soc_dma_start _ _ _ _) as [[d1 ic1] perf1]. cbn [fst snd] in Hphase |- *.
  change (s_dma (_ <| s_perf := perf1 |>)) with (d1 <| d_ctrl := Z.ldiff (start_ctrl irq_enable) 1 |>).
  rewrite phase_ctrl, Hphase, dma_judge_vlab, Ed by done.
  change (phase (_ <| d_length := len |>)) with (phase (s_dma s)).
  by destruct (phase (s_dma s)).
Qed.

(** C9. Every request to a free engine, by the first condition it violates: the
    answer of [dma_start], and the error the engine shows when the same request
    is programmed into its registers directly.  The two judges agree case by
    case, and a request that violates nothing is accepted by both. *)
Theorem dma_request_verdicts m src dst len irq_enable :
  ready m -> drv_vlab (drv m) -> phase (s_dma (soc_of m)) <> Busy ->
  is_u32 src -> is_u32 dst -> is_u32 len ->
  let answer := fst (dma_start src dst len irq_enable m) in
  let engine := phase (s_dma (snd (soc_write (soc_dma_program (soc_of m) src dst len)
                                             VLAB_DMA_CTRL (start_ctrl irq_enable)))) in
  let refused code register := answer = code /\ engine = Failed register in
  let length_bad := len = 0 \/ len mod 4 <> 0 in
  let misaligned := src mod 4 <> 0 \/ dst mod 4 <> 0 in
  let unmapped := vlab_unmapped len src \/ vlab_unmapped len dst in
  (length_bad -> refused VLAB_DMA_ERR_LEN SOC_DMA_ERR_LEN) /\
  (~ length_bad -> misaligned -> refused VLAB_DMA_ERR_ALIGN SOC_DMA_ERR_ALIGN) /\
  (~ length_bad -> ~ misaligned -> 16384 < len ->
     refused VLAB_DMA_ERR_UNSUPPORTED SOC_DMA_ERR_UNSUPPORTED) /\
  (~ length_bad -> ~ misaligned -> len <= 16384 -> unmapped ->
     refused VLAB_DMA_ERR_ADDR SOC_DMA_ERR_ADDR) /\
  (~ length_bad -> ~ misaligned -> len <= 16384 -> ~ unmapped -> ~ vlab_transfer src dst len ->
     refused VLAB_DMA_ERR_UNSUPPORTED SOC_DMA_ERR_UNSUPPORTED) /\
  (vlab_transfer src dst len -> answer = VLAB_DMA_OK /\ engine = Busy).
Proof.
  intros Hm Hd Hp H1 H2 H3. cbv zeta.
  rewrite engine_verdict, dma_start_answer by (done || apply Hm).
  unfold driver_answer. rewrite bool_decide_eq_false_2 by done.
  pose proof (vlab_judge_cases src dst len H1 H2 H3) as Hj. cbv zeta in Hj.
  pose proof (vlab_judge_none src dst len H1 H2 H3) as Hnone.
  pose proof (vlab_transfer_mapped src dst len) as Hmap.
  assert (len <= 16384 -> 16384 < len -> False) as Hlt by lia.
  destruct (vlab_judge src dst len) as [[]|]; cbn [verdict_code driver_code refusal_code];
    split_and!; intros; try (by split); exfalso; intuition (done || congruence).
Qed.

(** The machine after an accepted submission. *)
Definition submitted (m : machine) (src dst len : Z) (irq_enable : bool) : machine :=
  with_soc m (dma_submitted (soc_of m) src dst len irq_enable)
    <| drv := drv m <| s_state := DMA_S_ACTIVE |> <| s_done_flag := 0 |> <| s_err_latch := 0 |> |>.

Lemma irq_key k : 0 <= k <= 1 -> Z.land k 1 = k.
Proof. intros Hk. change 1 with (Z.ones 1). rewrite Z.land_ones by done. apply Z.mod_small. lia. Qed.

Lemma dma_submit_accepted m src dst len irq_enable :
  ready m -> drv_vlab (drv m) -> is_u32 src -> is_u32 dst -> is_u32 len ->
  0 <= s_irq_masked m <= 1 -> s_state (drv m) = DMA_S_IDLE ->
  driver_answer (soc_of m) src dst len = VLAB_DMA_OK ->
  dma_submit src dst len irq_enable m = (VLAB_DMA_OK, submitted m src dst len irq_enable).
Proof.
  intros Hm Hd H1 H2 H3 Hk Hidle E.
  unfold dma_submit, hal_irq_disable, hal_irq_restore, set_drv, mbind, mget, mmodify, mret. cbn [fst snd].
  change (s_state (drv (m <| s_irq_masked := 1 |>))) with (s_state (drv m)).
  rewrite bool_decide_eq_true_2 by done. cbn [negb]. set (m1 := m <| s_irq_masked := 1 |>).
  set (m2 := m1 <| drv := drv m1 <| s_state := DMA_S_STARTING |> |>).
  assert (ready m2) as Hm2 by done. assert (drv_vlab (drv m2)) as Hd2 by done.
  rewrite validate_ready by done. change (soc_of m2) with (soc_of m). rewrite E, Z.eqb_refl. cbn [negb].
  apply driver_answer_ok in E as [Hp Hj].
  rewrite dma_program_ready by (done || by apply (ready_counted m2)). cbv zeta.
  change (soc_of (with_soc m2 (counted (soc_of m)) <| drv := _ |>)) with (counted (soc_of m)).
  fold (dma_submitted (soc_of m) src dst len irq_enable). unfold submitted.
  generalize (dma_submitted (soc_of m) src dst len irq_enable). intros s'. rewrite irq_key by done.
  by destruct m.
Qed.

Lemma dma_submit_refused m src dst len irq_enable :
  ready m -> drv_vlab (drv m) -> 0 <= s_irq_masked m <= 1 -> s_state (drv m) = DMA_S_IDLE ->
  driver_answer (soc_of m) src dst len <> VLAB_DMA_OK ->
  dma_submit src dst len irq_enable m =
    (driver_answer (soc_of m) src dst len, with_soc m (counted (soc_of m))).
Proof.
  intros Hm Hd Hk Hidle E.
  unfold dma_submit, hal_irq_disable, hal_irq_restore, set_drv, mbind, mget, mmodify, mret. cbn [fst snd].
  change (s_state (drv (m <| s_irq_masked := 1 |>))) with (s_state (drv m)).
  rewrite bool_decide_eq_true_2 by done. cbn [negb]. set (m1 := m <| s_irq_masked := 1 |>).
  set (m2 := m1 <| drv := drv m1 <| s_state := DMA_S_STARTING |> |>).
  assert (ready m2) as Hm2 by done. assert (drv_vlab (drv m2)) as Hd2 by done.
  rewrite validate_ready by done. change (soc_of m2) with (soc_of m).
  rewrite (proj2 (Z.eqb_neq _ _)) by done. cbn [negb]. rewrite irq_key by done.
  generalize (counted (soc_of m)). intros s'. destruct m as [h k i [] b]. simpl in Hidle. by subst.
Qed.

(** C15. [dma_submit] answers BUSY without touching anything unless the driver is
    IDLE; an IDLE driver answers as [dma_start] does, is ACTIVE with both
    latches cleared exactly when it answered OK, and is IDLE again otherwise.
    The interrupt mask is restored on every path. *)
Theorem dma_submit_spec m src dst len irq_enable :
  ready m -> drv_vlab (drv m) -> is_u32 src -> is_u32 dst -> is_u32 len ->
  0 <= s_irq_masked m <= 1 ->
  let '(rc, m') := dma_submit src dst len irq_enable m in
  s_irq_masked m' = s_irq_masked m /\ isr m' = isr m /\
  if bool_decide (s_state (drv m) = DMA_S_IDLE) then
    rc = driver_answer (soc_of m) src dst len /\
    if rc =? VLAB_DMA_OK then
      drv m' = drv m <| s_state := DMA_S_ACTIVE |> <| s_done_flag := 0 |> <| s_err_latch := 0 |> /\
      engine_runs (soc_of m) (soc_of m') src dst len irq_enable
    else m' = with_soc m (counted (soc_of m))
  else rc = VLAB_DMA_ERR_BUSY /\ m' = m.
Proof.
  intros Hm Hd H1 H2 H3 Hk. destruct (bool_decide_reflect (s_state (drv m) = DMA_S_IDLE)) as [Hidle|Hbusy].
  - destruct (Z.eqb_spec (driver_answer (soc_of m) src dst len) VLAB_DMA_OK) as [E|E].
    + rewrite dma_submit_accepted by done. do 3 (split; [done|]). rewrite Z.eqb_refl. split; [done|].
      apply dma_submitted_runs; [apply Hm|done..].
    + rewrite dma_submit_refused by done. do 3 (split; [done|]). by rewrite (proj2 (Z.eqb_neq _ _)).
  - unfold dma_submit, hal_irq_disable, hal_irq_restore, mbind, mget, mmodify, mret. cbn [fst snd].
    change (s_state (drv (m <| s_irq_masked := 1 |>))) with (s_state (drv m)).
    rewrite bool_decide_eq_false_2 by done. cbn [negb]. rewrite irq_key by done. by destruct m.
Qed.

(** * The driver on the default machine *)

Definition machine_dma : machine := snd (dma_init machine_default).

Lemma machine_dma_ready : ready machine_dma.
Proof. exact machine_default_ready. Qed.

Lemma dma_start_spec_witness :
  fst (dma_start 0x10000000 0x10000100 64 true machine_dma) = VLAB_DMA_OK /\
  fst (dma_start 0x10000000 0x10000102 64 true machine_dma) = VLAB_DMA_ERR_ALIGN.
Proof.
  split.
  - pose proof (dma_start_spec machine_dma 0x10000000 0x10000100 64 true machine_dma_ready
      ltac:(done) ltac:(done) ltac:(done) ltac:(done)) as H.
    destruct (dma_start _ _ _ _ _) as [rc m']. destruct H as (-> & _). reflexivity.
  - pose proof (dma_start_spec machine_dma 0x10000000 0x10000102 64 true machine_dma_ready
      ltac:(done) ltac:(done) ltac:(done) ltac:(done)) as H.
    destruct (dma_start _ _ _ _ _) as [rc m']. destruct H as (-> & _). reflexivity.
Defined.

Lemma dma_submit_spec_witness :
  let '(rc, m') := dma_submit 0x10000000 0x10000100 64 true machine_dma in
  rc = VLAB_DMA_OK /\ s_state (drv m') = DMA_S_ACTIVE.
Proof.
  pose proof (dma_submit_spec machine_dma 0x10000000 0x10000100 64 true machine_dma_ready
    ltac:(done) ltac:(done) ltac:(done) ltac:(done) ltac:(done)) as H.
  destruct (dma_submit _ _ _ _ _) as [rc m']. destruct H as (_ & _ & H).
  change (bool_decide _) with true in H. destruct H as [Hrc H]. split; [rewrite Hrc; reflexivity|].
  rewrite Hrc in H. change (_ =? _) with true in H. destruct H as [-> _]. reflexivity.
Defined.

(** A transfer to the UART, a misaligned one, one to the UART's other FIFO and
    one from unmapped memory. *)
Lemma dma_request_verdicts_witness :
  let answer src dst := fst (dma_start src dst 64 true machine_dma) in
  answer 0x10000000 VLAB_UART_TXDATA = VLAB_DMA_OK /\
  answer 0x10000000 0x10000102 = VLAB_DMA_ERR_ALIGN /\
  answer 0x30000000 0x10000100 = VLAB_DMA_ERR_ADDR.
Proof.
  pose proof (fun src dst (H1 : is_u32 src) (H2 : is_u32 dst) =>
    dma_request_verdicts machine_dma src dst 64 true machine_dma_ready ltac:(done) ltac:(done) H1 H2
      ltac:(done)) as H. cbv zeta in H |- *.
  split; [|split].
  - destruct (H 0x10000000 VLAB_UART_TXDATA ltac:(done) ltac:(done)) as (_ & _ & _ & _ & _ & Hok).
    apply Hok. split_and!; try done. by right; left.
  - destruct (H 0x10000000 0x10000102 ltac:(done) ltac:(done)) as (_ & Hmis & _).
    apply Hmis; [by intros [?|?]|by right].
  - destruct (H 0x30000000 0x10000100 ltac:(done) ltac:(done)) as (_ & _ & _ & Hun & _).
    apply Hun; [by intros [?|?]|by intros [?|?]|done|]. left. split_and!; try done. by repeat constructor.
Defined.
