(* ===== verification/Isr.v ===== *)
(** Interrupt dispatch: [firmware/isr/isr.c].

    Handlers are addresses; what the code at an address does is the parameter
    [call], of which the class [Handlers] states what the dispatcher relies
    on.  The theorem: whatever number of lines [isr_configure] accepted, one
    dispatch serves, in priority order, the waiting lines that the table has
    room for, which with three lines or more is every one.  The loop of the
    code runs at most [s_n_lines] turns; the recursion here is given
    [ISR_MAX_LINES], which is never fewer. *)

From S2P Require Import Prelude Regions DmaCaps Platform Memory Perf Intc Timer Uart.
From S2P Require Import DmaSpec Dma Soc SocBus SocClock SocCount Hal Drivers.

Local Open Scope c_scope.

Definition VLAB_IRQ_COUNT : Z := 3.
Definition ISR_MAX_LINES : Z := 8.

Definition set_isr (f : isr_t -> isr_t) : M machine unit :=
  mmodify (fun m => m <| isr := f (isr m) |>).

Definition isr_configure (n_lines : Z) : M machine unit :=
  if (n_lines =? 0) || (ISR_MAX_LINES <? n_lines) then mret tt
  else set_isr (fun i => i <| s_n_lines := n_lines |>
                           <| s_vectors := replicate (Z.to_nat ISR_MAX_LINES) 0 |>).

Definition isr_register (line handler : Z) : M machine unit :=
  set_isr (fun i => if line <? s_n_lines i
                    then i <| s_vectors := <[Z.to_nat line := handler]> (s_vectors i) |> else i).

Section Dispatch.

(** The code at an address: what calling a registered handler does. *)
Variable call : Z -> Z -> M machine unit.

(** The loop of [isr_dispatch] from index [i], with the lines handled so far. *)
Fixpoint dispatch_from (fuel : nat) (i handled : Z) : M machine Z :=
  match fuel with
  | O => mret handled
  | S fuel' =>
      m <- mget ;;
      if negb (i <? s_n_lines (isr m)) then mret handled
      else
        line <- hal_read_reg VLAB_INTC_ACK ;;
        m <- mget ;;
        if (line =? VLAB_IRQ_NONE) || (s_n_lines (isr m) <=? line) then mret handled
        else
          let h := default 0 (s_vectors (isr m) !! Z.to_nat line) in
          (if negb (h =? 0) then call h line else mret tt) ;;;
          hal_write_reg VLAB_INTC_CLEAR line ;;;
          set_isr (fun i => i <| s_dispatched := u32 (s_dispatched i + 1) |>) ;;;
          dispatch_from fuel' (i + 1) (handled + 1)
  end.

(** [s_n_lines] never exceeds [ISR_MAX_LINES], so that many turns are all. *)
Definition isr_dispatch : M machine Z := dispatch_from (Z.to_nat ISR_MAX_LINES) 0 0.

End Dispatch.

Definition isr_dispatched_count : M machine Z := m <- mget ;; mret (s_dispatched (isr m)).

(** * The controller on the bus *)

Lemma read_intc_ack s :
  soc_wf s ->
  soc_read s VLAB_INTC_ACK =
    let '(r, ic, perf) :=
      soc_intc_read (s_intc s) (soc_perf_count_mem (s_perf s)) SOC_INTC_ACK_OFF in
    (r, s <| s_intc := ic |> <| s_perf := perf |>).
Proof.
  intros Hs. rewrite soc_read_reg by done. change (vlab_window VLAB_INTC_ACK) with 5.
  unfold soc_read_at. cbn [Z.eqb Pos.eqb].
  change (u32 (VLAB_INTC_ACK - SOC_INTC_BASE)) with SOC_INTC_ACK_OFF.
  change (s_intc (counted s)) with (s_intc s).
  change (s_perf (counted s)) with (soc_perf_count_mem (s_perf s)).
  pose proof (ack_refines (s_intc s) (soc_perf_count_mem (s_perf s)) (swf_intc _ Hs)) as H.
  destruct (soc_intc_read _ _ _) as [[r ic] perf]. destruct H as (-> & _). by destruct s.
Qed.

Lemma write_intc_clear s v :
  soc_wf s ->
  soc_write s VLAB_INTC_CLEAR v =
    (SOC_OK, counted s <| s_intc := snd (soc_intc_write (s_intc s) SOC_INTC_CLEAR_OFF v) |>).
Proof. intros Hs. rewrite soc_write_reg by done. by destruct s. Qed.

(** The lines waiting to be acknowledged, best first. *)
Definition waiting (m : machine) : list Spec.line := Spec.ready (abs (s_intc (soc_of m))).

(** An acknowledge takes the best waiting line and changes nothing else than
    the controller and the counters. *)
Lemma ack_waiting m :
  ready m ->
  exists ic perf,
    let m' := with_soc m (soc_of m <| s_intc := ic |> <| s_perf := perf |>) in
    hal_read_reg VLAB_INTC_ACK m =
      (match waiting m with [] => VLAB_IRQ_NONE | l :: _ => Spec.number l end, m') /\
    ready m' /\ waiting m' = tail (waiting m) /\ ic_enable ic = ic_enable (s_intc (soc_of m)).
Proof.
  intros Hm. pose proof (swf_intc _ (proj2 Hm)) as Hi.
  pose proof (ack_refines (s_intc (soc_of m)) (soc_perf_count_mem (s_perf (soc_of m))) Hi) as H.
  destruct (soc_intc_read (s_intc (soc_of m)) _ _) as [[r ic] perf] eqn:E.
  destruct H as (Hr & Ha & _ & He & _). exists ic, perf. cbv zeta.
  assert (hal_read_reg VLAB_INTC_ACK m =
    (ack_value (fst (Spec.ack (abs (s_intc (soc_of m))))),
     with_soc m (soc_of m <| s_intc := ic |> <| s_perf := perf |>))) as Hread.
  { rewrite hal_read_ready, read_intc_ack, E, Hr by (done || apply Hm). done. }
  split; [|split; [|split; [|done]]].
  - rewrite Hread. f_equal. unfold waiting, Spec.ack. by destruct (Spec.ready _).
  - by apply (hal_read_preserves _ _ _ _ Hm Hread).
  - unfold waiting. rewrite soc_of_with_soc. change (s_intc (_ <| s_perf := perf |>)) with ic. rewrite Ha.
    destruct (Spec.ready (abs (s_intc (soc_of m)))) as [|l q] eqn:Hq.
    + unfold Spec.ack. by rewrite Hq.
    + apply ready_after_ack with l; [done|]. apply NoDup_lines_of.
Qed.

(** Clearing a line drops its ACTIVE bit and leaves the waiting lines alone. *)
Lemma clear_waiting m line :
  ready m -> is_u32 line ->
  exists ic,
    let m' := with_soc m (counted (soc_of m) <| s_intc := ic |>) in
    hal_write_reg VLAB_INTC_CLEAR line m = (tt, m') /\ ready m' /\ waiting m' = waiting m /\
    ic_enable ic = ic_enable (s_intc (soc_of m)).
Proof.
  intros Hm Hl. destruct (hal_write_reg VLAB_INTC_CLEAR line m) as [[] m'] eqn:E.
  pose proof (hal_write_preserves _ _ _ _ _ Hm Hl E) as Hm'.
  rewrite hal_write_ready, write_intc_clear in E by (done || apply Hm).
  destruct (soc_intc_write (s_intc (soc_of m)) SOC_INTC_CLEAR_OFF line) as [rc ic] eqn:Ec.
  assert (ic_enable ic = ic_enable (s_intc (soc_of m))) as He.
  { revert Ec. unfold soc_intc_write. simpl (_ =? _). intros [= _ <-]. by case_match. }
  apply clear_refines in Ec as [_ Ec]; [|apply (swf_intc _ (proj2 Hm))|done].
  cbn [snd] in E. injection E as <-. exists ic. cbv zeta. split; [done|]. split; [done|].
  split; [|done]. unfold waiting. rewrite soc_of_with_soc. change (s_intc (_ <| s_intc := ic |>)) with ic.
  rewrite Ec. by repeat case_match.
Qed.

(** * Dispatch *)

(** The dispatcher's configuration, as [isr_configure] can leave it: a line
    count the table can hold. *)
Definition isr_configured (i : isr_t) : Prop :=
  1 <= s_n_lines i <= ISR_MAX_LINES /\ is_u32 (s_dispatched i).

(** The table has room for every line of the controller. *)
Definition isr_ok (i : isr_t) : Prop :=
  3 <= s_n_lines i <= ISR_MAX_LINES /\ is_u32 (s_dispatched i).

Lemma isr_ok_configured i : isr_ok i -> isr_configured i.
Proof. intros [Hn Hd]. split; [lia|done]. Qed.

(** The waiting lines a table of [n] lines delivers: those before the first it
    has no room for. *)
Fixpoint fitting (n : Z) (q : list Spec.line) : list Spec.line :=
  match q with
  | [] => []
  | l :: q' => if Spec.number l <? n then l :: fitting n q' else []
  end.

(** The lines behind them. *)
Definition unfitting (n : Z) (q : list Spec.line) : list Spec.line := drop (length (fitting n q)) q.

Lemma fitting_all n q : 3 <= n -> fitting n q = q.
Proof.
  intros Hn. induction q as [|l q IH]; [done|]. cbn [fitting].
  pose proof (number_range l) as Hl. unfold SOC_N_LINES in Hl.
  destruct (Z.ltb_spec (Spec.number l) n); [|lia]. by rewrite IH.
Qed.

Lemma unfitting_all n q : 3 <= n -> unfitting n q = [].
Proof. intros Hn. unfold unfitting. by rewrite fitting_all, drop_all. Qed.

(** The lines are distinct, so no more fit than the table counts. *)
Lemma fitting_length n w : 1 <= n -> zlen (fitting n (lines_of w)) <= n.
Proof.
  intros Hn. unfold lines_of, Spec.by_priority. rewrite !filter_cons, filter_nil.
  repeat case_decide; cbn [fitting Spec.number]; unfold SOC_IRQ_TIMER, SOC_IRQ_DMA, SOC_IRQ_UART;
    repeat match goal with |- context [?a <? ?b] => destruct (Z.ltb_spec a b) end;
    unfold zlen; cbn [length]; lia.
Qed.

(** What the dispatcher relies on of the registered handlers: they leave the
    machine initialised, the vector table alone, and the waiting lines as they
    found them. *)
Class Handlers (call : Z -> Z -> M machine unit) : Prop := handler_keeps h line m :
  ready m -> let m' := snd (call h line m) in ready m' /\ isr m' = isr m /\ waiting m' = waiting m.

Section Dispatched.

Context (call : Z -> Z -> M machine unit) `{Handlers call}.

(** One turn of the loop on a delivered line. *)
Definition serve (line : Z) : M machine unit :=
  m <- mget ;;
  let h := default 0 (s_vectors (isr m) !! Z.to_nat line) in
  (if negb (h =? 0) then call h line else mret tt) ;;;
  hal_write_reg VLAB_INTC_CLEAR line ;;;
  set_isr (fun i => i <| s_dispatched := u32 (s_dispatched i + 1) |>).

Lemma serve_keeps m l :
  ready m ->
  let m' := snd (serve (Spec.number l) m) in
  ready m' /\ waiting m' = waiting m /\
  isr m' = isr m <| s_dispatched := u32 (s_dispatched (isr m) + 1) |>.
Proof.
  intros Hm. cbv zeta. unfold serve, mbind, mget.
  set (h := default 0 _).
  assert (exists m1, (if negb (h =? 0) then call h (Spec.number l) else mret tt) m = (tt, m1) /\
    ready m1 /\ isr m1 = isr m /\ waiting m1 = waiting m) as (m1 & -> & H1 & Hi1 & Hw1).
  { destruct (negb (h =? 0)); [|by exists m].
    pose proof (handler_keeps h (Spec.number l) m Hm) as Hc.
    destruct (call h (Spec.number l) m) as [[] m1]. by exists m1. }
  destruct (clear_waiting m1 (Spec.number l) H1) as (ic & -> & H2 & Hw2 & _); [by destruct l|].
  unfold set_isr, mmodify. cbn [snd]. set (m2 := with_soc _ _) in *.
  split; [done|]. split; [by rewrite <- Hw1, <- Hw2|].
  change (isr (m2 <| isr := ?i |>)) with i. change (isr m2) with (isr m1). by rewrite Hi1.
Qed.

(** Serving lines in this order, each after its acknowledge. *)
Definition serve_all (m : machine) (q : list Spec.line) : machine :=
  foldl (fun m l => snd (serve (Spec.number l) (snd (hal_read_reg VLAB_INTC_ACK m)))) m q.

(** A turn with a waiting line. *)
Lemma serve_step m l q :
  ready m -> waiting m = l :: q ->
  let m1 := snd (hal_read_reg VLAB_INTC_ACK m) in
  let m' := snd (serve (Spec.number l) m1) in
  hal_read_reg VLAB_INTC_ACK m = (Spec.number l, m1) /\ ready m1 /\ isr m1 = isr m /\
  ready m' /\ waiting m' = q /\
  isr m' = isr m <| s_dispatched := u32 (s_dispatched (isr m) + 1) |>.
Proof.
  intros Hm Hq. destruct (ack_waiting m Hm) as (ic & perf & E & H1 & Hw & _). rewrite Hq in E, Hw.
  rewrite E. cbn [snd]. set (m1 := with_soc _ _) in *.
  destruct (serve_keeps m1 l H1) as (H2 & Hw2 & Hi2).
  split; [done|]. split; [done|]. split; [done|]. split; [done|]. split; [by rewrite Hw2|exact Hi2].
Qed.

(** With no line to deliver the loop ends, after one ACK read if it has a turn
    left. *)
Lemma dispatch_stops fuel i handled m :
  ready m -> s_n_lines (isr m) <= i + Z.of_nat fuel -> fitting (s_n_lines (isr m)) (waiting m) = [] ->
  dispatch_from call fuel i handled m =
    (handled, if i <? s_n_lines (isr m) then snd (hal_read_reg VLAB_INTC_ACK m) else m).
Proof.
  intros Hm Hfuel Hq. destruct fuel as [|fuel]; cbn [dispatch_from]; unfold mbind, mget, mret.
  { by destruct (Z.ltb_spec i (s_n_lines (isr m))); [lia|]. }
  destruct (i <? s_n_lines (isr m)); [|done]. cbn [negb].
  destruct (ack_waiting m Hm) as (ic & perf & E & _).
  destruct (hal_read_reg VLAB_INTC_ACK m) as [v m1]. injection E as -> ->.
  change (isr (with_soc m _)) with (isr m).
  destruct (waiting m) as [|l q]; [done|]. cbn [fitting] in Hq.
  destruct (Z.ltb_spec (Spec.number l) (s_n_lines (isr m))); [done|].
  destruct (Z.leb_spec (s_n_lines (isr m)) (Spec.number l)); [|lia]. by rewrite orb_true_r.
Qed.

(** A turn that serves a line. *)
Lemma dispatch_turn fuel i handled m l q :
  ready m -> waiting m = l :: q -> Spec.number l < s_n_lines (isr m) -> i < s_n_lines (isr m) ->
  dispatch_from call (S fuel) i handled m =
    dispatch_from call fuel (i + 1) (handled + 1)
      (snd (serve (Spec.number l) (snd (hal_read_reg VLAB_INTC_ACK m)))).
Proof.
  intros Hm Hq Hl Hi. destruct (serve_step m l q Hm Hq) as (E & _ & Hi1 & _).
  set (m1 := snd (hal_read_reg VLAB_INTC_ACK m)) in *.
  cbn [dispatch_from]. unfold mbind, mget.
  destruct (Z.ltb_spec i (s_n_lines (isr m))); [|lia]. cbn [negb]. rewrite E, Hi1.
  destruct (Z.eqb_spec (Spec.number l) VLAB_IRQ_NONE); [by destruct l|].
  destruct (Z.leb_spec (s_n_lines (isr m)) (Spec.number l)); [lia|]. cbn [orb].
  unfold serve, mbind, mget. rewrite Hi1.
  destruct ((if negb (default 0 (s_vectors (isr m) !! Z.to_nat (Spec.number l)) =? 0)
             then call (default 0 (s_vectors (isr m) !! Z.to_nat (Spec.number l))) (Spec.number l)
             else mret tt) m1) as [[] m3].
  by destruct (hal_write_reg VLAB_INTC_CLEAR (Spec.number l) m3) as [[] m4].
Qed.

Lemma dispatch_from_serves fuel i m :
  ready m -> isr_configured (isr m) -> s_n_lines (isr m) <= i + Z.of_nat fuel ->
  let q := fitting (s_n_lines (isr m)) (waiting m) in
  i + zlen q <= s_n_lines (isr m) ->
  let m1 := serve_all m q in
  let handled := i + zlen q in
  dispatch_from call fuel i i m =
    (handled, if handled <? s_n_lines (isr m) then snd (hal_read_reg VLAB_INTC_ACK m1) else m1) /\
  ready m1 /\ waiting m1 = unfitting (s_n_lines (isr m)) (waiting m) /\
  isr m1 = isr m <| s_dispatched := u32 (s_dispatched (isr m) + zlen q) |>.
Proof.
  intros Hm Hok Hfuel. remember (waiting m) as w eqn:Hw. symmetry in Hw.
  revert fuel i m Hm Hok Hw Hfuel. induction w as [|l w IH]; intros fuel i m Hm [Hn Hd] Hw Hfuel q Hroom.
  2: destruct (Z.ltb_spec (Spec.number l) (s_n_lines (isr m))) as [Hl|Hl].
  1,3: assert (q = []) as Eq by (subst q; cbn [fitting]; done || by rewrite (proj2 (Z.ltb_ge _ _) Hl)).
  1,2: unfold unfitting; fold q; rewrite Eq in Hroom |- *; change (zlen []) with 0 in *; cbv zeta;
       rewrite !Z.add_0_r, u32_id by done; cbn [serve_all foldl length drop];
       split; [apply dispatch_stops; [done|done|rewrite Hw; exact Eq]|];
       split; [done|]; split; [exact Hw|]; by destruct (isr m).
  set (q' := fitting (s_n_lines (isr m)) w) in *.
  assert (q = l :: q') as Eq by (subst q; cbn [fitting]; by rewrite (proj2 (Z.ltb_lt _ _) Hl)).
  unfold unfitting. fold q. rewrite Eq in *. clear q Eq. cbv zeta.
  rewrite (zlen_app [l] q' : zlen (l :: q') = 1 + zlen q') in *.
  pose proof (zlen_nonneg q'). destruct fuel as [|fuel]; [lia|].
  destruct (serve_step m l w Hm Hw) as (_ & _ & _ & H2 & Hw2 & Hi2).
  rewrite (dispatch_turn fuel i i m l w) by (done || lia).
  set (m2 := snd (serve (Spec.number l) (snd (hal_read_reg VLAB_INTC_ACK m)))) in *.
  assert (s_n_lines (isr m2) = s_n_lines (isr m)) as Hn2 by by rewrite Hi2.
  assert (isr_configured (isr m2)) as Hok2.
  { split; [by rewrite Hn2|]. rewrite Hi2. apply is_u32_u32. }
  specialize (IH fuel (i + 1) m2 H2 Hok2 Hw2). rewrite Hn2 in IH. fold q' in IH.
  destruct IH as (Ed & Hr & Hrest & Hi); [lia..|].
  change (serve_all m (l :: q')) with (serve_all m2 q').
  replace (i + (1 + zlen q')) with (i + 1 + zlen q') by lia.
  split; [exact Ed|]. split; [done|]. split; [exact Hrest|].
  rewrite Hi, Hi2. destruct (isr m). unfold set_field; simpl. f_equal.
  unfold u32. rewrite Zplus_mod_idemp_l. f_equal. lia.
Qed.

(** C13. One dispatch, for every line count [isr_configure] accepts: it serves the
    waiting lines the table has room for, best first, each with its handler, a
    CLEAR and a count, up to the first it has no room for; then, when it has a
    turn left, one more ACK read either finds nothing or takes that line.  With
    room for the controller's three lines, as by default, that is every waiting
    line, and none is left.  The loop never stops for lack of turns, nor does
    more fuel change anything. *)
Theorem isr_dispatch_drains m :
  ready m -> isr_configured (isr m) ->
  let n := s_n_lines (isr m) in
  let q := fitting n (waiting m) in
  let rest := unfitting n (waiting m) in
  let m1 := serve_all m q in
  let '(handled, m') := isr_dispatch call m in
  handled = zlen q /\ ready m' /\
  m' = (if handled <? n then snd (hal_read_reg VLAB_INTC_ACK m1) else m1) /\
  waiting m' = (if handled <? n then tail rest else rest) /\
  isr m' = isr m <| s_dispatched := u32 (s_dispatched (isr m) + handled) |> /\
  (3 <= n -> q = waiting m /\ handled = zlen (waiting m) /\ waiting m' = []) /\
  (forall fuel, (8 <= fuel)%nat -> dispatch_from call fuel 0 0 m = (handled, m')).
Proof.
  intros Hm Hok. cbv zeta. pose proof Hok as [Hn _]. unfold ISR_MAX_LINES in Hn.
  assert (zlen (fitting (s_n_lines (isr m)) (waiting m)) <= s_n_lines (isr m)) as Hq
    by (unfold waiting; rewrite ready_abs; apply fitting_length; lia).
  pose proof (fun fuel Hf => dispatch_from_serves fuel 0 m Hm Hok Hf Hq) as Hs. cbv zeta in Hs.
  rewrite Z.add_0_l in Hs. unfold isr_dispatch, ISR_MAX_LINES.
  pose proof (fitting_all (s_n_lines (isr m)) (waiting m)) as Hall.
  pose proof (unfitting_all (s_n_lines (isr m)) (waiting m)) as Hnone.
  destruct (Hs (Z.to_nat 8)) as (-> & H1 & Hw & Hi); [lia|].
  set (q := fitting (s_n_lines (isr m)) (waiting m)) in *. set (m1 := serve_all m q) in *.
  destruct (ack_waiting m1 H1) as (ic & perf & E & H2 & Hw2 & _). rewrite <- Hw.
  assert (waiting (if zlen q <? s_n_lines (isr m) then snd (hal_read_reg VLAB_INTC_ACK m1) else m1) =
          (if zlen q <? s_n_lines (isr m) then tail (waiting m1) else waiting m1)) as Hwait
    by (destruct (zlen q <? s_n_lines (isr m)); [rewrite E; exact Hw2|done]).
  split; [done|]. split; [|split; [done|split; [exact Hwait|split; [|split]]]].
  - destruct (zlen q <? s_n_lines (isr m)); [rewrite E; exact H2|exact H1].
  - destruct (zlen q <? s_n_lines (isr m)); [rewrite E; exact Hi|exact Hi].
  - intros H3. rewrite Hwait, Hw, (Hnone H3). split; [by apply Hall|]. split; [by rewrite (Hall H3)|].
    by destruct (zlen q <? s_n_lines (isr m)).
  - intros fuel Hf. apply Hs. lia.
Qed.

End Dispatched.

(** A table without handlers. *)
#[export] Instance no_handlers : Handlers (fun _ _ => mret tt).
Proof. by intros h line m Hm. Qed.

Lemma isr_dispatch_drains_witness :
  let m := with_soc machine_default
             (soc_of machine_default <| s_intc := Mk_soc_intc 0x7 0x5 0 LINKED |>) in
  fst (isr_dispatch (fun _ _ => mret tt) m) = 2.
Proof.
  cbv zeta. set (m := with_soc _ _).
  assert (intc_wf (Mk_soc_intc 0x7 0x5 0 LINKED)) as Hi by (constructor; unfold fits; simpl; lia).
  assert (ready m) as Hm by (apply ready_with_soc, soc_wf_intc; [apply machine_default_ready..|exact Hi|done]).
  assert (isr_configured (isr m)) as Hok by by unfold isr_configured, ISR_MAX_LINES.
  pose proof (isr_dispatch_drains (fun _ _ => mret tt) m Hm Hok) as H. cbv zeta in H.
  destruct (isr_dispatch _ m) as [handled m']. destruct H as (-> & _). reflexivity.
Defined.
