(* ===== verification/Lifecycle.v ===== *)
(** The interrupt-driven DMA life cycle across the firmware and the SoC:
    [dma_submit], the clock, [isr_dispatch] with [dma_isr] in the table, and
    [dma_recover].  The theorems: what the interrupt handler does in every
    phase of the engine; and a whole life cycle, from submission to recovery,
    with the data moved. *)

From S2P Require Import Prelude Regions DmaCaps Platform Memory Perf Intc Timer Uart.
From S2P Require Import DmaSpec Dma Soc SocBus SocClock SocCount Hal Drivers DrvDma Isr.

Local Open Scope c_scope.

(** * The handler *)

Lemma write_dma_irq_clear s v :
  soc_wf s ->
  soc_write s VLAB_DMA_IRQ_CLEAR v =
    (SOC_OK, counted s <| s_dma := s_dma s <| d_done := false |> <| d_error := false |>
                                     <| d_err_code := SOC_DMA_ERR_NONE |> |>).
Proof. intros Hs. rewrite soc_write_reg by done. by destruct s. Qed.

Lemma read_dma_err_code s :
  soc_wf s -> soc_read s VLAB_DMA_ERR_CODE = (Ok (phase_code (phase (s_dma s))), counted s).
Proof.
  intros Hs. rewrite soc_read_reg by done. change (vlab_window VLAB_DMA_ERR_CODE) with 4.
  unfold soc_read_at. cbn [Z.eqb Pos.eqb].
  change (u32 (VLAB_DMA_ERR_CODE - SOC_DMA_BASE)) with SOC_DMA_ERR_CODE_OFF.
  change (s_dma (counted s)) with (s_dma s).
  rewrite (proj2 (soc_dma_status_phase (s_dma s) (swf_dma _ Hs))). by destruct s.
Qed.

(** The engine after IRQ_CLEAR, and the driver after its handler. *)
Definition phase_cleared (p : dma_phase) : dma_phase :=
  match p with Busy => Busy | _ => Idle end.

Definition drv_after_isr (p : dma_phase) (d : dma_driver_t) : dma_driver_t :=
  let d := match p with
           | Done => d <| s_done_flag := 1 |> <| s_state := DMA_S_COMPLETE |>
           | Failed c => d <| s_err_latch := c |> <| s_state := DMA_S_ERROR |>
           | _ => d
           end in
  d <| s_irq_count := u32 (s_irq_count d + 1) |>.

(** What only initialisation, software enabling lines, and faults change. *)
Definition static_part (s : soc_t) :=
  (dma_config (s_dma s), d_fault_stuck_busy (s_dma s), ic_enable (s_intc s)).

(** What only the clock and the bus change: the memory and the UART. *)
Definition data_part (s : soc_t) := (s_sram s, s_uart s).

(** The driver's and the engine's part of the machine. *)
Record dma_view (m m' : machine) (p : dma_phase) (d : dma_driver_t) : Prop := {
  dvw_ready : ready m';
  dvw_waiting : waiting m' = waiting m;
  dvw_isr : isr m' = isr m;
  dvw_mask : s_irq_masked m' = s_irq_masked m;
  dvw_phase : phase (s_dma (soc_of m')) = p;
  dvw_data : data_part (soc_of m') = data_part (soc_of m);
  dvw_drv : drv m' = d;
  dvw_static : static_part (soc_of m') = static_part (soc_of m)
}.

(** The two-step clear of the handler and of [dma_recover]. *)
Lemma two_step_clear m :
  ready m ->
  dma_view m (snd ((dma_clear ;;; intc_clear VLAB_IRQ_DMA) m))
    (phase_cleared (phase (s_dma (soc_of m)))) (drv m).
Proof.
  intros Hm. unfold dma_clear, intc_clear, mbind.
  destruct (hal_write_reg VLAB_DMA_IRQ_CLEAR 1 m) as [[] m1] eqn:E.
  pose proof (hal_write_preserves m VLAB_DMA_IRQ_CLEAR 1 tt m1 Hm ltac:(done) E) as H1.
  rewrite hal_write_ready, write_dma_irq_clear in E by (done || apply Hm). injection E as <-.
  cbn [snd] in *. set (m1 := with_soc m _) in *.
  assert (phase (s_dma (soc_of m1)) = phase_cleared (phase (s_dma (soc_of m)))) as Hp.
  { pose proof (dwf_flags _ (swf_dma _ (proj2 Hm))) as Hf.
    unfold m1. rewrite soc_of_with_soc.
    change (s_dma (_ <| s_dma := ?d |>)) with d. unfold phase, phase_cleared.
    change (d_busy (_ <| d_err_code := _ |>)) with (d_busy (s_dma (soc_of m))).
    change (d_error (_ <| d_err_code := _ |>)) with false.
    change (d_done (_ <| d_err_code := _ |>)) with false.
    by destruct (d_busy (s_dma (soc_of m))), (d_done (s_dma (soc_of m))), (d_error (s_dma (soc_of m))). }
  destruct (clear_waiting m1 VLAB_IRQ_DMA H1) as (ic & -> & H2 & Hw2 & He); [done|].
  cbn [snd]. constructor; [done|by rewrite Hw2|done|done|by rewrite <- Hp|done|done|].
  unfold static_part. rewrite soc_of_with_soc. change (s_intc (_ <| s_intc := ic |>)) with ic. by rewrite He.
Qed.

(** The handler reads the outcome the engine displays: DONE completes the
    driver, ERROR latches the engine's code, a spurious call (engine idle or
    still busy) leaves the driver's state alone; every call is counted, clears
    the engine unless it is busy, and leaves memory and the waiting lines. *)
Lemma dma_isr_view m line :
  ready m ->
  dma_view m (snd (dma_isr line m)) (phase_cleared (phase (s_dma (soc_of m))))
    (drv_after_isr (phase (s_dma (soc_of m))) (drv m)).
Proof.
  intros Hm. unfold dma_isr. unfold mbind at 1. rewrite hal_read_dma_status by done.
  set (m1 := with_soc m (counted (soc_of m))). assert (ready m1) as H1 by by apply ready_counted.
  set (p := phase (s_dma (soc_of m))).
  assert (exists m2, (if tst (phase_status p) VLAB_DMA_STATUS_DONE then
     set_drv (fun d => d <| s_done_flag := 1 |> <| s_state := DMA_S_COMPLETE |>)
   else if tst (phase_status p) VLAB_DMA_STATUS_ERROR then
     code <- hal_read_reg VLAB_DMA_ERR_CODE ;;
     set_drv (fun d => d <| s_err_latch := code |> <| s_state := DMA_S_ERROR |>)
   else mret tt) m1 = (tt, m2) /\
   dma_view m m2 p (match p with
                    | Done => drv m <| s_done_flag := 1 |> <| s_state := DMA_S_COMPLETE |>
                    | Failed c => drv m <| s_err_latch := c |> <| s_state := DMA_S_ERROR |>
                    | _ => drv m
                    end)) as (m2 & E2 & Hv2).
  { subst p. destruct (phase (s_dma (soc_of m))) as [| | |c] eqn:Hp; simpl.
    1,2,3: eexists; split; [reflexivity|]; by constructor.
    unfold mbind. rewrite hal_read_ready, read_dma_err_code by (done || apply H1).
    change (s_dma (soc_of m1)) with (s_dma (soc_of m)). rewrite Hp.
    eexists. split; [reflexivity|]. constructor; try done.
    apply (ready_counted m1 H1). }
  unfold mbind at 1. rewrite E2. destruct Hv2 as [H2 Hw2 Hi2 Hk2 Hp2 Hm2 Hd2 Hst2].
  pose proof (two_step_clear m2 H2) as [H3 Hw3 Hi3 Hk3 Hp3 Hm3 Hd3 Hst3]. unfold mbind in *.
  destruct (dma_clear m2) as [[] m3]. destruct (intc_clear VLAB_IRQ_DMA m3) as [[] m4].
  cbn [snd] in *. rewrite Hp2 in Hp3. unfold set_drv, mmodify. cbn [snd].
  constructor; try (exact H3 || congruence).
  - change (waiting (m4 <| drv := _ |>)) with (waiting m4). congruence.
  - change (isr (m4 <| drv := _ |>)) with (isr m4). congruence.
  - change (s_irq_masked (m4 <| drv := _ |>)) with (s_irq_masked m4). congruence.
  - exact Hp3.
  - change (soc_of (m4 <| drv := _ |>)) with (soc_of m4). congruence.
  - change (drv (m4 <| drv := ?d |>)) with d. rewrite Hd3, Hd2. by destruct p.
  - change (soc_of (m4 <| drv := _ |>)) with (soc_of m4). by rewrite Hst3.
Qed.

(** Recovery from a terminal state clears the engine and makes the driver
    IDLE; in any other state it does nothing. *)
Lemma dma_recover_spec m :
  ready m -> 0 <= s_irq_masked m <= 1 ->
  let terminal := bool_decide (s_state (drv m) = DMA_S_ERROR \/ s_state (drv m) = DMA_S_COMPLETE) in
  dma_view m (snd (dma_recover m))
    (if terminal then phase_cleared (phase (s_dma (soc_of m))) else phase (s_dma (soc_of m)))
    (if terminal then drv m <| s_done_flag := 0 |> <| s_err_latch := 0 |> <| s_state := DMA_S_IDLE |>
     else drv m).
Proof.
  intros Hm Hk. cbv zeta. unfold dma_recover, hal_irq_disable, hal_irq_restore.
  unfold mbind, mget, mmodify, mret. cbn [fst snd]. set (m1 := m <| s_irq_masked := 1 |>).
  change (s_state (drv m1)) with (s_state (drv m)). rewrite bool_decide_or.
  destruct (bool_decide (s_state (drv m) = DMA_S_ERROR) || bool_decide (s_state (drv m) = DMA_S_COMPLETE)).
  - unfold set_drv at 1, mmodify.
    set (m2 := m1 <| drv := drv m1 <| s_state := DMA_S_RECOVERY |> |>).
    pose proof (two_step_clear m2 Hm) as [H3 Hw3 Hi3 Hk3 Hp3 Hm3 Hd3 Hst3]. unfold mbind in *.
    destruct (dma_clear m2) as [[] m3]. destruct (intc_clear VLAB_IRQ_DMA m3) as [[] m4].
    cbn [snd] in *. unfold set_drv, mmodify. cbn [snd]. rewrite (irq_key (s_irq_masked m)) by done.
    constructor; try (exact H3 || exact Hw3 || exact Hi3 || exact Hp3 || exact Hm3 || exact Hst3); [done|].
    change (drv m4 <| s_done_flag := 0 |> <| s_err_latch := 0 |> <| s_state := DMA_S_IDLE |> =
            drv m <| s_done_flag := 0 |> <| s_err_latch := 0 |> <| s_state := DMA_S_IDLE |>).
    rewrite Hd3. reflexivity.
  - cbn [snd]. rewrite (irq_key (s_irq_masked m)) by done. by constructor; destruct m.
Qed.

(** * Dispatch with the handler installed *)

(** The vector table of a firmware whose DMA handler is at [h0]. *)
Definition dma_table (h0 : Z) (h line : Z) : M machine unit :=
  if h =? h0 then dma_isr line else mret tt.

#[export] Instance dma_table_handlers h0 : Handlers (dma_table h0).
Proof.
  intros h line m Hm. unfold dma_table. destruct (h =? h0); [|done].
  destruct (dma_isr_view m line Hm). done.
Qed.

(** Steps that touch only the controller and the counters. *)
Record same_dma (m m' : machine) : Prop := {
  sd_ready : ready m';
  sd_drv : drv m' = drv m;
  sd_mask : s_irq_masked m' = s_irq_masked m;
  sd_isr : isr m' = isr m;
  sd_dma : s_dma (soc_of m') = s_dma (soc_of m);
  sd_data : data_part (soc_of m') = data_part (soc_of m);
  sd_enable : ic_enable (s_intc (soc_of m')) = ic_enable (s_intc (soc_of m))
}.

Lemma ack_same_dma m : ready m -> same_dma m (snd (hal_read_reg VLAB_INTC_ACK m)).
Proof.
  intros Hm. destruct (ack_waiting m Hm) as (ic & perf & -> & H1 & _ & He). by constructor.
Qed.

Lemma clear_same_dma m line :
  ready m -> is_u32 line -> same_dma m (snd (hal_write_reg VLAB_INTC_CLEAR line m)).
Proof.
  intros Hm Hl. destruct (clear_waiting m line Hm Hl) as (ic & -> & H1 & _ & He). by constructor.
Qed.

Lemma same_dma_static m m' : same_dma m m' -> static_part (soc_of m') = static_part (soc_of m).
Proof. intros []. unfold static_part. congruence. Qed.

(** The DMA line alone waiting: one dispatch runs the handler once. *)
Lemma dispatch_dma m h :
  ready m -> isr_ok (isr m) -> s_vectors (isr m) !! 2%nat = Some h -> h <> 0 ->
  waiting m = [Spec.DMA] ->
  let '(handled, m') := isr_dispatch (dma_table h) m in
  handled = 1 /\ ready m' /\ s_irq_masked m' = s_irq_masked m /\
  phase (s_dma (soc_of m')) = phase_cleared (phase (s_dma (soc_of m))) /\
  data_part (soc_of m') = data_part (soc_of m) /\
  drv m' = drv_after_isr (phase (s_dma (soc_of m))) (drv m) /\
  static_part (soc_of m') = static_part (soc_of m) /\
  isr m' = isr m <| s_dispatched := u32 (s_dispatched (isr m) + 1) |>.
Proof.
  intros Hm Hok Hv Hh Hw. pose proof Hok as [Hn _]. unfold ISR_MAX_LINES in Hn.
  pose proof (dispatch_from_serves (dma_table h) 8 0 m Hm (isr_ok_configured _ Hok)) as D.
  cbv zeta in D. rewrite fitting_all in D by lia. destruct D as (E & H1 & _ & Hi);
    [lia|rewrite Hw; change (zlen [Spec.DMA]) with 1; lia|].
  rewrite Hw in E, H1, Hi. change (zlen [Spec.DMA]) with 1 in *. rewrite Z.add_0_l in *.
  unfold isr_dispatch, ISR_MAX_LINES. change (Z.to_nat 8) with 8%nat. rewrite E.
  destruct (Z.ltb_spec 1 (s_n_lines (isr m))); [|lia]. split; [done|].
  pose proof (ack_same_dma _ H1) as S4. revert S4 Hi.
  generalize (snd (hal_read_reg VLAB_INTC_ACK (serve_all (dma_table h) m [Spec.DMA]))). intros m4 S4 Hi.
  cbn [serve_all foldl] in *. pose proof (ack_same_dma m Hm) as S1.
  set (ma := snd (hal_read_reg VLAB_INTC_ACK m)) in *.
  pose proof (dma_isr_view ma 2 (sd_ready _ _ S1)) as V.
  change (Spec.number Spec.DMA) with 2 in *.
  assert (exists m2 m3, snd (dma_isr 2 ma) = m2 /\ same_dma m2 m3 /\
    snd (serve (dma_table h) 2 ma) = m3 <| isr := isr m3 <| s_dispatched := u32 (s_dispatched (isr m3) + 1) |> |>)
    as (m2 & m3 & <- & S3 & E3).
  { unfold serve, mbind, mget. rewrite (sd_isr _ _ S1). change (Z.to_nat 2) with 2%nat. rewrite Hv.
    change (default 0 (Some h)) with h. destruct (Z.eqb_spec h 0); [done|]. cbn [negb]. unfold dma_table at 1.
    rewrite Z.eqb_refl. exists (snd (dma_isr 2 ma)).
    destruct (dma_isr 2 ma) as [[] m2]. exists (snd (hal_write_reg VLAB_INTC_CLEAR 2 m2)).
    split; [done|]. split; [by apply clear_same_dma; [apply (dvw_ready _ _ _ _ V)|]|].
    by destruct (hal_write_reg VLAB_INTC_CLEAR 2 m2) as [[] m3]. }
  rewrite E3 in S4. destruct V as [Hr Hwv Hiv Hk Hp Hs Hd Hst].
  pose proof (same_dma_static _ _ S1) as St1. pose proof (same_dma_static _ _ S3) as St3.
  pose proof (same_dma_static _ _ S4) as St4.
  change (soc_of (m3 <| isr := _ |>)) with (soc_of m3) in St4.
  rewrite (sd_dma _ _ S1) in Hp, Hd. rewrite (sd_drv _ _ S1) in Hd.
  pose proof (sd_isr _ _ S4) as Hi4. rewrite E3 in Hi.
  split; [apply S4|]. destruct S1, S3, S4.
  change (soc_of (m3 <| isr := _ |>)) with (soc_of m3) in *.
  change (drv (m3 <| isr := _ |>)) with (drv m3) in *.
  change (s_irq_masked (m3 <| isr := _ |>)) with (s_irq_masked m3) in *.
  split_and!; try congruence.
Qed.

(** * The life cycle *)

Lemma waiting_dma m :
  ic_enable (s_intc (soc_of m)) = 4 -> Z.testbit (ic_pending (s_intc (soc_of m))) 2 = true ->
  waiting m = [Spec.DMA].
Proof.
  intros He Hp. unfold waiting. rewrite ready_abs, He. transitivity (lines_of 4); [|done].
  apply lines_of_ext. intros l. rewrite Z.land_spec.
  rewrite andb_comm. destruct l; cbn [Spec.number]; rewrite ?Hp; done.
Qed.

Lemma submitted_parts m src dst len irq_enable :
  let m' := submitted m src dst len irq_enable in
  soc_of m' = dma_submitted (soc_of m) src dst len irq_enable /\
  g_inited (host m') = g_inited (host m) /\
  drv m' = drv m <| s_state := DMA_S_ACTIVE |> <| s_done_flag := 0 |> <| s_err_latch := 0 |> /\
  s_irq_masked m' = s_irq_masked m /\ isr m' = isr m.
Proof.
  cbv zeta. unfold submitted. generalize (dma_submitted (soc_of m) src dst len irq_enable).
  intros s'. by destruct m.
Qed.

Lemma launched_static s ctrl : static_part (soc_dma_launched s ctrl) = static_part s.
Proof. unfold static_part, dma_config, soc_dma_launched. by destruct s. Qed.

Section Clocked.

Variable malloc_ok : Z -> Z -> bool.

(** A firmware set up for interrupt-driven transfers: the driver configured
    by [dma_init], its handler at [h] in the table, only the DMA line enabled,
    the engine free. *)
Record dma_client (m : machine) (h : Z) : Prop := {
  dc_ready : ready m;
  dc_platform : dma_platform malloc_ok (soc_of m);
  dc_drv : drv_vlab (drv m);
  dc_idle : s_state (drv m) = DMA_S_IDLE;
  dc_mask : 0 <= s_irq_masked m <= 1;
  dc_isr : isr_ok (isr m);
  dc_vector : s_vectors (isr m) !! 2%nat = Some h;
  dc_handler : h <> 0;
  dc_enable : ic_enable (s_intc (soc_of m)) = 4
}.

Lemma dma_platform_counted s : dma_platform malloc_ok s -> dma_platform malloc_ok (counted s).
Proof. intros []. constructor; try done. by apply counted_wf. Qed.

(** Submission and some ticks: the engine runs the request from the machine
    [s1] the driver programmed; the driver is ACTIVE. *)
Lemma submit_and_step m h src dst len n :
  dma_client m h -> vlab_transfer src dst len -> is_u32 src -> is_u32 dst ->
  exists m1 s1,
    let m2 := with_soc m1 (soc_step malloc_ok (soc_dma_launched s1 3) n) in
    dma_submit src dst len true m = (VLAB_DMA_OK, m1) /\ soc_of m1 = soc_dma_launched s1 3 /\
    soc_host_step malloc_ok n m1 = (tt, m2) /\ ready m1 /\ ready m2 /\
    drv m2 = drv m <| s_state := DMA_S_ACTIVE |> <| s_done_flag := 0 |> <| s_err_latch := 0 |> /\
    s_irq_masked m2 = s_irq_masked m /\ isr m2 = isr m /\
    static_part (soc_of m2) = static_part (soc_of m) /\
    dma_ready malloc_ok s1 3 /\ data_part s1 = data_part (soc_of m) /\
    s_dma s1 = s_dma (soc_of m) <| d_src := src |> <| d_dst := dst |> <| d_length := len |>.
Proof.
  intros Hc Hreq Hsu Hdu. pose proof (dc_platform _ _ Hc) as Hp.
  assert (is_u32 len) as Hlu.
  { destruct Hreq as (Hl & _). unfold is_u32, two32. lia. }
  assert (driver_answer (soc_of m) src dst len = VLAB_DMA_OK) as Hans
    by (apply driver_answer_ok; split; [apply Hp|by apply vlab_judge_none]).
  pose proof (dma_submit_accepted m src dst len true (dc_ready _ _ Hc) (dc_drv _ _ Hc) Hsu Hdu Hlu
    (dc_mask _ _ Hc) (dc_idle _ _ Hc) Hans) as Esub.
  set (s1 := soc_dma_program (counted (soc_of m)) src dst len).
  pose proof (soc_dma_program_ready malloc_ok (counted (soc_of m)) src dst len 3
    (dma_platform_counted _ Hp) Hsu Hdu Hreq ltac:(done) ltac:(done)) as Hr.
  destruct (soc_dma_program_parts malloc_ok (counted (soc_of m)) src dst len
    (counted_wf _ (proj2 (dc_ready _ _ Hc))) Hsu Hdu Hlu) as (Hwf1 & Ed & Em & Eu & Ei).
  fold s1 in Hr, Hwf1, Ed, Em, Eu, Ei.
  destruct (submitted_parts m src dst len true) as (Es & Hg1 & Hd1 & Hk1 & Hi1).
  unfold dma_submitted in Es. change (start_ctrl true) with 3 in Es. fold s1 in Es.
  clearbody s1.
  destruct (soc_dma_launch malloc_ok s1 3 Hr) as (_ & Hwl & _).
  set (m1 := submitted m src dst len true) in *.
  assert (ready m1) as H1 by (split; [rewrite Hg1; apply (dc_ready _ _ Hc)|by rewrite Es]).
  clearbody m1. exists m1, s1. cbv zeta. rewrite host_step_ready, Es by done.
  set (s2 := soc_step malloc_ok (soc_dma_launched s1 3) n).
  assert (static_part s2 = static_part (soc_of m)) as Hst.
  { destruct (soc_step_dma_static malloc_ok (soc_dma_launched s1 3) n) as [Hc2 Hf2].
    destruct (soc_step_pending_le malloc_ok (soc_dma_launched s1 3) n) as (_ & He2 & _).
    fold s2 in Hc2, Hf2, He2. transitivity (static_part (soc_dma_launched s1 3)).
    { unfold static_part. by rewrite Hc2, Hf2, He2. }
    rewrite launched_static. unfold static_part, dma_config. by rewrite Ed, Ei. }
  assert (ready (with_soc m1 s2)) as H2 by (apply ready_with_soc; [done|by apply soc_step_wf]).
  clearbody s2. split; [exact Esub|]. split; [done|]. split; [done|]. split; [done|]. split; [done|].
  split; [exact Hd1|]. split; [exact Hk1|]. split; [exact Hi1|]. split; [by rewrite soc_of_with_soc|].
  split; [exact Hr|]. split; [unfold data_part; by rewrite Em, Eu|exact Ed].
Qed.

(** Submission and the transfer time: the engine is done and the DMA line is
    the one waiting; the driver is still ACTIVE. *)
Lemma submit_and_run m h src dst len n :
  dma_client m h -> vlab_transfer src dst len -> is_u32 src -> is_u32 dst ->
  soc_dma_time (soc_of m) len <= Z.of_nat n ->
  exists m1 m2 s1,
    dma_submit src dst len true m = (VLAB_DMA_OK, m1) /\
    soc_host_step malloc_ok n m1 = (tt, m2) /\ ready m2 /\
    drv m2 = drv m <| s_state := DMA_S_ACTIVE |> <| s_done_flag := 0 |> <| s_err_latch := 0 |> /\
    s_irq_masked m2 = s_irq_masked m /\ isr m2 = isr m /\
    static_part (soc_of m2) = static_part (soc_of m) /\
    phase (s_dma (soc_of m2)) = Done /\ waiting m2 = [Spec.DMA] /\
    soc_of m2 = soc_step malloc_ok (soc_dma_launched s1 3) n /\
    dma_ready malloc_ok s1 3 /\ soc_dma_ticks s1 <= Z.of_nat n /\
    data_part s1 = data_part (soc_of m) /\
    s_dma s1 = s_dma (soc_of m) <| d_src := src |> <| d_dst := dst |> <| d_length := len |>.
Proof.
  intros Hc Hreq Hsu Hdu Hn.
  destruct (submit_and_step m h src dst len n Hc Hreq Hsu Hdu)
    as (m1 & s1 & Esub & _ & Estep & _ & H2 & Hd & Hk & Hi & Hst & Hr & Em & Ed). cbv zeta in *.
  assert (soc_dma_ticks s1 <= Z.of_nat n) as Ht by (unfold soc_dma_ticks; by rewrite Ed).
  destruct (soc_dma_run_done malloc_ok s1 3 n Hr Ht) as (u & bs & c1 & c2 & _ & _ & _ & _ & Hph & _ & _ & Hpend).
  exists m1, (with_soc m1 (soc_step malloc_ok (soc_dma_launched s1 3) n)), s1.
  revert Estep H2 Hd Hk Hi Hst Hph Hpend. rewrite !soc_of_with_soc.
  generalize (soc_step malloc_ok (soc_dma_launched s1 3) n). intros s2 Estep H2 Hd Hk Hi Hst Hph Hpend.
  do 8 (split; [done|]). split; [|by split]. apply waiting_dma; rewrite soc_of_with_soc; [|by apply Hpend].
  transitivity (ic_enable (s_intc (soc_of m))); [exact (f_equal snd Hst)|apply (dc_enable _ _ Hc)].
Qed.

(** From an outcome the engine displays with its line waiting, one dispatch
    and a recovery bring the firmware back to where it submits from. *)
Lemma dispatch_and_recover m m2 h :
  dma_client m h -> ready m2 ->
  s_irq_masked m2 = s_irq_masked m -> isr m2 = isr m -> static_part (soc_of m2) = static_part (soc_of m) ->
  drv m2 = drv m <| s_state := DMA_S_ACTIVE |> <| s_done_flag := 0 |> <| s_err_latch := 0 |> ->
  phase_cleared (phase (s_dma (soc_of m2))) = Idle -> phase (s_dma (soc_of m2)) <> Idle ->
  waiting m2 = [Spec.DMA] ->
  exists m3 m4,
    isr_dispatch (dma_table h) m2 = (1, m3) /\ dma_recover m3 = (tt, m4) /\
    drv m3 = drv_after_isr (phase (s_dma (soc_of m2))) (drv m2) /\
    data_part (soc_of m4) = data_part (soc_of m2) /\ s_err_latch (drv m4) = 0 /\
    phase (s_dma (soc_of m4)) = Idle /\ dma_client m4 h /\ static_part (soc_of m4) = static_part (soc_of m).
Proof.
  intros [_ Hplat Hdrv Hidle Hmask Hisr Hvec Hh He] H2 Hk2 Hi2 Hst2 Hd2 Hp2 Hout Hw2.
  pose proof (dispatch_dma m2 h H2) as D. rewrite Hi2 in D.
  specialize (D Hisr Hvec Hh Hw2). destruct (isr_dispatch (dma_table h) m2) as [handled m3].
  destruct D as (-> & H3 & Hk3 & Hp3 & Hs3 & Hd3 & Hst3 & Hi3). rewrite Hp2 in Hp3.
  assert (s_state (drv m3) = DMA_S_ERROR \/ s_state (drv m3) = DMA_S_COMPLETE) as Hterm.
  { rewrite Hd3. destruct (phase (s_dma (soc_of m2))); cbn in Hp2; try done; [by right|by left]. }
  pose proof (dma_recover_spec m3 H3 ltac:(by rewrite Hk3, Hk2)) as R. cbv zeta in R.
  rewrite bool_decide_eq_true_2 in R by done.
  destruct (dma_recover m3) as [[] m4] eqn:Er. cbn [snd] in R. destruct R as [H4 _ Hi4 Hk4 Hp4 Hs4 Hd4 Hst4].
  rewrite Hp3 in Hp4. exists m3, m4. do 3 (split; [done|]). split; [by rewrite Hs4, Hs3|].
  split; [by rewrite Hd4|]. split; [done|].
  assert (static_part (soc_of m4) = static_part (soc_of m)) as Hst by congruence.
  pose proof Hplat as [_ _ Hf Hmal Hlat Hbur].
  split; [|exact Hst]. unfold static_part in Hst. injection Hst as El Eb _ _ _ _ _ _ _ _ Ef Ee.
  constructor; [exact H4| | |by rewrite Hd4|by rewrite Hk4, Hk3, Hk2| |by rewrite Hi4, Hi3|exact Hh|by rewrite Ee].
  - constructor; [apply H4|by rewrite Hp4|by rewrite Ef|exact Hmal|by rewrite El|by rewrite Eb].
  - rewrite Hd4, Hd3, Hd2. destruct (phase (s_dma (soc_of m2))); exact Hdrv.
  - rewrite Hi4, Hi3. split; [apply Hisr|apply is_u32_u32].
Qed.

Lemma soc_moved_data s t s' t' src dst len :
  data_part s = data_part t -> data_part s' = data_part t' ->
  soc_moved s s' src dst len -> soc_moved t t' src dst len.
Proof. unfold soc_moved. intros [= <- <-] [= <- <-] H. exact H. Qed.

(** C3. A whole life cycle of any admitted transfer, in each of its three
    directions: the submission is accepted; when the transfer time has passed
    the driver is still ACTIVE and one dispatch runs the handler once, after
    which the driver is COMPLETE; recovery makes it IDLE, and the firmware is
    set up for the next transfer exactly as before.  Handler and recovery leave
    memory and the UART alone.  Between two SRAM ranges the destination holds
    the source's bytes of the start; with no byte on its way out of the UART
    the three directions move what [soc_moved] says. *)
Theorem dma_lifecycle m h src dst len n :
  dma_client m h -> vlab_transfer src dst len -> is_u32 src -> is_u32 dst ->
  soc_dma_time (soc_of m) len <= Z.of_nat n ->
  let '(rc, m1) := dma_submit src dst len true m in
  let '(_, m2) := soc_host_step malloc_ok n m1 in
  let '(handled, m3) := isr_dispatch (dma_table h) m2 in
  let '(_, m4) := dma_recover m3 in
  rc = VLAB_DMA_OK /\ s_state (drv m2) = DMA_S_ACTIVE /\ handled = 1 /\
  s_state (drv m3) = DMA_S_COMPLETE /\ s_done_flag (drv m3) = 1 /\ s_err_latch (drv m3) = 0 /\
  s_irq_count (drv m3) = u32 (s_irq_count (drv m) + 1) /\
  data_part (soc_of m4) = data_part (soc_of m2) /\
  (in_sram src len -> in_sram dst len ->
     mem_range (s_sram (soc_of m4)) dst len = mem_range (s_sram (soc_of m)) src len) /\
  (u_busy (s_uart (soc_of m)) <= 0 -> soc_moved (soc_of m) (soc_of m4) src dst len) /\
  phase (s_dma (soc_of m4)) = Idle /\ dma_client m4 h.
Proof.
  intros Hc Hreq Hsu Hdu Hn.
  destruct (submit_and_run m h src dst len n Hc Hreq Hsu Hdu Hn)
    as (m1 & m2 & s1 & -> & -> & H2 & Hd2 & Hk2 & Hi2 & Hst2 & Hp2 & Hw2 & Es2 & Hr & Ht & Em & Ed).
  destruct (dispatch_and_recover m m2 h Hc H2 Hk2 Hi2 Hst2 Hd2) as (m3 & m4 & -> & -> & Hd3 & Hs4 & _ & Hp4 & Hc4 & _);
    [by rewrite Hp2..|exact Hw2|].
  rewrite Hp2, Hd2 in Hd3. split; [done|]. split; [by rewrite Hd2|]. split; [done|].
  do 4 (split; [by rewrite Hd3|]). split; [exact Hs4|].
  split; [|split; [|split; [exact Hp4|exact Hc4]]].
  - intros Hsrc Hdst.
    destruct (soc_dma_ram_done malloc_ok s1 3 n Hr) as (_ & Hmem & _); [by rewrite Ed|by rewrite Ed|done|].
    pose proof (f_equal fst Hs4) as Es4. pose proof (f_equal fst Em) as Es. cbn [data_part fst] in Es4, Es.
    rewrite <- Es2, Ed, Es in Hmem. by rewrite Es4.
  - intros Hidle. pose proof (f_equal snd Em) as Eu. cbn [data_part snd] in Eu. rewrite <- Eu in Hidle.
    destruct (soc_dma_moves malloc_ok s1 3 n Hr Hidle Ht) as (_ & Hmoved & _). rewrite <- Es2, Ed in Hmoved.
    exact (soc_moved_data _ _ _ _ _ _ _ Em (eq_sym Hs4) Hmoved).
Qed.

End Clocked.

(** The default machine after bring-up of the three parts: driver, table and
    controller. *)
Definition machine_client : machine :=
  let s := soc_of machine_default in
  with_soc machine_default (s <| s_intc := s_intc s <| ic_enable := 4 |> |>)
    <| drv := Mk_dma_driver (Some vlab_memory_map) (Some vlab_dma_caps) (Some vlab_dma_periph_eps)
                DMA_S_IDLE 0 0 0 |>
    <| isr := Mk_isr [0; 0; 0x100; 0; 0; 0; 0; 0] 3 0 |>.

Lemma machine_client_ok : dma_client (fun _ _ => true) machine_client 0x100.
Proof.
  assert (soc_wf (soc_of machine_client)) as Hwf.
  { apply (soc_wf_intc (soc_of machine_default)); [apply machine_default_ready| |done].
    constructor; unfold fits; simpl; lia. }
  by constructor.
Qed.

(** A copy, and a buffer sent out through the UART. *)
Lemma dma_lifecycle_witness :
  let malloc_ok (_ _ : Z) := true in
  let run dst :=
    let '(rc, m1) := dma_submit 0x10000000 dst 64 true machine_client in
    let '(_, m2) := soc_host_step malloc_ok 19 m1 in
    let '(handled, m3) := isr_dispatch (dma_table 0x100) m2 in
    (rc, handled, s_state (drv m3)) in
  run 0x10000100 = (VLAB_DMA_OK, 1, DMA_S_COMPLETE) /\
  run VLAB_UART_TXDATA = (VLAB_DMA_OK, 1, DMA_S_COMPLETE).
Proof.
  assert (vlab_transfer 0x10000000 0x10000100 64) as Hram by (split_and!; try done; by left).
  assert (vlab_transfer 0x10000000 VLAB_UART_TXDATA 64) as Hout by (split_and!; try done; by right; left).
  pose proof (fun dst Hreq (Hd : is_u32 dst) => dma_lifecycle (fun _ _ => true) machine_client 0x100 0x10000000 dst 64 19
    machine_client_ok Hreq ltac:(done) Hd ltac:(done)) as H.
  assert (is_u32 0x10000100 /\ is_u32 VLAB_UART_TXDATA) as [Hd1 Hd2] by done.
  pose proof (H _ Hram Hd1) as H1. pose proof (H _ Hout Hd2) as H2. clear H. cbv beta zeta in *.
  split.
  - clear H2. destruct (dma_submit _ _ _ _ _) as [rc m1]. destruct (soc_host_step _ 19 m1) as [? m2].
    destruct (isr_dispatch _ m2) as [handled m3]. destruct (dma_recover m3) as [? m4].
    destruct H1 as (-> & _ & -> & -> & _). reflexivity.
  - clear H1. destruct (dma_submit _ _ _ _ _) as [rc m1]. destruct (soc_host_step _ 19 m1) as [? m2].
    destruct (isr_dispatch _ m2) as [handled m3]. destruct (dma_recover m3) as [? m4].
    destruct H2 as (-> & _ & -> & -> & _). reflexivity.
Defined.
