(* ===== verification/Hooks.v ===== *)
(** The bridge's test hooks and the error path of the DMA life cycle.

    [vlab_test_dma_error] forces the engine into a failure and
    [vlab_test_dma_complete] drives it to its outcome
    ([soc_c/src/host_bridge.c]).  The theorems: a transfer that fails at any
    moment is reported by one dispatch, latched and recovered from; and the
    completing hook stops at the engine's first outcome.  The last part shows
    what a vector table smaller than the controller loses. *)

From S2P Require Import Prelude Regions DmaCaps Platform Memory Perf Intc Timer Uart.
From S2P Require Import DmaSpec Dma Soc SocBus SocClock SocCount Hal Drivers DrvDma Isr Lifecycle.

Local Open Scope c_scope.

(** * Forcing an error *)

(** The engine as [vlab_test_dma_error] leaves it. *)
Definition dma_forced (d : soc_dma_t) (code : Z) : soc_dma_t :=
  d <| d_busy := false |> <| d_done := false |> <| d_error := true |> <| d_err_code := code |>.

Lemma dma_forced_wf d code : dma_wf d -> 1 <= code <= 4 -> dma_wf (dma_forced d code).
Proof. intros [] Hc. unfold dma_forced. destruct d; rec_simpl. constructor; simpl; auto. Qed.

Definition soc_forced (s : soc_t) (code : Z) : soc_t :=
  s <| s_dma := dma_forced (s_dma s) code |>
    <| s_intc := if tst (d_ctrl (s_dma s)) SOC_DMA_CTRL_IRQ_ENABLE
                 then soc_intc_raise (s_intc s) SOC_DMA_IRQ_LINE else s_intc s |>.

Lemma soc_forced_wf s code : soc_wf s -> 1 <= code <= 4 -> soc_wf (soc_forced s code).
Proof.
  intros Hs Hc. unfold soc_forced.
  assert (soc_wf (s <| s_dma := dma_forced (s_dma s) code |>)) as H1
    by (apply soc_wf_dma; [done|apply dma_forced_wf; [apply (swf_dma _ Hs)|done]|done]).
  apply (soc_wf_intc _ _ H1); [|destruct (tst _ _); [apply soc_intc_raise_perf|done]].
  destruct (tst _ _); [apply soc_intc_raise_wf|]; apply (swf_intc _ Hs).
Qed.

Lemma test_dma_error_run m code :
  vlab_test_dma_error code m =
    (tt, if g_inited (host m) then with_soc m (soc_forced (soc_of m) code) else m).
Proof.
  unfold vlab_test_dma_error, mbind, mget, mmodify. destruct (g_inited (host m)); [|done].
  cbn [negb]. unfold soc_forced, dma_forced.
  change (d_ctrl (s_dma (_ <| s_dma := _ |>))) with (d_ctrl (s_dma (soc_of m))).
  by destruct (tst _ _).
Qed.

(** With the line enabled and IRQ_ENABLE in CTRL, the line is waiting. *)
Lemma test_dma_error_view m code :
  ready m -> 1 <= code <= 4 -> Z.testbit (d_ctrl (s_dma (soc_of m))) 1 = true ->
  ic_enable (s_intc (soc_of m)) = 4 ->
  exists m', vlab_test_dma_error code m = (tt, m') /\ ready m' /\
    phase (s_dma (soc_of m')) = Failed code /\ data_part (soc_of m') = data_part (soc_of m) /\
    drv m' = drv m /\ s_irq_masked m' = s_irq_masked m /\ isr m' = isr m /\
    static_part (soc_of m') = static_part (soc_of m) /\ waiting m' = [Spec.DMA].
Proof.
  intros Hm Hc Hi He. rewrite test_dma_error_run, (proj1 Hm).
  assert (tst (d_ctrl (s_dma (soc_of m))) SOC_DMA_CTRL_IRQ_ENABLE = true) as Ht.
  { change SOC_DMA_CTRL_IRQ_ENABLE with (Z.shiftl 1 1). by rewrite tst_bit. }
  eexists. split; [done|]. split; [apply ready_with_soc; [done|apply soc_forced_wf; [apply Hm|done]]|].
  rewrite soc_of_with_soc. unfold soc_forced. rewrite Ht. split; [done|]. split; [done|].
  do 4 (split; [done|]).
  apply waiting_dma; rewrite soc_of_with_soc; [exact He|].
  change (Z.testbit (Z.lor (ic_pending (s_intc (soc_of m))) (Z.shiftl 1 2)) 2 = true).
  by rewrite Z.lor_spec, orb_true_r.
Qed.

(** * CTRL survives the clock *)

Lemma soc_dma_step_ctrl malloc_ok d ic perf (ctx : soc_dma_ctx) :
  let '(d', _, _, _) := soc_dma_step malloc_ok d ic perf ctx in d_ctrl d' = d_ctrl d.
Proof.
  destruct (soc_dma_step_cases malloc_ok d ic perf ctx) as [-> | (_ & _ & [-> | ->])]; [done..|].
  unfold dma_finish. destruct (dma_reader ctx (d_src d) (d_length d)) as [[tmp|] ctx1]; [|done].
  destruct (dma_writer ctx1 (d_dst d) tmp) as [rc ctx2]. by destruct (rc =? SOC_OK).
Qed.

Lemma soc_step_ctrl malloc_ok s n :
  d_ctrl (s_dma (soc_step malloc_ok s n)) = d_ctrl (s_dma s).
Proof.
  apply (soc_step_ind malloc_ok (fun s' => d_ctrl (s_dma s') = d_ctrl (s_dma s))); [|done].
  intros s' <-. destruct (soc_uart_step (s_uart s') (s_intc s')) as [u ic1] eqn:Hu.
  destruct (soc_timer_step (s_timer s') ic1) as [t ic2] eqn:Ht.
  pose proof (soc_dma_step_ctrl (malloc_ok (u32 (s_ticks s' + 1))) (s_dma s') ic2
    (soc_perf_tick (s_perf s')) (Mk_soc_dma_ctx u (s_sram s'))) as Hc.
  destruct (soc_dma_step _ _ _ _ _) as [[[d ic3] perf] ctx] eqn:Hd.
  by rewrite (soc_tick_eq malloc_ok s' _ _ _ _ _ _ _ _ Hu Ht Hd).
Qed.

(** * The error life cycle *)

Section Clocked.

Variable malloc_ok : Z -> Z -> bool.

(** Submission, some ticks and a forced error: the engine has failed with the
    driver still ACTIVE and the DMA line waiting. *)
Lemma submit_and_fail m h src dst len n code :
  dma_client malloc_ok m h -> vlab_transfer src dst len -> is_u32 src -> is_u32 dst ->
  1 <= code <= 4 ->
  exists m1 m2 m3,
    dma_submit src dst len true m = (VLAB_DMA_OK, m1) /\
    soc_host_step malloc_ok n m1 = (tt, m2) /\ vlab_test_dma_error code m2 = (tt, m3) /\ ready m3 /\
    drv m3 = drv m <| s_state := DMA_S_ACTIVE |> <| s_done_flag := 0 |> <| s_err_latch := 0 |> /\
    s_irq_masked m3 = s_irq_masked m /\ isr m3 = isr m /\
    static_part (soc_of m3) = static_part (soc_of m) /\
    phase (s_dma (soc_of m3)) = Failed code /\ waiting m3 = [Spec.DMA] /\
    data_part (soc_of m3) = data_part (soc_of m2) /\
    (Z.of_nat n < soc_dma_time (soc_of m) len -> s_sram (soc_of m3) = s_sram (soc_of m) /\
       (u_busy (s_uart (soc_of m)) <= 0 -> data_part (soc_of m3) = data_part (soc_of m))).
Proof.
  intros Hc Hreq Hsu Hdu Hcode.
  destruct (submit_and_step malloc_ok m h src dst len n Hc Hreq Hsu Hdu)
    as (m1 & s1 & Esub & _ & Estep & _ & H2 & Hd2 & Hk2 & Hi2 & Hst2 & Hr & Em & Ed). cbv zeta in *.
  pose proof (soc_step_ctrl malloc_ok (soc_dma_launched s1 3) n) as Hctrl.
  pose proof (soc_dma_run_waiting malloc_ok s1 3 n Hr) as Hwait.
  unfold soc_dma_ticks in Hwait. rewrite Ed in Hwait.
  revert Estep H2 Hd2 Hk2 Hi2 Hst2 Hctrl Hwait. generalize (soc_step malloc_ok (soc_dma_launched s1 3) n).
  intros s2 Estep H2 Hd2 Hk2 Hi2 Hst2 Hctrl Hwait.
  assert (Z.testbit (d_ctrl (s_dma (soc_of (with_soc m1 s2)))) 1 = true) as Hbit
    by (rewrite soc_of_with_soc, Hctrl; done).
  assert (ic_enable (s_intc (soc_of (with_soc m1 s2))) = 4) as He.
  { transitivity (ic_enable (s_intc (soc_of m))); [exact (f_equal snd Hst2)|apply (dc_enable _ _ _ Hc)]. }
  set (m2 := with_soc m1 s2) in *.
  destruct (test_dma_error_view m2 code H2 Hcode Hbit He) as (m3 & E3 & H3 & Hp3 & Hs3 & Hd3 & Hk3 & Hi3 & Hst3 & Hw3).
  exists m1, m2, m3. do 4 (split; [done|]). do 4 (split; [congruence|]). do 3 (split; [done|]).
  intros Hn. destruct Hwait as (_ & Hsram & Huart & _); [exact Hn|].
  unfold data_part in Hs3, Em |- *. injection Hs3 as Es3 Eu3. injection Em as Em Eu.
  change (soc_of m2) with s2 in *. split; [congruence|]. intros Hb. rewrite <- Eu in Hb.
  rewrite Es3, Eu3, Hsram, (Huart Hb). congruence.
Qed.

(** C4. A transfer that fails: whenever after an accepted submission the engine
    errors, with whatever code, one dispatch runs the handler once and the
    driver is in ERROR with that code latched and no completion flagged;
    recovery drops the latch and leaves firmware and engine set up for the
    next transfer exactly as before.  A failure before the transfer time has
    moved nothing. *)
Theorem dma_error_lifecycle m h src dst len n code :
  dma_client malloc_ok m h -> vlab_transfer src dst len -> is_u32 src -> is_u32 dst ->
  1 <= code <= 4 ->
  let '(rc, m1) := dma_submit src dst len true m in
  let '(_, m2) := soc_host_step malloc_ok n m1 in
  let '(_, m3) := vlab_test_dma_error code m2 in
  let '(handled, m4) := isr_dispatch (dma_table h) m3 in
  let '(_, m5) := dma_recover m4 in
  rc = VLAB_DMA_OK /\ handled = 1 /\ s_state (drv m4) = DMA_S_ERROR /\ s_err_latch (drv m4) = code /\
  s_done_flag (drv m4) = 0 /\ s_irq_count (drv m4) = u32 (s_irq_count (drv m) + 1) /\
  s_sram (soc_of m5) = s_sram (soc_of m2) /\
  (Z.of_nat n < soc_dma_time (soc_of m) len -> s_sram (soc_of m5) = s_sram (soc_of m)) /\
  s_err_latch (drv m5) = 0 /\ phase (s_dma (soc_of m5)) = Idle /\ dma_client malloc_ok m5 h.
Proof.
  intros Hc Hreq Hsu Hdu Hcode.
  destruct (submit_and_fail m h src dst len n code Hc Hreq Hsu Hdu Hcode)
    as (m1 & m2 & m3 & -> & -> & -> & H3 & Hd3 & Hk3 & Hi3 & Hst3 & Hp3 & Hw3 & Hs3 & Hmem).
  destruct (dispatch_and_recover malloc_ok m m3 h Hc H3 Hk3 Hi3 Hst3 Hd3)
    as (m4 & m5 & -> & -> & Hd4 & Hs5 & Hl5 & Hp5 & Hc5 & _); [by rewrite Hp3|by rewrite Hp3|done|].
  rewrite Hp3, Hd3 in Hd4. split; [done|]. split; [done|].
  do 4 (split; [by rewrite Hd4|]). apply (f_equal fst) in Hs5, Hs3. cbn [data_part fst] in Hs5, Hs3.
  split; [congruence|]. split; [|by split]. intros Hn. rewrite Hs5. by apply Hmem.
Qed.

End Clocked.

Lemma dma_error_lifecycle_witness :
  let '(rc, m1) := dma_submit 0x10000000 0x10000100 64 true machine_client in
  let '(_, m2) := soc_host_step (fun _ _ => true) 7 m1 in
  let '(_, m3) := vlab_test_dma_error 2 m2 in
  let '(handled, m4) := isr_dispatch (dma_table 0x100) m3 in
  rc = VLAB_DMA_OK /\ handled = 1 /\ s_state (drv m4) = DMA_S_ERROR /\ s_err_latch (drv m4) = 2.
Proof.
  assert (vlab_transfer 0x10000000 0x10000100 64) as Hreq by (split_and!; try done; by left).
  pose proof (dma_error_lifecycle (fun _ _ => true) machine_client 0x100 0x10000000 0x10000100 64 7 2
    machine_client_ok Hreq ltac:(done) ltac:(done) ltac:(done)) as H.
  destruct (dma_submit _ _ _ _ _) as [rc m1]. destruct (soc_host_step _ 7 m1) as [? m2].
  destruct (vlab_test_dma_error 2 m2) as [? m3]. destruct (isr_dispatch _ m3) as [handled m4].
  destruct (dma_recover m4) as [? m5]. destruct H as (Hrc & Hh & Hs & Hl & _). done.
Defined.

(** * Driving the engine to its outcome *)

Lemma phase_status_terminal p :
  tst (phase_status p) (Z.lor SOC_DMA_STATUS_DONE SOC_DMA_STATUS_ERROR) ||
  negb (tst (phase_status p) SOC_DMA_STATUS_BUSY) = bool_decide (p <> Busy).
Proof. by destruct p. Qed.

Section Completing.

Variable malloc_ok : Z -> Z -> bool.

(** One turn of the hook's loop on a ready machine. *)
Lemma complete_turn fuel st m :
  ready m ->
  let m1 := with_soc m (counted (soc_of m)) in
  dma_complete_from malloc_ok (S fuel) st m =
    if bool_decide (phase (s_dma (soc_of m)) <> Busy) then (tt, m1)
    else dma_complete_from malloc_ok fuel (phase_status (phase (s_dma (soc_of m))))
           (with_soc m1 (soc_step malloc_ok (soc_of m1) 1)).
Proof.
  intros Hm. cbv zeta. cbn [dma_complete_from]. unfold mbind, mget, mmodify, mret.
  change (SOC_DMA_BASE + 0x10) with VLAB_DMA_STATUS. rewrite read_dma_status by apply Hm.
  rewrite <- phase_status_terminal.
  destruct (tst (phase_status _) (Z.lor _ _)); [done|]. cbn [orb]. by destruct (negb _).
Qed.

(** [j] is the first of the hook's [fuel] looks at which [s] is not busy, or
    [fuel] when there is none. *)
Definition complete_at (s : soc_t) (fuel j : nat) : Prop :=
  (j <= fuel)%nat /\ (forall i, (i < j)%nat -> phase (s_dma (soc_step malloc_ok s i)) = Busy) /\
  ((j < fuel)%nat -> phase (s_dma (soc_step malloc_ok s j)) <> Busy).

Lemma dma_complete_from_spec fuel st m s :
  ready m -> only_counted s (soc_of m) ->
  exists j s', dma_complete_from malloc_ok fuel st m = (tt, with_soc m s') /\
    ready (with_soc m s') /\ only_counted (soc_step malloc_ok s j) s' /\ complete_at s fuel j.
Proof.
  revert st m s. induction fuel as [|fuel IH]; intros st m s Hm Hc.
  - exists 0%nat, (soc_of m). split; [by destruct m as [[] ? ? ? ?]|].
    split; [exact Hm|]. split; [done|]. split; [done|]. split; intros; lia.
  - rewrite complete_turn by done. assert (s_dma (soc_of m) = s_dma s) as Ed by by rewrite Hc.
    rewrite Ed. destruct (bool_decide_reflect (phase (s_dma s) <> Busy)) as [Hp|Hp].
    + exists 0%nat, (counted (soc_of m)). split; [done|]. split; [by apply ready_counted|].
      split; [by apply only_counted_step|]. split; [lia|]. split; [lia|done].
    + set (m1 := with_soc m (counted (soc_of m))).
      assert (ready m1) as H1 by by apply ready_counted.
      set (s1 := soc_step malloc_ok (soc_of m1) 1).
      assert (ready (with_soc m1 s1)) as H2 by (apply ready_with_soc; [done|apply soc_step_wf, H1]).
      assert (only_counted (soc_step malloc_ok s 1) s1) as Hc1.
      { unfold s1. apply soc_step_proper; [by apply only_counted_step|done]. }
      clearbody s1.
      destruct (IH (phase_status (phase (s_dma s))) (with_soc m1 s1) (soc_step malloc_ok s 1) H2 Hc1)
        as (j & s' & -> & Hr & Hcs & Hj & Hbusy & Hend).
      exists (S j), s'. split; [done|]. split; [done|].
      rewrite <- soc_step_add in Hcs. split; [exact Hcs|]. split; [lia|]. split.
      * intros [|i] Hi; [by apply dec_stable|]. rewrite (soc_step_add malloc_ok s 1 i : soc_step malloc_ok s (S i) = _).
        apply Hbusy. lia.
      * intros Hlt. rewrite (soc_step_add malloc_ok s 1 j : soc_step malloc_ok s (S j) = _). apply Hend. lia.
Qed.

Lemma complete_at_unique s fuel j k : complete_at s fuel j -> complete_at s fuel k -> j = k.
Proof.
  intros (Hj & Hbj & Hej) (Hk & Hbk & Hek). destruct (Nat.lt_trichotomy j k) as [H|[H|H]]; [|done|].
  - exfalso. apply Hej; [lia|by apply Hbk].
  - exfalso. apply Hek; [lia|by apply Hbj].
Qed.

(** When the engine's outcome comes, in the three cases that matter. *)
Lemma complete_at_free s fuel : phase (s_dma s) <> Busy -> complete_at s fuel 0.
Proof. intros Hp. split; [lia|]. split; [intros; lia|done]. Qed.

Lemma complete_at_stuck s fuel :
  phase (s_dma s) = Busy -> d_fault_stuck_busy (s_dma s) = true -> complete_at s fuel fuel.
Proof.
  intros Hp Hf. split; [done|]. split; [|intros; lia].
  intros i _. by rewrite (proj1 (soc_step_stuck malloc_ok s i Hf)).
Qed.

Lemma complete_at_transfer s ctrl fuel j :
  dma_ready malloc_ok s ctrl -> Z.of_nat j = soc_dma_ticks s -> (j <= fuel)%nat ->
  complete_at (soc_dma_launched s ctrl) fuel j.
Proof.
  intros Hr Ht Hj. split; [done|]. split.
  - intros i Hi. apply (soc_dma_run_waiting malloc_ok s ctrl i Hr). lia.
  - intros _. destruct (soc_dma_run_done malloc_ok s ctrl j Hr) as (u & bs & c1 & c2 & _ & _ & _ & _ & Hp & _);
      [lia|]. by rewrite Hp.
Qed.

(** C25. The completing hook ends: it looks at the engine at most 100000 times,
    one tick apart, and leaves the machine, its access counters aside, at the
    first tick the engine is not BUSY: at once when the engine is free, after
    exactly the transfer time when it runs an admitted transfer, and still BUSY
    after all the ticks when it is stuck. *)
Theorem test_dma_complete_spec m :
  ready m ->
  let s := soc_of m in
  let '(_, m') := vlab_test_dma_complete malloc_ok m in
  let stops_at j := only_counted (soc_step malloc_ok s j) (soc_of m') in
  ready m' /\ drv m' = drv m /\ isr m' = isr m /\ s_irq_masked m' = s_irq_masked m /\
  (exists j, complete_at s (Z.to_nat 100000) j /\ stops_at j) /\
  (phase (s_dma s) <> Busy -> stops_at 0%nat) /\
  (forall s0 ctrl, dma_ready malloc_ok s0 ctrl -> s = soc_dma_launched s0 ctrl ->
     soc_dma_ticks s0 <= 100000 ->
     stops_at (Z.to_nat (soc_dma_ticks s0)) /\ phase (s_dma (soc_of m')) = Done) /\
  (phase (s_dma s) = Busy -> d_fault_stuck_busy (s_dma s) = true ->
     stops_at (Z.to_nat 100000) /\ phase (s_dma (soc_of m')) = Busy).
Proof.
  intros Hm. cbv zeta. unfold vlab_test_dma_complete, mbind, mget. rewrite (proj1 Hm). cbn [negb].
  remember (Z.to_nat 100000) as fuel eqn:Hfuel.
  destruct (dma_complete_from_spec fuel 0 m (soc_of m) Hm (only_counted_refl _))
    as (j & s' & -> & Hr & Hc & Hj). rewrite soc_of_with_soc.
  do 4 (split; [done|]). split; [by exists j|]. split; [|split].
  - intros Hp. by rewrite (complete_at_unique _ _ _ _ Hj (complete_at_free _ fuel Hp)) in Hc.
  - intros s0 ctrl Hr0 Es Ht. rewrite Es in Hj, Hc |- *.
    destruct (soc_dma_launch malloc_ok s0 ctrl Hr0) as (_ & _ & _ & Hpos).
    assert (complete_at (soc_dma_launched s0 ctrl) fuel (Z.to_nat (soc_dma_ticks s0))) as Hk
      by (apply complete_at_transfer; [done|lia|subst fuel; apply Z2Nat.inj_le; lia]).
    rewrite (complete_at_unique _ _ _ _ Hj Hk) in Hc. split; [done|]. rewrite <- Hc.
    destruct (soc_dma_run_done malloc_ok s0 ctrl (Z.to_nat (soc_dma_ticks s0)) Hr0)
      as (u & bs & c1 & c2 & _ & _ & _ & _ & Hp & _); [lia|done].
  - intros Hp Hf. rewrite (complete_at_unique _ _ _ _ Hj (complete_at_stuck _ fuel Hp Hf)) in Hc.
    split; [done|]. rewrite <- Hc. by rewrite (proj1 (soc_step_stuck malloc_ok _ fuel Hf)).
Qed.

End Completing.

Lemma test_dma_complete_spec_witness :
  let m := with_soc machine_default
             (soc_dma_launched (soc_dma_program soc_default 0x10000000 0x10000020 64) 3) in
  phase (s_dma (soc_of (snd (vlab_test_dma_complete (fun _ _ => true) m)))) = Done.
Proof.
  pose proof soc_program_demo_ready as Hr. destruct soc_program_demo_parts as [_ Ed].
  cbv zeta. set (s := soc_dma_program _ _ _ _) in *. clearbody s.
  destruct (soc_dma_launch (fun _ _ => true) s 3 Hr) as (_ & Hwf & _).
  pose proof (test_dma_complete_spec (fun _ _ => true) (with_soc machine_default (soc_dma_launched s 3))
    (ready_with_soc _ _ machine_default_ready Hwf)) as H. cbv zeta in H.
  destruct (vlab_test_dma_complete _ _) as [? m']. destruct H as (_ & _ & _ & _ & _ & _ & H & _).
  apply (H s 3 Hr eq_refl). unfold soc_dma_ticks. by rewrite Ed.
Defined.

(** * A vector table smaller than the controller *)

(** An acknowledge makes the line it delivers ACTIVE. *)
Lemma ack_active m l q :
  ready m -> waiting m = l :: q ->
  let m' := snd (hal_read_reg VLAB_INTC_ACK m) in
  Z.testbit (ic_active (s_intc (soc_of m'))) (Spec.number l) = true /\
  Z.testbit (ic_pending (s_intc (soc_of m'))) (Spec.number l) = false.
Proof.
  intros Hm Hq. cbv zeta. rewrite hal_read_ready, read_intc_ack by (done || apply Hm).
  pose proof (ack_refines (s_intc (soc_of m)) (soc_perf_count_mem (s_perf (soc_of m))) (swf_intc _ (proj2 Hm))) as H.
  destruct (soc_intc_read _ _ _) as [[r ic] perf]. destruct H as (_ & Ha & _). cbn [snd].
  rewrite soc_of_with_soc. change (s_intc (_ <| s_perf := perf |>)) with ic.
  unfold waiting in Hq. unfold Spec.ack in Ha. rewrite Hq in Ha. cbn [snd] in Ha.
  pose proof (f_equal Spec.active Ha) as Hact. pose proof (f_equal Spec.pending Ha) as Hpend.
  cbn [abs Spec.active Spec.pending] in Hact, Hpend. rewrite <- elem_of_lines_of, <- not_true_iff_false, <- elem_of_lines_of, Hact, Hpend.
  split.
  - apply list_elem_of_filter. split; [by left|]. destruct l; unfold Spec.by_priority; set_solver.
  - unfold Spec.remove. rewrite list_elem_of_filter. by intros [].
Qed.

(** C14. A best line the table has no room for ends the dispatch: it has been taken
    by the ACK read, no handler runs, no CLEAR is written, so it stays ACTIVE
    and is lost; lines behind it wait for the next dispatch. *)
Theorem dispatch_loses_line call m l q :
  ready m -> waiting m = l :: q -> 1 <= s_n_lines (isr m) <= Spec.number l ->
  let '(handled, m') := isr_dispatch call m in
  handled = 0 /\ ready m' /\ waiting m' = q /\ isr m' = isr m /\ drv m' = drv m /\
  Z.testbit (ic_active (s_intc (soc_of m'))) (Spec.number l) = true /\
  Z.testbit (ic_pending (s_intc (soc_of m'))) (Spec.number l) = false.
Proof.
  intros Hm Hq Hn. pose proof (ack_active m l q Hm Hq) as Hact. cbv zeta in Hact.
  destruct (ack_waiting m Hm) as (ic & perf & E & H1 & Hw & _). rewrite Hq in E, Hw.
  rewrite E in Hact. unfold isr_dispatch. cbn [ISR_MAX_LINES].
  change (Z.to_nat ISR_MAX_LINES) with 8%nat. cbn [dispatch_from]. unfold mbind, mget.
  destruct (Z.ltb_spec 0 (s_n_lines (isr m))); [|lia]. cbn [negb]. rewrite E.
  change (isr (with_soc m _)) with (isr m).
  destruct (Z.leb_spec (s_n_lines (isr m)) (Spec.number l)); [|lia]. rewrite orb_true_r. unfold mret.
  split; [done|]. split; [done|]. split; [done|]. split; [done|]. by split.
Qed.

Lemma dispatch_loses_line_witness :
  let m := with_soc machine_default
             (soc_of machine_default <| s_intc := Mk_soc_intc 0x7 0x5 0 LINKED |>) <| isr := Mk_isr [] 2 0 |> in
  let '(handled, m') := isr_dispatch (fun _ _ => mret tt) m in
  handled = 0 /\ waiting m' = [Spec.UART] /\ Z.testbit (ic_active (s_intc (soc_of m'))) 2 = true.
Proof.
  cbv zeta. set (m := with_soc _ _ <| isr := _ |>).
  assert (intc_wf (Mk_soc_intc 0x7 0x5 0 LINKED)) as Hi by (constructor; unfold fits; simpl; lia).
  assert (ready m) as Hm by (split; [done|]; apply soc_wf_intc; [apply machine_default_ready|exact Hi|done]).
  pose proof (dispatch_loses_line (fun _ _ => mret tt) m Spec.DMA [Spec.UART] Hm) as H.
  destruct (isr_dispatch _ m) as [handled m'].
  destruct H as (-> & _ & Hw & _ & _ & Ha & _); [done|by simpl|]. done.
Defined.
