(* ===== verification/Session.v ===== *)
(** A client of the interrupt-driven DMA interface, and what it may rely on.

    A job is a submission followed to its end: the clock, a possible engine
    error, one dispatch, the driver's report, recovery.  [Ideal] is the
    interface as its client sees it: memory a function of addresses, the UART
    two queues, a transfer one step.  The theorem: any sequence of jobs between
    memory and the UART, refused, completed and failed ones mixed, refines
    it. *)

From S2P Require Import Prelude Regions DmaCaps Platform Memory Perf Intc Timer Uart.
From S2P Require Import DmaSpec Dma Soc SocBus SocClock SocCount Hal Drivers DrvDma Isr Lifecycle Hooks.

Local Open Scope c_scope.

(** A request, how long the client waits, and the error it meets if any. *)
Record job : Type := Mk_job {
  j_src : Z; j_dst : Z; j_len : Z; j_wait : nat; j_error : option Z
}.

(** What a job reports: the submission's answer, the state the handler left
    the driver in, and the latched error. *)
Record report : Type := Mk_report { r_answer : Z; r_state : dma_state_t; r_latch : Z }.

(** * The specification *)

Module Ideal.

Record world : Type := Mk_world { w_mem : Z -> Z; w_tx : list Z; w_rx : list Z }.

Definition read (addr len : Z) (f : Z -> Z) : list Z := map (fun i => f (addr + i)) (seqZ 0 len).

Definition write (addr : Z) (bs : list Z) (f : Z -> Z) : Z -> Z :=
  fun a => if (addr <=? a) && (a <? addr + zlen bs) then byte_at bs (a - addr) else f a.

(** The UART loops back: what is sent is also received. *)
Definition transfer (src dst len : Z) (w : world) : world :=
  let sent := read src len (w_mem w) in
  if dst =? VLAB_UART_TXDATA then
    Mk_world (w_mem w) (queue_append (w_tx w) sent) (queue_append (w_rx w) sent)
  else if src =? VLAB_UART_RXDATA then
    let '(bs, q) := queue_drain (w_rx w) len in
    Mk_world (write dst bs (w_mem w)) (w_tx w) q
  else Mk_world (write dst sent (w_mem w)) (w_tx w) (w_rx w).

Definition run_job (j : job) (w : world) : report * world :=
  match vlab_judge (j_src j) (j_dst j) (j_len j) with
  | Some r => (Mk_report (driver_code r) DMA_S_IDLE 0, w)
  | None =>
      match j_error j with
      | Some code => (Mk_report VLAB_DMA_OK DMA_S_ERROR code, w)
      | None => (Mk_report VLAB_DMA_OK DMA_S_COMPLETE 0, transfer (j_src j) (j_dst j) (j_len j) w)
      end
  end.

Fixpoint run_jobs (js : list job) (w : world) : list report * world :=
  match js with
  | [] => ([], w)
  | j :: js =>
      let '(r, w) := run_job j w in
      let '(rs, w) := run_jobs js w in
      (r :: rs, w)
  end.

End Ideal.

(** * The client *)

Section Client.

Variable malloc_ok : Z -> Z -> bool.
Variable h : Z.

Definition run_job (j : job) : M machine report :=
  rc <- dma_submit (j_src j) (j_dst j) (j_len j) true ;;
  if negb (rc =? VLAB_DMA_OK) then
    st <- dma_state ;; code <- dma_latched_error ;; mret (Mk_report rc st code)
  else
    soc_host_step malloc_ok (j_wait j) ;;;
    match j_error j with Some code => vlab_test_dma_error code | None => mret tt end ;;;
    _ <- isr_dispatch (dma_table h) ;;
    st <- dma_state ;;
    code <- dma_latched_error ;;
    dma_recover ;;;
    mret (Mk_report rc st code).

Fixpoint run_jobs (js : list job) : M machine (list report) :=
  match js with
  | [] => mret []
  | j :: js => r <- run_job j ;; rs <- run_jobs js ;; mret (r :: rs)
  end.

(** * The relation *)

Definition sram_byte (m : machine) (a : Z) : Z :=
  byte_at (m_bytes (s_sram (soc_of m))) (a - VLAB_SRAM_BASE).

(** The machine's memory and streams, with no byte on its way out. *)
Definition agree (m : machine) (w : Ideal.world) : Prop :=
  (forall a, VLAB_SRAM_BASE <= a < VLAB_SRAM_BASE + 65536 -> sram_byte m a = Ideal.w_mem w a) /\
  tx_stream (s_uart (soc_of m)) = Ideal.w_tx w /\ rx_stream (s_uart (soc_of m)) = Ideal.w_rx w /\
  u_busy (s_uart (soc_of m)) <= 0.

(** Every machine with an idle UART shows a world. *)
Definition world_of (m : machine) : Ideal.world :=
  Ideal.Mk_world (sram_byte m) (tx_stream (s_uart (soc_of m))) (rx_stream (s_uart (soc_of m))).

Lemma agree_world m : u_busy (s_uart (soc_of m)) <= 0 -> agree m (world_of m).
Proof. intros Hb. unfold agree, world_of. by cbn [Ideal.w_mem Ideal.w_tx Ideal.w_rx]. Qed.

(** An admitted transfer is given its time when it is to complete, and an
    error code before it when it is to fail. *)
Definition job_ok (time : Z -> Z) (j : job) : Prop :=
  is_u32 (j_src j) /\ is_u32 (j_dst j) /\ is_u32 (j_len j) /\
  (vlab_transfer (j_src j) (j_dst j) (j_len j) ->
     match j_error j with
     | None => time (j_len j) <= Z.of_nat (j_wait j)
     | Some code => 1 <= code <= 4 /\ Z.of_nat (j_wait j) < time (j_len j)
     end).

Lemma agree_data m m' w : data_part (soc_of m') = data_part (soc_of m) -> agree m w -> agree m' w.
Proof. unfold agree, sram_byte. intros [= -> ->] H. exact H. Qed.

(** Reading and storing a range, on both sides. *)
Lemma agree_read m w src len :
  soc_wf (soc_of m) -> agree m w -> 0 < len -> in_sram src len ->
  mem_range (s_sram (soc_of m)) src len = Ideal.read src len (Ideal.w_mem w).
Proof.
  intros Hs (Hf & _) Hl Hsrc. pose proof (swf_sram _ Hs) as (Hwf & Hb & Hsz & _).
  assert (zlen (mem_range (s_sram (soc_of m)) src len) = len) as Hz.
  { apply zlen_mem_range; [done|lia|]. by apply sram_contains; [apply (swf_sram _ Hs)|..]. }
  apply byte_list_eq.
  - rewrite Hz. unfold Ideal.read, zlen. rewrite length_map, length_seqZ. lia.
  - intros i Hi. rewrite Hz in Hi. unfold in_sram, VLAB_SRAM_BASE in *.
    unfold mem_range. rewrite byte_at_slice by lia.
    assert (byte_at (Ideal.read src len (Ideal.w_mem w)) i = Ideal.w_mem w (src + i)) as ->.
    { unfold byte_at, Ideal.read. rewrite list_lookup_fmap, lookup_seqZ_lt by lia. cbn. do 2 f_equal. lia. }
    rewrite <- Hf by (unfold VLAB_SRAM_BASE; lia). unfold sram_byte, VLAB_SRAM_BASE. f_equal. lia.
Qed.

Lemma agree_store m m' w dst bs :
  soc_wf (soc_of m) -> agree m w -> in_sram dst (zlen bs) ->
  s_sram (soc_of m') = store (s_sram (soc_of m)) (dst - VLAB_SRAM_BASE) bs ->
  forall a, VLAB_SRAM_BASE <= a < VLAB_SRAM_BASE + 65536 ->
    sram_byte m' a = Ideal.write dst bs (Ideal.w_mem w) a.
Proof.
  intros Hs (Hf & _) Hdst Em a Ha. pose proof (swf_sram _ Hs) as (Hwf & Hb & Hsz & _).
  pose proof (wf_len _ Hwf) as Hbuf.
  unfold sram_byte. rewrite Em. unfold store. rewrite m_bytes_set.
  unfold in_sram, VLAB_SRAM_BASE in *. rewrite byte_at_blit by lia. unfold Ideal.write.
  replace (dst - 0x10000000 <=? a - 0x10000000) with (dst <=? a)
    by (destruct (Z.leb_spec dst a), (Z.leb_spec (dst - 0x10000000) (a - 0x10000000)); done || lia).
  replace (a - 0x10000000 <? dst - 0x10000000 + zlen bs) with (a <? dst + zlen bs)
    by (destruct (Z.ltb_spec a (dst + zlen bs)), (Z.ltb_spec (a - 0x10000000) (dst - 0x10000000 + zlen bs)); done || lia).
  destruct ((dst <=? a) && (a <? dst + zlen bs)); [f_equal; lia|by apply Hf].
Qed.

(** What the engine moves is the specification's transfer. *)
Lemma agree_moved m m' w src dst len :
  soc_wf (soc_of m) -> agree m w -> vlab_transfer src dst len ->
  soc_moved (soc_of m) (soc_of m') src dst len -> agree m' (Ideal.transfer src dst len w).
Proof.
  intros Hs Hw (Hlen & _ & _ & _ & Hcase) (Hb & Hmoved). pose proof Hw as (Hf & Ht & Hrx & _).
  pose proof (agree_store m m' w dst) as Hstore. unfold agree, Ideal.transfer.
  destruct Hcase as [[Hsrc Hdst]|[[Hsrc ->]|[-> Hdst]]].
  - destruct (in_sram_not_fifo _ _ Hsrc (proj1 Hlen)) as [_ Es].
    destruct (in_sram_not_fifo _ _ Hdst (proj1 Hlen)) as [Ed _]. rewrite Ed, Es in Hmoved |- *.
    destruct Hmoved as (Et & Hz & Em & Er). rewrite <- (agree_read m w src len Hs Hw (proj1 Hlen) Hsrc).
    split; [apply Hstore; [done|done|by rewrite Hz|done]|]. cbn [Ideal.w_tx Ideal.w_rx]. by rewrite Et, Er.
  - rewrite Z.eqb_refl in Hmoved |- *. destruct Hmoved as (Em & Et & Er).
    rewrite <- (agree_read m w src len Hs Hw (proj1 Hlen) Hsrc). cbn [Ideal.w_tx Ideal.w_rx Ideal.w_mem].
    unfold sram_byte. rewrite Em, Et, Er, Ht, Hrx. by split.
  - destruct (in_sram_not_fifo _ _ Hdst (proj1 Hlen)) as [Ed _]. rewrite Ed, Z.eqb_refl in Hmoved |- *.
    destruct Hmoved as (Et & Hz & Em & Er). rewrite Hrx in Hz, Em, Er.
    destruct (queue_drain (Ideal.w_rx w) len) as [bs q]. cbn [fst snd] in *.
    split; [apply Hstore; [done|done|by rewrite Hz|done]|]. cbn [Ideal.w_tx Ideal.w_rx]. by rewrite Et, Er.
Qed.

(** * One job *)

(** A machine that is the client's in the world [w], configured as [m0]. *)
Definition serves (m0 m : machine) (w : Ideal.world) : Prop :=
  dma_client malloc_ok m h /\ s_err_latch (drv m) = 0 /\
  static_part (soc_of m) = static_part (soc_of m0) /\ agree m w.

Lemma serves_time m0 m w : serves m0 m w -> soc_dma_time (soc_of m) = soc_dma_time (soc_of m0).
Proof.
  intros (_ & _ & Hst & _). unfold static_part, dma_config in Hst. injection Hst as El Eb _ _ _ _ _ _ _ _ _ _.
  unfold soc_dma_time. by rewrite El, Eb.
Qed.

Lemma job_refused m0 m w j r :
  serves m0 m w -> is_u32 (j_src j) -> is_u32 (j_dst j) -> is_u32 (j_len j) ->
  vlab_judge (j_src j) (j_dst j) (j_len j) = Some r ->
  exists m', run_job j m = (Mk_report (driver_code r) DMA_S_IDLE 0, m') /\ serves m0 m' w.
Proof.
  intros (Hc & Hl & Hst & Hf) H1 H2 H3 Hj.
  assert (driver_answer (soc_of m) (j_src j) (j_dst j) (j_len j) = driver_code r) as Ha.
  { unfold driver_answer. rewrite bool_decide_eq_false_2 by apply (dc_platform _ _ _ Hc). by rewrite Hj. }
  assert (driver_code r <> VLAB_DMA_OK) as Hr by by destruct r.
  unfold run_job. unfold mbind at 1.
  rewrite dma_submit_refused by (try apply Hc; by rewrite Ha). rewrite Ha.
  rewrite (proj2 (Z.eqb_neq _ _)) by done. cbn [negb].
  unfold dma_state, dma_latched_error, mbind, mget, mret.
  change (drv (with_soc m _)) with (drv m). rewrite (dc_idle _ _ _ Hc), Hl.
  eexists. split; [done|]. split; [|by split]. destruct Hc.
  constructor; try done; [by apply ready_counted|by apply dma_platform_counted].
Qed.

(** What the dispatch, the report and the recovery make of an outcome. *)
Lemma job_end m0 m m2 w rc :
  dma_client malloc_ok m h -> static_part (soc_of m) = static_part (soc_of m0) -> ready m2 ->
  s_irq_masked m2 = s_irq_masked m -> isr m2 = isr m -> static_part (soc_of m2) = static_part (soc_of m) ->
  drv m2 = drv m <| s_state := DMA_S_ACTIVE |> <| s_done_flag := 0 |> <| s_err_latch := 0 |> ->
  phase_cleared (phase (s_dma (soc_of m2))) = Idle -> phase (s_dma (soc_of m2)) <> Idle ->
  waiting m2 = [Spec.DMA] -> agree m2 w ->
  exists m', (_ <- isr_dispatch (dma_table h) ;; st <- dma_state ;; code <- dma_latched_error ;;
              dma_recover ;;; mret (Mk_report rc st code)) m2 =
      (match phase (s_dma (soc_of m2)) with
       | Failed c => Mk_report rc DMA_S_ERROR c
       | _ => Mk_report rc DMA_S_COMPLETE 0
       end, m') /\ serves m0 m' w.
Proof.
  intros Hc Hst H2 Hk2 Hi2 Hst2 Hd2 Hp2 Hout Hw2 Hf2.
  destruct (dispatch_and_recover malloc_ok m m2 h Hc H2 Hk2 Hi2 Hst2 Hd2 Hp2 Hout Hw2)
    as (m3 & m4 & E3 & E4 & Hd3 & Hs4 & Hl4 & _ & Hc4 & Hst4).
  exists m4. unfold mbind at 1. rewrite E3. unfold dma_state, dma_latched_error, mbind, mget, mret. rewrite E4.
  split; [|split; [done|]; split; [done|]; split; [congruence|by apply agree_data with m2]].
  f_equal. rewrite Hd3, Hd2. by destruct (phase (s_dma (soc_of m2))).
Qed.

Lemma job_failed m0 m w src dst len n code :
  serves m0 m w -> vlab_transfer src dst len -> is_u32 src -> is_u32 dst ->
  1 <= code <= 4 -> Z.of_nat n < soc_dma_time (soc_of m) len ->
  exists m', run_job (Mk_job src dst len n (Some code)) m = (Mk_report VLAB_DMA_OK DMA_S_ERROR code, m') /\
             serves m0 m' w.
Proof.
  intros (Hc & _ & Hst & Hw) Hj H1 H2 Hcode Hn.
  destruct (submit_and_fail malloc_ok m h src dst len n code Hc Hj H1 H2 Hcode)
    as (m1 & m2 & m3 & E1 & E2 & E3 & R3 & Hd3 & Hk3 & Hi3 & Hst3 & Hp3 & Hw3 & _ & Hdata).
  destruct (Hdata Hn) as [_ Hidle]. specialize (Hidle ltac:(apply Hw)).
  destruct (job_end m0 m m3 w VLAB_DMA_OK Hc Hst R3 Hk3 Hi3 Hst3 Hd3) as (m' & E & Hs');
    [by rewrite Hp3|by rewrite Hp3|done|by apply agree_data with m|].
  rewrite Hp3 in E. exists m'. split; [|done].
  unfold run_job. cbn [j_src j_dst j_len j_wait j_error].
  unfold mbind at 1. rewrite E1. change (VLAB_DMA_OK =? VLAB_DMA_OK) with true. cbn [negb].
  do 2 (unfold mbind at 1; rewrite ?E2, ?E3). exact E.
Qed.

Lemma job_completed m0 m w src dst len n :
  serves m0 m w -> vlab_transfer src dst len -> is_u32 src -> is_u32 dst ->
  soc_dma_time (soc_of m) len <= Z.of_nat n ->
  exists m', run_job (Mk_job src dst len n None) m = (Mk_report VLAB_DMA_OK DMA_S_COMPLETE 0, m') /\
             serves m0 m' (Ideal.transfer src dst len w).
Proof.
  intros (Hc & _ & Hst & Hw) Hj H1 H2 Hn.
  destruct (submit_and_run malloc_ok m h src dst len n Hc Hj H1 H2 Hn)
    as (m1 & m2 & s1 & E1 & E2 & R2 & Hd2 & Hk2 & Hi2 & Hst2 & Hp2 & Hw2 & Es2 & Hr & Ht & Em & Ed).
  assert (u_busy (s_uart s1) <= 0) as Hidle.
  { pose proof (f_equal snd Em) as Eu. cbn [data_part snd] in Eu. rewrite Eu. apply Hw. }
  destruct (soc_dma_moves malloc_ok s1 3 n Hr Hidle Ht) as (_ & Hmoved & _).
  rewrite <- Es2, Ed in Hmoved. apply (soc_moved_data _ _ _ _ _ _ _ Em eq_refl) in Hmoved.
  destruct (job_end m0 m m2 (Ideal.transfer src dst len w) VLAB_DMA_OK Hc Hst R2 Hk2 Hi2 Hst2 Hd2)
    as (m' & E & Hs'); [by rewrite Hp2|by rewrite Hp2|done|by apply (agree_moved m); [apply Hc|..]|].
  rewrite Hp2 in E. exists m'. split; [|done].
  unfold run_job. cbn [j_src j_dst j_len j_wait j_error].
  unfold mbind at 1. rewrite E1. change (VLAB_DMA_OK =? VLAB_DMA_OK) with true. cbn [negb].
  do 2 (unfold mbind at 1; rewrite ?E2; unfold mret at 1). exact E.
Qed.

Lemma job_refines m0 m w j :
  serves m0 m w -> job_ok (soc_dma_time (soc_of m0)) j ->
  exists m', run_job j m = (fst (Ideal.run_job j w), m') /\ serves m0 m' (snd (Ideal.run_job j w)).
Proof.
  intros Hm (H1 & H2 & H3 & Hok). unfold Ideal.run_job.
  destruct (vlab_judge (j_src j) (j_dst j) (j_len j)) as [r|] eqn:Hj; [by apply job_refused|].
  apply vlab_judge_none in Hj; [|done..]. specialize (Hok Hj).
  rewrite <- (serves_time _ _ _ Hm) in Hok. destruct j as [src dst len n [code|]];
    cbn [j_src j_dst j_len j_wait j_error fst snd] in *.
  - destruct Hok as [Hcode Hn]. by apply job_failed.
  - by apply job_completed.
Qed.

Lemma jobs_refine m0 m w js :
  serves m0 m w -> Forall (job_ok (soc_dma_time (soc_of m0))) js ->
  exists m', run_jobs js m = (fst (Ideal.run_jobs js w), m') /\ serves m0 m' (snd (Ideal.run_jobs js w)).
Proof.
  intros Hm Hjs. revert m w Hm. induction Hjs as [|j js Hj _ IH]; intros m w Hm; [by exists m|].
  destruct (job_refines m0 m w j Hm Hj) as (m1 & E1 & Hm1).
  destruct (IH _ _ Hm1) as (m2 & E2 & Hm2). exists m2. cbn [run_jobs Ideal.run_jobs].
  unfold mbind at 1. rewrite E1. unfold mbind at 1. rewrite E2. unfold mret.
  destruct (Ideal.run_job j w) as [r w1]. cbn [fst snd] in *.
  by destruct (Ideal.run_jobs js w1) as [rs w2].
Qed.

(** C2. Whatever sequence of jobs the client of the interrupt-driven interface
    runs, between memory and the UART in all three directions, with refused,
    completed and failed transfers in any order: each job's report is the
    specification's (the refusal's code; COMPLETE; ERROR with the engine's
    code), SRAM and the two UART streams end as the specification's transfers
    leave them (failed and refused jobs leave no trace), and the interface is
    ready for more. *)
Theorem session_refines m w js :
  dma_client malloc_ok m h -> s_err_latch (drv m) = 0 -> agree m w ->
  Forall (job_ok (soc_dma_time (soc_of m))) js ->
  let '(rs, m') := run_jobs js m in
  rs = fst (Ideal.run_jobs js w) /\ agree m' (snd (Ideal.run_jobs js w)) /\ dma_client malloc_ok m' h.
Proof.
  intros Hc Hl Hw Hjs. assert (serves m m w) as Hm by by split.
  destruct (jobs_refine m m w js Hm Hjs) as (m' & -> & Hc' & _ & _ & Hw'). done.
Qed.

End Client.

(** A refused, a failed and three completed jobs: a copy, out to the UART and
    back in. *)
Lemma session_refines_witness :
  let js := [Mk_job 0x10000000 0x10000102 64 0 None; Mk_job 0x10000000 0x10000100 64 7 (Some 2);
             Mk_job 0x10000000 0x10000100 64 19 None; Mk_job 0x10000000 VLAB_UART_TXDATA 64 19 None;
             Mk_job VLAB_UART_RXDATA 0x10000200 64 19 None] in
  fst (run_jobs (fun _ _ => true) 0x100 js machine_client) =
    Mk_report VLAB_DMA_ERR_ALIGN DMA_S_IDLE 0 :: Mk_report VLAB_DMA_OK DMA_S_ERROR 2 ::
    replicate 3 (Mk_report VLAB_DMA_OK DMA_S_COMPLETE 0).
Proof.
  cbv zeta. set (js := _ :: _).
  assert (Forall (job_ok (soc_dma_time (soc_of machine_client))) js) as Hjs
    by (repeat apply List.Forall_cons; [..|apply List.Forall_nil]; split_and!; try done;
        first [by intros (_ & _ & _ & ? & _)|intros _; by split_and!]).
  pose proof (agree_world machine_client ltac:(done)) as Hw.
  pose proof (session_refines (fun _ _ => true) 0x100 machine_client (world_of machine_client) js
    machine_client_ok eq_refl Hw Hjs) as H.
  destruct (run_jobs _ _ _ _) as [rs m']. destruct H as (-> & _). reflexivity.
Defined.
