(* ===== verification/App.v ===== *)
(** Bring-up and the application: [firmware/platform/platform_init.c] and
    [firmware/apps/main.c].

    Printing is left out; what the application prints is returned.  The
    theorem: on a machine out of reset the application succeeds, with the
    counters it prints, exactly when the UART keeps up with it.  [main] passes
    two counter reads to one [printf]; C leaves their order open, so the order
    is an argument here. *)

From S2P Require Import Prelude Regions DmaCaps Platform Memory Perf Intc Timer Uart.
From S2P Require Import DmaSpec Dma Soc SocBus SocClock SocCount Hal Drivers DrvDma Isr.

Local Open Scope c_scope.

(** * Bring-up *)

Definition s_rom_data_init : list Z := [0x11111111; 0x22222222; 0x33333333; 0x44444444].

(** [for (i = 0; i < n; i++) dst[i] = src(i);] *)
Fixpoint fill (n : nat) (src : nat -> Z) (dst : list Z) : list Z :=
  match n with
  | O => dst
  | S n' => <[n' := src n']> (fill n' src dst)
  end.

Definition platform_init : M machine Z :=
  hal_write_reg VLAB_INTC_ENABLE 0 ;;;
  hal_write_reg VLAB_PERF_CTRL VLAB_PERF_CTRL_RESET ;;;
  hal_write_reg VLAB_PERF_CTRL VLAB_PERF_CTRL_ENABLE ;;;
  mmodify (fun m => m <| bringup := bringup m <| s_ram_data :=
    fill 4 (fun i => nth i s_rom_data_init 0) (s_ram_data (bringup m)) |> |>) ;;;
  mmodify (fun m => m <| bringup := bringup m <| s_ram_bss :=
    fill 8 (fun _ => 0) (s_ram_bss (bringup m)) |> |>) ;;;
  uart_init 0 ;;;
  dma_init ;;;
  mret 0.

Definition platform_self_check : M machine Z :=
  m <- mget ;;
  mret (if negb (forallb (fun i => nth i (s_ram_data (bringup m)) 0 =? nth i s_rom_data_init 0)
                   (seq 0 4)) then -1
        else if negb (forallb (fun i => nth i (s_ram_bss (bringup m)) 0 =? 0) (seq 0 8)) then -2
        else 0).

(** * The application *)

Definition UART_LATENCY_STEPS : Z := 5.

(** ["hello vlab-soc"]. *)
Definition hello : list Z :=
  [104; 101; 108; 108; 111; 32; 118; 108; 97; 98; 45; 115; 111; 99].

Section Clocked.

Variable malloc_ok : Z -> Z -> bool.

(** The message loop: the bytes sent, and whether a write failed. *)
Fixpoint send_all (msg : list Z) (sent : Z) : M machine (bool * Z) :=
  match msg with
  | [] => mret (true, sent)
  | p :: msg' =>
      rc <- uart_write_byte p ;;
      if negb (rc =? 0) then mret (false, sent)
      else
        soc_host_step malloc_ok (Z.to_nat UART_LATENCY_STEPS) ;;;
        send_all msg' (u32 (sent + 1))
  end.

(** The two counter reads are arguments of one [printf] call: C makes them one
    after the other in an order it leaves open, here an argument. *)
Definition metrics (mem_acc_first : bool) : M machine (Z * Z) :=
  if mem_acc_first then
    mem_acc <- hal_read_reg VLAB_PERF_MEM_ACC ;;
    stalls <- hal_read_reg VLAB_PERF_STALLS ;;
    mret (mem_acc, stalls)
  else
    stalls <- hal_read_reg VLAB_PERF_STALLS ;;
    mem_acc <- hal_read_reg VLAB_PERF_MEM_ACC ;;
    mret (mem_acc, stalls).

(** The exit code and the metrics printed on success: bytes sent, MEM_ACC and
    STALLS. *)
Definition main (mem_acc_first : bool) : M machine (Z * option (Z * Z * Z)) :=
  rc <- platform_init ;;
  if negb (rc =? 0) then mret (1, None)
  else
    rc <- platform_self_check ;;
    if negb (rc =? 0) then mret (2, None)
    else
      r <- send_all hello 0 ;;
      if negb (fst r) then mret (3, None)
      else
        timer_start 100 false true ;;;
        soc_host_step malloc_ok (Z.to_nat 100) ;;;
        fired <- timer_fired ;;
        if negb fired then mret (4, None)
        else
          timer_clear ;;;
          counters <- metrics mem_acc_first ;;
          mret (0, Some (snd r, fst counters, snd counters)).

End Clocked.

(** * The registers of bring-up *)

Section Registers.

Variable s : soc_t.
Hypothesis Hs : soc_wf s.

Lemma write_intc_enable v :
  soc_write s VLAB_INTC_ENABLE v =
    (SOC_OK, counted s <| s_intc := s_intc s <| ic_enable := Z.land v 0x7 |> |>).
Proof. rewrite soc_write_reg by done. unfold counted. by destruct s. Qed.

Lemma write_perf_ctrl v :
  soc_write s VLAB_PERF_CTRL v =
    (SOC_OK, s <| s_perf := snd (soc_perf_write (soc_perf_count_mem (s_perf s)) SOC_PERF_CTRL_OFF v) |>).
Proof. rewrite soc_write_reg by done. unfold counted. by destruct s. Qed.

Lemma write_timer_irq_clear v :
  soc_write s VLAB_TIMER_IRQ_CLEAR v = (SOC_OK, counted s <| s_timer := timer_w1c (s_timer s) v |>).
Proof. rewrite soc_write_reg by done. unfold counted. by destruct s. Qed.

Lemma read_perf_mem_acc :
  soc_read s VLAB_PERF_MEM_ACC = (Ok (p_mem_acc (s_perf (counted s))), counted s).
Proof. rewrite soc_read_reg by done. unfold counted. by destruct s. Qed.

Lemma read_perf_stalls :
  soc_read s VLAB_PERF_STALLS = (Ok (p_stalls (s_perf (counted s))), counted s).
Proof. rewrite soc_read_reg by done. unfold counted. by destruct s. Qed.

End Registers.

(** RESET then ENABLE: whatever the counters held, they run from zero. *)
Lemma perf_restart p :
  let p1 := snd (soc_perf_write p SOC_PERF_CTRL_OFF VLAB_PERF_CTRL_RESET) in
  access_counts (snd (soc_perf_write (soc_perf_count_mem p1) SOC_PERF_CTRL_OFF VLAB_PERF_CTRL_ENABLE))
    = (0, 0, true).
Proof. by destruct p. Qed.

(** * What the application relies on between its calls *)

(** Accesses counted so far, the UART enabled with its latency and not stuck,
    the timer. *)
Record app_at (m : machine) (acc : Z) (t : soc_timer_t) (latency : Z) : Prop := {
  at_ready : ready m;
  at_counts : access_counts (s_perf (soc_of m)) = (acc, 0, true);
  at_uart : uart_setup (s_uart (soc_of m)) = (VLAB_UART_CTRL_ENABLE, latency);
  at_unstuck : u_fault_stuck_busy (s_uart (soc_of m)) = false;
  at_timer : s_timer (soc_of m) = t
}.

Lemma counted_access s acc :
  access_counts (s_perf s) = (acc, 0, true) -> 0 <= acc < 1000 ->
  access_counts (s_perf (counted s)) = (acc + 1, 0, true).
Proof.
  unfold access_counts. intros [= Hm Hst He] Hb.
  change (s_perf (counted s)) with (soc_perf_count_mem (s_perf s)). unfold soc_perf_count_mem.
  rewrite He. simpl. rewrite Hst, He, Hm, u32_id; [done|]. unfold is_u32, two32. lia.
Qed.

Section Clocked.

Variable malloc_ok : Z -> Z -> bool.

Lemma app_step m acc t latency n :
  app_at m acc t latency -> Z.testbit (tm_ctrl t) 0 = false ->
  let m' := with_soc m (soc_step malloc_ok (soc_of m) n) in
  soc_host_step malloc_ok n m = (tt, m') /\ app_at m' acc t latency /\
  uart_core (s_uart (soc_of m')) = Nat.iter n core_step (uart_core (s_uart (soc_of m))).
Proof.
  intros [Hm Hc Hu Hs Ht] Hoff. cbv zeta. rewrite host_step_ready by done. split; [done|].
  rewrite soc_of_with_soc, soc_step_uart_core. split; [|done].
  pose proof (soc_step_uart_core malloc_ok (soc_of m) n) as Hcore.
  rewrite core_steps in Hcore by done.
  constructor; rewrite ?soc_of_with_soc, ?soc_step_access_counts, ?soc_step_uart_setup; try done.
  - apply ready_with_soc; [done|]. apply soc_step_wf, Hm.
  - apply (f_equal co_stuck) in Hcore. change (co_stuck (uart_core ?u)) with (u_fault_stuck_busy u) in Hcore.
    rewrite Hcore. destruct (0 <? _); [|done]. by destruct (_ <=? _).
  - by rewrite (soc_step_timer malloc_ok _ n (s_intc (soc_of m))), Ht, timer_steps_idle by by left.
Qed.

(** * The message *)

Lemma uart_core_busy u : co_busy (uart_core u) = u_busy u.
Proof. done. Qed.

(** A byte accepted and its five ticks. *)
Lemma app_send m acc t latency b :
  app_at m acc t latency -> Z.testbit (tm_ctrl t) 0 = false ->
  u_busy (s_uart (soc_of m)) <= 0 -> is_byte b -> 0 <= acc < 900 -> 0 <= latency < 0x80000000 ->
  exists m1 m', uart_write_byte b m = (VLAB_UART_OK, m1) /\
    soc_host_step malloc_ok (Z.to_nat UART_LATENCY_STEPS) m1 = (tt, m') /\
    app_at m' (acc + 3) t latency /\ u_busy (s_uart (soc_of m')) = Z.max 0 (latency - 5).
Proof.
  intros Hat Hoff Hbusy Hb Hacc Hlat. pose proof Hat as [Hm Hc Hu Hs Ht]. injection Hu as Hctrl Hl.
  destruct (uart_write_byte_accepted m b Hm) as [E Hm1]; [by rewrite Hctrl|done|done|].
  set (m1 := with_soc m _) in *.
  assert (app_at m1 (acc + 3) t latency) as H1.
  { constructor; [done| | |done|done].
    - change (s_perf (soc_of m1)) with (s_perf (counted (counted (counted (soc_of m))))).
      replace (acc + 3) with (acc + 1 + 1 + 1) by lia. by do 3 (apply counted_access; [|lia]).
    - change (uart_setup (s_uart (soc_of m1))) with (uart_setup (s_uart (soc_of m))).
      unfold uart_setup. by rewrite Hctrl, Hl. }
  assert (u_busy (s_uart (soc_of m1)) = Z.max 1 latency) as Hb1.
  { change (u_busy (s_uart (soc_of m1))) with (u_busy (uart_sending (s_uart (soc_of m)) b)).
    unfold uart_sending. simpl. rewrite Hl. destruct (Z.ltb_spec 0 latency); [|lia].
    rewrite i32_small by lia. lia. }
  clearbody m1. destruct (app_step m1 (acc + 3) t latency 5 H1 Hoff) as (Es & H2 & Hcore).
  revert Es H2 Hcore. generalize (with_soc m1 (soc_step malloc_ok (soc_of m1) 5)). intros m' Es H2 Hcore.
  exists m1, m'. split; [exact E|]. split; [exact Es|]. split; [exact H2|].
  apply (f_equal co_busy) in Hcore. rewrite core_steps, !uart_core_busy, Hb1 in Hcore
    by apply (at_unstuck _ _ _ _ H1).
  rewrite Hcore. change (Z.of_nat 5) with 5. destruct (Z.ltb_spec 0 (Z.max 1 latency)); [|lia].
  cbn [andb]. destruct (Z.leb_spec (Z.max 1 latency) 5); simpl; lia.
Qed.

(** A UART at most as slow as the steps takes the whole message. *)
Lemma app_send_all msg m acc t latency sent :
  app_at m acc t latency -> Z.testbit (tm_ctrl t) 0 = false ->
  u_busy (s_uart (soc_of m)) <= 0 -> Forall is_byte msg ->
  0 <= acc -> acc + 3 * zlen msg < 900 -> 0 <= sent -> sent + zlen msg < 900 -> 0 <= latency <= 5 ->
  exists m', send_all malloc_ok msg sent m = ((true, sent + zlen msg), m') /\
             app_at m' (acc + 3 * zlen msg) t latency.
Proof.
  revert m acc sent. induction msg as [|b msg IH]; intros m acc sent Hat Hoff Hb Hmsg Ha Hacc Hs Hs' Hl.
  - exists m. rewrite Z.mul_0_r, !Z.add_0_r. split; done.
  - apply Forall_cons in Hmsg as [Hbyte Hmsg]. rewrite zlen_cons in *. pose proof (zlen_nonneg msg).
    destruct (app_send m acc t latency b Hat Hoff Hb Hbyte) as (m1 & m2 & E1 & E2 & H2 & Hb2); [lia..|].
    cbn [send_all]. unfold mbind. rewrite E1. cbn [negb Z.eqb VLAB_UART_OK]. rewrite E2.
    rewrite u32_id by (unfold is_u32, two32; lia).
    destruct (IH m2 (acc + 3) (sent + 1) H2 Hoff) as (m' & -> & H'); [lia|done|lia..|].
    exists m'. split; [do 2 f_equal; lia|].
    replace (acc + 3 * (1 + zlen msg)) with (acc + 3 + 3 * zlen msg) by lia. exact H'.
Qed.

(** A slower one is still busy when the second byte comes, and the driver's
    polls do not advance the clock. *)
Lemma app_send_slow b1 b2 msg m acc t latency :
  app_at m acc t latency -> Z.testbit (tm_ctrl t) 0 = false ->
  u_busy (s_uart (soc_of m)) <= 0 -> is_byte b1 -> 0 <= acc < 900 -> 5 < latency < 0x80000000 ->
  exists m', send_all malloc_ok (b1 :: b2 :: msg) 0 m = ((false, 1), m').
Proof.
  intros Hat Hoff Hb Hbyte Hacc Hl.
  destruct (app_send m acc t latency b1 Hat Hoff Hb Hbyte) as (m1 & m2 & E1 & E2 & H2 & Hb2); [lia..|].
  cbn [send_all]. unfold mbind. rewrite E1. cbn [negb Z.eqb VLAB_UART_OK]. rewrite E2.
  destruct (uart_write_byte_busy m2 b2) as (m3 & -> & _); [apply H2| |lia|by eexists].
  pose proof (at_uart _ _ _ _ H2) as Hu. by injection Hu as ->.
Qed.

(** * Bring-up *)

(** The driver state, and the two RAM images, after bring-up. *)
Definition brought_up (m m' : machine) : Prop :=
  drv_vlab (drv m') /\
  bringup m' = bringup m
    <| s_ram_data := fill 4 (fun i => nth i s_rom_data_init 0) (s_ram_data (bringup m)) |>
    <| s_ram_bss := fill 8 (fun _ => 0) (s_ram_bss (bringup m)) |>.

(** A machine that agrees with [m] on the devices the application uses and on
    the images. *)
Record same_devices (m m' : machine) : Prop := {
  sv_ready : ready m';
  sv_busy : u_busy (s_uart (soc_of m')) = u_busy (s_uart (soc_of m));
  sv_stuck : u_fault_stuck_busy (s_uart (soc_of m')) = u_fault_stuck_busy (s_uart (soc_of m));
  sv_latency : u_latency_ticks (s_uart (soc_of m')) = u_latency_ticks (s_uart (soc_of m));
  sv_timer : s_timer (soc_of m') = s_timer (soc_of m);
  sv_bringup : bringup m' = bringup m
}.

Lemma same_devices_trans m1 m2 m3 : same_devices m1 m2 -> same_devices m2 m3 -> same_devices m1 m3.
Proof. intros [] []. constructor; congruence. Qed.

(** Three writes: no interrupt line enabled, counters from zero. *)
Lemma reset_metrics m :
  ready m ->
  exists m', (hal_write_reg VLAB_INTC_ENABLE 0 ;;;
              hal_write_reg VLAB_PERF_CTRL VLAB_PERF_CTRL_RESET ;;;
              hal_write_reg VLAB_PERF_CTRL VLAB_PERF_CTRL_ENABLE) m = (tt, m') /\
    same_devices m m' /\ access_counts (s_perf (soc_of m')) = (0, 0, true).
Proof.
  intros Hm. unfold mbind.
  destruct (hal_write_effect m VLAB_INTC_ENABLE 0 _ _ Hm ltac:(done) (write_intc_enable _ (proj2 Hm) 0))
    as [-> H1]. set (m1 := with_soc m _) in *.
  assert (same_devices m m1) as S1 by by constructor. clearbody m1.
  destruct (hal_write_effect m1 VLAB_PERF_CTRL VLAB_PERF_CTRL_RESET _ _ H1 ltac:(done)
    (write_perf_ctrl _ (proj2 H1) _)) as [-> H2]. set (m2 := with_soc m1 _) in *.
  assert (same_devices m1 m2) as S2 by by constructor.
  assert (s_perf (soc_of m2) = snd (soc_perf_write (soc_perf_count_mem (s_perf (soc_of m1)))
    SOC_PERF_CTRL_OFF VLAB_PERF_CTRL_RESET)) as P2 by done. clearbody m2.
  destruct (hal_write_effect m2 VLAB_PERF_CTRL VLAB_PERF_CTRL_ENABLE _ _ H2 ltac:(done)
    (write_perf_ctrl _ (proj2 H2) _)) as [-> H3]. set (m3 := with_soc m2 _) in *.
  assert (same_devices m2 m3) as S3 by by constructor.
  assert (s_perf (soc_of m3) = snd (soc_perf_write (soc_perf_count_mem (s_perf (soc_of m2)))
    SOC_PERF_CTRL_OFF VLAB_PERF_CTRL_ENABLE)) as P3 by done. clearbody m3.
  exists m3. split; [done|]. split; [eauto using same_devices_trans|].
  rewrite P3, P2. apply perf_restart.
Qed.

(** Two writes: the UART enabled. *)
Lemma uart_init_ready m bauddiv :
  ready m -> is_u32 bauddiv ->
  exists m', uart_init bauddiv m = (VLAB_UART_OK, m') /\ same_devices m m' /\
    u_ctrl (s_uart (soc_of m')) = VLAB_UART_CTRL_ENABLE /\
    s_perf (soc_of m') = s_perf (counted (counted (soc_of m))).
Proof.
  intros Hm Hb. unfold uart_init, mbind.
  destruct (hal_write_effect m VLAB_UART_BAUDDIV bauddiv _ _ Hm Hb
    (write_uart_bauddiv _ (proj2 Hm) _)) as [-> H1]. set (m1 := with_soc m _) in *.
  assert (same_devices m m1) as S1 by by constructor.
  assert (s_perf (soc_of m1) = s_perf (counted (soc_of m))) as P1 by done. clearbody m1.
  destruct (hal_write_effect m1 VLAB_UART_CTRL VLAB_UART_CTRL_ENABLE _ _ H1 ltac:(done)
    (write_uart_ctrl _ (proj2 H1) _)) as [-> H2]. set (m2 := with_soc m1 _) in *.
  assert (same_devices m1 m2) as S2 by by constructor.
  assert (s_perf (soc_of m2) = soc_perf_count_mem (s_perf (soc_of m1))) as P2 by done.
  assert (u_ctrl (s_uart (soc_of m2)) = VLAB_UART_CTRL_ENABLE) as C2 by done. clearbody m2.
  exists m2. split; [done|]. split; [eauto using same_devices_trans|]. split; [exact C2|].
  by rewrite P2, P1.
Qed.

Lemma platform_init_ready m :
  ready m -> u_fault_stuck_busy (s_uart (soc_of m)) = false ->
  exists m', platform_init m = (0, m') /\
    app_at m' 2 (s_timer (soc_of m)) (u_latency_ticks (s_uart (soc_of m))) /\
    u_busy (s_uart (soc_of m')) = u_busy (s_uart (soc_of m)) /\ brought_up m m'.
Proof.
  intros Hm Hf. destruct (reset_metrics m Hm) as (m3 & E3 & S3 & C3).
  unfold platform_init. unfold mbind in E3 |- *.
  destruct (hal_write_reg VLAB_INTC_ENABLE 0 m) as [[] m1].
  destruct (hal_write_reg VLAB_PERF_CTRL VLAB_PERF_CTRL_RESET m1) as [[] m2]. rewrite E3. clear E3.
  unfold mmodify at 1 2. set (m4 := m3 <| bringup := _ |> <| bringup := _ |>).
  assert (ready m4) as H4 by apply S3.
  assert (soc_of m4 = soc_of m3) as Es by done.
  assert (bringup m4 = bringup m3
    <| s_ram_data := fill 4 (fun i => nth i s_rom_data_init 0) (s_ram_data (bringup m3)) |>
    <| s_ram_bss := fill 8 (fun _ => 0) (s_ram_bss (bringup m3)) |>) as Eb by done.
  clearbody m4. destruct (uart_init_ready m4 0 H4 ltac:(done)) as (m6 & -> & S6 & Cu & P6).
  rewrite Es in P6. destruct S3, S6. rewrite Es in *.
  unfold dma_init, set_drv, mmodify, mret. set (m7 := m6 <| drv := _ |>).
  assert (soc_of m7 = soc_of m6) as Es7 by done. assert (ready m7) as H7 by done.
  assert (bringup m7 = bringup m6) as Eb7 by done. assert (drv_vlab (drv m7)) as Hd by done. clearbody m7.
  exists m7. split; [done|]. split; [|split; [by rewrite Es7, sv_busy1|split; [done|]]].
  - constructor; rewrite ?Es7; [done| | |congruence|congruence].
    + rewrite P6. change 2 with (0 + 1 + 1). by do 2 (apply counted_access; [|lia]).
    + unfold uart_setup. congruence.
  - by rewrite Eb7, sv_bringup1, Eb, sv_bringup0.
Qed.

(** * The whole application *)

Lemma self_check_ready m m' :
  brought_up m m' -> length (s_ram_data (bringup m)) = 4%nat -> length (s_ram_bss (bringup m)) = 8%nat ->
  platform_self_check m' = (0, m').
Proof.
  intros [_ E] H4 H8. unfold platform_self_check, mbind, mget, mret. rewrite E.
  destruct (bringup m) as [data bss]. simpl in H4, H8.
  destruct data as [|? [|? [|? [|? [|]]]]]; try done.
  by destruct bss as [|? [|? [|? [|? [|? [|? [|? [|? [|]]]]]]]]].
Qed.

(** The machine out of reset: UART idle and not stuck, timer stopped and
    cleared, and the two RAM images where the linker put them. *)
Record app_start (m : machine) : Prop := {
  st_ready : ready m;
  st_unstuck : u_fault_stuck_busy (s_uart (soc_of m)) = false;
  st_idle : u_busy (s_uart (soc_of m)) <= 0;
  st_latency : u_latency_ticks (s_uart (soc_of m)) < 0x80000000;
  st_stopped : Z.testbit (tm_ctrl (s_timer (soc_of m))) 0 = false;
  st_value : tm_value (s_timer (soc_of m)) = 0;
  st_cleared : Z.testbit (tm_irq_status (s_timer (soc_of m))) 0 = false;
  st_data : length (s_ram_data (bringup m)) = 4%nat;
  st_bss : length (s_ram_bss (bringup m)) = 8%nat
}.

(** The timer armed and waited out. *)
Lemma app_timer m acc t latency :
  app_at m acc t latency -> 0 <= acc < 900 ->
  Z.testbit (tm_ctrl t) 0 = false -> tm_value t = 0 -> Z.testbit (tm_irq_status t) 0 = false ->
  exists m1 m2, timer_start 100 false true m = (0, m1) /\
    soc_host_step malloc_ok (Z.to_nat 100) m1 = (tt, m2) /\ ready m2 /\
    access_counts (s_perf (soc_of m2)) = (acc + 2, 0, true) /\
    Z.testbit (tm_irq_status (s_timer (soc_of m2))) 0 = true.
Proof.
  intros [Hm Hc _ _ Ht] Ha Hoff Hv Hcl.
  destruct (timer_start_ready m 100 false true Hm ltac:(done) ltac:(done)) as [E1 H1].
  set (m1 := with_soc m _) in *.
  assert (s_timer (soc_of m1) = timer_program t 100 (Z.lor (Z.lor TIMER_ENABLE 0) TIMER_IRQ_EN)) as T1
    by (rewrite <- Ht; reflexivity).
  assert (s_perf (soc_of m1) = s_perf (counted (counted (soc_of m)))) as P1 by reflexivity.
  clearbody m1. exists m1, (with_soc m1 (soc_step malloc_ok (soc_of m1) (Z.to_nat 100))).
  split; [exact E1|]. split; [by apply host_step_ready|].
  split; [apply ready_with_soc; [done|apply soc_step_wf, H1]|]. rewrite soc_of_with_soc.
  split.
  - rewrite soc_step_access_counts, P1. replace (acc + 2) with (acc + 1 + 1) by lia.
    by do 2 (apply counted_access; [|lia]).
  - rewrite (timer_armed_fires malloc_ok t (soc_of m1) 100 true); try done.
    rewrite <- Ht. apply (swf_timer _ (proj2 Hm)).
Qed.

(** The counters read in either order: each read counts itself, and MEM_ACC
    also the other read when it comes second. *)
Lemma metrics_ready m acc (mem_acc_first : bool) :
  ready m -> access_counts (s_perf (soc_of m)) = (acc, 0, true) -> 0 <= acc < 900 ->
  fst (metrics mem_acc_first m) = (if mem_acc_first then acc + 1 else acc + 2, 0).
Proof.
  intros Hm C Ha. pose proof (ready_counted m Hm) as H1. pose proof (counted_access _ _ C ltac:(lia)) as C1.
  assert (soc_of (with_soc m (counted (soc_of m))) = counted (soc_of m)) as E1 by reflexivity.
  unfold metrics, mbind. destruct mem_acc_first.
  - rewrite hal_read_ready, read_perf_mem_acc by (done || apply Hm). cbn [fst snd].
    revert H1 E1. generalize (with_soc m (counted (soc_of m))). intros m1 H1 E1. rewrite <- E1 in *.
    rewrite hal_read_ready, read_perf_stalls by (done || apply H1). cbn [fst snd mret].
    pose proof (counted_access _ _ C1 ltac:(lia)) as C2.
    rewrite (f_equal (fun c => fst (fst c)) C1 : p_mem_acc _ = _).
    by rewrite (f_equal (fun c => snd (fst c)) C2 : p_stalls _ = _).
  - rewrite hal_read_ready, read_perf_stalls by (done || apply Hm). cbn [fst snd].
    revert H1 E1. generalize (with_soc m (counted (soc_of m))). intros m1 H1 E1. rewrite <- E1 in *.
    rewrite hal_read_ready, read_perf_mem_acc by (done || apply H1). cbn [fst snd mret].
    pose proof (counted_access _ _ C1 ltac:(lia)) as C2.
    rewrite (f_equal (fun c => fst (fst c)) C2 : p_mem_acc _ = _).
    rewrite (f_equal (fun c => snd (fst c)) C1 : p_stalls _ = _). cbn [fst snd]. f_equal. lia.
Qed.

(** Seeing it, clearing it and reading the metrics: two accesses before the
    reads. *)
Lemma app_report m acc (sent : Z) (mem_acc_first : bool) :
  ready m -> access_counts (s_perf (soc_of m)) = (acc, 0, true) -> 0 <= acc < 800 ->
  Z.testbit (tm_irq_status (s_timer (soc_of m))) 0 = true ->
  fst ((fired <- timer_fired ;;
        if negb fired then mret (4, None)
        else
          timer_clear ;;;
          counters <- metrics mem_acc_first ;;
          mret (0, Some (sent, fst counters, snd counters))) m)
    = (0, Some (sent, if mem_acc_first then acc + 3 else acc + 4, 0)).
Proof.
  intros Hm C2 Ha F2. unfold mbind. rewrite timer_fired_ready, F2 by done. cbn [negb].
  assert (access_counts (s_perf (soc_of (with_soc m (counted (soc_of m))))) = (acc + 1, 0, true)) as C3
    by (apply counted_access; [done|lia]).
  pose proof (ready_counted m Hm) as H3.
  revert C3 H3. generalize (with_soc m (counted (soc_of m))). intros m3 C3 H3. unfold timer_clear.
  destruct (hal_write_effect m3 VLAB_TIMER_IRQ_CLEAR 1 _ _ H3 ltac:(done)
    (write_timer_irq_clear _ (proj2 H3) 1)) as [-> H4]. set (m4 := with_soc m3 _) in *.
  assert (s_perf (soc_of m4) = s_perf (counted (soc_of m3))) as P4 by reflexivity.
  clearbody m4. assert (access_counts (s_perf (soc_of m4)) = (acc + 1 + 1, 0, true)) as C4
    by (rewrite P4; apply counted_access; [done|lia]).
  pose proof (metrics_ready m4 _ mem_acc_first H4 C4 ltac:(lia)) as Hmet.
  destruct (metrics mem_acc_first m4) as [c m5]. cbn [fst] in Hmet. rewrite Hmet. cbn [fst snd mret].
  do 4 f_equal. destruct mem_acc_first; lia.
Qed.

(** C18. The application on a machine out of reset, with a UART latency below 2^31:
    when the UART is at most as slow as the five ticks it grants each byte, it
    sends the whole message, sees the timer fire and exits with 0, reporting 14
    bytes, no stall, and 49 or 50 accesses as the compiler reads MEM_ACC before
    or after STALLS; on a slower UART the second byte times out and it exits
    with 3. *)
Theorem main_outcome m mem_acc_first :
  app_start m ->
  fst (main malloc_ok mem_acc_first m) =
    if u_latency_ticks (s_uart (soc_of m)) <=? UART_LATENCY_STEPS
    then (0, Some (zlen hello, if mem_acc_first then 49 else 50, 0)) else (3, None).
Proof.
  intros [Hm Hf Hi Hl Hs Hv Hc H4 H8]. pose proof (uwf_latency _ (swf_uart _ (proj2 Hm))) as [Hl0 _].
  destruct (platform_init_ready m Hm Hf) as (m1 & E1 & A1 & B1 & U1).
  unfold main. unfold mbind at 1. rewrite E1. cbn [negb Z.eqb].
  unfold mbind at 1. rewrite (self_check_ready m m1 U1 H4 H8). cbn [negb Z.eqb].
  unfold mbind at 1. unfold UART_LATENCY_STEPS at 1. rewrite <- B1 in Hi.
  set (t := s_timer (soc_of m)) in *. set (latency := u_latency_ticks (s_uart (soc_of m))) in *.
  destruct (Z.leb_spec latency 5).
  - destruct (app_send_all hello m1 2 t latency 0 A1 Hs Hi) as (m2 & -> & A2);
      [by repeat constructor|done..|lia|].
    cbn [fst snd negb]. destruct (app_timer m2 44 t latency A2) as (m3 & m4 & E3 & E4 & H5 & C5 & F5); [done..|].
    unfold mbind at 1. rewrite E3. unfold mbind at 1. rewrite E4. by apply (app_report m4 46 _ mem_acc_first).
  - unfold hello. destruct (app_send_slow 104 101 [108; 108; 111; 32; 118; 108; 97; 98; 45; 115; 111; 99]
      m1 2 t latency A1 Hs Hi) as (m2 & ->); [done|done|lia|done].
Qed.

End Clocked.

Lemma app_start_default : app_start machine_default.
Proof. constructor; [apply machine_default_ready|done..]. Qed.

Lemma main_outcome_witness :
  let run mem_acc_first := fst (main (fun _ _ => true) mem_acc_first machine_default) in
  run true = (0, Some (14, 49, 0)) /\ run false = (0, Some (14, 50, 0)).
Proof.
  split; [exact (main_outcome (fun _ _ => true) machine_default true app_start_default)
         |exact (main_outcome (fun _ _ => true) machine_default false app_start_default)].
Defined.

(** The linked program itself, from its zeroed statics: the first access
    initialises the SoC. *)
Example main_linked :
  fst (main (fun _ _ => true) true machine_static) = (0, Some (14, 49, 0)) /\
  fst (main (fun _ _ => true) false machine_static) = (0, Some (14, 50, 0)).
Proof. split; vm_compute; reflexivity. Qed.
