(* ===== verification/Firmware.v ===== *)
(** The firmware as a whole: every function of its interface on every state
    its functions can reach.

    [hw_ok] is what the functions keep of the hardware and of the HAL and
    dispatcher statics, [drv_ok] what they keep of the DMA driver's state
    machine.  [keeps] closes the first under the monad, and its hints prove it
    of every function that leaves the driver alone; the three functions that
    move the driver are done by hand.  The theorem: any sequence of calls that
    [call_ok] admits, from the statics of the linked program and with
    [SafeHandlers], stays inside both. *)

From S2P Require Import Prelude Regions DmaCaps Platform Memory Perf Intc Timer Uart.
From S2P Require Import DmaSpec Dma Soc SocBus SocClock SocCount Hal Drivers DrvDma Isr Lifecycle Hooks App.

Local Open Scope c_scope.

(** * The invariant *)

(** The bridge's SoC is well-formed once initialised; the mask is a flag; the
    vector table has its length and every configured line is inside it. *)
Record hw_ok (m : machine) : Prop := {
  hw_stores : soc_stores (soc_of m);
  hw_soc : g_inited (host m) = true -> soc_wf (soc_of m);
  hw_mask : 0 <= s_irq_masked m <= 1;
  hw_table : zlen (s_vectors (isr m)) = ISR_MAX_LINES;
  hw_lines : 1 <= s_n_lines (isr m) <= ISR_MAX_LINES;
  hw_dispatched : is_u32 (s_dispatched (isr m))
}.

(** Between calls the driver is in one of its four resting states, and the
    latches say what the state says. *)
Definition drv_ok (d : dma_driver_t) : Prop :=
  is_u32 (s_irq_count d) /\
  match s_state d with
  | DMA_S_IDLE | DMA_S_ACTIVE => s_done_flag d = 0 /\ s_err_latch d = 0
  | DMA_S_COMPLETE => s_done_flag d = 1
  | DMA_S_ERROR => 1 <= s_err_latch d <= 4
  | DMA_S_STARTING | DMA_S_RECOVERY => False
  end.

Definition fw_ok (m : machine) : Prop := hw_ok m /\ drv_ok (drv m).

(** * Computations that keep it *)

(** [op] keeps the hardware part, leaves the driver alone and returns a value
    in [Q]. *)
Definition keeps {A} (op : M machine A) (Q : A -> Prop) : Prop :=
  forall m, hw_ok m -> hw_ok (snd (op m)) /\ drv (snd (op m)) = drv m /\ Q (fst (op m)).

Definition safe {A} (op : M machine A) : Prop := forall m, fw_ok m -> fw_ok (snd (op m)).

Lemma keeps_ret {A} (a : A) (Q : A -> Prop) : Q a -> keeps (mret a) Q.
Proof. by intros Hq m Hm. Qed.

Lemma keeps_bind {A B} (op : M machine A) (k : A -> M machine B) Q R :
  keeps op Q -> (forall a, Q a -> keeps (k a) R) -> keeps (mbind op k) R.
Proof.
  intros Hop Hk m Hm. rewrite mbind_run. destruct (Hop m Hm) as (H1 & E1 & Hq).
  destruct (Hk _ Hq _ H1) as (H2 & E2 & Hr). rewrite E1 in E2. done.
Qed.

Lemma keeps_get : keeps mget hw_ok.
Proof. by intros m Hm. Qed.

Lemma keeps_modify f :
  (forall m, hw_ok m -> hw_ok (f m) /\ drv (f m) = drv m) -> keeps (mmodify f) (fun _ => True).
Proof. intros Hf m Hm. destruct (Hf m Hm). done. Qed.

Lemma keeps_any {A} (op : M machine A) Q : keeps op Q -> keeps op (fun _ => True).
Proof. intros Hop m Hm. destruct (Hop m Hm) as (? & ? & _). done. Qed.

Lemma keeps_if {A} (b : bool) (op1 op2 : M machine A) Q :
  keeps op1 Q -> keeps op2 Q -> keeps (if b then op1 else op2) Q.
Proof. by destruct b. Qed.

Lemma keeps_safe {A} (op : M machine A) Q : keeps op Q -> safe op.
Proof. intros Hop m [Hm Hd]. destruct (Hop m Hm) as (H1 & E & _). split; [done|]. by rewrite E. Qed.

Lemma safe_ret {A} (a : A) : safe (mret a).
Proof. by intros m Hm. Qed.

Lemma safe_bind {A B} (op : M machine A) (k : A -> M machine B) :
  safe op -> (forall a, safe (k a)) -> safe (mbind op k).
Proof. intros Hop Hk m Hm. rewrite mbind_run. apply Hk, Hop, Hm. Qed.

(** Running a kept computation inside one that is not. *)
Lemma keeps_run {A} (op : M machine A) Q m :
  keeps op Q -> hw_ok m -> exists a m', op m = (a, m') /\ hw_ok m' /\ drv m' = drv m /\ Q a.
Proof.
  intros Hop Hm. destruct (Hop m Hm) as (H1 & E & Hq). exists (fst (op m)), (snd (op m)).
  split; [by destruct (op m)|]. done.
Qed.

(** * The bridge *)

Lemma hw_ready m : ready m -> 0 <= s_irq_masked m <= 1 -> zlen (s_vectors (isr m)) = ISR_MAX_LINES ->
  1 <= s_n_lines (isr m) <= ISR_MAX_LINES -> is_u32 (s_dispatched (isr m)) -> hw_ok m.
Proof. intros [Hi Hs] H1 H2 H3 H4. constructor; try done. by apply soc_wf_stores. Qed.

Lemma hw_with_soc m s : hw_ok m -> soc_wf s -> hw_ok (with_soc m s).
Proof. intros [] Hs. constructor; try done. by apply soc_wf_stores. Qed.

(** After the first access the machine is [ready]. *)
Lemma ensure_inited_hw m :
  hw_ok m ->
  ready (snd (ensure_inited m)) /\ hw_ok (snd (ensure_inited m)) /\
  drv (snd (ensure_inited m)) = drv m.
Proof.
  intros Hm. unfold ensure_inited, mbind, mget. destruct (g_inited (host m)) eqn:Ei; cbn [negb].
  - split; [|done]. split; [exact Ei|]. by apply (hw_soc _ Hm).
  - unfold soc_host_init, mmodify. cbn [snd].
    assert (soc_wf (soc_init (soc_of m) (Some soc_config_default))) as Hs
      by (apply soc_init_wf; [apply (hw_stores _ Hm)|]; intros c [= <-]; by constructor).
    revert Hs. generalize (soc_init (soc_of m) (Some soc_config_default)). intros s Hs.
    destruct Hm. split; [by split|]. split; [|done]. constructor; try done. by apply soc_wf_stores.
Qed.

Lemma keeps_host (f : soc_t -> soc_t) :
  (forall s, soc_wf s -> soc_wf (f s)) ->
  keeps (ensure_inited ;;; mmodify (fun m => with_soc m (f (soc_of m)))) (fun _ => True).
Proof.
  intros Hf m Hm. rewrite mbind_run. destruct (ensure_inited_hw m Hm) as ([_ Hs] & H1 & E).
  unfold mmodify. cbn [fst snd]. split; [|by split]. apply hw_with_soc; [done|by apply Hf].
Qed.

Lemma keeps_write addr val : is_u32 val -> keeps (hal_write_reg addr val) (fun _ => True).
Proof.
  intros Hv. apply (keeps_host (fun s => snd (soc_write s addr val))).
  intros s Hs. by apply soc_write_wf.
Qed.

Lemma keeps_read addr : keeps (hal_read_reg addr) is_u32.
Proof.
  intros m Hm. unfold hal_read_reg, vlab_mmio_read. rewrite mbind_run.
  destruct (ensure_inited_hw m Hm) as ([_ Hs] & H1 & E). revert H1 E Hs.
  generalize (snd (ensure_inited m)). intros m1 H1 E Hs. unfold mbind, mget.
  pose proof (soc_read_wf (soc_of m1) addr Hs) as Hw.
  pose proof (fun v => soc_read_u32 (soc_of m1) addr v Hs) as Hu.
  destruct (soc_read (soc_of m1) addr) as [r s]. cbn [fst snd] in *. unfold mmodify, mret. cbn [fst snd].
  split; [by apply hw_with_soc|]. split; [done|]. destruct r; [by apply Hu|apply is_u32_0].
Qed.

Lemma keeps_host_init cfg :
  (forall c, cfg = Some c -> cfg_wf c) -> keeps (soc_host_init cfg) (fun _ => True).
Proof.
  intros Hc m Hm. unfold soc_host_init, mmodify. cbn [fst snd]. split; [|done].
  set (c := match cfg with Some c => c | None => soc_config_default end).
  assert (soc_wf (soc_init (soc_of m) (Some c))) as Hs.
  { apply soc_init_wf; [apply (hw_stores _ Hm)|]. intros c' [= <-].
    unfold c. destruct cfg; [by apply Hc|by constructor]. }
  revert Hs. generalize (soc_init (soc_of m) (Some c)). intros s Hs.
  destruct Hm. constructor; try done. by apply soc_wf_stores.
Qed.

(** The computations without the driver, by their structure. *)
Lemma keeps_isr (f : isr_t -> isr_t) :
  (forall i, zlen (s_vectors i) = ISR_MAX_LINES -> 1 <= s_n_lines i <= ISR_MAX_LINES ->
     is_u32 (s_dispatched i) ->
     zlen (s_vectors (f i)) = ISR_MAX_LINES /\ 1 <= s_n_lines (f i) <= ISR_MAX_LINES /\
     is_u32 (s_dispatched (f i))) ->
  keeps (set_isr f) (fun _ => True).
Proof.
  intros Hf. apply keeps_modify. intros m [H1 H2 H3 H4 H5 H6]. split; [|done].
  destruct (Hf (isr m) H4 H5 H6) as (? & ? & ?). by constructor.
Qed.

Lemma keeps_irq_disable : keeps hal_irq_disable (fun k => 0 <= k <= 1).
Proof. intros m []. split; [by constructor|by split]. Qed.

Lemma keeps_irq_restore k : keeps (hal_irq_restore k) (fun _ => True).
Proof.
  apply keeps_modify. intros m []. split; [|done]. constructor; try done.
  change (0 <= Z.land k 1 <= 1). pose proof (Z.land_ones k 1 ltac:(done)) as E.
  change (Z.ones 1) with 1 in E. rewrite E. change (2 ^ 1) with 2.
  pose proof (Z.mod_pos_bound k 2 ltac:(done)). lia.
Qed.

Create HintDb keeps.

#[export] Hint Resolve keeps_ret keeps_get keeps_write keeps_read keeps_irq_disable
  keeps_irq_restore is_u32_0 is_u32_lor is_u32_land : keeps.
#[export] Hint Extern 1 True => exact I : keeps.
#[export] Hint Extern 2 (is_u32 _) => done : keeps.

(** One bind, one test or one known step. *)
Ltac keeps_step :=
  match goal with
  | |- keeps (mbind _ _) _ => eapply keeps_bind; [|intros ? ?]
  | |- keeps (if _ then _ else _) _ => apply keeps_if
  | |- keeps (mret _) _ => apply keeps_ret
  | |- keeps _ (fun _ => True) => first [solve [eauto with keeps] | eapply keeps_any; solve [eauto with keeps]]
  | |- keeps _ _ => solve [eauto with keeps]
  end.
Ltac keeps_all := repeat keeps_step; auto with keeps.

(** * The functions that leave the driver alone *)

Section Clocked.

Variable malloc_ok : Z -> Z -> bool.

Lemma keeps_step_clock n : keeps (soc_host_step malloc_ok n) (fun _ => True).
Proof. apply (keeps_host (fun s => soc_step malloc_ok s n)). intros s. apply soc_step_wf. Qed.

Lemma keeps_host_boot : keeps (soc_host_boot malloc_ok) (fun _ => True).
Proof.
  apply (keeps_host (fun s => snd (soc_boot malloc_ok s None))). intros s. apply soc_boot_wf.
Qed.

Lemma keeps_raise line : keeps (vlab_test_raise_irq line) (fun _ => True).
Proof.
  apply (keeps_host (fun s => s <| s_intc := soc_intc_raise (s_intc s) (i32 line) |>)).
  intros s Hs. apply soc_wf_intc; [done|by apply soc_intc_raise_wf, swf_intc|apply soc_intc_raise_perf].
Qed.

(** The DMA hooks do nothing before initialisation. *)
Lemma keeps_test_dma_error code : 1 <= code <= 4 -> keeps (vlab_test_dma_error code) (fun _ => True).
Proof.
  intros Hc m Hm. rewrite test_dma_error_run. cbn [fst snd].
  destruct (g_inited (host m)) eqn:Ei; [|by split].
  split; [|by split]. apply hw_with_soc; [done|]. by apply soc_forced_wf; [apply (hw_soc _ Hm)|].
Qed.

Lemma keeps_test_dma_complete : keeps (vlab_test_dma_complete malloc_ok) (fun _ => True).
Proof.
  intros m Hm. unfold vlab_test_dma_complete, mbind, mget.
  destruct (g_inited (host m)) eqn:Ei; cbn [negb]; [|by split]. generalize (Z.to_nat 100000). intros fuel.
  assert (ready m) as Hr by (split; [done|by apply (hw_soc _ Hm)]).
  destruct (dma_complete_from_spec malloc_ok fuel 0 m (soc_of m) Hr (only_counted_refl _))
    as (j & s' & -> & [_ Hs] & _). split; [|by split]. by apply hw_with_soc.
Qed.

Lemma keeps_soc_host_soc : keeps soc_host_soc (fun _ => True).
Proof.
  intros m Hm. unfold soc_host_soc. rewrite mbind_run.
  destruct (ensure_inited_hw m Hm) as (_ & H1 & E). by split.
Qed.

End Clocked.

Lemma keeps_timer_start load periodic irq_enable :
  is_u32 load -> keeps (timer_start load periodic irq_enable) (fun _ => True).
Proof.
  intros Hl. destruct (timer_ctrl_bits periodic irq_enable) as [Hc _]. cbv zeta in Hc.
  unfold timer_start. keeps_all.
Qed.

Lemma keeps_uart_poll fuel i : keeps (uart_poll fuel i) (fun _ => True).
Proof. revert i. induction fuel as [|fuel IH]; intros i; cbn [uart_poll]; keeps_all. Qed.

Lemma is_byte_u32 b : is_byte b -> is_u32 b.
Proof. unfold is_byte, is_u32, two32. lia. Qed.

Lemma keeps_uart_write_byte b : is_byte b -> keeps (uart_write_byte b) (fun _ => True).
Proof.
  intros Hb. apply is_byte_u32 in Hb. unfold uart_write_byte. keeps_all. apply keeps_uart_poll.
Qed.

Lemma keeps_uart_read_byte : keeps uart_read_byte (fun _ => True).
Proof. unfold uart_read_byte. keeps_all. Qed.

Lemma keeps_isr_configure n : is_u32 n -> keeps (isr_configure n) (fun _ => True).
Proof.
  intros Hn. unfold isr_configure. destruct (Z.eqb_spec n 0), (Z.ltb_spec ISR_MAX_LINES n);
    cbn [orb]; [by apply keeps_ret..|].
  apply keeps_isr. intros i _ _ Hd. unfold is_u32 in Hn. split; [done|]. split; [simpl; lia|exact Hd].
Qed.

(** The store is inside the table. *)
Lemma keeps_isr_register line h : is_u32 line -> keeps (isr_register line h) (fun _ => True).
Proof.
  intros Hl. apply keeps_isr. intros i Ht Hn Hd. destruct (line <? s_n_lines i); [|done].
  split; [|done]. simpl. unfold zlen in *. by rewrite length_insert.
Qed.

Lemma keeps_validate src dst len : keeps (validate src dst len) (fun _ => True).
Proof. unfold validate. keeps_all. Qed.

Lemma keeps_dma_program src dst len irq_enable :
  is_u32 src -> is_u32 dst -> is_u32 len -> keeps (dma_program src dst len irq_enable) (fun _ => True).
Proof.
  intros H1 H2 H3. unfold dma_program. keeps_all.
  apply keeps_write. by destruct irq_enable.
Qed.

#[export] Hint Resolve keeps_step_clock keeps_host_boot keeps_raise keeps_test_dma_error
  keeps_test_dma_complete keeps_soc_host_soc keeps_timer_start keeps_uart_poll
  keeps_uart_write_byte keeps_uart_read_byte keeps_isr_configure keeps_isr_register keeps_validate
  keeps_dma_program : keeps.

Lemma keeps_dma_start src dst len irq_enable :
  is_u32 src -> is_u32 dst -> is_u32 len -> keeps (dma_start src dst len irq_enable) (fun _ => True).
Proof. intros. unfold dma_start. keeps_all. Qed.

#[export] Hint Resolve keeps_dma_start : keeps.

(** * The driver's own functions *)

Lemma hw_drv m d : hw_ok m -> hw_ok (m <| drv := d |>).
Proof. by intros []. Qed.

Lemma safe_bind_keeps {A B} (op : M machine A) (k : A -> M machine B) Q :
  keeps op Q -> (forall a, Q a -> safe (k a)) -> safe (mbind op k).
Proof.
  intros Hop Hk m [Hm Hd]. rewrite mbind_run. destruct (Hop m Hm) as (H1 & E & Hq).
  apply Hk; [done|]. split; [done|]. by rewrite E.
Qed.

Lemma safe_set_drv f : (forall d, drv_ok d -> drv_ok (f d)) -> safe (set_drv f).
Proof. intros Hf m [Hm Hd]. split; [by apply hw_drv|by apply Hf]. Qed.

(** The states between submission's first and last step are not resting. *)
Lemma safe_dma_submit src dst len irq_enable :
  is_u32 src -> is_u32 dst -> is_u32 len -> safe (dma_submit src dst len irq_enable).
Proof.
  intros H1 H2 H3. apply safe_bind_keeps with (fun k => 0 <= k <= 1); [auto with keeps|].
  intros key _ m [Hm Hd]. unfold mbind at 1, mget.
  destruct (bool_decide_reflect (s_state (drv m) = DMA_S_IDLE)) as [Hidle|Hbusy]; cbn [negb].
  2: { apply (keeps_safe (hal_irq_restore key ;;; mret VLAB_DMA_ERR_BUSY) (fun _ => True)); [keeps_all|by split]. }
  destruct Hd as [Hc Hs]. rewrite Hidle in Hs. unfold mbind at 1. unfold set_drv at 1, mmodify.
  set (m1 := m <| drv := _ |>). assert (hw_ok m1) as Hm1 by by apply hw_drv.
  destruct (keeps_run _ _ m1 (keeps_validate src dst len) Hm1) as (rc & m2 & E2 & Hm2 & D2 & _).
  unfold mbind at 1. rewrite E2.
  assert (s_irq_count (drv m2) = s_irq_count (drv m) /\ s_done_flag (drv m2) = s_done_flag (drv m) /\
          s_err_latch (drv m2) = s_err_latch (drv m)) as (Ec & Ef & Ee) by by rewrite D2. clear D2 E2.
  destruct (negb (rc =? VLAB_DMA_OK)).
  - apply (keeps_safe (hal_irq_restore key ;;; mret rc) (fun _ => True)); [keeps_all|]. split; [by apply hw_drv|].
    split; [by rewrite <- Ec in Hc|]. change (s_done_flag (drv m2) = 0 /\ s_err_latch (drv m2) = 0).
    by rewrite Ef, Ee.
  - unfold mbind at 1. unfold set_drv at 1, mmodify. set (m3 := m2 <| drv := _ |>).
    assert (hw_ok m3) as Hm3 by by apply hw_drv.
    destruct (keeps_run _ _ m3 (keeps_dma_program src dst len irq_enable H1 H2 H3) Hm3)
      as (u & m4 & E4 & Hm4 & D4 & _).
    unfold mbind at 1. rewrite E4.
    apply (keeps_safe (hal_irq_restore key ;;; mret VLAB_DMA_OK) (fun _ => True)); [keeps_all|].
    split; [by apply hw_drv|]. change (drv (m4 <| drv := ?d |>)) with d. rewrite D4.
    split; [|done]. change (is_u32 (s_irq_count (drv m2))). by rewrite Ec.
Qed.

Lemma safe_dma_recover : safe dma_recover.
Proof.
  apply safe_bind_keeps with (fun k => 0 <= k <= 1); [auto with keeps|]. intros key _.
  apply safe_bind_keeps with hw_ok; [auto with keeps|]. intros m0 _.
  apply safe_bind; [|intros _; eapply keeps_safe; auto with keeps].
  destruct (_ || _); [|apply safe_ret]. intros m [Hm [Hc Hd]].
  unfold mbind at 1. unfold set_drv at 1, mmodify. set (m1 := m <| drv := _ |>).
  assert (hw_ok m1) as Hm1 by by apply hw_drv.
  assert (keeps (dma_clear ;;; intc_clear VLAB_IRQ_DMA) (fun _ => True)) as Hk
    by (unfold dma_clear, intc_clear; keeps_all).
  destruct (keeps_run _ _ m1 Hk Hm1) as (u & m2 & E2 & Hm2 & D2 & _).
  unfold mbind in E2 |- *. destruct (dma_clear m1) as [u1 m1']. rewrite E2.
  unfold set_drv, mmodify. cbn [snd]. split; [by apply hw_drv|].
  change (drv (m2 <| drv := ?d |>)) with d. rewrite D2. by split.
Qed.

Lemma hal_read_inited addr m :
  hw_ok m -> hal_read_reg addr m = hal_read_reg addr (snd (ensure_inited m)).
Proof.
  intros Hm. destruct (ensure_inited_hw m Hm) as (Hr & _ & _).
  unfold hal_read_reg, vlab_mmio_read. rewrite !(mbind_run ensure_inited).
  by rewrite (ensure_inited_ready _ Hr).
Qed.

(** The handler: what [dma_isr_view] says on the initialised machine. *)
Lemma safe_dma_isr line : safe (dma_isr line).
Proof.
  intros m [Hm Hd]. destruct (ensure_inited_hw m Hm) as (Hr & H1 & E1).
  assert (dma_isr line m = dma_isr line (snd (ensure_inited m))) as ->.
  { unfold dma_isr. rewrite !(mbind_run (hal_read_reg VLAB_DMA_STATUS)). by rewrite (hal_read_inited _ m Hm). }
  destruct (dma_isr_view (snd (ensure_inited m)) line Hr) as [Hr' _ Hi Hk _ _ Hd' _].
  split.
  - destruct H1. apply hw_ready; rewrite ?Hi, ?Hk; done.
  - rewrite Hd', E1. destruct Hd as [Hc Hs]. split; [apply is_u32_u32|].
    pose proof (dwf_code _ (swf_dma _ (proj2 Hr))) as Hcode. unfold phase.
    destruct (d_busy _); [exact Hs|]. destruct (d_error _); [exact Hcode|]. by destruct (d_done _).
Qed.

(** * Dispatch *)

(** What the whole firmware asks of the handlers it registers. *)
Class SafeHandlers (call : Z -> Z -> M machine unit) : Prop := handler_safe h line : safe (call h line).

#[export] Instance dma_table_safe h0 : SafeHandlers (dma_table h0).
Proof. intros h line. unfold dma_table. destruct (h =? h0); [apply safe_dma_isr|apply safe_ret]. Qed.

Lemma safe_dispatch_from call `{!SafeHandlers call} fuel i n : safe (dispatch_from call fuel i n).
Proof.
  revert i n. induction fuel as [|fuel IH]; intros i n; [apply safe_ret|]. cbn [dispatch_from].
  apply safe_bind_keeps with hw_ok; [auto with keeps|]. intros m _.
  destruct (negb _); [apply safe_ret|].
  apply safe_bind_keeps with is_u32; [auto with keeps|]. intros line Hl.
  apply safe_bind_keeps with hw_ok; [auto with keeps|]. intros m' _.
  destruct (_ || _); [apply safe_ret|]. cbv zeta.
  apply safe_bind; [destruct (negb _); [apply handler_safe|apply safe_ret]|intros _].
  apply safe_bind_keeps with (fun _ => True); [auto with keeps|intros _ _].
  apply safe_bind; [|intros _; apply IH]. eapply keeps_safe, keeps_isr.
  intros j ? ? ?. split; [done|]. split; [done|]. apply is_u32_u32.
Qed.

(** * Every call *)

(** The interface of [firmware/include] and the host bridge. *)
Inductive api_call : Type :=
| Soc_host_init (cfg : option soc_config_t) | Soc_host_boot | Soc_host_step (n : nat) | Soc_host_soc
| Test_raise_irq (line : Z) | Test_dma_complete | Test_dma_error (code : Z)
| Hal_read (addr : Z) | Hal_write (addr val : Z)
| Hal_set (addr mask : Z) | Hal_clear (addr mask : Z) | Hal_modify (addr mask val : Z)
| Irq_disable | Irq_restore (state : Z)
| Timer_start (load : Z) (periodic irq_enable : bool) | Timer_stop | Timer_fired | Timer_clear
| Timer_value
| Intc_enable (mask : Z) | Intc_ack | Intc_clear (irq : Z)
| Uart_init (bauddiv : Z) | Uart_status | Uart_write_byte (b : Z) | Uart_read_byte
| Dma_init | Dma_configure (map : option (list memory_region)) (caps : option dma_caps)
| Dma_configure_periph (eps : option (list dma_periph_ep))
| Dma_start (src dst len : Z) (irq_enable : bool) | Dma_status | Dma_clear | Dma_err_code
| Dma_submit (src dst len : Z) (irq_enable : bool) | Dma_isr (line : Z) | Dma_recover
| Dma_state | Dma_is_complete | Dma_latched_error | Dma_irq_count
| Isr_configure (n_lines : Z) | Isr_register (line handler : Z) | Isr_dispatch | Isr_dispatched_count
| Platform_init | Platform_self_check.

(** The C types of the arguments; the error hook is given an error code. *)
Definition call_ok (c : api_call) : Prop :=
  match c with
  | Soc_host_init cfg => forall k, cfg = Some k -> cfg_wf k
  | Hal_write _ v | Hal_set _ v | Intc_clear v | Uart_init v | Timer_start v _ _
  | Isr_configure v | Isr_register v _ | Intc_enable v => is_u32 v
  | Hal_clear _ mask => is_u32 mask
  | Hal_modify _ mask val => is_u32 mask /\ is_u32 val
  | Uart_write_byte b => is_byte b
  | Test_dma_error code => 1 <= code <= 4
  | Dma_start src dst len _ | Dma_submit src dst len _ => is_u32 src /\ is_u32 dst /\ is_u32 len
  | _ => True
  end.

Section Reachable.

Variable malloc_ok : Z -> Z -> bool.
Context (call : Z -> Z -> M machine unit) `{!SafeHandlers call}.

Definition ignore {A} (op : M machine A) : M machine unit := op ;;; mret tt.

Definition perform (c : api_call) : M machine unit :=
  match c with
  | Soc_host_init cfg => soc_host_init cfg
  | Soc_host_boot => soc_host_boot malloc_ok
  | Soc_host_step n => soc_host_step malloc_ok n
  | Soc_host_soc => ignore soc_host_soc
  | Test_raise_irq line => vlab_test_raise_irq line
  | Test_dma_complete => vlab_test_dma_complete malloc_ok
  | Test_dma_error code => vlab_test_dma_error code
  | Hal_read a => ignore (hal_read_reg a)
  | Hal_write a v => hal_write_reg a v
  | Hal_set a mask => hal_set_bits a mask
  | Hal_clear a mask => hal_clear_bits a mask
  | Hal_modify a mask val => hal_modify_reg a mask val
  | Irq_disable => ignore hal_irq_disable
  | Irq_restore k => hal_irq_restore k
  | Timer_start load periodic irq_enable => ignore (timer_start load periodic irq_enable)
  | Timer_stop => timer_stop
  | Timer_fired => ignore timer_fired
  | Timer_clear => timer_clear
  | Timer_value => ignore timer_value
  | Intc_enable mask => intc_enable mask
  | Intc_ack => ignore intc_ack
  | Intc_clear irq => intc_clear irq
  | Uart_init bauddiv => ignore (uart_init bauddiv)
  | Uart_status => ignore uart_status
  | Uart_write_byte b => ignore (uart_write_byte b)
  | Uart_read_byte => ignore uart_read_byte
  | Dma_init => dma_init
  | Dma_configure map caps => dma_configure map caps
  | Dma_configure_periph eps => dma_configure_periph eps
  | Dma_start src dst len irq_enable => ignore (dma_start src dst len irq_enable)
  | Dma_status => ignore dma_status
  | Dma_clear => dma_clear
  | Dma_err_code => ignore dma_err_code
  | Dma_submit src dst len irq_enable => ignore (dma_submit src dst len irq_enable)
  | Dma_isr line => dma_isr line
  | Dma_recover => dma_recover
  | Dma_state => ignore dma_state
  | Dma_is_complete => ignore dma_is_complete
  | Dma_latched_error => ignore dma_latched_error
  | Dma_irq_count => ignore dma_irq_count
  | Isr_configure n => isr_configure n
  | Isr_register line h => isr_register line h
  | Isr_dispatch => ignore (isr_dispatch call)
  | Isr_dispatched_count => ignore isr_dispatched_count
  | Platform_init => ignore platform_init
  | Platform_self_check => ignore platform_self_check
  end.

Definition run_calls (calls : list api_call) (m : machine) : machine :=
  foldl (fun m c => snd (perform c m)) m calls.

Lemma safe_ignore {A} (op : M machine A) : safe op -> safe (ignore op).
Proof. intros Hop. apply safe_bind; [done|]. intros _. apply safe_ret. Qed.

Lemma keeps_bringup f g :
  keeps (mmodify (fun m => m <| bringup := bringup m <| s_ram_data := f m |> |>)) (fun _ => True) /\
  keeps (mmodify (fun m => m <| bringup := bringup m <| s_ram_bss := g m |> |>)) (fun _ => True).
Proof. by split; apply keeps_modify; intros m []. Qed.

Lemma safe_platform_init : safe platform_init.
Proof.
  unfold platform_init. do 3 (eapply safe_bind_keeps; [auto with keeps|intros _ _]).
  eapply safe_bind_keeps; [apply (keeps_bringup _ (fun _ => []))|intros _ _].
  eapply safe_bind_keeps; [apply (keeps_bringup (fun _ => []))|intros _ _].
  eapply (safe_bind_keeps _ _ (fun _ => True)); [unfold uart_init; keeps_all|intros _ _].
  apply safe_bind; [by apply safe_set_drv|]. intros _. apply safe_ret.
Qed.

Lemma perform_safe c : call_ok c -> safe (perform c).
Proof.
  intros Hc. assert (forall (op : M machine unit), keeps op (fun _ => True) -> safe op) as Hk
    by (intros op; apply keeps_safe).
  destruct c; cbn [perform call_ok] in *; try apply safe_ignore.
  all: try (apply safe_set_drv; intros d Hd; by repeat case_match).
  all: try first [apply safe_dma_submit; apply Hc|apply safe_dma_isr|apply safe_dma_recover
                 |apply safe_platform_init|by apply safe_dispatch_from].
  all: try (eapply keeps_safe; by eauto with keeps).
  all: apply (keeps_safe _ (fun _ => True)).
  all: first [by apply keeps_host_init|destruct Hc as (? & ? & ?); by apply keeps_dma_start
    |unfold hal_set_bits, hal_clear_bits, hal_modify_reg, timer_fired, uart_init, dma_state,
       dma_is_complete, dma_latched_error, dma_irq_count, isr_dispatched_count, platform_self_check; keeps_all].
  apply keeps_write. by apply is_u32_modify; [|apply Hc].
Qed.

End Reachable.

(** C6. The firmware never leaves its invariant: from the statics of the linked
    program, whatever sequence of calls is made with arguments of their C types,
    the error hook with one of the engine's four codes, and with registered
    handlers that keep the invariant themselves (as [dma_isr] and the empty
    handler do), the SoC stays well-formed, the vector table keeps its length
    with every configured line inside it, the interrupt mask stays a flag, and
    between calls the DMA driver is in one of its four resting states with the
    latches that state promises. *)
Theorem firmware_invariant malloc_ok call `{!SafeHandlers call} calls :
  Forall call_ok calls -> fw_ok (run_calls malloc_ok call calls machine_static).
Proof.
  assert (fw_ok machine_static) as H0.
  { split; [|by split]. constructor; try done. apply soc_static_stores. }
  revert H0. generalize machine_static. intros m Hm Hcalls. revert m Hm.
  unfold run_calls. induction Hcalls as [|c calls Hc _ IH]; intros m Hm; [done|].
  apply IH. by apply perform_safe.
Qed.

(** The condition on the error hook is needed: given code 0, which the engine
    never has, the driver ends in ERROR with no error latched. *)
Example error_hook_code_0 :
  let m := run_calls (fun _ _ => true) (dma_table 0x100)
    [Platform_init; Isr_register 2 0x100; Intc_enable 4; Dma_submit 0x10000000 0x10000100 64 true;
     Test_dma_error 0; Isr_dispatch] machine_static in
  s_state (drv m) = DMA_S_ERROR /\ s_err_latch (drv m) = 0.
Proof. vm_compute. split; reflexivity. Qed.

(** A life cycle and a reconfiguration, as a run. *)
Lemma firmware_invariant_witness :
  let m := run_calls (fun _ _ => true) (dma_table 0x100)
    [Platform_init; Isr_register 2 0x100; Intc_enable 4; Dma_submit 0x10000000 0x10000100 64 true;
     Soc_host_step 19; Isr_dispatch] machine_static in
  fw_ok m /\ s_state (drv m) = DMA_S_COMPLETE.
Proof.
  cbv zeta. split.
  - apply (firmware_invariant (fun _ _ => true) (dma_table 0x100)). by repeat constructor.
  - vm_compute. reflexivity.
Defined.
