(* ===== verification/Bench.v ===== *)
(** The benchmark programs: [soc_c/bench/boot_time.c] and
    [soc_c/bench/cpu_vs_dma.c].  What they print is returned.

    [slot] is what the uninitialised [soc_t] of each row holds.  The theorem:
    the table the second program prints, whatever that is. *)

From S2P Require Import Prelude Regions DmaCaps Platform Memory Perf Intc Timer Uart.
From S2P Require Import DmaSpec Dma Soc SocBus SocClock SocCount.

Local Open Scope c_scope.

Section Clocked.

Variable malloc_ok : Z -> Z -> bool.

(** [boot_time.c]: the boot information and the exit code. *)
Definition bench_boot_time (s : soc_t) : soc_boot_info_t * Z :=
  let cfg := soc_config_default in
  let s := soc_init s (Some cfg) in
  let '(info, _) := soc_boot malloc_ok s None in
  (info, if bi_boot_ticks info =? 5 then 0 else 1).

Definition pred_done (st : unit * soc_t) : bool * (unit * soc_t) :=
  let '(_, s) := st in
  let '(r, s) := soc_read s (SOC_DMA_BASE + 0x10) in
  let v := match r with Ok v => v | Err _ => 0 end in
  (tst v (Z.lor (Z.shiftl 1 1) (Z.shiftl 1 2)), (tt, s)).

(** The source pattern of [cpu_vs_dma.c]: words [i], [i + 1], ... *)
Fixpoint fill_source (n : nat) (i : Z) (s : soc_t) : soc_t :=
  match n with
  | O => s
  | S n' => fill_source n' (i + 1)
              (snd (soc_sram_write_word s (SOC_SRAM_BASE + i * 4) (Z.lor 0xA5000000 i)))
  end.

(** Whether the destination matches, and the machine after the reads. *)
Fixpoint compare_words (n : nat) (i : Z) (s : soc_t) : bool * soc_t :=
  match n with
  | O => (true, s)
  | S n' =>
      let '(a, s) := soc_sram_read_word s (SOC_SRAM_BASE + i * 4) in
      let '(b, s) := soc_sram_read_word s (SOC_SRAM_BASE + 0x8000 + i * 4) in
      let a := match a with Ok v => v | Err _ => 0 end in
      let b := match b with Ok v => v | Err _ => 0 end in
      if negb (a =? b) then (false, s) else compare_words n' (i + 1) s
  end.

(** The machine of a row when its transfer has been started. *)
Definition bench_launch (s : soc_t) (size burst : Z) : soc_t :=
  let cfg := soc_config_default in
  let s := soc_init s (Some (Mk_soc_config (cfg_cpu_frequency_mhz cfg)
    (cfg_uart_latency_ticks cfg) (cfg_dma_latency_per_word_ticks cfg) burst)) in
  let s := snd (soc_boot malloc_ok s None) in
  let s := fill_source (Z.to_nat (size / 4)) 0 s in
  let s := snd (soc_write s (SOC_DMA_BASE + 0x00) SOC_SRAM_BASE) in
  let s := snd (soc_write s (SOC_DMA_BASE + 0x04) (SOC_SRAM_BASE + 0x8000)) in
  let s := snd (soc_write s (SOC_DMA_BASE + 0x08) size) in
  snd (soc_write s (SOC_DMA_BASE + 0x0C) 0x1).

(** One row of [cpu_vs_dma.c]; [None] is the mismatch exit. *)
Definition bench_row (s : soc_t) (size burst : Z) : option (Z * Z * Z * Z * Z * Z) :=
  let '(dma_ticks, (_, s)) :=
    soc_run_until malloc_ok (Some pred_done) (Z.to_nat 100000) (tt, bench_launch s size burst) in
  let words := size / 4 in
  let nbursts := u32 (words + burst - 1) / burst in
  let cpu_ticks := u32 (words * 3) in
  if fst (compare_words (Z.to_nat words) 0 s)
  then Some (size, burst, words, nbursts, dma_ticks, cpu_ticks)
  else None.

(** What the stack slot of [soc_t s] holds at each turn is not defined in C:
    [slot]. *)
Definition bench_sizes : list Z := [16; 64; 256; 1024; 4096; 16384].

Definition bench_bursts : list Z := [1; 2; 4; 8; 16].

Definition bench_cases : list (Z * Z) :=
  concat (map (fun size => map (fun burst => (size, burst)) bench_bursts) bench_sizes).

Fixpoint bench_rows (slot : Z -> Z -> soc_t) (cases : list (Z * Z))
  : Z * list (Z * Z * Z * Z * Z * Z) :=
  match cases with
  | [] => (0, [])
  | (size, burst) :: cases' =>
      match bench_row (slot size burst) size burst with
      | None => (1, [])
      | Some row => let '(rc, rows) := bench_rows slot cases' in (rc, row :: rows)
      end
  end.

(** [cpu_vs_dma.c]: the exit code and the rows printed. *)
Definition cpu_vs_dma (slot : Z -> Z -> soc_t) : Z * list (Z * Z * Z * Z * Z * Z) :=
  bench_rows slot bench_cases.

End Clocked.

(** * The pieces of a row *)

Section Clocked.

Variable malloc_ok : Z -> Z -> bool.

Lemma fill_source_keeps n i s :
  soc_wf s -> 0 <= i -> 4 * (i + Z.of_nat n) <= 65536 ->
  soc_wf (fill_source n i s) /\ s_dma (fill_source n i s) = s_dma s.
Proof.
  revert i s. induction n as [|n IH]; intros i s Hs Hi Hn; [done|]. cbn [fill_source].
  unfold soc_sram_write_word, SOC_SRAM_BASE.
  assert (is_u32 (Z.lor 0xA5000000 i)) as Hv
    by (apply is_u32_lor; [done|unfold is_u32, two32; lia]).
  pose proof (soc_write_wf s (0x10000000 + i * 4) _ Hs Hv) as H1.
  rewrite soc_write_sram in H1 |- *
    by first [done|unfold in_sram_window; lia|Z.to_euclidean_division_equations; lia].
  cbn [snd] in *. set (s1 := _ <| s_sram := _ |>) in *.
  destruct (IH (i + 1) s1 H1) as [H2 ->]; [lia..|]. done.
Qed.

Lemma compare_words_equal n i s :
  soc_wf s -> 0 <= i -> 4 * (i + Z.of_nat n) <= 0x8000 ->
  (forall k, i <= k < i + Z.of_nat n ->
     word_at (s_sram s) (SOC_SRAM_BASE + k * 4) = word_at (s_sram s) (SOC_SRAM_BASE + 0x8000 + k * 4)) ->
  fst (compare_words n i s) = true.
Proof.
  revert i s. induction n as [|n IH]; intros i s Hs Hi Hn Heq; [done|]. cbn [compare_words].
  unfold soc_sram_read_word, SOC_SRAM_BASE in *.
  pose proof (soc_read_sram s (0x10000000 + i * 4) Hs ltac:(Z.to_euclidean_division_equations; lia)
    ltac:(unfold in_sram_window; lia)) as Ra.
  pose proof (soc_read_wf s (0x10000000 + i * 4) Hs) as H1.
  destruct (soc_read_mems s (0x10000000 + i * 4)) as [_ M1].
  destruct (soc_read s (0x10000000 + i * 4)) as [ra s1]. cbn [fst snd] in *. subst ra.
  pose proof (soc_read_sram s1 (0x10000000 + 0x8000 + i * 4) H1
    ltac:(Z.to_euclidean_division_equations; lia) ltac:(unfold in_sram_window; lia)) as Rb.
  pose proof (soc_read_wf s1 (0x10000000 + 0x8000 + i * 4) H1) as H2.
  destruct (soc_read_mems s1 (0x10000000 + 0x8000 + i * 4)) as [_ M2].
  destruct (soc_read s1 (0x10000000 + 0x8000 + i * 4)) as [rb s2]. cbn [fst snd] in *. subst rb.
  rewrite M1, Heq, Z.eqb_refl by lia. cbn [negb].
  apply IH; [done|lia|lia|]. intros k Hk. rewrite M2, M1. apply Heq. lia.
Qed.

(** The polling predicate reads STATUS. *)
Definition finished (s : soc_t) : bool := tst (phase_status (phase (s_dma s))) 6.

#[local] Instance finished_proper : Proper (only_counted ==> eq) finished.
Proof. by intros s s' [p ->]. Qed.

Lemma pred_done_reads s :
  soc_wf s ->
  exists s', pred_done (tt, s) = (finished s, (tt, s')) /\ soc_wf s' /\ only_counted s s'.
Proof.
  intros Hs. exists (counted s). split; [|split; [by apply counted_wf|]].
  - unfold pred_done. change (SOC_DMA_BASE + 0x10) with VLAB_DMA_STATUS. by rewrite read_dma_status.
  - apply only_counted_step, only_counted_refl.
Qed.

Hypothesis malloc_always : forall t k, malloc_ok t k = true.

Definition bench_config (burst : Z) : soc_config_t :=
  let cfg := soc_config_default in
  Mk_soc_config (cfg_cpu_frequency_mhz cfg) (cfg_uart_latency_ticks cfg)
    (cfg_dma_latency_per_word_ticks cfg) burst.

Lemma bench_config_wf burst : is_u32 burst -> cfg_wf (bench_config burst).
Proof. intros Hb. by constructor. Qed.

Lemma init_engine s burst :
  1 <= burst ->
  d_latency_per_word (s_dma (soc_init s (Some (bench_config burst)))) = 1 /\
  d_burst (s_dma (soc_init s (Some (bench_config burst)))) = burst.
Proof.
  intros Hb. split; [reflexivity|]. transitivity (if 0 <? burst then burst else 1); [reflexivity|].
  destruct (Z.ltb_spec 0 burst); [done|lia].
Qed.

Lemma reset_engine d :
  phase (soc_dma_reset d) = Idle /\ d_fault_stuck_busy (soc_dma_reset d) = false /\
  d_latency_per_word (soc_dma_reset d) = d_latency_per_word d /\ d_burst (soc_dma_reset d) = d_burst d.
Proof. by destruct d. Qed.

(** Booted and filled, the machine is ready for a transfer at one tick per word. *)
Lemma bench_machine s size burst :
  soc_stores s -> 0 <= size <= 0x8000 -> 1 <= burst <= 1024 ->
  let s' := fill_source (Z.to_nat (size / 4)) 0
              (snd (soc_boot malloc_ok (soc_init s (Some (bench_config burst))) None)) in
  dma_platform malloc_ok s' /\ d_latency_per_word (s_dma s') = 1 /\ d_burst (s_dma s') = burst.
Proof.
  intros Hst Hsize Hb. destruct (init_engine s burst) as [L0 B0]; [lia|].
  assert (soc_wf (soc_init s (Some (bench_config burst)))) as H0.
  { apply soc_init_wf; [done|]. intros c [= <-]. apply bench_config_wf. unfold is_u32, two32. lia. }
  revert L0 B0 H0. generalize (soc_init s (Some (bench_config burst))). intros s0 L0 B0 H0.
  pose proof (soc_boot_engine malloc_ok s0 None H0) as Hboot.
  destruct (soc_boot malloc_ok s0 None) as [info s1]. destruct Hboot as (_ & H1 & E1). cbn [snd].
  destruct (fill_source_keeps (Z.to_nat (size / 4)) 0 s1 H1) as [H2 E2];
    [lia|rewrite Z2Nat.id by (apply Z.div_pos; lia); Z.to_euclidean_division_equations; lia|].
  cbv zeta. revert H2 E2. generalize (fill_source (Z.to_nat (size / 4)) 0 s1). intros s2 H2 E2.
  rewrite E1 in E2. destruct (reset_engine (s_dma s0)) as (Ep & Ef & El & Eb).
  rewrite <- E2 in Ep, Ef, El, Eb. rewrite L0 in El. rewrite B0 in Eb.
  split; [|by split]. constructor; [done|congruence|done|done|lia|unfold two32; lia].
Qed.

(** Polling a started transfer sees it done after the transfer time, on the
    machine that the clock alone would give, up to the counters. *)
Lemma bench_poll s ctrl max_ticks :
  dma_ready malloc_ok s ctrl ->
  in_sram (d_src (s_dma s)) (d_length (s_dma s)) -> in_sram (d_dst (s_dma s)) (d_length (s_dma s)) ->
  soc_dma_ticks s <= Z.of_nat max_ticks -> Z.of_nat max_ticks < 0x80000000 ->
  exists s', soc_run_until malloc_ok (Some pred_done) max_ticks (tt, soc_dma_launched s ctrl)
               = (soc_dma_ticks s, (tt, s')) /\ soc_wf s' /\
    only_counted (soc_step malloc_ok (soc_dma_launched s ctrl) (Z.to_nat (soc_dma_ticks s))) s'.
Proof.
  intros Hr Hsrc Hdst Hmax Hi. destruct (soc_dma_launch malloc_ok s ctrl Hr) as (_ & Hwf & _ & Hpos).
  unfold soc_run_until.
  destruct (run_until_reads malloc_ok unit tt pred_done finished finished_proper pred_done_reads
    max_ticks 0 (soc_dma_launched s ctrl) (soc_dma_launched s ctrl) (Z.to_nat (soc_dma_ticks s)) Hwf)
    as (s' & -> & Hs' & Hc); [reflexivity|lia| |].
  - split.
    + unfold finished. by destruct (soc_dma_ram_done malloc_ok s ctrl (Z.to_nat (soc_dma_ticks s)) Hr)
        as (-> & _); [done|done|lia|].
    + intros i Hlt. unfold finished.
      by destruct (soc_dma_run_waiting malloc_ok s ctrl i Hr) as (-> & _); [lia|].
  - exists s'. split; [|by split]. rewrite Z.add_0_l, Z2Nat.id, i32_small by lia. done.
Qed.

(** One tick per word and one between bursts. *)
Lemma transfer_ticks_bursts burst size :
  0 < size -> size mod 4 = 0 -> 1 <= burst ->
  transfer_ticks 1 burst size = size / 4 + ((size / 4 + burst - 1) / burst - 1).
Proof.
  intros Hs H4 Hb. unfold transfer_ticks.
  assert ((size + 3) / 4 = size / 4) as -> by (Z.to_euclidean_division_equations; lia).
  replace (size / 4 + burst - 1) with (size / 4 - 1 + 1 * burst) by lia.
  rewrite Z.div_add by lia. lia.
Qed.

(** What the program means to print for a size and a burst. *)
Definition bench_line (size burst : Z) : Z * Z * Z * Z * Z * Z :=
  let words := size / 4 in
  let nbursts := (words + burst - 1) / burst in
  (size, burst, words, nbursts, words + (nbursts - 1), 3 * words).

(** From the machine the fill leaves on: programming, polling, comparing. *)
Lemma bench_transfer s size burst :
  dma_platform malloc_ok s -> d_latency_per_word (s_dma s) = 1 -> d_burst (s_dma s) = burst ->
  0 < size <= 16384 -> size mod 4 = 0 -> 1 <= burst <= 1024 ->
  let s3 := soc_dma_program s SOC_SRAM_BASE (SOC_SRAM_BASE + 0x8000) size in
  exists s', soc_run_until malloc_ok (Some pred_done) (Z.to_nat 100000)
               (tt, snd (soc_write s3 VLAB_DMA_CTRL 1)) = (transfer_ticks 1 burst size, (tt, s')) /\
    fst (compare_words (Z.to_nat (size / 4)) 0 s') = true.
Proof.
  intros Hp Hl Hb Hsize H4 Hburst. cbv zeta. unfold SOC_SRAM_BASE.
  assert (vlab_transfer 0x10000000 (0x10000000 + 0x8000) size) as Hreq
    by (split_and!; [lia|lia|done..|]; left; unfold in_sram; lia).
  assert (is_u32 size) as Hu by (unfold is_u32, two32; lia).
  pose proof (soc_dma_program_ready malloc_ok s 0x10000000 (0x10000000 + 0x8000) size 1 Hp
    ltac:(done) ltac:(done) Hreq ltac:(done) ltac:(done)) as Hr.
  destruct (soc_dma_program_parts malloc_ok s 0x10000000 (0x10000000 + 0x8000) size (dp_wf _ _ Hp)
    ltac:(done) ltac:(done) Hu) as (_ & Ed & _).
  set (s3 := soc_dma_program _ _ _ _) in *. clearbody s3.
  assert (soc_dma_ticks s3 = transfer_ticks 1 burst size) as Et
    by (unfold soc_dma_ticks; rewrite Ed; change (transfer_ticks (d_latency_per_word (s_dma s))
          (d_burst (s_dma s)) size = transfer_ticks 1 burst size); by rewrite Hl, Hb).
  assert (in_sram (d_src (s_dma s3)) (d_length (s_dma s3)) /\
          in_sram (d_dst (s_dma s3)) (d_length (s_dma s3))) as [Hs3 Hd3]
    by (rewrite Ed; change (in_sram 0x10000000 size /\ in_sram (0x10000000 + 0x8000) size);
        unfold in_sram; lia).
  assert (0 <= transfer_ticks 1 burst size <= 100000) as Htt.
  { unfold transfer_ticks. Z.to_euclidean_division_equations. nia. }
  destruct (soc_dma_launch malloc_ok s3 1 Hr) as (-> & _ & _ & Hpos). cbn [snd].
  destruct (bench_poll s3 1 (Z.to_nat 100000) Hr Hs3 Hd3) as (s' & -> & Hs' & Hc); [lia|lia|].
  exists s'. split; [by rewrite Et|].
  destruct (soc_dma_ram_done malloc_ok s3 1 (Z.to_nat (soc_dma_ticks s3)) Hr Hs3 Hd3)
    as (_ & Hmem & Hother & _); [lia|].
  rewrite (s_sram_proper _ _ Hc), Ed in Hmem. rewrite (s_sram_proper _ _ Hc), Ed in Hother.
  change (d_src (_ <| d_length := _ |>)) with 0x10000000 in *.
  change (d_dst (_ <| d_length := _ |>)) with (0x10000000 + 0x8000) in *.
  change (d_length (_ <| d_length := ?l |>)) with l in *.
  destruct (swf_sram _ Hs') as (_ & Hb' & _). destruct (swf_sram _ (dr_wf _ _ _ Hr)) as (_ & Hb3 & _).
  assert (4 * (size / 4) = size) as Hw by (Z.to_euclidean_division_equations; lia).
  apply compare_words_equal; [done|lia|lia|]. unfold SOC_SRAM_BASE, VLAB_SRAM_BASE in *. intros k Hk.
  rewrite Hother by (unfold in_sram_window; lia). symmetry.
  by apply (word_at_range _ _ (0x10000000 + 0x8000) 0x10000000 size); [|lia..].
Qed.

Lemma bench_launch_program s size burst :
  bench_launch malloc_ok s size burst =
    snd (soc_write (soc_dma_program
      (fill_source (Z.to_nat (size / 4)) 0
        (snd (soc_boot malloc_ok (soc_init s (Some (bench_config burst))) None)))
      SOC_SRAM_BASE (SOC_SRAM_BASE + 0x8000) size) VLAB_DMA_CTRL 1).
Proof.
  unfold bench_launch, soc_dma_program, bench_config. cbv zeta.
  assert (SOC_DMA_BASE + 0x00 = VLAB_DMA_SRC) as -> by done.
  assert (SOC_DMA_BASE + 0x04 = VLAB_DMA_DST) as -> by done.
  assert (SOC_DMA_BASE + 0x08 = VLAB_DMA_LEN) as -> by done.
  assert (SOC_DMA_BASE + 0x0C = VLAB_DMA_CTRL) as -> by done. reflexivity.
Qed.

(** A row is never a mismatch. *)
Lemma bench_row_line s size burst :
  soc_stores s -> 0 < size <= 16384 -> size mod 4 = 0 -> 1 <= burst <= 1024 ->
  bench_row malloc_ok s size burst = Some (bench_line size burst).
Proof.
  intros Hst Hsize H4 Hb. destruct (bench_machine s size burst Hst) as (Hp & Hl & Hbu); [lia|lia|].
  destruct (bench_transfer _ size burst Hp Hl Hbu Hsize H4 Hb) as (s' & E & Hcmp). cbv zeta in E.
  unfold bench_row. rewrite bench_launch_program, E, Hcmp.
  assert (0 <= size / 4 <= 4096) by (Z.to_euclidean_division_equations; lia).
  rewrite transfer_ticks_bursts, !u32_id by (done || lia || unfold is_u32, two32; lia).
  unfold bench_line. do 2 f_equal. lia.
Qed.

(** [boot_time.c] exits with 0. *)
Lemma bench_boot_time_ok s : soc_stores s -> snd (bench_boot_time malloc_ok s) = 0.
Proof.
  intros Hst. unfold bench_boot_time. cbv zeta.
  assert (soc_wf (soc_init s (Some soc_config_default))) as H0
    by (apply soc_init_wf; [done|]; intros c [= <-]; by constructor).
  pose proof (soc_boot_engine malloc_ok _ None H0) as Hboot.
  destruct (soc_boot malloc_ok _ None) as [info s1]. by destruct Hboot as (-> & _).
Qed.

Lemma bench_rows_lines slot cases :
  (forall size burst, soc_stores (slot size burst)) ->
  Forall (fun c => 0 < fst c <= 16384 /\ fst c mod 4 = 0 /\ 1 <= snd c <= 1024) cases ->
  bench_rows malloc_ok slot cases = (0, map (fun c => bench_line (fst c) (snd c)) cases).
Proof.
  intros Hst. induction 1 as [|[size burst] cases (H1 & H2 & H3) _ IH]; [done|]. cbn [bench_rows fst snd map] in *.
  by rewrite bench_row_line, IH.
Qed.

(** C19. The CPU-versus-DMA benchmark, whatever its uninitialised stack holds: every
    one of the thirty transfers arrives intact, is measured at one tick per
    word and one between bursts, and the program exits with 0. *)
Theorem cpu_vs_dma_table slot :
  (forall size burst, soc_stores (slot size burst)) ->
  cpu_vs_dma malloc_ok slot = (0, map (fun c => bench_line (fst c) (snd c)) bench_cases).
Proof.
  intros Hst. apply bench_rows_lines; [exact Hst|]. by apply (bool_decide_unpack _).
Qed.

End Clocked.

Lemma cpu_vs_dma_table_witness :
  let '(rc, rows) := cpu_vs_dma (fun _ _ => true) (fun _ _ => soc_static) in
  rc = 0 /\ rows !! 29%nat = Some (16384, 16, 4096, 256, 4351, 12288).
Proof.
  pose proof (cpu_vs_dma_table (fun _ _ => true) ltac:(done) (fun _ _ => soc_static)
    (fun _ _ => soc_static_stores)) as H.
  destruct (cpu_vs_dma _ _) as [rc rows]. injection H as Hrc Hrows. by rewrite Hrc, Hrows.
Defined.
